(** * The low-level keyboard hook of AutoHotkey (Source/hook_include.cpp)

    A shallow embedding of the keyboard variant (INCLUDE_KEYBD_HOOK) of the
    hook procedure: the event classifier [EventIsPhysical], the modifier
    tracker [UpdateModifierState] / [UpdateKeyState], the two verdict
    helpers [SuppressThisKeyFunc] and [AllowIt], and the four-case
    prefix/suffix dispatcher [LowLevelKeybdProc].

    The C globals become the fields of one [Engine] value that is threaded
    through every function by a small state monad.  C arrays indexed by a
    virtual key or scan code are total functions on [Z]; pointers into the
    [kvk] / [ksc] tables are [KeyRef] values, so pointer equality is
    equality of references. *)

From Stdlib Require Import ZArith List Bool Lia.
Import ListNotations.
Local Open Scope Z_scope.

(* ================================================================== *)
(** ** Constants *)
(* ================================================================== *)

(** Virtual-key codes (winuser.h). *)
Definition VK_TAB      : Z := 0x09.
Definition VK_CLEAR    : Z := 0x0C.
Definition VK_SHIFT    : Z := 0x10.
Definition VK_CONTROL  : Z := 0x11.
Definition VK_MENU     : Z := 0x12.
Definition VK_PRIOR    : Z := 0x21.
Definition VK_NEXT     : Z := 0x22.
Definition VK_END      : Z := 0x23.
Definition VK_HOME     : Z := 0x24.
Definition VK_LEFT     : Z := 0x25.
Definition VK_UP       : Z := 0x26.
Definition VK_RIGHT    : Z := 0x27.
Definition VK_DOWN     : Z := 0x28.
Definition VK_INSERT   : Z := 0x2D.
Definition VK_DELETE   : Z := 0x2E.
Definition VK_L        : Z := 0x4C.   (* 'L' *)
Definition VK_LWIN     : Z := 0x5B.
Definition VK_RWIN     : Z := 0x5C.
Definition VK_NUMPAD0  : Z := 0x60.
Definition VK_NUMPAD1  : Z := 0x61.
Definition VK_NUMPAD2  : Z := 0x62.
Definition VK_NUMPAD3  : Z := 0x63.
Definition VK_NUMPAD4  : Z := 0x64.
Definition VK_NUMPAD5  : Z := 0x65.
Definition VK_NUMPAD6  : Z := 0x66.
Definition VK_NUMPAD7  : Z := 0x67.
Definition VK_NUMPAD8  : Z := 0x68.
Definition VK_NUMPAD9  : Z := 0x69.
Definition VK_DECIMAL  : Z := 0x6E.
Definition VK_NUMLOCK  : Z := 0x90.
Definition VK_LSHIFT   : Z := 0xA0.
Definition VK_RSHIFT   : Z := 0xA1.
Definition VK_LCONTROL : Z := 0xA2.
Definition VK_RCONTROL : Z := 0xA3.
Definition VK_LMENU    : Z := 0xA4.
Definition VK_RMENU    : Z := 0xA5.

(** Window messages and hook flags (winuser.h). *)
Definition HC_ACTION     : Z := 0.
Definition WM_KEYDOWN    : Z := 0x100.
Definition WM_KEYUP      : Z := 0x101.
Definition WM_SYSKEYDOWN : Z := 0x104.
Definition WM_SYSKEYUP   : Z := 0x105.
Definition LLKHF_EXTENDED : Z := 0x01.
Definition LLKHF_INJECTED : Z := 0x10.

(** Modelled from the spec: the left/right modifier mask ("bits LSHIFT,
    RSHIFT, LCTRL, RCTRL, LALT, RALT, LWIN, RWIN").  The header declaring
    modLR_type and its MOD_ constants is not part of the source file; the
    eight masks are distinct single bits of one byte. *)
Definition MOD_LCONTROL : Z := 0x01.
Definition MOD_RCONTROL : Z := 0x02.
Definition MOD_LALT     : Z := 0x04.
Definition MOD_RALT     : Z := 0x08.
Definition MOD_LSHIFT   : Z := 0x10.
Definition MOD_RSHIFT   : Z := 0x20.
Definition MOD_LWIN     : Z := 0x40.
Definition MOD_RWIN     : Z := 0x80.

(** Modelled from the spec: the scan codes that route a side-neutral
    SHIFT/CTRL/MENU event to the right-hand key (SC_RSHIFT / SC_RCONTROL /
    SC_RALT); their header is not part of the source file. *)
Definition SC_RSHIFT   : Z := 0x136.
Definition SC_RCONTROL : Z := 0x11D.
Definition SC_RALT     : Z := 0x138.

(** Modelled from the spec: the "self-synthesized tag", a constant placed
    in the extra-info field of every event the engine sends itself. *)
Definition KEYIGNORE : Z := 0xFFC3D44F.

(** Modelled from the spec: the hotkey-id encoding ("hotkey_id | flags",
    top bit NO_SUPPRESS) and the built-in alt-tab ids; their header is not
    part of the source file. *)
Definition HOTKEY_NO_SUPPRESS : Z := 0x8000.
Definition HOTKEY_ID_MASK     : Z := 0x7FFF.
Definition HOTKEY_ID_INVALID  : Z := HOTKEY_ID_MASK.
Definition HOTKEY_ID_ALT_TAB              : Z := 0x7FFE.
Definition HOTKEY_ID_ALT_TAB_SHIFT        : Z := 0x7FFD.
Definition HOTKEY_ID_ALT_TAB_MENU         : Z := 0x7FFC.
Definition HOTKEY_ID_ALT_TAB_AND_MENU     : Z := 0x7FFB.
Definition HOTKEY_ID_ALT_TAB_MENU_DISMISS : Z := 0x7FFA.

Definition SHIFT_KEY_WORKAROUND_TIMEOUT : Z := 22.

(** pad_state[] has one slot per dual-state numpad key: decimal, 0..9. *)
Definition PAD_DECIMAL : nat := 0.
Definition PAD_NUMPAD0 : nat := 1.
Definition PAD_NUMPAD1 : nat := 2.
Definition PAD_NUMPAD2 : nat := 3.
Definition PAD_NUMPAD3 : nat := 4.
Definition PAD_NUMPAD4 : nat := 5.
Definition PAD_NUMPAD5 : nat := 6.
Definition PAD_NUMPAD6 : nat := 7.
Definition PAD_NUMPAD7 : nat := 8.
Definition PAD_NUMPAD8 : nat := 9.
Definition PAD_NUMPAD9 : nat := 10.
Definition PAD_TOTAL_COUNT : nat := 11.

Definition MAX_HISTORY_KEYS : Z := 40.

(* ================================================================== *)
(** ** Machine integers *)
(* ================================================================== *)

(** (DWORD)x : 32-bit unsigned wrap-around. *)
Definition DWORD (x : Z) : Z := x mod 2 ^ 32.
(** (vk_type)x : the virtual key is one byte. *)
Definition vk_of (x : Z) : Z := x mod 256.
(** (sc_type)x : the scan code is a 16-bit value. *)
Definition sc_of (x : Z) : Z := x mod 65536.

(** C truth value of an integer expression. *)
Definition nz (x : Z) : bool := negb (x =? 0).

(** Array store: a[k] = v. *)
Definition upd {A} (a : Z -> A) (k : Z) (v : A) : Z -> A :=
  fun i => if i =? k then v else a i.
Definition updn {A} (a : nat -> A) (k : nat) (v : A) : nat -> A :=
  fun i => if Nat.eqb i k then v else a i.

(* ================================================================== *)
(** ** Data model *)
(* ================================================================== *)

(** The low-level hook structure behind [lParam]. *)
Record KBDLLHOOKSTRUCT := mkEvent {
  vkCode      : Z;
  scanCode    : Z;
  flags       : Z;
  time        : Z;
  dwExtraInfo : Z
}.

(** Values of a force-toggle global such as the one behind
    kvk[VK_NUMLOCK].pForceToggle. *)
Inductive ToggleValueType :=
| TOGGLE_INVALID | TOGGLED_ON | TOGGLED_OFF | ALWAYS_ON | ALWAYS_OFF
| TOGGLE | TOGGLE_PERMIT | NEUTRAL.

Definition ToggleValue_eqb (a b : ToggleValueType) : bool :=
  match a, b with
  | TOGGLE_INVALID, TOGGLE_INVALID | TOGGLED_ON, TOGGLED_ON
  | TOGGLED_OFF, TOGGLED_OFF | ALWAYS_ON, ALWAYS_ON
  | ALWAYS_OFF, ALWAYS_OFF | TOGGLE, TOGGLE
  | TOGGLE_PERMIT, TOGGLE_PERMIT | NEUTRAL, NEUTRAL => true
  | _, _ => false
  end.

(** The caller-owned globals a pForceToggle pointer can point to. *)
Inductive ToggleHandle := ForceNumLock | ForceCapsLock | ForceScrollLock.

(** was_just_used: 0, AS_PREFIX or AS_PREFIX_FOR_HOTKEY. *)
Inductive JustUsed := Unused | AS_PREFIX | AS_PREFIX_FOR_HOTKEY.

Definition JustUsed_is (a b : JustUsed) : bool :=
  match a, b with
  | Unused, Unused | AS_PREFIX, AS_PREFIX
  | AS_PREFIX_FOR_HOTKEY, AS_PREFIX_FOR_HOTKEY => true
  | _, _ => false
  end.

(** One entry of ModifierVK[] / ModifierSC[]: the modifying key and the
    hotkey id with its flags. *)
Record modifier_entry := mkMod { mod_key : Z; id_with_flags : Z }.

(** key_type: one record of kvk[] or ksc[]. *)
Record key_type := mkKey {
  used_as_prefix        : bool;
  used_as_suffix        : bool;
  as_modifiersLR        : Z;
  pForceToggle          : option ToggleHandle;
  sc_takes_precedence   : bool;
  ModifierVK            : list modifier_entry;
  ModifierSC            : list modifier_entry;
  is_down               : bool;
  down_performed_action : bool;
  was_just_used         : JustUsed;
  it_put_alt_down       : bool;
  it_put_shift_down     : bool
}.

Definition set_is_down (b : bool) (k : key_type) : key_type :=
  mkKey (used_as_prefix k) (used_as_suffix k) (as_modifiersLR k) (pForceToggle k)
        (sc_takes_precedence k) (ModifierVK k) (ModifierSC k)
        b (down_performed_action k) (was_just_used k)
        (it_put_alt_down k) (it_put_shift_down k).
Definition set_down_performed_action (b : bool) (k : key_type) : key_type :=
  mkKey (used_as_prefix k) (used_as_suffix k) (as_modifiersLR k) (pForceToggle k)
        (sc_takes_precedence k) (ModifierVK k) (ModifierSC k)
        (is_down k) b (was_just_used k)
        (it_put_alt_down k) (it_put_shift_down k).
Definition set_was_just_used (u : JustUsed) (k : key_type) : key_type :=
  mkKey (used_as_prefix k) (used_as_suffix k) (as_modifiersLR k) (pForceToggle k)
        (sc_takes_precedence k) (ModifierVK k) (ModifierSC k)
        (is_down k) (down_performed_action k) u
        (it_put_alt_down k) (it_put_shift_down k).
Definition set_it_put_alt_down (b : bool) (k : key_type) : key_type :=
  mkKey (used_as_prefix k) (used_as_suffix k) (as_modifiersLR k) (pForceToggle k)
        (sc_takes_precedence k) (ModifierVK k) (ModifierSC k)
        (is_down k) (down_performed_action k) (was_just_used k)
        b (it_put_shift_down k).
Definition set_it_put_shift_down (b : bool) (k : key_type) : key_type :=
  mkKey (used_as_prefix k) (used_as_suffix k) (as_modifiersLR k) (pForceToggle k)
        (sc_takes_precedence k) (ModifierVK k) (ModifierSC k)
        (is_down k) (down_performed_action k) (was_just_used k)
        (it_put_alt_down k) b.

(** A pointer into kvk[] or ksc[] (pThisKey, pPrefixKey). *)
Inductive KeyRef := InKvk (vk : Z) | InKsc (sc : Z).

Definition KeyRef_eqb (a b : KeyRef) : bool :=
  match a, b with
  | InKvk x, InKvk y => x =? y
  | InKsc x, InKsc y => x =? y
  | _, _ => false
  end.

(** pPrefixKey == p, for a possibly NULL pPrefixKey. *)
Definition ptr_eqb (p : option KeyRef) (r : KeyRef) : bool :=
  match p with Some q => KeyRef_eqb q r | None => false end.

(** KeyHistoryItem; the elapsed time and window title are not modelled. *)
Record KeyHistoryItem := mkHist {
  h_vk : Z; h_sc : Z; h_key_up : bool; event_type : Z
}.
(** The event_type characters ' ', 'i', 's', 'h'. *)
Definition ET_blank   : Z := 32.
Definition ET_ignored : Z := 105.
Definition ET_suppr   : Z := 115.
Definition ET_hotkey  : Z := 104.

(** What KeyEvent() is asked to send. *)
Inductive KeyEventTypes := KEYDOWN | KEYUP | KEYDOWNANDUP.

(** One keystroke handed to the system by KeyEvent(): its direction, the
    key, the scan code given by the caller, and the extra-info tag. *)
Record Sent := mkSent {
  sent_up : bool; sent_vk : Z; sent_sc : Z; sent_extra : Z
}.

(** The statics of the driver shift-key workaround. *)
Record ShiftFix := mkShiftFix {
  pad_state                        : nat -> bool;
  next_phys_shift_down_is_not_phys : bool;
  prior_vk                         : Z;
  prior_sc                         : Z;
  prior_event_was_key_up           : bool;
  prior_event_was_physical         : bool;
  prior_event_tickcount            : Z;
  prior_modifiersLR_physical       : Z;
  prior_shift_state                : bool;
  prior_lshift_state               : bool
}.

(** The modifier tracker's globals. *)
Record ModTrack := mkModTrack {
  g_modifiersLR_logical   : Z;
  g_modifiersLR_physical  : Z;
  g_PhysicalKeyState      : Z -> bool;
  g_TimeLastInputPhysical : Z
}.

(** The dispatcher's globals. *)
Record Dispatch := mkDispatch {
  kvk                     : Z -> key_type;
  ksc                     : Z -> key_type;
  pPrefixKey              : option KeyRef;
  disguise_next_lwin_up   : bool;
  disguise_next_rwin_up   : bool;
  disguise_next_lalt_up   : bool;
  disguise_next_ralt_up   : bool;
  alt_tab_menu_is_visible : bool
}.

(** Tables and settings built outside the hook and only read by it. *)
Record Tables := mkTables {
  g_vk_to_sc   : Z -> Z;              (* g_vk_to_sc[vk].a *)
  Kvkm         : Z -> Z -> Z;         (* Kvkm(modifiersLR, vk) *)
  Kscm         : Z -> Z -> Z;         (* Kscm(modifiersLR, sc) *)
  force_toggle : ToggleHandle -> ToggleValueType
}.

(** The whole engine: every global the hook reads or writes, the key
    history ring, and the two outbound channels (keystrokes sent through
    KeyEvent, messages posted to the main window). *)
Record Engine := mkEngine {
  fix_             : ShiftFix;
  trk              : ModTrack;
  dsp              : Dispatch;
  tbl              : Tables;
  g_KeyHistory     : Z -> KeyHistoryItem;
  g_KeyHistoryNext : Z;
  sent             : list Sent;
  posted           : list (Z * Z)
}.

(** What the hook procedure returns: 1 (the event is swallowed) or the
    result of CallNextHookEx (the event goes on to the system). *)
Inductive LRESULT := Suppressed | PassedOn.

(** The operating system as the hook sees it during one call: the tick
    counter, the toggle state of Numlock, and the version queries of g_os. *)
Record OSView := mkOS {
  GetTickCount     : Z;
  NumLockToggledOn : bool;        (* IsKeyToggledOn(VK_NUMLOCK) *)
  IsWinXPorLater   : bool;
  IsWin2000        : bool;
  IsWinNT4         : bool
}.

(* ================================================================== *)
(** ** Field updates *)
(* ================================================================== *)

Definition on_fix (f : ShiftFix -> ShiftFix) (s : Engine) : Engine :=
  mkEngine (f (fix_ s)) (trk s) (dsp s) (tbl s)
           (g_KeyHistory s) (g_KeyHistoryNext s) (sent s) (posted s).
Definition on_trk (f : ModTrack -> ModTrack) (s : Engine) : Engine :=
  mkEngine (fix_ s) (f (trk s)) (dsp s) (tbl s)
           (g_KeyHistory s) (g_KeyHistoryNext s) (sent s) (posted s).
Definition on_dsp (f : Dispatch -> Dispatch) (s : Engine) : Engine :=
  mkEngine (fix_ s) (trk s) (f (dsp s)) (tbl s)
           (g_KeyHistory s) (g_KeyHistoryNext s) (sent s) (posted s).
Definition set_history (h : Z -> KeyHistoryItem) (n : Z) (s : Engine) : Engine :=
  mkEngine (fix_ s) (trk s) (dsp s) (tbl s) h n (sent s) (posted s).
Definition push_sent (k : Sent) (s : Engine) : Engine :=
  mkEngine (fix_ s) (trk s) (dsp s) (tbl s)
           (g_KeyHistory s) (g_KeyHistoryNext s) (sent s ++ [k]) (posted s).
Definition push_posted (m : Z * Z) (s : Engine) : Engine :=
  mkEngine (fix_ s) (trk s) (dsp s) (tbl s)
           (g_KeyHistory s) (g_KeyHistoryNext s) (sent s) (posted s ++ [m]).

Definition set_pad_state (p : nat -> bool) (w : ShiftFix) : ShiftFix :=
  mkShiftFix p (next_phys_shift_down_is_not_phys w) (prior_vk w) (prior_sc w)
    (prior_event_was_key_up w) (prior_event_was_physical w)
    (prior_event_tickcount w) (prior_modifiersLR_physical w)
    (prior_shift_state w) (prior_lshift_state w).
Definition set_next_phys_shift_down_is_not_phys (b : bool) (w : ShiftFix) : ShiftFix :=
  mkShiftFix (pad_state w) b (prior_vk w) (prior_sc w)
    (prior_event_was_key_up w) (prior_event_was_physical w)
    (prior_event_tickcount w) (prior_modifiersLR_physical w)
    (prior_shift_state w) (prior_lshift_state w).
(** prior_modifiersLR_physical, prior_shift_state, prior_lshift_state. *)
Definition set_prior_snapshot (m : Z) (sh lsh : bool) (w : ShiftFix) : ShiftFix :=
  mkShiftFix (pad_state w) (next_phys_shift_down_is_not_phys w) (prior_vk w)
    (prior_sc w) (prior_event_was_key_up w) (prior_event_was_physical w)
    (prior_event_tickcount w) m sh lsh.
(** prior_vk, prior_sc, prior_event_was_key_up. *)
Definition set_prior_key (v c : Z) (up : bool) (w : ShiftFix) : ShiftFix :=
  mkShiftFix (pad_state w) (next_phys_shift_down_is_not_phys w) v c up
    (prior_event_was_physical w) (prior_event_tickcount w)
    (prior_modifiersLR_physical w) (prior_shift_state w) (prior_lshift_state w).
Definition set_prior_event_was_physical (b : bool) (w : ShiftFix) : ShiftFix :=
  mkShiftFix (pad_state w) (next_phys_shift_down_is_not_phys w) (prior_vk w)
    (prior_sc w) (prior_event_was_key_up w) b (prior_event_tickcount w)
    (prior_modifiersLR_physical w) (prior_shift_state w) (prior_lshift_state w).
Definition set_prior_event_tickcount (t : Z) (w : ShiftFix) : ShiftFix :=
  mkShiftFix (pad_state w) (next_phys_shift_down_is_not_phys w) (prior_vk w)
    (prior_sc w) (prior_event_was_key_up w) (prior_event_was_physical w) t
    (prior_modifiersLR_physical w) (prior_shift_state w) (prior_lshift_state w).

Definition set_logical (m : Z) (t : ModTrack) : ModTrack :=
  mkModTrack m (g_modifiersLR_physical t) (g_PhysicalKeyState t)
             (g_TimeLastInputPhysical t).
Definition set_physical (m : Z) (t : ModTrack) : ModTrack :=
  mkModTrack (g_modifiersLR_logical t) m (g_PhysicalKeyState t)
             (g_TimeLastInputPhysical t).
Definition set_PhysicalKeyState (p : Z -> bool) (t : ModTrack) : ModTrack :=
  mkModTrack (g_modifiersLR_logical t) (g_modifiersLR_physical t) p
             (g_TimeLastInputPhysical t).
Definition set_TimeLastInputPhysical (x : Z) (t : ModTrack) : ModTrack :=
  mkModTrack (g_modifiersLR_logical t) (g_modifiersLR_physical t)
             (g_PhysicalKeyState t) x.

Definition set_kvk (k : Z -> key_type) (d : Dispatch) : Dispatch :=
  mkDispatch k (ksc d) (pPrefixKey d) (disguise_next_lwin_up d)
    (disguise_next_rwin_up d) (disguise_next_lalt_up d)
    (disguise_next_ralt_up d) (alt_tab_menu_is_visible d).
Definition set_ksc (k : Z -> key_type) (d : Dispatch) : Dispatch :=
  mkDispatch (kvk d) k (pPrefixKey d) (disguise_next_lwin_up d)
    (disguise_next_rwin_up d) (disguise_next_lalt_up d)
    (disguise_next_ralt_up d) (alt_tab_menu_is_visible d).
Definition set_pPrefixKey (p : option KeyRef) (d : Dispatch) : Dispatch :=
  mkDispatch (kvk d) (ksc d) p (disguise_next_lwin_up d)
    (disguise_next_rwin_up d) (disguise_next_lalt_up d)
    (disguise_next_ralt_up d) (alt_tab_menu_is_visible d).
Definition set_disguise_next_lwin_up (b : bool) (d : Dispatch) : Dispatch :=
  mkDispatch (kvk d) (ksc d) (pPrefixKey d) b
    (disguise_next_rwin_up d) (disguise_next_lalt_up d)
    (disguise_next_ralt_up d) (alt_tab_menu_is_visible d).
Definition set_disguise_next_rwin_up (b : bool) (d : Dispatch) : Dispatch :=
  mkDispatch (kvk d) (ksc d) (pPrefixKey d) (disguise_next_lwin_up d)
    b (disguise_next_lalt_up d)
    (disguise_next_ralt_up d) (alt_tab_menu_is_visible d).
Definition set_disguise_next_lalt_up (b : bool) (d : Dispatch) : Dispatch :=
  mkDispatch (kvk d) (ksc d) (pPrefixKey d) (disguise_next_lwin_up d)
    (disguise_next_rwin_up d) b
    (disguise_next_ralt_up d) (alt_tab_menu_is_visible d).
Definition set_disguise_next_ralt_up (b : bool) (d : Dispatch) : Dispatch :=
  mkDispatch (kvk d) (ksc d) (pPrefixKey d) (disguise_next_lwin_up d)
    (disguise_next_rwin_up d) (disguise_next_lalt_up d)
    b (alt_tab_menu_is_visible d).
Definition set_alt_tab_menu_is_visible (b : bool) (d : Dispatch) : Dispatch :=
  mkDispatch (kvk d) (ksc d) (pPrefixKey d) (disguise_next_lwin_up d)
    (disguise_next_rwin_up d) (disguise_next_lalt_up d)
    (disguise_next_ralt_up d) b.

(** *p for a pointer into kvk[] / ksc[]. *)
Definition deref (s : Engine) (r : KeyRef) : key_type :=
  match r with
  | InKvk v => kvk (dsp s) v
  | InKsc c => ksc (dsp s) c
  end.

(** *p = f( *p ). *)
Definition on_key (r : KeyRef) (f : key_type -> key_type) (s : Engine) : Engine :=
  match r with
  | InKvk v => on_dsp (fun d => set_kvk (upd (kvk d) v (f (kvk d v))) d) s
  | InKsc c => on_dsp (fun d => set_ksc (upd (ksc d) c (f (ksc d c))) d) s
  end.

(** The value behind a pForceToggle pointer. *)
Definition toggle_value (s : Engine) (h : ToggleHandle) : ToggleValueType :=
  force_toggle (tbl s) h.

(** pForceToggle != NULL && *pForceToggle == NEUTRAL *)
Definition toggle_is_neutral (s : Engine) (k : key_type) : bool :=
  match pForceToggle k with
  | Some h => ToggleValue_eqb (toggle_value s h) NEUTRAL
  | None => false
  end.

(** pForceToggle != NULL && *pForceToggle != NEUTRAL *)
Definition toggle_is_forced (s : Engine) (k : key_type) : bool :=
  match pForceToggle k with
  | Some h => negb (ToggleValue_eqb (toggle_value s h) NEUTRAL)
  | None => false
  end.

(* ================================================================== *)
(** ** The state monad of the hook *)
(* ================================================================== *)

Definition M (A : Type) : Type := Engine -> A * Engine.

Definition ret {A} (a : A) : M A := fun s => (a, s).
Definition bind {A B} (c : M A) (k : A -> M B) : M B :=
  fun s => let (a, s1) := c s in k a s1.
Definition get : M Engine := fun s => (s, s).
Definition modify (f : Engine -> Engine) : M unit := fun s => (tt, f s).
Definition when (b : bool) (c : M unit) : M unit := if b then c else ret tt.

Declare Scope hook_scope.
Delimit Scope hook_scope with hook.
Notation "x <- c ;; k" := (bind c (fun x => k))
  (at level 61, c at next level, right associativity) : hook_scope.
Notation "c ;; k" := (bind c (fun _ => k))
  (at level 61, right associativity) : hook_scope.
Local Open Scope hook_scope.

(** Final state and result of running a computation. *)
Definition exec {A} (c : M A) (s : Engine) : Engine := snd (c s).
Definition eval {A} (c : M A) (s : Engine) : A := fst (c s).

(* ================================================================== *)
(** ** EventClassifier *)
(* ================================================================== *)

(** DualStateNumpadKeyIsDown(): some slot of pad_state is set. *)
Definition DualStateNumpadKeyIsDown (s : Engine) : bool :=
  existsb (pad_state (fix_ s)) (seq 0 PAD_TOTAL_COUNT).

(** IsDualStateNumpadKey(aVK, aSC) *)
Definition IsDualStateNumpadKey (aVK aSC : Z) : bool :=
  if nz (Z.land aSC 0x100) then false
  else if (aVK =? VK_DELETE) || (aVK =? VK_INSERT) || (aVK =? VK_END)
       || (aVK =? VK_DOWN) || (aVK =? VK_NEXT) || (aVK =? VK_LEFT)
       || (aVK =? VK_CLEAR) || (aVK =? VK_RIGHT) || (aVK =? VK_HOME)
       || (aVK =? VK_UP) || (aVK =? VK_PRIOR)
  then true
  else false.

(** pEvent->flags & LLKHF_INJECTED *)
Definition injected (lParam : KBDLLHOOKSTRUCT) : bool :=
  nz (Z.land (flags lParam) LLKHF_INJECTED).

(** prior_event_was_key_up && IsDualStateNumpadKey(prior_vk, prior_sc)
    && (DWORD)(GetTickCount() - prior_event_tickcount)
       < (DWORD)SHIFT_KEY_WORKAROUND_TIMEOUT *)
Definition prior_was_recent_numpad_up (os : OSView) (s : Engine) : bool :=
  prior_event_was_key_up (fix_ s)
  && IsDualStateNumpadKey (prior_vk (fix_ s)) (prior_sc (fix_ s))
  && (DWORD (GetTickCount os - prior_event_tickcount (fix_ s))
      <? DWORD SHIFT_KEY_WORKAROUND_TIMEOUT).

(** EventIsPhysical(lParam, sc, key_up), keyboard variant.  It is not a
    pure test: it consumes next_phys_shift_down_is_not_phys and records
    g_TimeLastInputPhysical. *)
Definition EventIsPhysical (os : OSView) (lParam : KBDLLHOOKSTRUCT)
    (sc : Z) (key_up : bool) : M bool :=
  if injected lParam then ret false
  else
    let physical :=
      modify (on_trk (set_TimeLastInputPhysical (time lParam))) ;; ret true in
    if ((vkCode lParam =? VK_LSHIFT) || (vkCode lParam =? VK_SHIFT))
       && negb key_up
    then
      s <- get ;;
      if next_phys_shift_down_is_not_phys (fix_ s)
         && negb (DualStateNumpadKeyIsDown s)
      then
        modify (on_fix (set_next_phys_shift_down_is_not_phys false)) ;;
        ret false
      else if prior_was_recent_numpad_up os s then ret false
      else physical
    else physical.

(* ================================================================== *)
(** ** ModifierTracker *)
(* ================================================================== *)

(** g_modifiersLR_logical &= ~bit  and  |= bit, and the same for
    g_modifiersLR_physical. *)
Definition logical_clear (bit : Z) : M unit :=
  modify (on_trk (fun t =>
    set_logical (Z.land (g_modifiersLR_logical t) (Z.lnot bit)) t)).
Definition logical_set (bit : Z) : M unit :=
  modify (on_trk (fun t => set_logical (Z.lor (g_modifiersLR_logical t) bit) t)).
Definition physical_clear (bit : Z) : M unit :=
  modify (on_trk (fun t =>
    set_physical (Z.land (g_modifiersLR_physical t) (Z.lnot bit)) t)).
Definition physical_set (bit : Z) : M unit :=
  modify (on_trk (fun t => set_physical (Z.lor (g_modifiersLR_physical t) bit) t)).

(** g_PhysicalKeyState[k] = v  and  g_PhysicalKeyState[dst] = g_PhysicalKeyState[src]. *)
Definition phys_key_store (k : Z) (v : bool) : M unit :=
  modify (on_trk (fun t => set_PhysicalKeyState (upd (g_PhysicalKeyState t) k v) t)).
Definition phys_key_copy (dst src : Z) : M unit :=
  modify (on_trk (fun t =>
    set_PhysicalKeyState (upd (g_PhysicalKeyState t) dst (g_PhysicalKeyState t src)) t)).

(** The body every case of UpdateModifierState's switch repeats, with the
    case's constants: the mask bit, the side-specific key, and for
    SHIFT/CTRL/ALT the neutral key and the key of the other side (LWIN and
    RWIN have no neutral key). *)
Definition track_modifier (os : OSView) (lParam : KBDLLHOOKSTRUCT) (sc : Z)
    (key_up aIsSuppressed : bool) (bit side : Z) (pair : option (Z * Z)) : M unit :=
  if key_up then
    when (negb aIsSuppressed) (logical_clear bit) ;;
    phys <- EventIsPhysical os lParam sc key_up ;;
    when phys
      (physical_clear bit ;;
       phys_key_store side false ;;
       match pair with
       | Some (neutral, other) => phys_key_copy neutral other
       | None => ret tt
       end)
  else
    when (negb aIsSuppressed) (logical_set bit) ;;
    phys <- EventIsPhysical os lParam sc key_up ;;
    when phys
      (physical_set bit ;;
       match pair with
       | Some (neutral, _) => phys_key_store neutral true
       | None => ret tt
       end ;;
       phys_key_store side true).

(** UpdateModifierState(lParam, sc, key_up, aIsSuppressed) *)
Definition UpdateModifierState (os : OSView) (lParam : KBDLLHOOKSTRUCT) (sc : Z)
    (key_up aIsSuppressed : bool) : M unit :=
  let track := track_modifier os lParam sc key_up aIsSuppressed in
  let v := vkCode lParam in
  if v =? VK_LSHIFT then track MOD_LSHIFT VK_LSHIFT (Some (VK_SHIFT, VK_RSHIFT))
  else if v =? VK_RSHIFT then track MOD_RSHIFT VK_RSHIFT (Some (VK_SHIFT, VK_LSHIFT))
  else if v =? VK_LCONTROL then
    track MOD_LCONTROL VK_LCONTROL (Some (VK_CONTROL, VK_RCONTROL))
  else if v =? VK_RCONTROL then
    track MOD_RCONTROL VK_RCONTROL (Some (VK_CONTROL, VK_LCONTROL))
  else if v =? VK_LMENU then track MOD_LALT VK_LMENU (Some (VK_MENU, VK_RMENU))
  else if v =? VK_RMENU then track MOD_RALT VK_RMENU (Some (VK_MENU, VK_LMENU))
  else if v =? VK_LWIN then track MOD_LWIN VK_LWIN None
  else if v =? VK_RWIN then track MOD_RWIN VK_RWIN None
  else if v =? VK_SHIFT then
    if sc =? SC_RSHIFT
    then track MOD_RSHIFT VK_RSHIFT (Some (VK_SHIFT, VK_LSHIFT))
    else track MOD_LSHIFT VK_LSHIFT (Some (VK_SHIFT, VK_RSHIFT))
  else if v =? VK_CONTROL then
    if sc =? SC_RCONTROL
    then track MOD_RCONTROL VK_RCONTROL (Some (VK_CONTROL, VK_LCONTROL))
    else track MOD_LCONTROL VK_LCONTROL (Some (VK_CONTROL, VK_RCONTROL))
  else if v =? VK_MENU then
    if sc =? SC_RALT
    then track MOD_RALT VK_RMENU (Some (VK_MENU, VK_LMENU))
    else track MOD_LALT VK_LMENU (Some (VK_MENU, VK_RMENU))
  else ret tt.

(** The test that opens UpdateKeyState: the prior event was a physical
    left or neutral shift less than 22 ms ago. *)
Definition prior_was_recent_physical_shift (os : OSView) (s : Engine) : bool :=
  prior_event_was_physical (fix_ s)
  && ((prior_vk (fix_ s) =? VK_LSHIFT) || (prior_vk (fix_ s) =? VK_SHIFT))
  && (DWORD (GetTickCount os - prior_event_tickcount (fix_ s))
      <? DWORD SHIFT_KEY_WORKAROUND_TIMEOUT).

(** UpdateKeyState(lParam, sc, key_up, aIsSuppressed) *)
Definition UpdateKeyState (os : OSView) (lParam : KBDLLHOOKSTRUCT) (sc : Z)
    (key_up aIsSuppressed : bool) : M unit :=
  s <- get ;;
  when (prior_was_recent_physical_shift os s)
    (let current_is_dual_state :=
       IsDualStateNumpadKey (vk_of (vkCode lParam)) sc in
     let fix_it :=
       (negb (prior_event_was_key_up (fix_ s)) && DualStateNumpadKeyIsDown s)
       || (prior_event_was_key_up (fix_ s) && key_up && current_is_dual_state) in
     when fix_it
       (modify (on_fix (set_next_phys_shift_down_is_not_phys true))) ;;
     when (fix_it || (prior_event_was_key_up (fix_ s) && current_is_dual_state))
       (modify (on_trk (set_physical (prior_modifiersLR_physical (fix_ s)))) ;;
        phys_key_store VK_SHIFT (prior_shift_state (fix_ s)) ;;
        phys_key_store VK_LSHIFT (prior_lshift_state (fix_ s)))) ;;
  modify (fun s => on_fix (set_prior_snapshot
                             (g_modifiersLR_physical (trk s))
                             (g_PhysicalKeyState (trk s) VK_SHIFT)
                             (g_PhysicalKeyState (trk s) VK_LSHIFT)) s) ;;
  s <- get ;;
  when (nz (as_modifiersLR (kvk (dsp s) (vk_of (vkCode lParam)))))
    (UpdateModifierState os lParam sc key_up aIsSuppressed) ;;
  modify (on_fix (set_prior_key (vk_of (vkCode lParam)) sc key_up)) ;;
  phys <- EventIsPhysical os lParam sc key_up ;;
  modify (on_fix (set_prior_event_was_physical phys)) ;;
  modify (on_fix (set_prior_event_tickcount (GetTickCount os))).

(* ================================================================== *)
(** ** Key history *)
(* ================================================================== *)

(** pKeyHistoryCurr->event_type, with pKeyHistoryCurr an index into the ring. *)
Definition curr_event_type (s : Engine) (cur : Z) : Z :=
  event_type (g_KeyHistory s cur).

Definition set_curr_event_type (cur : Z) (ty : Z) : M unit :=
  modify (fun s =>
    let it := g_KeyHistory s cur in
    set_history (upd (g_KeyHistory s) cur
                     (mkHist (h_vk it) (h_sc it) (h_key_up it) ty))
                (g_KeyHistoryNext s) s).

(* ================================================================== *)
(** ** Verdict helpers and dispatcher *)
(* ================================================================== *)

Section Hook.

(** KeyEvent(aEventType, aVK, aSC = 0) is defined outside the source file.
    The hook is written against it here and it is supplied below, once the
    hook procedure it re-enters exists. *)
Variable KeyEvent : OSView -> KeyEventTypes -> Z -> Z -> M unit.

(** SuppressThisKeyFunc(lParam, sc, key_up, pKeyHistoryCurr), the body of
    the SuppressThisKey macro. *)
Definition SuppressThisKeyFunc (os : OSView) (lParam : KBDLLHOOKSTRUCT) (sc : Z)
    (key_up : bool) (cur : Z) : M LRESULT :=
  s <- get ;;
  when (curr_event_type s cur =? ET_blank) (set_curr_event_type cur ET_suppr) ;;
  when ((vkCode lParam =? VK_NUMLOCK) && negb key_up
        && negb (dwExtraInfo lParam =? KEYIGNORE))
    (KeyEvent os KEYUP VK_NUMLOCK 0 ;;
     KeyEvent os KEYDOWN VK_NUMLOCK 0 ;;
     KeyEvent os KEYUP VK_NUMLOCK 0 ;;
     KeyEvent os KEYDOWN VK_NUMLOCK 0) ;;
  UpdateKeyState os lParam sc key_up true ;;
  ret Suppressed.

(** The Win-L test of AllowIt, as written in the source. *)
Definition win_L_lock (os : OSView) (lParam : KBDLLHOOKSTRUCT) (key_up : bool)
    (s : Engine) : bool :=
  (vkCode lParam =? VK_L) && negb key_up
  && ((g_modifiersLR_logical (trk s) =? MOD_LWIN)
      || (g_modifiersLR_logical (trk s) =? MOD_RWIN)
      || (g_modifiersLR_logical (trk s) =? Z.lor MOD_RWIN MOD_RWIN))
  && IsWinXPorLater os.

(** The Ctrl-Alt-Del test of AllowIt. *)
Definition ctrl_alt_del (os : OSView) (lParam : KBDLLHOOKSTRUCT) (key_up : bool)
    (s : Engine) : bool :=
  ((vkCode lParam =? VK_DELETE) || (vkCode lParam =? VK_DECIMAL)) && negb key_up
  && nz (Z.land (g_modifiersLR_physical (trk s)) (Z.lor MOD_LCONTROL MOD_RCONTROL))
  && nz (Z.land (g_modifiersLR_physical (trk s)) (Z.lor MOD_LALT MOD_RALT))
  && negb (nz (Z.land (g_modifiersLR_physical (trk s)) (Z.lor MOD_LSHIFT MOD_RSHIFT)))
  && (IsWin2000 os || IsWinNT4 os).

(** vkCode is VK_LWIN, VK_RWIN, VK_LMENU, VK_RMENU or VK_MENU. *)
Definition is_win_or_alt (v : Z) : bool :=
  (v =? VK_LWIN) || (v =? VK_RWIN) || (v =? VK_LMENU) || (v =? VK_RMENU)
  || (v =? VK_MENU).

(** AllowIt(hhk, code, wParam, lParam, sc, key_up, pKeyHistoryCurr,
    DisguiseWinAlt), the body of the AllowKeyToGoToSystem macros. *)
Definition AllowIt (os : OSView) (lParam : KBDLLHOOKSTRUCT) (sc : Z)
    (key_up : bool) (cur : Z) (DisguiseWinAlt : bool) : M LRESULT :=
  s <- get ;;
  if negb (dwExtraInfo lParam =? KEYIGNORE)
     && toggle_is_forced s (kvk (dsp s) (vk_of (vkCode lParam)))
  then SuppressThisKeyFunc os lParam sc key_up cur
  else
    UpdateKeyState os lParam sc key_up false ;;
    s <- get ;;
    when (win_L_lock os lParam key_up s)
      (modify (on_trk (set_physical 0)) ;;
       modify (on_trk (set_logical 0)) ;;
       phys_key_store VK_RWIN false ;;
       phys_key_store VK_LWIN false ;;
       phys_key_store (vkCode lParam) false) ;;
    s <- get ;;
    when (ctrl_alt_del os lParam key_up s)
      (modify (on_trk (set_physical 0)) ;;
       modify (on_trk (set_logical 0)) ;;
       phys_key_store VK_RMENU false ;;
       phys_key_store VK_LMENU false ;;
       phys_key_store VK_RCONTROL false ;;
       phys_key_store VK_LCONTROL false ;;
       phys_key_store (vkCode lParam) false) ;;
    s <- get ;;
    if negb (nz (as_modifiersLR (kvk (dsp s) (vk_of (vkCode lParam)))))
    then ret PassedOn
    else
      when (alt_tab_menu_is_visible (dsp s)
            && ((vkCode lParam =? VK_MENU) || (vkCode lParam =? VK_LMENU)
                || (vkCode lParam =? VK_RMENU))
            && key_up
            && negb (curr_event_type s cur =? ET_hotkey)
            && negb (curr_event_type s cur =? ET_suppr))
        (modify (on_dsp (set_alt_tab_menu_is_visible false))) ;;
      if DisguiseWinAlt && key_up && is_win_or_alt (vkCode lParam)
      then
        KeyEvent os KEYDOWN VK_SHIFT 0 ;;
        KeyEvent os (if key_up then KEYUP else KEYDOWN) (vk_of (vkCode lParam)) sc ;;
        KeyEvent os KEYUP VK_SHIFT 0 ;;
        s <- get ;;
        when (negb (curr_event_type s cur =? ET_hotkey))
          (set_curr_event_type cur ET_suppr) ;;
        ret Suppressed
      else ret PassedOn.

(** The two macros as the dispatcher uses them. *)
Definition SuppressThisKey := SuppressThisKeyFunc.
Definition AllowKeyToGoToSystem os lParam sc key_up cur :=
  AllowIt os lParam sc key_up cur false.
Definition AllowKeyToGoToSystemButDisguiseWinAlt os lParam sc key_up cur :=
  AllowIt os lParam sc key_up cur true.

(** The scan code as LowLevelKeybdProc normalises it. *)
Definition normalized_sc (s : Engine) (lParam : KBDLLHOOKSTRUCT) : Z :=
  let vk := vk_of (vkCode lParam) in
  let sc := sc_of (scanCode lParam) in
  let sc := if nz vk && negb (nz sc) then g_vk_to_sc (tbl s) vk else sc in
  let sc := Z.land sc 0xFF in
  if nz (Z.land (flags lParam) LLKHF_EXTENDED) then Z.lor sc 0x100 else sc.

(** pKeyHistoryCurr = g_KeyHistory + g_KeyHistoryNext, the advance of the
    ring index, and the initial fill of the slot.  Returns the slot. *)
Definition claim_history_slot (vk sc : Z) (key_up : bool) (extra : Z) : M Z :=
  s <- get ;;
  let cur := g_KeyHistoryNext s in
  let next := if cur + 1 >=? MAX_HISTORY_KEYS then 0 else cur + 1 in
  modify (set_history
            (upd (g_KeyHistory s) cur
                 (mkHist vk sc key_up
                         (if extra =? KEYIGNORE then ET_ignored else ET_blank)))
            next) ;;
  ret cur.

(** The switch that maintains pad_state[]. *)
Definition pad_index (vk : Z) : option nat :=
  if (vk =? VK_DELETE) || (vk =? VK_DECIMAL) then Some PAD_DECIMAL
  else if (vk =? VK_INSERT) || (vk =? VK_NUMPAD0) then Some PAD_NUMPAD0
  else if (vk =? VK_END) || (vk =? VK_NUMPAD1) then Some PAD_NUMPAD1
  else if (vk =? VK_DOWN) || (vk =? VK_NUMPAD2) then Some PAD_NUMPAD2
  else if (vk =? VK_NEXT) || (vk =? VK_NUMPAD3) then Some PAD_NUMPAD3
  else if (vk =? VK_LEFT) || (vk =? VK_NUMPAD4) then Some PAD_NUMPAD4
  else if (vk =? VK_CLEAR) || (vk =? VK_NUMPAD5) then Some PAD_NUMPAD5
  else if (vk =? VK_RIGHT) || (vk =? VK_NUMPAD6) then Some PAD_NUMPAD6
  else if (vk =? VK_HOME) || (vk =? VK_NUMPAD7) then Some PAD_NUMPAD7
  else if (vk =? VK_UP) || (vk =? VK_NUMPAD8) then Some PAD_NUMPAD8
  else if (vk =? VK_PRIOR) || (vk =? VK_NUMPAD9) then Some PAD_NUMPAD9
  else None.

Definition update_pad_state (os : OSView) (vk sc : Z) (key_up : bool) : M unit :=
  when (negb (nz (Z.land sc 0x100)) && NumLockToggledOn os)
    match pad_index vk with
    | Some i =>
        modify (on_fix (fun w => set_pad_state (updn (pad_state w) i (negb key_up)) w))
    | None => ret tt
    end.

(** The test of the "extra check" that marks the alt-tab menu visible. *)
Definition alt_tab_heuristic (vk : Z) (key_up : bool) (s : Engine) : bool :=
  (vk =? VK_TAB) && negb key_up && negb (alt_tab_menu_is_visible (dsp s))
  && (nz (Z.land (g_modifiersLR_logical (trk s)) MOD_LALT)
      || nz (Z.land (g_modifiersLR_logical (trk s)) MOD_RALT))
  && negb (nz (Z.land (g_modifiersLR_logical (trk s)) MOD_LCONTROL))
  && negb (nz (Z.land (g_modifiersLR_logical (trk s)) MOD_RCONTROL)).

Definition AltTabMenuHeuristic (vk : Z) (key_up : bool) : M unit :=
  s <- get ;;
  when (alt_tab_heuristic vk key_up s)
    (modify (on_dsp (set_alt_tab_menu_is_visible true))).

(** Tracking of g_PhysicalKeyState[] for keys that are not modifiers. *)
Definition track_plain_key (os : OSView) (lParam : KBDLLHOOKSTRUCT)
    (vk sc : Z) (key_up : bool) : M unit :=
  s <- get ;;
  if negb (nz (as_modifiersLR (kvk (dsp s) vk))) then
    phys <- EventIsPhysical os lParam sc key_up ;;
    when phys (phys_key_store vk (negb key_up))
  else ret tt.

(** The test that opens the disguise of a WIN/ALT key-up. *)
Definition disguise_armed (vk : Z) (key_up : bool) (s : Engine) : bool :=
  key_up
  && ((disguise_next_lwin_up (dsp s) && (vk =? VK_LWIN))
      || (disguise_next_rwin_up (dsp s) && (vk =? VK_RWIN))
      || (disguise_next_lalt_up (dsp s) && ((vk =? VK_LMENU) || (vk =? VK_MENU)))
      || (disguise_next_ralt_up (dsp s) && (vk =? VK_RMENU))).

(** The switch that clears the flag of the key being disguised. *)
Definition clear_disguise_flag (vk : Z) : M unit :=
  if vk =? VK_LWIN then modify (on_dsp (set_disguise_next_lwin_up false))
  else if vk =? VK_RWIN then modify (on_dsp (set_disguise_next_rwin_up false))
  else if (vk =? VK_MENU) || (vk =? VK_LMENU)
       then modify (on_dsp (set_disguise_next_lalt_up false))
  else if vk =? VK_RMENU then modify (on_dsp (set_disguise_next_ralt_up false))
  else ret tt.

(** pThisKey = ksc[sc].sc_takes_precedence ? (ksc + sc) : (kvk + vk) *)
Definition this_key (s : Engine) (vk sc : Z) : KeyRef :=
  if sc_takes_precedence (ksc (dsp s) sc) then InKsc sc else InKvk vk.

(** pPrefixKey->field = ...; nothing is modelled for a NULL pPrefixKey, which
    the source never dereferences. *)
Definition on_prefix (f : key_type -> key_type) : M unit :=
  modify (fun s =>
    match pPrefixKey (dsp s) with
    | Some r => on_key r f s
    | None => s
    end).

(** as_modifiersLR || (pForceToggle != NULL && *pForceToggle == NEUTRAL)
      ? AllowKeyToGoToSystem : SuppressThisKey *)
Definition allow_if_modifier_or_neutral_toggle (os : OSView)
    (lParam : KBDLLHOOKSTRUCT) (sc : Z) (key_up : bool) (cur : Z)
    (pThisKey : KeyRef) : M LRESULT :=
  s <- get ;;
  if nz (as_modifiersLR (deref s pThisKey)) || toggle_is_neutral s (deref s pThisKey)
  then AllowKeyToGoToSystem os lParam sc key_up cur
  else SuppressThisKey os lParam sc key_up cur.

(** GET_HOTKEY_ID_AND_FLAGS(id_with_flags): (hotkey_id, no_suppress). *)
Definition GET_HOTKEY_ID_AND_FLAGS (x : Z) : Z * bool :=
  (Z.land x HOTKEY_ID_MASK, nz (Z.land x HOTKEY_NO_SUPPRESS)).

Definition is_alt_vk (vk : Z) : bool :=
  (vk =? VK_LMENU) || (vk =? VK_RMENU) || (vk =? VK_MENU).
Definition is_shift_vk (vk : Z) : bool :=
  (vk =? VK_LSHIFT) || (vk =? VK_RSHIFT) || (vk =? VK_SHIFT).
Definition is_control_vk (vk : Z) : bool :=
  (vk =? VK_LCONTROL) || (vk =? VK_RCONTROL) || (vk =? VK_CONTROL).

Definition logical_has (s : Engine) (bit : Z) : bool :=
  nz (Z.land (g_modifiersLR_logical (trk s)) bit).

(** CASE #1: the prefix key has been pressed down. *)
Definition Case1 (os : OSView) (lParam : KBDLLHOOKSTRUCT) (sc : Z)
    (key_up : bool) (cur : Z) (pThisKey : KeyRef) : M LRESULT :=
  modify (on_dsp (set_pPrefixKey (Some pThisKey))) ;;
  on_prefix (set_was_just_used Unused) ;;
  allow_if_modifier_or_neutral_toggle os lParam sc key_up cur pThisKey.

(** CASE #2: a suffix key that is not the active prefix has been released. *)
Definition Case2 (os : OSView) (lParam : KBDLLHOOKSTRUCT) (sc : Z)
    (key_up : bool) (cur : Z) (down_performed_action : bool) : M LRESULT :=
  if down_performed_action then SuppressThisKey os lParam sc key_up cur
  else AllowKeyToGoToSystem os lParam sc key_up cur.

(** CASE #3, the end: the key was not used as a prefix while it was held.
    [Some v] is a return from the procedure, [None] the fall through into
    CASE #4. *)
Definition Case3_unused (os : OSView) (lParam : KBDLLHOOKSTRUCT) (sc : Z)
    (key_up : bool) (cur : Z) (pThisKey : KeyRef) (was_down_before_up : bool)
    : M (option LRESULT) :=
  s <- get ;;
  if negb (used_as_suffix (deref s pThisKey)) then
    r <- allow_if_modifier_or_neutral_toggle os lParam sc key_up cur pThisKey ;;
    ret (Some r)
  else if negb was_down_before_up then
    r <- AllowKeyToGoToSystem os lParam sc key_up cur ;; ret (Some r)
  else ret None.

(** CASE #3, after the prefix slot has been dealt with: the keys put down
    for alt-tab go up, then the verdict by was_just_used. *)
Definition Case3_released (os : OSView) (lParam : KBDLLHOOKSTRUCT) (vk sc : Z)
    (key_up : bool) (cur : Z) (pThisKey : KeyRef) (was_down_before_up : bool)
    : M (option LRESULT) :=
  s <- get ;;
  when (it_put_alt_down (deref s pThisKey))
    (modify (on_key pThisKey (set_it_put_alt_down false)) ;;
     KeyEvent os KEYUP VK_MENU 0) ;;
  s <- get ;;
  when (it_put_shift_down (deref s pThisKey))
    (modify (on_key pThisKey (set_it_put_shift_down false)) ;;
     KeyEvent os KEYUP VK_SHIFT 0) ;;
  s <- get ;;
  if toggle_is_neutral s (deref s pThisKey) then
    if JustUsed_is (was_just_used (deref s pThisKey)) AS_PREFIX_FOR_HOTKEY then
      KeyEvent os KEYUP vk sc ;;
      KeyEvent os KEYDOWN vk sc ;;
      KeyEvent os KEYUP vk sc ;;
      r <- SuppressThisKey os lParam sc key_up cur ;; ret (Some r)
    else if JustUsed_is (was_just_used (deref s pThisKey)) AS_PREFIX then
      r <- AllowKeyToGoToSystem os lParam sc key_up cur ;; ret (Some r)
    else Case3_unused os lParam sc key_up cur pThisKey was_down_before_up
  else if negb (JustUsed_is (was_just_used (deref s pThisKey)) Unused) then
    if nz (as_modifiersLR (deref s pThisKey)) then
      if JustUsed_is (was_just_used (deref s pThisKey)) AS_PREFIX_FOR_HOTKEY then
        r <- AllowKeyToGoToSystemButDisguiseWinAlt os lParam sc key_up cur ;;
        ret (Some r)
      else
        r <- AllowKeyToGoToSystem os lParam sc key_up cur ;; ret (Some r)
    else
      r <- SuppressThisKey os lParam sc key_up cur ;; ret (Some r)
  else Case3_unused os lParam sc key_up cur pThisKey was_down_before_up.

(** CASE #3: the prefix key has been released.  [Some v] is a return from
    the procedure, [None] the fall through into CASE #4. *)
Definition Case3 (os : OSView) (lParam : KBDLLHOOKSTRUCT) (vk sc : Z)
    (key_up : bool) (cur : Z) (pThisKey : KeyRef) (was_down_before_up : bool)
    : M (option LRESULT) :=
  s <- get ;;
  when (ptr_eqb (pPrefixKey (dsp s)) pThisKey)
    (modify (on_dsp (set_pPrefixKey None))) ;;
  Case3_released os lParam vk sc key_up cur pThisKey was_down_before_up.

(** The two for-loops of CASE #4 that look for a held key among the
    suffix's ModifierVK[] and ModifierSC[]: the first one that is down
    becomes pPrefixKey, is marked AS_PREFIX_FOR_HOTKEY and yields the id. *)
Definition find_modifier_vk (pThisKey : KeyRef) : M (Z * bool) :=
  s <- get ;;
  match find (fun m => is_down (kvk (dsp s) (mod_key m)))
             (ModifierVK (deref s pThisKey)) with
  | Some m =>
      modify (on_dsp (set_pPrefixKey (Some (InKvk (mod_key m))))) ;;
      on_prefix (set_was_just_used AS_PREFIX_FOR_HOTKEY) ;;
      ret (GET_HOTKEY_ID_AND_FLAGS (id_with_flags m))
  | None => ret (HOTKEY_ID_INVALID, false)
  end.

Definition find_modifier_sc (pThisKey : KeyRef) (found : Z * bool) : M (Z * bool) :=
  if fst found =? HOTKEY_ID_INVALID then
    s <- get ;;
    match find (fun m => is_down (ksc (dsp s) (mod_key m)))
               (ModifierSC (deref s pThisKey)) with
    | Some m =>
        modify (on_dsp (set_pPrefixKey (Some (InKsc (mod_key m))))) ;;
        on_prefix (set_was_just_used AS_PREFIX_FOR_HOTKEY) ;;
        ret (GET_HOTKEY_ID_AND_FLAGS (id_with_flags m))
    | None => ret found
    end
  else ret found.

(** The alt-tab section for a suffix modified by the held prefix
    (hotkey_id is ALT_TAB or ALT_TAB_SHIFT). *)
Definition prefixed_alt_tab (os : OSView) (lParam : KBDLLHOOKSTRUCT) (vk sc : Z)
    (key_up : bool) (cur : Z) (pThisKey : KeyRef) (hotkey_id : Z) : M LRESULT :=
  when (negb key_up) (modify (on_key pThisKey (set_down_performed_action true))) ;;
  s <- get ;;
  when (negb (logical_has s MOD_LALT) && negb (logical_has s MOD_RALT))
    (KeyEvent os KEYDOWN VK_MENU 0) ;;
  when (is_control_vk vk) (KeyEvent os KEYUP vk sc) ;;
  on_prefix (set_it_put_alt_down true) ;;
  (if hotkey_id =? HOTKEY_ID_ALT_TAB_SHIFT then
     s <- get ;;
     when (negb (logical_has s MOD_LSHIFT) && negb (logical_has s MOD_RSHIFT))
       (KeyEvent os KEYDOWN VK_SHIFT 0) ;;
     on_prefix (set_it_put_shift_down true)
   else if hotkey_id =? HOTKEY_ID_ALT_TAB then
     when (is_shift_vk vk) (KeyEvent os KEYUP vk sc) ;;
     s <- get ;;
     when (logical_has s MOD_LSHIFT || logical_has s MOD_RSHIFT)
       (KeyEvent os KEYUP (if logical_has s MOD_RSHIFT then VK_RSHIFT else VK_LSHIFT) 0)
   else ret tt) ;;
  s <- get ;;
  when (logical_has s MOD_LCONTROL || logical_has s MOD_RCONTROL)
    (KeyEvent os KEYUP (if logical_has s MOD_RCONTROL then VK_RCONTROL else VK_LCONTROL) 0) ;;
  KeyEvent os KEYDOWNANDUP VK_TAB 0 ;;
  s <- get ;;
  when ((hotkey_id =? HOTKEY_ID_ALT_TAB_SHIFT)
        && match pPrefixKey (dsp s) with
           | Some p => it_put_shift_down (deref s p)
           | None => false
           end
        && (((vk >=? VK_NUMPAD0) && (vk <=? VK_NUMPAD9)) || (vk =? VK_DECIMAL)))
    (KeyEvent os KEYUP VK_SHIFT 0 ;;
     on_prefix (set_it_put_shift_down false)) ;;
  set_curr_event_type cur ET_hotkey ;;
  SuppressThisKey os lParam sc key_up cur.

(** Lookup by the modifiers that are logically down, with the retry
    without ALT while the alt-tab menu is visible. *)
Definition lookup_by_modifiers (vk sc : Z) (pThisKey : KeyRef) (s : Engine)
    : Z * bool :=
  let table m :=
    if sc_takes_precedence (ksc (dsp s) sc)
    then Kscm (tbl s) m sc else Kvkm (tbl s) m vk in
  let modifiersLRnew := g_modifiersLR_logical (trk s) in
  let modifiersLRnew :=
    if nz (as_modifiersLR (deref s pThisKey))
    then Z.land modifiersLRnew (Z.lnot (as_modifiersLR (deref s pThisKey)))
    else modifiersLRnew in
  let found := GET_HOTKEY_ID_AND_FLAGS (table modifiersLRnew) in
  if (fst found =? HOTKEY_ID_INVALID) && alt_tab_menu_is_visible (dsp s) then
    let modifiersLRnew :=
      Z.land modifiersLRnew (Z.lnot (Z.lor MOD_LALT MOD_RALT)) in
    GET_HOTKEY_ID_AND_FLAGS (table modifiersLRnew)
  else found.

(** Preparation of the Start-menu / menu-bar disguise once a hotkey id has
    been found. *)
Definition arm_disguise : M unit :=
  s <- get ;;
  let logical := g_modifiersLR_logical (trk s) in
  if negb (nz (Z.land logical (Z.lnot (Z.lor MOD_LWIN MOD_RWIN)))) then
    when (logical_has s MOD_LWIN && negb (used_as_prefix (kvk (dsp s) VK_LWIN)))
      (modify (on_dsp (set_disguise_next_lwin_up true))) ;;
    when (logical_has s MOD_RWIN && negb (used_as_prefix (kvk (dsp s) VK_RWIN)))
      (modify (on_dsp (set_disguise_next_rwin_up true)))
  else if negb (nz (Z.land logical (Z.lnot (Z.lor MOD_LALT MOD_RALT)))) then
    when (logical_has s MOD_LALT && negb (used_as_prefix (kvk (dsp s) VK_LMENU)))
      (modify (on_dsp (set_disguise_next_lalt_up true))) ;;
    when (logical_has s MOD_RALT && negb (used_as_prefix (kvk (dsp s) VK_RMENU)))
      (modify (on_dsp (set_disguise_next_ralt_up true)))
  else ret tt.

(** case HOTKEY_ID_ALT_TAB / HOTKEY_ID_ALT_TAB_SHIFT of the switch, also
    entered by falling through from ALT_TAB_AND_MENU.  [Some v] is a return
    from the procedure, [None] the break. *)
Definition switch_alt_tab (os : OSView) (lParam : KBDLLHOOKSTRUCT) (vk sc : Z)
    (key_up : bool) (cur : Z) (hotkey_id : Z) : M (option LRESULT) :=
  s <- get ;;
  if negb (alt_tab_menu_is_visible (dsp s)) then
    r <- AllowKeyToGoToSystem os lParam sc key_up cur ;; ret (Some r)
  else
    when (negb key_up && (is_control_vk vk || is_shift_vk vk))
      (KeyEvent os KEYUP vk 0) ;;
    s <- get ;;
    when (negb (logical_has s MOD_LALT || logical_has s MOD_RALT)
          || (key_up && is_alt_vk vk))
      (KeyEvent os KEYDOWN VK_MENU 0) ;;
    s <- get ;;
    let shift_put_down :=
      (hotkey_id =? HOTKEY_ID_ALT_TAB_SHIFT)
      && negb (logical_has s MOD_LSHIFT || logical_has s MOD_RSHIFT) in
    when shift_put_down (KeyEvent os KEYDOWN VK_SHIFT 0) ;;
    KeyEvent os KEYDOWNANDUP VK_TAB 0 ;;
    when shift_put_down (KeyEvent os KEYUP VK_SHIFT 0) ;;
    ret None.

(** case HOTKEY_ID_ALT_TAB_MENU / HOTKEY_ID_ALT_TAB_AND_MENU of the switch,
    also entered from ALT_TAB_MENU_DISMISS while the menu is visible. *)
Definition switch_alt_tab_menu (os : OSView) (lParam : KBDLLHOOKSTRUCT)
    (vk sc : Z) (key_up : bool) (cur : Z) (pThisKey : KeyRef) (hotkey_id : Z)
    : M (option LRESULT) :=
  s <- get ;;
  let which_alt_down :=
    if logical_has s MOD_LALT then VK_LMENU
    else if logical_has s MOD_RALT then VK_RMENU else 0 in
  if alt_tab_menu_is_visible (dsp s) then
    if negb (hotkey_id =? HOTKEY_ID_ALT_TAB_AND_MENU) then
      KeyEvent os KEYUP (if nz which_alt_down then which_alt_down else VK_MENU) 0 ;;
      when (nz (as_modifiersLR (deref s pThisKey))
            && negb (vk =? VK_LWIN) && negb (vk =? VK_RWIN))
        (KeyEvent os KEYUP vk 0) ;;
      modify (on_dsp (set_alt_tab_menu_is_visible false)) ;;
      ret None
    else switch_alt_tab os lParam vk sc key_up cur hotkey_id
  else
    let vk_is_alt := is_alt_vk vk in
    let vk_is_shift := is_shift_vk vk in
    let vk_is_control := is_control_vk vk in
    let which_shift_down :=
      if logical_has s MOD_LSHIFT then VK_LSHIFT
      else if logical_has s MOD_RSHIFT then VK_RSHIFT
      else if negb key_up && vk_is_shift then vk else 0 in
    let which_control_down :=
      if logical_has s MOD_LCONTROL then VK_LCONTROL
      else if logical_has s MOD_RCONTROL then VK_RCONTROL
      else if negb key_up && vk_is_control then vk else 0 in
    let shift_put_up := nz which_shift_down in
    when (nz which_shift_down) (KeyEvent os KEYUP which_shift_down 0) ;;
    when (nz which_control_down) (KeyEvent os KEYUP which_control_down 0) ;;
    let which_alt_down :=
      if vk_is_alt then (if key_up then 0 else vk) else which_alt_down in
    when (negb (nz which_alt_down)) (KeyEvent os KEYDOWN VK_MENU 0) ;;
    KeyEvent os KEYDOWN VK_TAB 0 ;;
    when (shift_put_up && negb vk_is_shift) (KeyEvent os KEYDOWN which_shift_down 0) ;;
    modify (on_dsp (set_alt_tab_menu_is_visible true)) ;;
    ret None.

(** switch(hotkey_id) *)
Definition perform_hotkey (os : OSView) (lParam : KBDLLHOOKSTRUCT) (vk sc : Z)
    (key_up : bool) (cur : Z) (pThisKey : KeyRef) (hotkey_id : Z)
    : M (option LRESULT) :=
  if hotkey_id =? HOTKEY_ID_ALT_TAB_MENU_DISMISS then
    s <- get ;;
    if negb (alt_tab_menu_is_visible (dsp s)) then
      r <- AllowKeyToGoToSystem os lParam sc key_up cur ;; ret (Some r)
    else switch_alt_tab_menu os lParam vk sc key_up cur pThisKey hotkey_id
  else if (hotkey_id =? HOTKEY_ID_ALT_TAB_MENU)
          || (hotkey_id =? HOTKEY_ID_ALT_TAB_AND_MENU) then
    switch_alt_tab_menu os lParam vk sc key_up cur pThisKey hotkey_id
  else if (hotkey_id =? HOTKEY_ID_ALT_TAB)
          || (hotkey_id =? HOTKEY_ID_ALT_TAB_SHIFT) then
    switch_alt_tab os lParam vk sc key_up cur hotkey_id
  else
    modify (push_posted (hotkey_id, 0)) ;;
    ret None.

(** What follows the switch: the history tag, the undo of a toggle, and
    the verdict for the key that fired the hotkey. *)
Definition after_hotkey (os : OSView) (lParam : KBDLLHOOKSTRUCT) (vk sc : Z)
    (key_up : bool) (cur : Z) (pThisKey : KeyRef) (no_suppress : bool)
    : M LRESULT :=
  set_curr_event_type cur ET_hotkey ;;
  s <- get ;;
  if toggle_is_neutral s (deref s pThisKey)
     && used_as_prefix (deref s pThisKey) && key_up
  then
    KeyEvent os KEYUP vk sc ;;
    KeyEvent os KEYDOWN vk sc ;;
    KeyEvent os KEYUP vk sc ;;
    SuppressThisKey os lParam sc key_up cur
  else if nz (as_modifiersLR (deref s pThisKey)) && key_up then
    AllowKeyToGoToSystemButDisguiseWinAlt os lParam sc key_up cur
  else if key_up then
    if no_suppress then
      KeyEvent os KEYDOWN vk sc ;;
      AllowKeyToGoToSystem os lParam sc key_up cur
    else SuppressThisKey os lParam sc key_up cur
  else
    modify (on_key pThisKey (set_down_performed_action true)) ;;
    on_prefix (set_was_just_used AS_PREFIX_FOR_HOTKEY) ;;
    when no_suppress (KeyEvent os KEYDOWNANDUP vk sc) ;;
    SuppressThisKey os lParam sc key_up cur.

(** CASE #4, the end: a hotkey id has been found. *)
Definition fire_hotkey (os : OSView) (lParam : KBDLLHOOKSTRUCT) (vk sc : Z)
    (key_up : bool) (cur : Z) (pThisKey : KeyRef) (found : Z * bool)
    : M LRESULT :=
  arm_disguise ;;
  r <- perform_hotkey os lParam vk sc key_up cur pThisKey (fst found) ;;
  match r with
  | Some v => ret v
  | None => after_hotkey os lParam vk sc key_up cur pThisKey (snd found)
  end.

(** CASE #4, the middle: unless the held prefix gave an id, look one up by
    the modifiers; without an id the key goes to the system (a key-up of a
    key that is neither a modifier nor a neutral toggle is suppressed). *)
Definition lookup_and_fire (os : OSView) (lParam : KBDLLHOOKSTRUCT) (vk sc : Z)
    (key_up : bool) (cur : Z) (pThisKey : KeyRef) (found : Z * bool)
    : M LRESULT :=
  if fst found =? HOTKEY_ID_INVALID then
    s <- get ;;
    let found := lookup_by_modifiers vk sc pThisKey s in
    if fst found =? HOTKEY_ID_INVALID then
      if key_up
      then allow_if_modifier_or_neutral_toggle os lParam sc key_up cur pThisKey
      else AllowKeyToGoToSystem os lParam sc key_up cur
    else fire_hotkey os lParam vk sc key_up cur pThisKey found
  else fire_hotkey os lParam vk sc key_up cur pThisKey found.

(** CASE #4: a suffix key has been pressed down, or released after falling
    through from CASE #3. *)
Definition Case4 (os : OSView) (lParam : KBDLLHOOKSTRUCT) (vk sc : Z)
    (key_up : bool) (cur : Z) (pThisKey : KeyRef) : M LRESULT :=
  s <- get ;;
  if match pPrefixKey (dsp s) with Some _ => true | None => false end
     && negb key_up
  then
    found <- find_modifier_vk pThisKey ;;
    found <- find_modifier_sc pThisKey found ;;
    if (fst found =? HOTKEY_ID_ALT_TAB) || (fst found =? HOTKEY_ID_ALT_TAB_SHIFT)
    then prefixed_alt_tab os lParam vk sc key_up cur pThisKey (fst found)
    else lookup_and_fire os lParam vk sc key_up cur pThisKey found
  else lookup_and_fire os lParam vk sc key_up cur pThisKey
         (HOTKEY_ID_INVALID, false).

(** The four-case state machine, from the choice of pThisKey on. *)
Definition dispatch (os : OSView) (lParam : KBDLLHOOKSTRUCT) (vk sc : Z)
    (key_up : bool) (cur : Z) : M LRESULT :=
  s <- get ;;
  let pThisKey := this_key s vk sc in
  if ptr_eqb (pPrefixKey (dsp s)) pThisKey && negb key_up then
    if nz (as_modifiersLR (deref s pThisKey))
    then AllowKeyToGoToSystem os lParam sc key_up cur
    else SuppressThisKey os lParam sc key_up cur
  else
    when (match pPrefixKey (dsp s) with Some _ => true | None => false end
          && negb key_up && negb (nz (as_modifiersLR (deref s pThisKey))))
      (on_prefix (set_was_just_used AS_PREFIX)) ;;
    s <- get ;;
    if negb (used_as_prefix (deref s pThisKey))
       && negb (used_as_suffix (deref s pThisKey))
    then AllowKeyToGoToSystem os lParam sc key_up cur
    else
      let was_down_before_up := is_down (deref s pThisKey) in
      let down_performed_action := down_performed_action (deref s pThisKey) in
      when key_up (modify (on_key pThisKey (set_down_performed_action false))) ;;
      modify (on_key pThisKey (set_is_down (negb key_up))) ;;
      s <- get ;;
      if used_as_prefix (deref s pThisKey) && negb key_up
         && (match pPrefixKey (dsp s) with Some _ => false | None => true end
             || negb (used_as_suffix (deref s pThisKey)))
      then Case1 os lParam sc key_up cur pThisKey
      else if used_as_suffix (deref s pThisKey)
              && negb (ptr_eqb (pPrefixKey (dsp s)) pThisKey) && key_up
      then Case2 os lParam sc key_up cur down_performed_action
      else if used_as_prefix (deref s pThisKey) && key_up then
        r <- Case3 os lParam vk sc key_up cur pThisKey was_down_before_up ;;
        match r with
        | Some v => ret v
        | None => Case4 os lParam vk sc key_up cur pThisKey
        end
      else Case4 os lParam vk sc key_up cur pThisKey.

(** What LowLevelKeybdProc does for every event before it looks at the
    KEYIGNORE tag: the history slot, pad_state, the alt-tab heuristic and
    the physical state of a key that is not a modifier.  Returns
    pKeyHistoryCurr. *)
Definition bookkeeping (os : OSView) (lParam : KBDLLHOOKSTRUCT) (vk sc : Z)
    (key_up : bool) : M Z :=
  cur <- claim_history_slot vk sc key_up (dwExtraInfo lParam) ;;
  update_pad_state os vk sc key_up ;;
  AltTabMenuHeuristic vk key_up ;;
  track_plain_key os lParam vk sc key_up ;;
  ret cur.

(** LowLevelKeybdProc(code, wParam, lParam) *)
Definition LowLevelKeybdProc (os : OSView) (code wParam : Z)
    (lParam : KBDLLHOOKSTRUCT) : M LRESULT :=
  if negb (code =? HC_ACTION) then ret PassedOn
  else
    let key_up := (wParam =? WM_KEYUP) || (wParam =? WM_SYSKEYUP) in
    let vk := vk_of (vkCode lParam) in
    s <- get ;;
    let sc := normalized_sc s lParam in
    cur <- bookkeeping os lParam vk sc key_up ;;
    if dwExtraInfo lParam =? KEYIGNORE
    then AllowKeyToGoToSystem os lParam sc key_up cur
    else
      s <- get ;;
      if disguise_armed vk key_up s then
        clear_disguise_flag vk ;;
        KeyEvent os KEYDOWN VK_SHIFT 0 ;;
        KeyEvent os KEYUP vk sc ;;
        KeyEvent os KEYUP VK_SHIFT 0 ;;
        SuppressThisKey os lParam sc key_up cur
      else dispatch os lParam vk sc key_up cur.

End Hook.

(* ================================================================== *)
(** ** KeyEvent and the re-entrant hook *)
(* ================================================================== *)

(** The low-level event the system builds for a keystroke sent by
    KeyEvent(): injected, tagged KEYIGNORE, extended iff the scan code has
    its ninth bit. *)
Definition synthesized_event (os : OSView) (vk sc : Z) : KBDLLHOOKSTRUCT :=
  mkEvent vk (Z.land sc 0xFF)
          (Z.lor LLKHF_INJECTED
                 (if nz (Z.land sc 0x100) then LLKHF_EXTENDED else 0))
          (GetTickCount os) KEYIGNORE.

(** A KeyEvent that only records the keystroke.  It closes the recursion:
    the hook never sends anything while it handles a KEYIGNORE event (see
    [LowLevelKeybdProc_ignored_sends_nothing]). *)
Definition KeyEvent_record_only (os : OSView) (ty : KeyEventTypes) (vk sc : Z)
    : M unit :=
  match ty with
  | KEYDOWN => modify (push_sent (mkSent false vk sc KEYIGNORE))
  | KEYUP => modify (push_sent (mkSent true vk sc KEYIGNORE))
  | KEYDOWNANDUP =>
      modify (push_sent (mkSent false vk sc KEYIGNORE)) ;;
      modify (push_sent (mkSent true vk sc KEYIGNORE))
  end.

(** Modelled from the spec: KeyEvent is the outbound emission
    "emit(kind, vk, scan)", whose definition is not part of the source file.
    Each keystroke carries the ignore sentinel in its extra-info field, and
    "emissions made while processing A re-enter the callback during A's
    processing and are resolved before A returns". *)
Definition send_one (os : OSView) (up : bool) (vk sc : Z) : M unit :=
  modify (push_sent (mkSent up vk sc KEYIGNORE)) ;;
  LowLevelKeybdProc KeyEvent_record_only os HC_ACTION
    (if up then WM_KEYUP else WM_KEYDOWN) (synthesized_event os vk sc) ;;
  ret tt.

Definition KeyEvent (os : OSView) (ty : KeyEventTypes) (vk sc : Z) : M unit :=
  match ty with
  | KEYDOWN => send_one os false vk sc
  | KEYUP => send_one os true vk sc
  | KEYDOWNANDUP => send_one os false vk sc ;; send_one os true vk sc
  end.

(** The hook procedure as installed. *)
Definition KeybdProc : OSView -> Z -> Z -> KBDLLHOOKSTRUCT -> M LRESULT :=
  LowLevelKeybdProc KeyEvent.

(** One delivery of the operating system to the hook. *)
Record Delivery := mkDelivery {
  d_os : OSView; d_code : Z; d_wParam : Z; d_lParam : KBDLLHOOKSTRUCT
}.

Definition deliver (d : Delivery) : M LRESULT :=
  KeybdProc (d_os d) (d_code d) (d_wParam d) (d_lParam d).

(** The engine after a stream of deliveries, and the verdicts returned. *)
Fixpoint run (ds : list Delivery) (s : Engine) : list LRESULT * Engine :=
  match ds with
  | [] => ([], s)
  | d :: ds' =>
      let (v, s1) := deliver d s in
      let (vs, s2) := run ds' s1 in
      (v :: vs, s2)
  end.

(* ================================================================== *)
(** ** Reasoning about computations: definitions *)
(* ================================================================== *)

(** [keeps R c]: the final state of [c] is related by [R] to the state it
    started from. *)
Definition keeps {A} (R : Engine -> Engine -> Prop) (c : M A) : Prop :=
  forall s, R s (exec c s).

(** [returns c v]: [c] always returns [v]. *)
Definition returns {A} (c : M A) (v : A) : Prop :=
  forall s, eval c s = v.

(** Relations of the form "this part of the engine is unchanged". *)
Definition same {X} (proj : Engine -> X) : Engine -> Engine -> Prop :=
  fun s s' => proj s' = proj s.

(** Everything the modifier tracker leaves alone. *)
Definition outside_tracker (s : Engine) :=
  (dsp s, tbl s, g_KeyHistory s, g_KeyHistoryNext s, sent s, posted s).

(** The logical modifier mask. *)
Definition logical_mods (s : Engine) : Z := g_modifiersLR_logical (trk s).

(* ================================================================== *)
(** ** Example configurations and inputs *)
(* ================================================================== *)

(** A key that takes part in no hotkey. *)
Definition ex_plain_key : key_type :=
  mkKey false false 0 None false [] [] false false Unused false false.

(** A modifier key that takes part in no hotkey. *)
Definition ex_modifier_key (m : Z) : key_type :=
  mkKey false false m None false [] [] false false Unused false false.

(** kvk[] with only the modifier masks filled in, as for a script without
    hook hotkeys. *)
Definition ex_kvk (v : Z) : key_type :=
  if v =? VK_LSHIFT then ex_modifier_key MOD_LSHIFT
  else if v =? VK_RSHIFT then ex_modifier_key MOD_RSHIFT
  else if v =? VK_LCONTROL then ex_modifier_key MOD_LCONTROL
  else if v =? VK_RCONTROL then ex_modifier_key MOD_RCONTROL
  else if v =? VK_LMENU then ex_modifier_key MOD_LALT
  else if v =? VK_RMENU then ex_modifier_key MOD_RALT
  else if v =? VK_LWIN then ex_modifier_key MOD_LWIN
  else if v =? VK_RWIN then ex_modifier_key MOD_RWIN
  else if v =? VK_SHIFT then ex_modifier_key (Z.lor MOD_LSHIFT MOD_RSHIFT)
  else if v =? VK_CONTROL then ex_modifier_key (Z.lor MOD_LCONTROL MOD_RCONTROL)
  else if v =? VK_MENU then ex_modifier_key (Z.lor MOD_LALT MOD_RALT)
  else ex_plain_key.

Definition ex_ksc (c : Z) : key_type := ex_plain_key.

Definition ex_tables : Tables :=
  mkTables (fun _ => 0) (fun _ _ => HOTKEY_ID_INVALID)
           (fun _ _ => HOTKEY_ID_INVALID) (fun _ => NEUTRAL).

(** The engine as ChangeHookState leaves it: nothing down, nothing armed. *)
Definition ex_engine (kv ks : Z -> key_type) (t : Tables) : Engine :=
  mkEngine (mkShiftFix (fun _ => false) false 0 0 false false 0 0 false false)
           (mkModTrack 0 0 (fun _ => false) 0)
           (mkDispatch kv ks None false false false false false)
           t (fun _ => mkHist 0 0 false ET_blank) 0 [] [].

Definition ex_engine0 : Engine := ex_engine ex_kvk ex_ksc ex_tables.

(** The engine right after the release of NumpadEnd at tick [t]. *)
Definition ex_engine_after_numpad_up (t : Z) : Engine :=
  on_fix (fun w => set_prior_event_tickcount t
                     (set_prior_key VK_END 0x4F true w)) ex_engine0.

(** The dispatcher's tables, prefix slot and disguise flags, the read-only
    tables, and the messages posted: everything a keystroke sent by the
    engine itself leaves alone when it comes back through the hook. *)
Definition hook_core (s : Engine) :=
  (kvk (dsp s), ksc (dsp s), pPrefixKey (dsp s),
   (disguise_next_lwin_up (dsp s), disguise_next_rwin_up (dsp s),
    disguise_next_lalt_up (dsp s), disguise_next_ralt_up (dsp s)),
   tbl s, posted s).

(** The keystrokes KeyEvent hands to the system for one call. *)
Definition keystrokes (ty : KeyEventTypes) (vk sc : Z) : list Sent :=
  match ty with
  | KEYDOWN => [mkSent false vk sc KEYIGNORE]
  | KEYUP => [mkSent true vk sc KEYIGNORE]
  | KEYDOWNANDUP => [mkSent false vk sc KEYIGNORE; mkSent true vk sc KEYIGNORE]
  end.

(** The four keystrokes of the Numlock fix. *)
Definition numlock_fix : list Sent :=
  [mkSent true VK_NUMLOCK 0 KEYIGNORE; mkSent false VK_NUMLOCK 0 KEYIGNORE;
   mkSent true VK_NUMLOCK 0 KEYIGNORE; mkSent false VK_NUMLOCK 0 KEYIGNORE].

(** kvk[] of a script that forces Numlock: the Numlock record points to the
    force-Numlock setting. *)
Definition ex_kvk_numlock (v : Z) : key_type :=
  if v =? VK_NUMLOCK
  then mkKey false false 0 (Some ForceNumLock) false [] [] false false Unused
             false false
  else ex_kvk v.

Definition ex_tables_numlock_always_on : Tables :=
  mkTables (fun _ => 0) (fun _ _ => HOTKEY_ID_INVALID)
           (fun _ _ => HOTKEY_ID_INVALID)
           (fun h => match h with ForceNumLock => ALWAYS_ON | _ => NEUTRAL end).

Definition ex_engine_numlock_forced : Engine :=
  ex_engine ex_kvk_numlock ex_ksc ex_tables_numlock_always_on.

(** Operating systems. *)
Definition ex_WinXP (tick : Z) : OSView := mkOS tick false true false false.
Definition ex_Win2000 (tick : Z) : OSView := mkOS tick false false true false.

(** Physical key-down and key-up deliveries at the tick of [os]. *)
Definition ex_down (os : OSView) (vk sc : Z) : Delivery :=
  mkDelivery os HC_ACTION WM_KEYDOWN (mkEvent vk sc 0 (GetTickCount os) 0).
Definition ex_up (os : OSView) (vk sc : Z) : Delivery :=
  mkDelivery os HC_ACTION WM_KEYUP (mkEvent vk sc 0 (GetTickCount os) 0).

(** The invariant stated for the physical key table: each neutral entry is
    the disjunction of its two sides. *)
Definition neutral_consistent (s : Engine) : Prop :=
  let p := g_PhysicalKeyState (trk s) in
  p VK_SHIFT = p VK_LSHIFT || p VK_RSHIFT
  /\ p VK_CONTROL = p VK_LCONTROL || p VK_RCONTROL
  /\ p VK_MENU = p VK_LMENU || p VK_RMENU.


(** The disguise flag that belongs to a key: disguise_next_lwin_up for
    VK_LWIN, disguise_next_rwin_up for VK_RWIN, disguise_next_lalt_up for
    VK_LMENU and for the neutral VK_MENU, disguise_next_ralt_up for
    VK_RMENU; no flag for any other key. *)
Definition disguise_flag_for (vk : Z) (s : Engine) : option bool :=
  if vk =? VK_LWIN then Some (disguise_next_lwin_up (dsp s))
  else if vk =? VK_RWIN then Some (disguise_next_rwin_up (dsp s))
  else if (vk =? VK_LMENU) || (vk =? VK_MENU)
       then Some (disguise_next_lalt_up (dsp s))
  else if vk =? VK_RMENU then Some (disguise_next_ralt_up (dsp s))
  else None.

(** The three keystrokes that replace a disguised key-up. *)
Definition disguise_triple (vk sc : Z) : list Sent :=
  [mkSent false VK_SHIFT 0 KEYIGNORE; mkSent true vk sc KEYIGNORE;
   mkSent true VK_SHIFT 0 KEYIGNORE].

(** The engine with disguise_next_lwin_up armed, as after a WIN hotkey. *)
Definition ex_engine_lwin_armed : Engine :=
  on_dsp (set_disguise_next_lwin_up true)
    (on_trk (fun t => set_physical MOD_LWIN (set_logical MOD_LWIN t)) ex_engine0).

(** A key-up the engine sent itself: injected and tagged KEYIGNORE. *)
Definition ex_up_self (os : OSView) (vk sc : Z) : Delivery :=
  mkDelivery os HC_ACTION WM_KEYUP
             (mkEvent vk sc LLKHF_INJECTED (GetTickCount os) KEYIGNORE).

(** The part of a key record that only the builder of the tables writes. *)
Definition key_config (k : key_type) :=
  (used_as_prefix k, used_as_suffix k, as_modifiersLR k, pForceToggle k,
   sc_takes_precedence k, ModifierVK k, ModifierSC k).

(** The configuration together with is_down, which the dispatcher writes
    at one place only. *)
Definition key_static (k : key_type) := (key_config k, is_down k).

(** [settled s s']: between [s] and [s'] the prefix slot, the read-only
    tables, and the configuration and is_down of every key record are
    unchanged. *)
Definition settled (s s' : Engine) : Prop :=
  pPrefixKey (dsp s') = pPrefixKey (dsp s)
  /\ tbl s' = tbl s
  /\ forall r, key_static (deref s' r) = key_static (deref s r).

(** pPrefixKey != NULL *)
Definition prefix_held (s : Engine) : bool :=
  match pPrefixKey (dsp s) with Some _ => true | None => false end.

(** wParam denotes a key-up. *)
Definition is_key_up (wParam : Z) : bool :=
  (wParam =? WM_KEYUP) || (wParam =? WM_SYSKEYUP).

(** The key record LowLevelKeybdProc selects for an event. *)
Definition event_key (s : Engine) (lParam : KBDLLHOOKSTRUCT) : KeyRef :=
  this_key s (vk_of (vkCode lParam)) (normalized_sc s lParam).

(** The entry at which the first for-loop of CASE #4 stops when it runs in
    state [s]: the first entry of pThisKey->ModifierVK[] whose key is
    down; and the same for the second loop and ModifierSC[]. *)
Definition held_modifier_vk (s : Engine) (this : KeyRef) : option modifier_entry :=
  find (fun m => is_down (kvk (dsp s) (mod_key m))) (ModifierVK (deref s this)).

Definition held_modifier_sc (s : Engine) (this : KeyRef) : option modifier_entry :=
  find (fun m => is_down (ksc (dsp s) (mod_key m))) (ModifierSC (deref s this)).

(** pPrefixKey after the two loops, run in state [s].  The second loop
    runs when the first has found no entry, or an entry whose hotkey id
    is HOTKEY_ID_INVALID, and then its entry wins; with no entry at all
    the slot stays as it is. *)
Definition Case4_loops_prefix (s : Engine) (this : KeyRef) : option KeyRef :=
  let by_vk := held_modifier_vk s this in
  let id := match by_vk with
            | Some m => fst (GET_HOTKEY_ID_AND_FLAGS (id_with_flags m))
            | None => HOTKEY_ID_INVALID
            end in
  match (if id =? HOTKEY_ID_INVALID then held_modifier_sc s this else None),
        by_vk with
  | Some m, _ => Some (InKsc (mod_key m))
  | None, Some m => Some (InKvk (mod_key m))
  | None, None => pPrefixKey (dsp s)
  end.

(** How one delivery may move the prefix slot, [this] being the record of
    the event's key: not at all; emptied by the release of the key that
    holds it (CASE #3); taken by the key going down, which is a prefix and,
    if the slot was occupied, not a suffix (CASE #1); or rebound by CASE #4,
    on the key-down of a suffix, to what its two loops find with the
    suffix itself already recorded as down: the first key of the suffix's
    ModifierVK / ModifierSC list that is down. *)
Definition prefix_transition (this : KeyRef) (key_up : bool)
    (s s' : Engine) : Prop :=
  pPrefixKey (dsp s') = pPrefixKey (dsp s)
  \/ (key_up = true /\ pPrefixKey (dsp s) = Some this
      /\ pPrefixKey (dsp s') = None)
  \/ (key_up = false /\ pPrefixKey (dsp s') = Some this
      /\ used_as_prefix (deref s this) = true
      /\ (pPrefixKey (dsp s) = None \/ used_as_suffix (deref s this) = false))
  \/ (key_up = false /\ pPrefixKey (dsp s) <> None
      /\ used_as_suffix (deref s this) = true
      /\ pPrefixKey (dsp s')
         = Case4_loops_prefix (on_key this (set_is_down true) s) this
      /\ ((exists m, In m (ModifierVK (deref s this))
                     /\ pPrefixKey (dsp s') = Some (InKvk (mod_key m))
                     /\ is_down (deref s' (InKvk (mod_key m))) = true)
          \/ (exists m, In m (ModifierSC (deref s this))
                        /\ pPrefixKey (dsp s') = Some (InKsc (mod_key m))
                        /\ is_down (deref s' (InKsc (mod_key m))) = true))).

(** The tables of a script with the three hotkeys "a & b", "b & c" and
    "a & c": a is a prefix, b a prefix and a suffix, c a suffix that lists
    b and then a as its modifier keys. *)
Definition ex_VK_A : Z := 0x41.
Definition ex_VK_B : Z := 0x42.
Definition ex_VK_C : Z := 0x43.

Definition ex_kvk_abc (v : Z) : key_type :=
  if v =? ex_VK_A then
    mkKey true false 0 None false [] [] false false Unused false false
  else if v =? ex_VK_B then
    mkKey true true 0 None false [mkMod ex_VK_A 1] [] false false Unused
          false false
  else if v =? ex_VK_C then
    mkKey false true 0 None false [mkMod ex_VK_B 2; mkMod ex_VK_A 3] []
          false false Unused false false
  else ex_kvk v.

Definition ex_engine_abc : Engine := ex_engine ex_kvk_abc ex_ksc ex_tables.

(** b is held, then a. *)
Definition ex_engine_b_then_a : Engine :=
  snd (run [ex_down (ex_WinXP 100) ex_VK_B 0x30;
            ex_down (ex_WinXP 200) ex_VK_A 0x1E] ex_engine_abc).

(** The tables of a script that uses CapsLock as a prefix key only
    ("CapsLock & a"), with CapsLock left free to toggle. *)
Definition ex_VK_CAPITAL : Z := 0x14.

Definition ex_kvk_caps (v : Z) : key_type :=
  if v =? ex_VK_CAPITAL then
    mkKey true false 0 (Some ForceCapsLock) false [] [] false false Unused
          false false
  else if v =? ex_VK_A then
    mkKey false true 0 None false [mkMod ex_VK_CAPITAL 1] [] false false
          Unused false false
  else ex_kvk v.

Definition ex_engine_caps : Engine := ex_engine ex_kvk_caps ex_ksc ex_tables.

(** CapsLock is held and has modified a key that is no hotkey, so its
    was_just_used is AS_PREFIX. *)
Definition ex_engine_caps_held : Engine :=
  snd (run [ex_down (ex_WinXP 100) ex_VK_CAPITAL 0x3A;
            ex_down (ex_WinXP 200) ex_VK_B 0x30] ex_engine_caps).

(** [respected R os]: the relation [R] is reflexive, transitive and holds
    across every store the hook makes while the operating system looks
    like [os]. *)
Record respected (R : Engine -> Engine -> Prop) (os : OSView) : Prop := {
  r_refl : forall s, R s s;
  r_trans : forall s1 s2 s3, R s1 s2 -> R s2 s3 -> R s1 s3;
  r_trk : forall f s, R s (on_trk f s);
  r_flag : forall b s, R s (on_fix (set_next_phys_shift_down_is_not_phys b) s);
  r_snapshot : forall m a b s, R s (on_fix (set_prior_snapshot m a b) s);
  r_prior_key : forall v c u s, R s (on_fix (set_prior_key v c u) s);
  r_prior_physical : forall b s, R s (on_fix (set_prior_event_was_physical b) s);
  r_prior_tick : forall t s, R s (on_fix (set_prior_event_tickcount t) s);
  r_alt_tab : forall b s, R s (on_dsp (set_alt_tab_menu_is_visible b) s);
  r_lwin : forall b s, R s (on_dsp (set_disguise_next_lwin_up b) s);
  r_rwin : forall b s, R s (on_dsp (set_disguise_next_rwin_up b) s);
  r_lalt : forall b s, R s (on_dsp (set_disguise_next_lalt_up b) s);
  r_ralt : forall b s, R s (on_dsp (set_disguise_next_ralt_up b) s);
  r_prefix : forall p s, R s (on_dsp (set_pPrefixKey p) s);
  r_is_down : forall r b s, R s (on_key r (set_is_down b) s);
  r_performed : forall r b s, R s (on_key r (set_down_performed_action b) s);
  r_just_used : forall r u s, R s (on_key r (set_was_just_used u) s);
  r_alt_down : forall r b s, R s (on_key r (set_it_put_alt_down b) s);
  r_shift_down : forall r b s, R s (on_key r (set_it_put_shift_down b) s);
  r_posted : forall m s, R s (push_posted m s);
  r_sent : forall k s, R s (push_sent k s);
  r_claim : forall vk sc key_up extra s,
      R s (exec (claim_history_slot vk sc key_up extra) s);
  r_tag : forall cur ty s, R s (exec (set_curr_event_type cur ty) s);
  r_pad : forall vk sc key_up s, R s (exec (update_pad_state os vk sc key_up) s)
}.

(** [configured s s']: the read-only tables and the configuration of every
    key record are the same in [s'] as in [s]. *)
Definition configured (s s' : Engine) : Prop :=
  tbl s' = tbl s /\ forall r, key_config (deref s' r) = key_config (deref s r).

(** The ring index of the key history is inside the ring. *)
Definition ring_ok (s : Engine) : Prop :=
  0 <= g_KeyHistoryNext s < MAX_HISTORY_KEYS.

Definition ring_kept (s s' : Engine) : Prop := ring_ok s -> ring_ok s'.

(** A delivery made while Numlock is toggled off. *)
Definition numlock_off (d : Delivery) : Prop := NumLockToggledOn (d_os d) = false.

(** pad_state[] as a whole. *)
Definition pad_of (s : Engine) : nat -> bool := pad_state (fix_ s).

(** A short session: NumpadEnd and the letter a are pressed and released
    while Numlock is off. *)
Definition ex_numlock_off_session : list Delivery :=
  [ex_down (ex_WinXP 100) VK_END 0x4F; ex_up (ex_WinXP 150) VK_END 0x4F;
   ex_down (ex_WinXP 200) ex_VK_A 0x1E; ex_up (ex_WinXP 260) ex_VK_A 0x1E].

(** The Numlock fix, when SuppressThisKeyFunc sends it for the event. *)
Definition numlock_fix_for (lParam : KBDLLHOOKSTRUCT) (key_up : bool) : list Sent :=
  if (vkCode lParam =? VK_NUMLOCK) && negb key_up
     && negb (dwExtraInfo lParam =? KEYIGNORE)
  then numlock_fix else [].

(** The four disguise flags. *)
Definition disguise_flags (s : Engine) : bool * bool * bool * bool :=
  (disguise_next_lwin_up (dsp s), disguise_next_rwin_up (dsp s),
   disguise_next_lalt_up (dsp s), disguise_next_ralt_up (dsp s)).

(** The hook of a script that defines no hotkey, in the state its static
    initialisers give it: no key record is a prefix or a suffix, no key is
    force-toggled, pPrefixKey is NULL and no disguise flag is set. *)
Definition no_hotkeys (s : Engine) : Prop :=
  (forall r, used_as_prefix (deref s r) = false
             /\ used_as_suffix (deref s r) = false)
  /\ (forall vk, toggle_is_forced s (kvk (dsp s) vk) = false)
  /\ pPrefixKey (dsp s) = None
  /\ disguise_flags s = (false, false, false, false).

(** Three keys typed one after the other, then a WIN key held while a
    letter is typed. *)
Definition ex_typing : list Delivery :=
  [ex_down (ex_WinXP 10) ex_VK_A 0x1E; ex_up (ex_WinXP 20) ex_VK_A 0x1E;
   ex_down (ex_WinXP 30) VK_LWIN 0x5B; ex_down (ex_WinXP 40) ex_VK_B 0x30;
   ex_up (ex_WinXP 50) ex_VK_B 0x30; ex_up (ex_WinXP 60) VK_LWIN 0x5B].

(** What the dispatcher reads and writes beside the trackers and the
    disguise flags: the key records, the prefix slot, the tables and the
    two outputs. *)
Definition dispatch_data (s : Engine) :=
  (kvk (dsp s), ksc (dsp s), pPrefixKey (dsp s), tbl s, posted s, sent s).

(** A hotkey id of the script: not HOTKEY_ID_INVALID and none of the
    alt-tab built-ins. *)
Definition script_hotkey (id : Z) : bool :=
  negb (id =? HOTKEY_ID_INVALID)
  && negb (id =? HOTKEY_ID_ALT_TAB)
  && negb (id =? HOTKEY_ID_ALT_TAB_SHIFT)
  && negb (id =? HOTKEY_ID_ALT_TAB_MENU)
  && negb (id =? HOTKEY_ID_ALT_TAB_AND_MENU)
  && negb (id =? HOTKEY_ID_ALT_TAB_MENU_DISMISS).

(** The entry the first loop of CASE #4 stops at: the first entry of the
    suffix's ModifierVK list whose key is down, the suffix itself counting
    as down already (its is_down is set before the loop runs). *)
Definition first_held_modifier (s : Engine) (this : KeyRef)
    : option modifier_entry :=
  find (fun m => is_down (kvk (dsp (on_key this (set_is_down true) s)) (mod_key m)))
       (ModifierVK (deref s this)).

(** The release that follows a key-down: the same key and scan code, the
    same extended flag. *)
Definition same_key (lParam lParam' : KBDLLHOOKSTRUCT) : Prop :=
  vkCode lParam' = vkCode lParam
  /\ scanCode lParam' = scanCode lParam
  /\ Z.land (flags lParam') LLKHF_EXTENDED = Z.land (flags lParam) LLKHF_EXTENDED.

(** The key-ups CASE #3 sends for the ALT and SHIFT keys its prefix put
    down while it operated the alt-tab menu. *)
Definition alt_tab_releases (k : key_type) : list Sent :=
  (if it_put_alt_down k then [mkSent true VK_MENU 0 KEYIGNORE] else [])
  ++ (if it_put_shift_down k then [mkSent true VK_SHIFT 0 KEYIGNORE] else []).

(** A key that is a prefix and nothing else: not a suffix, not a modifier,
    not a toggle key. *)
Definition pure_prefix (k : key_type) : Prop :=
  used_as_prefix k = true /\ used_as_suffix k = false
  /\ as_modifiersLR k = 0 /\ pForceToggle k = None.

(** The tables of a script whose only hotkey is "#a" (id 7), handled by
    the hook: a is a suffix, and the lookup table has one entry, for a
    with the left WIN key down. *)
Definition ex_kvk_win_a (v : Z) : key_type :=
  if v =? ex_VK_A then
    mkKey false true 0 None false [] [] false false Unused false false
  else ex_kvk v.

Definition ex_tables_win_a : Tables :=
  mkTables (fun _ => 0)
           (fun m v => if (m =? MOD_LWIN) && (v =? ex_VK_A) then 7
                       else HOTKEY_ID_INVALID)
           (fun _ _ => HOTKEY_ID_INVALID) (fun _ => NEUTRAL).

Definition ex_engine_win_a : Engine :=
  ex_engine ex_kvk_win_a ex_ksc ex_tables_win_a.

(** The left WIN key is held. *)
Definition ex_engine_win_held : Engine :=
  exec (deliver (ex_down (ex_WinXP 100) VK_LWIN 0x5B)) ex_engine_win_a.

(** What the shift-key workaround remembers of the prior event, apart from
    the flag next_phys_shift_down_is_not_phys. *)
Definition shift_memory (s : Engine) :=
  (pad_state (fix_ s), prior_vk (fix_ s), prior_sc (fix_ s),
   prior_event_was_key_up (fix_ s), prior_event_was_physical (fix_ s),
   prior_event_tickcount (fix_ s), prior_modifiersLR_physical (fix_ s),
   prior_shift_state (fix_ s), prior_lshift_state (fix_ s)).

(** The physical state the workaround saves and restores:
    g_modifiersLR_physical, g_PhysicalKeyState[VK_SHIFT] and
    g_PhysicalKeyState[VK_LSHIFT]. *)
Definition physical_shift (s : Engine) : Z * bool * bool :=
  (g_modifiersLR_physical (trk s), g_PhysicalKeyState (trk s) VK_SHIFT,
   g_PhysicalKeyState (trk s) VK_LSHIFT).

(** The saved copy of [physical_shift]. *)
Definition prior_physical_shift (s : Engine) : Z * bool * bool :=
  (prior_modifiersLR_physical (fix_ s), prior_shift_state (fix_ s),
   prior_lshift_state (fix_ s)).

(** The table index behind a key record is inside its table:
    kvk[0 .. 0xFF], ksc[0 .. 0x1FF]. *)
Definition index_in_range (r : KeyRef) : Prop :=
  match r with
  | InKvk v => 0 <= v <= 0xFF
  | InKsc c => 0 <= c <= 0x1FF
  end.

(** The left SHIFT key held physically and logically. *)
Definition ex_engine_lshift_held : Engine :=
  exec (deliver (ex_down (ex_WinXP 100) VK_LSHIFT 0x2A)) ex_engine0.

(** The key in the prefix slot, if any, is recorded as down and is
    configured as a prefix. *)
Definition holder_ok (s : Engine) : Prop :=
  forall r, pPrefixKey (dsp s) = Some r ->
            is_down (deref s r) = true /\ used_as_prefix (deref s r) = true.

(** Every key listed in a ModifierVK or ModifierSC array is configured as a
    prefix, as the builder of the tables makes it. *)
Definition modifiers_are_prefixes (s : Engine) : Prop :=
  forall r m,
    (In m (ModifierVK (deref s r)) ->
     used_as_prefix (deref s (InKvk (mod_key m))) = true)
    /\ (In m (ModifierSC (deref s r)) ->
        used_as_prefix (deref s (InKsc (mod_key m))) = true).

(** The verdict of CASE #3: what Case3_released does once the keys put
    down for alt-tab have been let go. *)
Definition Case3_verdict (os : OSView) (lParam : KBDLLHOOKSTRUCT) (vk sc : Z)
    (cur : Z) (pThisKey : KeyRef) (was_down_before_up : bool)
    : M (option LRESULT) :=
  s <- get ;;
  if toggle_is_neutral s (deref s pThisKey) then
    if JustUsed_is (was_just_used (deref s pThisKey)) AS_PREFIX_FOR_HOTKEY then
      KeyEvent os KEYUP vk sc ;;
      KeyEvent os KEYDOWN vk sc ;;
      KeyEvent os KEYUP vk sc ;;
      r <- SuppressThisKey KeyEvent os lParam sc true cur ;; ret (Some r)
    else if JustUsed_is (was_just_used (deref s pThisKey)) AS_PREFIX then
      r <- AllowKeyToGoToSystem KeyEvent os lParam sc true cur ;; ret (Some r)
    else Case3_unused KeyEvent os lParam sc true cur pThisKey was_down_before_up
  else if negb (JustUsed_is (was_just_used (deref s pThisKey)) Unused) then
    if nz (as_modifiersLR (deref s pThisKey)) then
      if JustUsed_is (was_just_used (deref s pThisKey)) AS_PREFIX_FOR_HOTKEY then
        r <- AllowKeyToGoToSystemButDisguiseWinAlt KeyEvent os lParam sc true cur ;;
        ret (Some r)
      else
        r <- AllowKeyToGoToSystem KeyEvent os lParam sc true cur ;; ret (Some r)
    else
      r <- SuppressThisKey KeyEvent os lParam sc true cur ;; ret (Some r)
  else Case3_unused KeyEvent os lParam sc true cur pThisKey was_down_before_up.

(** The three keystrokes that toggle a key back: up, down, up. *)
Definition toggle_back (vk sc : Z) : list Sent :=
  [mkSent true vk sc KEYIGNORE; mkSent false vk sc KEYIGNORE;
   mkSent true vk sc KEYIGNORE].

(** CapsLock held in the script "CapsLock & a" after it has fired the
    hotkey. *)
Definition ex_engine_caps_fired : Engine :=
  snd (run [ex_down (ex_WinXP 100) ex_VK_CAPITAL 0x3A;
            ex_down (ex_WinXP 200) ex_VK_A 0x1E;
            ex_up (ex_WinXP 250) ex_VK_A 0x1E] ex_engine_caps).

(** The tables of the script "LWin & a" (id 5): the left WIN key is a
    modifier and a prefix. *)
Definition ex_kvk_lwin_a (v : Z) : key_type :=
  if v =? VK_LWIN then
    mkKey true false MOD_LWIN None false [] [] false false Unused false false
  else if v =? ex_VK_A then
    mkKey false true 0 None false [mkMod VK_LWIN 5] [] false false Unused
          false false
  else ex_kvk v.

(** The left WIN key is held and has fired the hotkey; a is up again. *)
Definition ex_engine_lwin_fired : Engine :=
  snd (run [ex_down (ex_WinXP 100) VK_LWIN 0x5B;
            ex_down (ex_WinXP 200) ex_VK_A 0x1E;
            ex_up (ex_WinXP 250) ex_VK_A 0x1E]
         (ex_engine ex_kvk_lwin_a ex_ksc ex_tables)).

(** The tables of the script "a & b" (id 1), "a" (id 9): a is a prefix
    and a suffix, and its own hotkey is found with no modifier down. *)
Definition ex_kvk_a_ab (v : Z) : key_type :=
  if v =? ex_VK_A then
    mkKey true true 0 None false [] [] false false Unused false false
  else if v =? ex_VK_B then
    mkKey false true 0 None false [mkMod ex_VK_A 1] [] false false Unused
          false false
  else ex_kvk v.

Definition ex_tables_a_ab : Tables :=
  mkTables (fun _ => 0)
           (fun m v => if (m =? 0) && (v =? ex_VK_A) then 9
                       else HOTKEY_ID_INVALID)
           (fun _ _ => HOTKEY_ID_INVALID) (fun _ => NEUTRAL).

(** a is held and has modified nothing. *)
Definition ex_engine_a_held : Engine :=
  exec (deliver (ex_down (ex_WinXP 100) ex_VK_A 0x1E))
       (ex_engine ex_kvk_a_ab ex_ksc ex_tables_a_ab).

(** The SHIFT and CTRL bits of g_modifiersLR_logical. *)
Definition shift_control_mods (s : Engine) : Z :=
  Z.land (logical_mods s)
         (Z.lor (Z.lor MOD_LSHIFT MOD_RSHIFT) (Z.lor MOD_LCONTROL MOD_RCONTROL)).

(** Some ALT, SHIFT or CTRL key is logically down. *)
Definition alt_shift_control_down (s : Engine) : bool :=
  logical_has s MOD_LALT || logical_has s MOD_RALT
  || logical_has s MOD_LSHIFT || logical_has s MOD_RSHIFT
  || logical_has s MOD_LCONTROL || logical_has s MOD_RCONTROL.

(** The tables of the script "b & a::AltTab": b is a prefix only, a is a
    suffix whose one ModifierVK entry carries HOTKEY_ID_ALT_TAB. *)
Definition ex_kvk_alt_tab (v : Z) : key_type :=
  if v =? ex_VK_B then
    mkKey true false 0 None false [] [] false false Unused false false
  else if v =? ex_VK_A then
    mkKey false true 0 None false [mkMod ex_VK_B HOTKEY_ID_ALT_TAB] [] false
          false Unused false false
  else ex_kvk v.

(** That script with b held down. *)
Definition ex_engine_alt_tab_held : Engine :=
  snd (run [ex_down (ex_WinXP 100) ex_VK_B 0x30]
           (ex_engine ex_kvk_alt_tab ex_ksc ex_tables)).

(** The alt-tab actions that take effect only while the alt-tab menu is
    displayed: AltTab, ShiftAltTab and AltTabMenuDismiss. *)
Definition needs_alt_tab_menu (id : Z) : bool :=
  (id =? HOTKEY_ID_ALT_TAB) || (id =? HOTKEY_ID_ALT_TAB_SHIFT)
  || (id =? HOTKEY_ID_ALT_TAB_MENU_DISMISS).

(** alt_tab_menu_is_visible *)
Definition menu_visible (s : Engine) : bool := alt_tab_menu_is_visible (dsp s).

(** The alt-tab actions that display the alt-tab menu when it is not
    displayed: AltTabMenu and AltTabAndMenu. *)
Definition shows_alt_tab_menu (id : Z) : bool :=
  (id =? HOTKEY_ID_ALT_TAB_MENU) || (id =? HOTKEY_ID_ALT_TAB_AND_MENU).

(** The alt-tab actions that dismiss the alt-tab menu when it is
    displayed: AltTabMenu and AltTabMenuDismiss. *)
Definition dismisses_alt_tab_menu (id : Z) : bool :=
  (id =? HOTKEY_ID_ALT_TAB_MENU) || (id =? HOTKEY_ID_ALT_TAB_MENU_DISMISS).

(** which_alt_down ? which_alt_down : VK_MENU, the ALT key released to
    dismiss the menu. *)
Definition alt_key_to_release (s : Engine) : Z :=
  if logical_has s MOD_LALT then VK_LMENU
  else if logical_has s MOD_RALT then VK_RMENU else VK_MENU.

(** The tables of a script whose only hotkey is "a" alone, standing for
    the alt-tab action [id]. *)
Definition ex_tables_alt_tab_key (id : Z) : Tables :=
  mkTables (fun _ => 0)
           (fun m v => if (m =? 0) && (v =? ex_VK_A) then id
                       else HOTKEY_ID_INVALID)
           (fun _ _ => HOTKEY_ID_INVALID) (fun _ => NEUTRAL).

Definition ex_engine_alt_tab_key (id : Z) : Engine :=
  ex_engine ex_kvk_win_a ex_ksc (ex_tables_alt_tab_key id).

(** "a::AltTabMenu" after a has been pressed and released once. *)
Definition ex_engine_menu_shown : Engine :=
  snd (run [ex_down (ex_WinXP 100) ex_VK_A 0x1E;
            ex_up (ex_WinXP 150) ex_VK_A 0x1E]
           (ex_engine_alt_tab_key HOTKEY_ID_ALT_TAB_MENU)).

(** The two things EventIsPhysical writes: the flag
    next_phys_shift_down_is_not_phys and g_TimeLastInputPhysical. *)
Definition physical_marks (s : Engine) : bool * Z :=
  (next_phys_shift_down_is_not_phys (fix_ s), g_TimeLastInputPhysical (trk s)).
(* ================================================================== *)
(** ** Reasoning about computations: lemmas *)
(* ================================================================== *)

Lemma exec_bind {A B} (c : M A) (k : A -> M B) s :
  exec (bind c k) s = exec (k (eval c s)) (exec c s).
Proof. unfold exec, eval, bind. destruct (c s); reflexivity. Qed.

Lemma eval_bind {A B} (c : M A) (k : A -> M B) s :
  eval (bind c k) s = eval (k (eval c s)) (exec c s).
Proof. unfold exec, eval, bind. destruct (c s); reflexivity. Qed.

Lemma run_pair {A} (c : M A) s : c s = (eval c s, exec c s).
Proof. unfold eval, exec. destruct (c s); reflexivity. Qed.

Lemma bind_step {A B} (c : M A) (k : A -> M B) s :
  bind c k s = k (eval c s) (exec c s).
Proof. unfold bind, eval, exec. destruct (c s). reflexivity. Qed.

Section Keeps.

Variable R : Engine -> Engine -> Prop.
Hypothesis R_refl : forall s, R s s.
Hypothesis R_trans : forall s1 s2 s3, R s1 s2 -> R s2 s3 -> R s1 s3.

Lemma keeps_ret {A} (a : A) : keeps R (ret a).
Proof. intro s. apply R_refl. Qed.

Lemma keeps_get : keeps R get.
Proof. intro s. apply R_refl. Qed.

Lemma keeps_bind {A B} (c : M A) (k : A -> M B) :
  keeps R c -> (forall a, keeps R (k a)) -> keeps R (bind c k).
Proof.
  intros Hc Hk s. rewrite exec_bind.
  eapply R_trans; [apply Hc | apply Hk].
Qed.

Lemma keeps_when (b : bool) (c : M unit) : keeps R c -> keeps R (when b c).
Proof. intro Hc. destruct b; simpl; [exact Hc | apply keeps_ret]. Qed.

Lemma keeps_modify (f : Engine -> Engine) :
  (forall s, R s (f s)) -> keeps R (modify f).
Proof. intros Hf s. apply Hf. Qed.

End Keeps.

Lemma returns_ret {A} (a : A) : returns (ret a) a.
Proof. intro s. reflexivity. Qed.

Lemma returns_bind {A B} (c : M A) (k : A -> M B) (v : B) :
  (forall a, returns (k a) v) -> returns (bind c k) v.
Proof. intros Hk s. rewrite eval_bind. apply Hk. Qed.

Lemma same_refl {X} (proj : Engine -> X) s : same proj s s.
Proof. reflexivity. Qed.

Lemma same_trans {X} (proj : Engine -> X) s1 s2 s3 :
  same proj s1 s2 -> same proj s2 s3 -> same proj s1 s3.
Proof. unfold same. congruence. Qed.

Create HintDb hook_frame.

Ltac frame_leaf := reflexivity.
Ltac rel_refl := first [apply same_refl | auto with hook_frame].
Ltac rel_trans := first [apply same_trans | auto with hook_frame].

(** Decomposes a goal [keeps R c] along the structure of [c]; the leaves
    are closed by computation or by the lemmas of [hook_frame]. *)
Ltac frame_step :=
  match goal with
  | |- keeps _ (bind _ _) => apply keeps_bind; [rel_trans | | intro]
  | |- keeps _ (ret _) => apply keeps_ret; rel_refl
  | |- keeps _ get => apply keeps_get; rel_refl
  | |- keeps _ (when _ _) => apply keeps_when; [rel_refl | ]
  | |- keeps _ (modify _) => apply keeps_modify; intro; frame_leaf
  | |- keeps _ (if ?b then _ else _) => destruct b
  | |- keeps _ (match ?x with _ => _ end) => destruct x
  end.

Ltac frame := repeat (first [ solve [auto with hook_frame] | frame_step ]).

(** *** The modifier tracker touches only its own globals *)

Lemma EventIsPhysical_outside os lParam sc key_up :
  keeps (same outside_tracker) (EventIsPhysical os lParam sc key_up).
Proof. unfold EventIsPhysical. cbv zeta. frame. Qed.
#[export] Hint Resolve EventIsPhysical_outside : hook_frame.

Lemma track_modifier_outside os lParam sc key_up sup bit side pair :
  keeps (same outside_tracker)
        (track_modifier os lParam sc key_up sup bit side pair).
Proof.
  unfold track_modifier, logical_clear, logical_set, physical_clear,
    physical_set, phys_key_store, phys_key_copy.
  frame.
Qed.
#[export] Hint Resolve track_modifier_outside : hook_frame.

Lemma UpdateModifierState_outside os lParam sc key_up sup :
  keeps (same outside_tracker) (UpdateModifierState os lParam sc key_up sup).
Proof. unfold UpdateModifierState. cbv zeta. frame. Qed.
#[export] Hint Resolve UpdateModifierState_outside : hook_frame.

Lemma UpdateKeyState_outside os lParam sc key_up sup :
  keeps (same outside_tracker) (UpdateKeyState os lParam sc key_up sup).
Proof. unfold UpdateKeyState, phys_key_store. cbv zeta. frame. Qed.
#[export] Hint Resolve UpdateKeyState_outside : hook_frame.

(* ================================================================== *)
(** ** EventClassifier: the driver shift-key workaround *)
(* ================================================================== *)

Lemma EventIsPhysical_logical os lParam sc key_up :
  keeps (same logical_mods) (EventIsPhysical os lParam sc key_up).
Proof. unfold EventIsPhysical. cbv zeta. frame. Qed.
#[export] Hint Resolve EventIsPhysical_logical : hook_frame.

Lemma EventIsPhysical_not_injected os lParam sc key_up s :
  injected lParam = false ->
  EventIsPhysical os lParam sc key_up s =
  if ((vkCode lParam =? VK_LSHIFT) || (vkCode lParam =? VK_SHIFT)) && negb key_up
  then if next_phys_shift_down_is_not_phys (fix_ s)
          && negb (DualStateNumpadKeyIsDown s)
       then (false, on_fix (set_next_phys_shift_down_is_not_phys false) s)
       else if prior_was_recent_numpad_up os s then (false, s)
       else (true, on_trk (set_TimeLastInputPhysical (time lParam)) s)
  else (true, on_trk (set_TimeLastInputPhysical (time lParam)) s).
Proof.
  intro Hinj. unfold EventIsPhysical. rewrite Hinj. cbv zeta.
  destruct (((vkCode lParam =? VK_LSHIFT) || (vkCode lParam =? VK_SHIFT))
            && negb key_up); [ | reflexivity].
  unfold bind, get.
  destruct (next_phys_shift_down_is_not_phys (fix_ s)
            && negb (DualStateNumpadKeyIsDown s)); [reflexivity | ].
  destruct (prior_was_recent_numpad_up os s); reflexivity.
Qed.

Lemma shift_down_iff lParam key_up :
  ((vkCode lParam =? VK_LSHIFT) || (vkCode lParam =? VK_SHIFT)) && negb key_up
  = true
  <-> (vkCode lParam = VK_LSHIFT \/ vkCode lParam = VK_SHIFT) /\ key_up = false.
Proof.
  rewrite andb_true_iff, orb_true_iff, negb_true_iff, !Z.eqb_eq. tauto.
Qed.

Lemma phantom_armed_iff s :
  next_phys_shift_down_is_not_phys (fix_ s) && negb (DualStateNumpadKeyIsDown s)
  = true
  <-> next_phys_shift_down_is_not_phys (fix_ s) = true
      /\ DualStateNumpadKeyIsDown s = false.
Proof. rewrite andb_true_iff, negb_true_iff. tauto. Qed.

Lemma prior_was_recent_numpad_up_iff os s :
  prior_was_recent_numpad_up os s = true
  <-> prior_event_was_key_up (fix_ s) = true
      /\ IsDualStateNumpadKey (prior_vk (fix_ s)) (prior_sc (fix_ s)) = true
      /\ DWORD (GetTickCount os - prior_event_tickcount (fix_ s)) < 22.
Proof.
  unfold prior_was_recent_numpad_up.
  rewrite !andb_true_iff, Z.ltb_lt.
  change (DWORD SHIFT_KEY_WORKAROUND_TIMEOUT) with 22. tauto.
Qed.

(** C1.  For a non-injected keyboard event, [EventIsPhysical] answers
    "not physical" exactly when the event is a key-down of VK_LSHIFT or
    VK_SHIFT and either the flag next_phys_shift_down_is_not_phys is armed
    while no slot of pad_state is set, or the prior event was a key-up of
    a dual-state numpad key whose tick count lies less than 22 ms (in
    32-bit tick arithmetic) before the current one.  In the first case the
    flag is cleared by the call, in every other case it is left as it was;
    in particular a VK_RSHIFT event is always physical. *)
Theorem C1_shift_down_classification :
  forall os lParam sc key_up s,
    injected lParam = false ->
    let phantom_armed :=
      next_phys_shift_down_is_not_phys (fix_ s) = true
      /\ DualStateNumpadKeyIsDown s = false in
    let numpad_up_just_before :=
      prior_event_was_key_up (fix_ s) = true
      /\ IsDualStateNumpadKey (prior_vk (fix_ s)) (prior_sc (fix_ s)) = true
      /\ DWORD (GetTickCount os - prior_event_tickcount (fix_ s)) < 22 in
    let shift_down :=
      (vkCode lParam = VK_LSHIFT \/ vkCode lParam = VK_SHIFT)
      /\ key_up = false in
    let s' := exec (EventIsPhysical os lParam sc key_up) s in
    (eval (EventIsPhysical os lParam sc key_up) s = false
       <-> shift_down /\ (phantom_armed \/ numpad_up_just_before))
    /\ (eval (EventIsPhysical os lParam sc key_up) s = true
       <-> ~ (shift_down /\ (phantom_armed \/ numpad_up_just_before)))
    /\ (shift_down -> phantom_armed ->
        next_phys_shift_down_is_not_phys (fix_ s') = false)
    /\ (~ (shift_down /\ phantom_armed) ->
        next_phys_shift_down_is_not_phys (fix_ s')
        = next_phys_shift_down_is_not_phys (fix_ s))
    /\ (vkCode lParam = VK_RSHIFT ->
        eval (EventIsPhysical os lParam sc key_up) s = true).
Proof.
  intros os lParam sc key_up s Hinj. cbv zeta. unfold eval, exec.
  rewrite (EventIsPhysical_not_injected os lParam sc key_up s Hinj).
  pose proof (shift_down_iff lParam key_up) as H1.
  pose proof (phantom_armed_iff s) as H2.
  pose proof (prior_was_recent_numpad_up_iff os s) as H3.
  assert (HR : vkCode lParam = VK_RSHIFT ->
               ~ (vkCode lParam = VK_LSHIFT \/ vkCode lParam = VK_SHIFT)).
  { intros E [F | F]; rewrite E in F; discriminate F. }
  destruct (((vkCode lParam =? VK_LSHIFT) || (vkCode lParam =? VK_SHIFT))
            && negb key_up);
  destruct (next_phys_shift_down_is_not_phys (fix_ s)
            && negb (DualStateNumpadKeyIsDown s));
  destruct (prior_was_recent_numpad_up os s);
  cbn [fst snd on_fix on_trk fix_
       set_next_phys_shift_down_is_not_phys next_phys_shift_down_is_not_phys];
  intuition (try congruence).
Qed.

(** A run that meets the hypothesis of C1: a physical left-shift key-down
    arriving 5 ms after the release of NumpadEnd. *)
Lemma C1_shift_down_classification_witness :
  injected (mkEvent VK_LSHIFT 0x2A 0 1005 0) = false
  /\ eval (EventIsPhysical (mkOS 1005 true true false false)
             (mkEvent VK_LSHIFT 0x2A 0 1005 0) 0x2A false)
          (ex_engine_after_numpad_up 1000) = false.
Proof.
  split; [reflexivity | ].
  destruct (C1_shift_down_classification
              (mkOS 1005 true true false false)
              (mkEvent VK_LSHIFT 0x2A 0 1005 0) 0x2A false
              (ex_engine_after_numpad_up 1000) eq_refl) as [[_ H] _].
  apply H. split.
  - split; [left; reflexivity | reflexivity].
  - right. repeat split; vm_compute; reflexivity.
Defined.

(* ================================================================== *)
(** ** Keystrokes the engine sends to itself *)
(* ================================================================== *)

Lemma outside_to_core {A} (c : M A) :
  keeps (same outside_tracker) c -> keeps (same hook_core) c.
Proof.
  intros H s. specialize (H s). unfold same, outside_tracker, hook_core in *.
  injection H as H1 H2 H3 H4 H5 H6. congruence.
Qed.

Lemma outside_to_sent {A} (c : M A) :
  keeps (same outside_tracker) c -> keeps (same sent) c.
Proof.
  intros H s. specialize (H s). unfold same, outside_tracker in *.
  injection H as H1 H2 H3 H4 H5 H6. congruence.
Qed.


Lemma UpdateKeyState_core os lParam sc key_up sup :
  keeps (same hook_core) (UpdateKeyState os lParam sc key_up sup).
Proof. apply outside_to_core; auto with hook_frame. Qed.
Lemma UpdateKeyState_sent os lParam sc key_up sup :
  keeps (same sent) (UpdateKeyState os lParam sc key_up sup).
Proof. apply outside_to_sent; auto with hook_frame. Qed.
Lemma EventIsPhysical_core os lParam sc key_up :
  keeps (same hook_core) (EventIsPhysical os lParam sc key_up).
Proof. apply outside_to_core; auto with hook_frame. Qed.
Lemma EventIsPhysical_sent os lParam sc key_up :
  keeps (same sent) (EventIsPhysical os lParam sc key_up).
Proof. apply outside_to_sent; auto with hook_frame. Qed.
#[export] Hint Resolve UpdateKeyState_core UpdateKeyState_sent
  EventIsPhysical_core EventIsPhysical_sent : hook_frame.

Section IgnoredPath.

Variable K : OSView -> KeyEventTypes -> Z -> Z -> M unit.
Variable X : Type.
Variable proj : Engine -> X.

(** The projections this section is used at are untouched by the tracker,
    by the history ring, by pad_state and by alt_tab_menu_is_visible. *)
Hypothesis proj_fix : forall f s, proj (on_fix f s) = proj s.
Hypothesis proj_trk : forall f s, proj (on_trk f s) = proj s.
Hypothesis proj_hist : forall h n s, proj (set_history h n s) = proj s.
Hypothesis proj_alt_tab :
  forall b s, proj (on_dsp (set_alt_tab_menu_is_visible b) s) = proj s.
Hypothesis proj_tracker :
  forall A (c : M A), keeps (same outside_tracker) c -> keeps (same proj) c.

Lemma AllowIt_ignored_keeps os lParam sc key_up cur :
  dwExtraInfo lParam = KEYIGNORE ->
  keeps (same proj) (AllowIt K os lParam sc key_up cur false).
Proof.
  intro H. unfold AllowIt. rewrite H, Z.eqb_refl. cbn [negb andb].
  unfold phys_key_store.
  repeat (first
    [ solve [apply proj_tracker; auto with hook_frame]
    | match goal with
      | |- keeps _ (modify _) =>
          apply keeps_modify; intro;
          first [apply proj_fix | apply proj_trk | apply proj_alt_tab]
      end
    | frame_step ]).
Qed.

Lemma LowLevelKeybdProc_ignored_keeps os code wParam lParam :
  dwExtraInfo lParam = KEYIGNORE ->
  keeps (same proj) (LowLevelKeybdProc K os code wParam lParam).
Proof.
  intro H. unfold LowLevelKeybdProc, AllowKeyToGoToSystem.
  rewrite H, Z.eqb_refl. cbv zeta.
  unfold bookkeeping, claim_history_slot, update_pad_state,
    AltTabMenuHeuristic, track_plain_key, phys_key_store.
  repeat (first
    [ solve [apply proj_tracker; auto with hook_frame]
    | solve [apply AllowIt_ignored_keeps; assumption]
    | match goal with
      | |- keeps _ (modify _) =>
          apply keeps_modify; intro;
          first [apply proj_fix | apply proj_trk | apply proj_alt_tab
                | apply proj_hist]
      end
    | frame_step ]).
Qed.

End IgnoredPath.

(** While the hook handles a KEYIGNORE event it sends nothing, whatever
    KeyEvent it is given: the recursion through KeyEvent has depth one. *)
Lemma LowLevelKeybdProc_ignored_sends_nothing K os code wParam lParam s :
  dwExtraInfo lParam = KEYIGNORE ->
  sent (exec (LowLevelKeybdProc K os code wParam lParam) s) = sent s.
Proof.
  intro H.
  apply (LowLevelKeybdProc_ignored_keeps K _ sent); try reflexivity; try assumption.
  intros A c. apply outside_to_sent.
Qed.

Lemma LowLevelKeybdProc_ignored_core K os code wParam lParam s :
  dwExtraInfo lParam = KEYIGNORE ->
  hook_core (exec (LowLevelKeybdProc K os code wParam lParam) s) = hook_core s.
Proof.
  intro H.
  apply (LowLevelKeybdProc_ignored_keeps K _ hook_core); try reflexivity; try assumption.
  intros A c. apply outside_to_core.
Qed.

Lemma send_one_sent os up vk sc s :
  sent (exec (send_one os up vk sc) s) = sent s ++ [mkSent up vk sc KEYIGNORE].
Proof.
  unfold send_one. rewrite !exec_bind.
  change (exec (ret tt) ?x) with x.
  rewrite LowLevelKeybdProc_ignored_sends_nothing by reflexivity.
  reflexivity.
Qed.

Lemma send_one_core os up vk sc : keeps (same hook_core) (send_one os up vk sc).
Proof.
  intro s. unfold same, send_one. rewrite !exec_bind.
  change (exec (ret tt) ?x) with x.
  rewrite LowLevelKeybdProc_ignored_core by reflexivity.
  reflexivity.
Qed.

Lemma KeyEvent_sent os ty vk sc s :
  sent (exec (KeyEvent os ty vk sc) s) = sent s ++ keystrokes ty vk sc.
Proof.
  destruct ty; cbn [KeyEvent keystrokes]; rewrite ?exec_bind, ?send_one_sent;
    try reflexivity.
  rewrite <- app_assoc. reflexivity.
Qed.

Lemma KeyEvent_core os ty vk sc : keeps (same hook_core) (KeyEvent os ty vk sc).
Proof.
  destruct ty; cbn [KeyEvent]; try apply send_one_core.
  apply keeps_bind; [apply same_trans | apply send_one_core | intro; apply send_one_core].
Qed.
#[export] Hint Resolve KeyEvent_core : hook_frame.

(* ================================================================== *)
(** ** SuppressThisKeyFunc and AllowIt *)
(* ================================================================== *)

Lemma SuppressThisKeyFunc_returns K os lParam sc key_up cur :
  returns (SuppressThisKeyFunc K os lParam sc key_up cur) Suppressed.
Proof.
  unfold SuppressThisKeyFunc.
  repeat (apply returns_bind; intro). apply returns_ret.
Qed.

Lemma set_curr_event_type_core cur ty :
  keeps (same hook_core) (set_curr_event_type cur ty).
Proof. unfold set_curr_event_type. frame. Qed.
Lemma set_curr_event_type_sent cur ty :
  keeps (same sent) (set_curr_event_type cur ty).
Proof. unfold set_curr_event_type. frame. Qed.
#[export] Hint Resolve set_curr_event_type_core set_curr_event_type_sent
  : hook_frame.

Lemma SuppressThisKeyFunc_core os lParam sc key_up cur :
  keeps (same hook_core) (SuppressThisKeyFunc KeyEvent os lParam sc key_up cur).
Proof. unfold SuppressThisKeyFunc. frame. Qed.
#[export] Hint Resolve SuppressThisKeyFunc_core : hook_frame.

(** The condition under which SuppressThisKeyFunc sends the Numlock fix. *)
Lemma SuppressThisKeyFunc_sent os lParam sc key_up cur s :
  sent (exec (SuppressThisKeyFunc KeyEvent os lParam sc key_up cur) s)
  = sent s ++
    (if (vkCode lParam =? VK_NUMLOCK) && negb key_up
        && negb (dwExtraInfo lParam =? KEYIGNORE)
     then numlock_fix else []).
Proof.
  unfold SuppressThisKeyFunc.
  rewrite exec_bind. change (exec get s) with s. change (eval get s) with s.
  rewrite exec_bind.
  set (s1 := exec (when _ _) s).
  assert (H1 : sent s1 = sent s).
  { subst s1. apply (keeps_when (same sent)); [apply same_refl | ].
    apply set_curr_event_type_sent. }
  rewrite exec_bind. rewrite exec_bind.
  change (exec (ret Suppressed) ?x) with x.
  rewrite UpdateKeyState_sent.
  destruct ((vkCode lParam =? VK_NUMLOCK) && negb key_up
            && negb (dwExtraInfo lParam =? KEYIGNORE)).
  - cbn [when]. rewrite !exec_bind, !KeyEvent_sent, H1.
    cbn [keystrokes]. rewrite <- !app_assoc. reflexivity.
  - cbn [when]. change (exec (ret tt) s1) with s1. rewrite H1, app_nil_r.
    reflexivity.
Qed.

(** C5.  Suppressing a NUMLOCK key-down that does not carry KEYIGNORE makes
    the engine send exactly four NUMLOCK keystrokes, UP, DOWN, UP, DOWN,
    each tagged KEYIGNORE; suppressing a NUMLOCK key-up, or a NUMLOCK event
    tagged KEYIGNORE, sends nothing.  In both cases the verdict is
    "suppressed". *)
Theorem C5_numlock_suppression_fix :
  forall os sc scan fl tm extra key_up cur s,
    let lParam := mkEvent VK_NUMLOCK scan fl tm extra in
    let s' := exec (SuppressThisKeyFunc KeyEvent os lParam sc key_up cur) s in
    eval (SuppressThisKeyFunc KeyEvent os lParam sc key_up cur) s = Suppressed
    /\ sent s' =
       sent s ++
       (if negb key_up && negb (extra =? KEYIGNORE)
        then [mkSent true VK_NUMLOCK 0 KEYIGNORE;
              mkSent false VK_NUMLOCK 0 KEYIGNORE;
              mkSent true VK_NUMLOCK 0 KEYIGNORE;
              mkSent false VK_NUMLOCK 0 KEYIGNORE]
        else []).
Proof.
  intros. subst lParam s'. split.
  - apply SuppressThisKeyFunc_returns.
  - rewrite SuppressThisKeyFunc_sent. reflexivity.
Qed.

(** AllowIt without a forced toggle and without a disguise request lets
    the event through. *)
Lemma AllowIt_plain_returns K os lParam sc key_up cur s :
  negb (dwExtraInfo lParam =? KEYIGNORE)
  && toggle_is_forced s (kvk (dsp s) (vk_of (vkCode lParam))) = false ->
  eval (AllowIt K os lParam sc key_up cur false) s = PassedOn.
Proof.
  intro H. unfold AllowIt. rewrite eval_bind.
  change (eval get s) with s. change (exec get s) with s. rewrite H.
  cbn [andb].
  repeat (rewrite eval_bind;
          match goal with |- eval ?c ?x = _ => generalize x end; intro).
  match goal with |- eval (if ?b then _ else _) _ = _ => destruct b end.
  - reflexivity.
  - rewrite eval_bind. reflexivity.
Qed.

Lemma AllowIt_forced_returns K os lParam sc key_up cur disguise s :
  negb (dwExtraInfo lParam =? KEYIGNORE)
  && toggle_is_forced s (kvk (dsp s) (vk_of (vkCode lParam))) = true ->
  eval (AllowIt K os lParam sc key_up cur disguise) s = Suppressed.
Proof.
  intro H. unfold AllowIt. rewrite eval_bind.
  change (eval get s) with s. change (exec get s) with s. rewrite H.
  apply SuppressThisKeyFunc_returns.
Qed.

(** C10.  For an event that does not carry KEYIGNORE and whose key record
    kvk[vkCode] has a non-NULL pForceToggle pointing to a value other than
    NEUTRAL, AllowIt returns "suppressed", for key-downs and key-ups, with
    or without a disguise request. *)
Theorem C10_forced_toggle_is_suppressed_by_AllowIt :
  forall os lParam sc key_up cur DisguiseWinAlt s h,
    dwExtraInfo lParam <> KEYIGNORE ->
    pForceToggle (kvk (dsp s) (vk_of (vkCode lParam))) = Some h ->
    toggle_value s h <> NEUTRAL ->
    eval (AllowIt KeyEvent os lParam sc key_up cur DisguiseWinAlt) s = Suppressed.
Proof.
  intros os lParam sc key_up cur d s h Hx Hp Hv.
  apply AllowIt_forced_returns.
  apply andb_true_iff. split.
  - apply negb_true_iff. apply Z.eqb_neq. exact Hx.
  - unfold toggle_is_forced. rewrite Hp.
    destruct (toggle_value s h); try reflexivity. congruence.
Qed.

(** With aIsSuppressed = true every store to g_modifiersLR_logical is
    guarded off, in UpdateModifierState and in UpdateKeyState, through
    which the suppressing path reaches it. *)
Lemma suppressed_update_logical os lParam sc key_up :
  keeps (same logical_mods) (UpdateModifierState os lParam sc key_up true)
  /\ keeps (same logical_mods) (UpdateKeyState os lParam sc key_up true).
Proof.
  assert (HT : forall bit side pair,
             keeps (same logical_mods)
                   (track_modifier os lParam sc key_up true bit side pair)).
  { intros. unfold track_modifier, physical_clear, physical_set,
      phys_key_store, phys_key_copy. cbn [negb when]. frame. }
  assert (HU : keeps (same logical_mods)
                     (UpdateModifierState os lParam sc key_up true)).
  { unfold UpdateModifierState. cbv zeta.
    repeat first [ apply HT | frame_step ]. }
  split; [exact HU | ].
  unfold UpdateKeyState, phys_key_store. cbv zeta.
  repeat first [ apply HU | solve [auto with hook_frame] | frame_step ].
Qed.

(** A run that meets the hypotheses of C10: a physical Numlock key-down
    while the script forces Numlock always on. *)
Lemma C10_forced_toggle_is_suppressed_by_AllowIt_witness :
  dwExtraInfo (mkEvent VK_NUMLOCK 0x45 0 10 0) <> KEYIGNORE
  /\ eval (AllowIt KeyEvent (ex_WinXP 10) (mkEvent VK_NUMLOCK 0x45 0 10 0)
             0x45 false 0 false) ex_engine_numlock_forced = Suppressed.
Proof.
  assert (Hx : dwExtraInfo (mkEvent VK_NUMLOCK 0x45 0 10 0) <> KEYIGNORE)
    by (vm_compute; discriminate).
  split; [exact Hx | ].
  apply (C10_forced_toggle_is_suppressed_by_AllowIt
           (ex_WinXP 10) (mkEvent VK_NUMLOCK 0x45 0 10 0) 0x45 false 0 false
           ex_engine_numlock_forced ForceNumLock Hx eq_refl).
  vm_compute. discriminate.
Defined.

(* ================================================================== *)
(** ** The alt-tab heuristic *)
(* ================================================================== *)

Lemma nz_true_iff x : nz x = true <-> x <> 0.
Proof. unfold nz. rewrite negb_true_iff, Z.eqb_neq. tauto. Qed.




(* ================================================================== *)
(** ** Lock-out recovery in AllowIt *)
(* ================================================================== *)

Lemma exec_get s : exec get s = s.
Proof. reflexivity. Qed.
Lemma eval_get s : eval get s = s.
Proof. reflexivity. Qed.
Lemma exec_ret {A} (a : A) s : exec (ret a) s = s.
Proof. reflexivity. Qed.
Lemma eval_ret {A} (a : A) s : eval (ret a) s = a.
Proof. reflexivity. Qed.
Lemma exec_modify f s : exec (modify f) s = f s.
Proof. reflexivity. Qed.

(** C9, at the failing input.  On Windows XP, with both WIN keys held and
    nothing else, an 'L' key-down passes through and the engine resets
    nothing: both masks still hold LWIN and RWIN and the three keys are
    still recorded as physically down.  The third alternative of the test
    in AllowIt reads MOD_RWIN | MOD_RWIN, which is MOD_RWIN. *)
Lemma C9_win_L_with_both_win_keys_resets_nothing :
  let r := run [ex_down (ex_WinXP 100) VK_LWIN 0x5B;
                ex_down (ex_WinXP 200) VK_RWIN 0x5C;
                ex_down (ex_WinXP 300) VK_L 0x26] ex_engine0 in
  fst r = [PassedOn; PassedOn; PassedOn]
  /\ g_modifiersLR_logical (trk (snd r)) = Z.lor MOD_LWIN MOD_RWIN
  /\ g_modifiersLR_physical (trk (snd r)) = Z.lor MOD_LWIN MOD_RWIN
  /\ g_PhysicalKeyState (trk (snd r)) VK_L = true
  /\ g_PhysicalKeyState (trk (snd r)) VK_LWIN = true
  /\ g_PhysicalKeyState (trk (snd r)) VK_RWIN = true
  /\ Z.lor MOD_RWIN MOD_RWIN = MOD_RWIN.
Proof. vm_compute. repeat split. Qed.

(** With one WIN key held the same key-down does reset the engine. *)
Lemma win_L_with_one_win_key_resets :
  let l := run [ex_down (ex_WinXP 100) VK_LWIN 0x5B;
                ex_down (ex_WinXP 300) VK_L 0x26] ex_engine0 in
  let r := run [ex_down (ex_WinXP 100) VK_RWIN 0x5C;
                ex_down (ex_WinXP 300) VK_L 0x26] ex_engine0 in
  (fst l = [PassedOn; PassedOn]
   /\ g_modifiersLR_logical (trk (snd l)) = 0
   /\ g_modifiersLR_physical (trk (snd l)) = 0
   /\ g_PhysicalKeyState (trk (snd l)) VK_L = false
   /\ g_PhysicalKeyState (trk (snd l)) VK_LWIN = false)
  /\ (fst r = [PassedOn; PassedOn]
      /\ g_modifiersLR_logical (trk (snd r)) = 0
      /\ g_modifiersLR_physical (trk (snd r)) = 0
      /\ g_PhysicalKeyState (trk (snd r)) VK_L = false
      /\ g_PhysicalKeyState (trk (snd r)) VK_RWIN = false).
Proof. vm_compute. repeat split. Qed.

(* ================================================================== *)
(** ** The neutral entries of the physical key table *)
(* ================================================================== *)

Lemma EventIsPhysical_key_table os lParam sc key_up :
  keeps (same (fun s => g_PhysicalKeyState (trk s)))
        (EventIsPhysical os lParam sc key_up).
Proof. unfold EventIsPhysical. cbv zeta. frame. Qed.

(** The body shared by the cases of UpdateModifierState keeps a pair
    consistent when it is that pair's own case ... *)
Lemma track_modifier_own_pair os lParam sc key_up sup bit side neutral other s :
  side <> neutral -> side <> other -> neutral <> other ->
  let p := g_PhysicalKeyState (trk s) in
  let p' := g_PhysicalKeyState
              (trk (exec (track_modifier os lParam sc key_up sup bit side
                                         (Some (neutral, other))) s)) in
  p neutral = p side || p other ->
  p' neutral = p' side || p' other.
Proof.
  intros Hsn Hso Hno. cbv zeta. intro H.
  unfold track_modifier, logical_clear, logical_set, physical_clear,
    physical_set, phys_key_store, phys_key_copy.
  destruct key_up.
  - rewrite exec_bind. set (s1 := exec (when _ _) s).
    assert (H1 : g_PhysicalKeyState (trk s1) = g_PhysicalKeyState (trk s)).
    { subst s1. destruct sup; reflexivity. }
    rewrite exec_bind. set (s2 := exec (EventIsPhysical _ _ _ _) s1).
    assert (H2 : g_PhysicalKeyState (trk s2) = g_PhysicalKeyState (trk s)).
    { subst s2. rewrite <- H1. apply EventIsPhysical_key_table. }
    destruct (eval (EventIsPhysical os lParam sc true) s1); cbn [when].
    + rewrite !exec_bind, !exec_modify. cbn [trk on_trk g_PhysicalKeyState
        set_PhysicalKeyState set_physical].
      rewrite H2. unfold upd.
      rewrite Z.eqb_refl.
      destruct (Z.eqb_spec side neutral); [contradiction | ].
      destruct (Z.eqb_spec other neutral); [congruence | ].
      destruct (Z.eqb_spec other side); [congruence | ].
      rewrite Z.eqb_refl. reflexivity.
    + rewrite exec_ret, H2. exact H.
  - rewrite exec_bind. set (s1 := exec (when _ _) s).
    assert (H1 : g_PhysicalKeyState (trk s1) = g_PhysicalKeyState (trk s)).
    { subst s1. destruct sup; reflexivity. }
    rewrite exec_bind. set (s2 := exec (EventIsPhysical _ _ _ _) s1).
    assert (H2 : g_PhysicalKeyState (trk s2) = g_PhysicalKeyState (trk s)).
    { subst s2. rewrite <- H1. apply EventIsPhysical_key_table. }
    destruct (eval (EventIsPhysical os lParam sc false) s1); cbn [when].
    + rewrite !exec_bind, !exec_modify. cbn [trk on_trk g_PhysicalKeyState
        set_PhysicalKeyState set_physical].
      unfold upd.
      rewrite Z.eqb_refl.
      destruct (Z.eqb_spec neutral side); [congruence | ].
      rewrite Z.eqb_refl. reflexivity.
    + rewrite exec_ret, H2. exact H.
Qed.

(** ... and leaves every other key of the table alone. *)
Lemma track_modifier_other_keys os lParam sc key_up sup bit side pair s k :
  k <> side ->
  match pair with Some (neutral, _) => k <> neutral | None => True end ->
  g_PhysicalKeyState
    (trk (exec (track_modifier os lParam sc key_up sup bit side pair) s)) k
  = g_PhysicalKeyState (trk s) k.
Proof.
  intros Hks Hkn.
  unfold track_modifier, logical_clear, logical_set, physical_clear,
    physical_set, phys_key_store, phys_key_copy.
  destruct key_up.
  - rewrite exec_bind. set (s1 := exec (when _ _) s).
    assert (H1 : g_PhysicalKeyState (trk s1) = g_PhysicalKeyState (trk s)).
    { subst s1. destruct sup; reflexivity. }
    rewrite exec_bind. set (s2 := exec (EventIsPhysical _ _ _ _) s1).
    assert (H2 : g_PhysicalKeyState (trk s2) = g_PhysicalKeyState (trk s)).
    { subst s2. rewrite <- H1. apply EventIsPhysical_key_table. }
    destruct (eval (EventIsPhysical os lParam sc true) s1); cbn [when].
    + destruct pair as [[neutral other] | ];
        rewrite !exec_bind, ?exec_ret, !exec_modify;
        cbn [trk on_trk g_PhysicalKeyState set_PhysicalKeyState set_physical];
        rewrite H2; unfold upd;
        repeat match goal with
               | |- context [k =? ?x] =>
                   destruct (Z.eqb_spec k x); [congruence | ]
               end; reflexivity.
    + rewrite exec_ret, H2. reflexivity.
  - rewrite exec_bind. set (s1 := exec (when _ _) s).
    assert (H1 : g_PhysicalKeyState (trk s1) = g_PhysicalKeyState (trk s)).
    { subst s1. destruct sup; reflexivity. }
    rewrite exec_bind. set (s2 := exec (EventIsPhysical _ _ _ _) s1).
    assert (H2 : g_PhysicalKeyState (trk s2) = g_PhysicalKeyState (trk s)).
    { subst s2. rewrite <- H1. apply EventIsPhysical_key_table. }
    destruct (eval (EventIsPhysical os lParam sc false) s1); cbn [when].
    + destruct pair as [[neutral other] | ];
        rewrite !exec_bind, ?exec_ret, !exec_modify;
        cbn [trk on_trk g_PhysicalKeyState set_PhysicalKeyState set_physical];
        rewrite ?H2; unfold upd;
        repeat match goal with
               | |- context [k =? ?x] =>
                   destruct (Z.eqb_spec k x); [congruence | ]
               end; rewrite ?H2; reflexivity.
    + rewrite exec_ret, H2. reflexivity.
Qed.

(** A pair of the table none of whose three keys the case writes. *)
Lemma track_modifier_other_pair os lParam sc key_up sup bit side pair s n l r :
  n <> side -> l <> side -> r <> side ->
  match pair with
  | Some (neutral, _) => n <> neutral /\ l <> neutral /\ r <> neutral
  | None => True
  end ->
  let p := g_PhysicalKeyState (trk s) in
  let p' := g_PhysicalKeyState
              (trk (exec (track_modifier os lParam sc key_up sup bit side pair) s)) in
  p n = p l || p r -> p' n = p' l || p' r.
Proof.
  intros Hn Hl Hr Hp. cbv zeta. intro H.
  rewrite (track_modifier_other_keys os lParam sc key_up sup bit side pair s n Hn),
    (track_modifier_other_keys os lParam sc key_up sup bit side pair s l Hl),
    (track_modifier_other_keys os lParam sc key_up sup bit side pair s r Hr).
  - exact H.
  - destruct pair as [[? ?] | ]; [apply Hp | exact I].
  - destruct pair as [[? ?] | ]; [apply Hp | exact I].
  - destruct pair as [[? ?] | ]; [apply Hp | exact I].
Qed.

(** The own pair, with the sides named in the other order. *)
Lemma track_modifier_own_pair_right os lParam sc key_up sup bit side neutral other s :
  side <> neutral -> side <> other -> neutral <> other ->
  let p := g_PhysicalKeyState (trk s) in
  let p' := g_PhysicalKeyState
              (trk (exec (track_modifier os lParam sc key_up sup bit side
                                         (Some (neutral, other))) s)) in
  p neutral = p other || p side ->
  p' neutral = p' other || p' side.
Proof.
  intros H1 H2 H3. cbv zeta. intro H4.
  rewrite orb_comm. apply track_modifier_own_pair; try assumption.
  rewrite orb_comm. exact H4.
Qed.

(** Closes the three conjuncts of [neutral_consistent] after one case of
    the switch. *)
Ltac neutral_case HS HC HM :=
  split; [ | split];
  first
    [ apply track_modifier_own_pair; [discriminate .. | assumption]
    | apply track_modifier_own_pair_right; [discriminate .. | assumption]
    | apply track_modifier_other_pair;
      [ discriminate | discriminate | discriminate
      | first [exact I | repeat split; discriminate]
      | assumption ] ].

(** The same for a case that has no neutral key (LWIN, RWIN). *)
Ltac neutral_untouched :=
  split; [ | split];
  (apply track_modifier_other_pair;
   [ discriminate | discriminate | discriminate | exact I | assumption ]).

(** UpdateModifierState keeps every neutral entry of the physical key table
    equal to the disjunction of its two sides. *)
Lemma UpdateModifierState_keeps_neutral_consistent os lParam sc key_up sup s :
  neutral_consistent s ->
  neutral_consistent (exec (UpdateModifierState os lParam sc key_up sup) s).
Proof.
  unfold neutral_consistent. cbv zeta. intros (HS & HC & HM).
  unfold UpdateModifierState. cbv zeta.
  destruct (vkCode lParam =? VK_LSHIFT); [neutral_case HS HC HM | ].
  destruct (vkCode lParam =? VK_RSHIFT); [neutral_case HS HC HM | ].
  destruct (vkCode lParam =? VK_LCONTROL); [neutral_case HS HC HM | ].
  destruct (vkCode lParam =? VK_RCONTROL); [neutral_case HS HC HM | ].
  destruct (vkCode lParam =? VK_LMENU); [neutral_case HS HC HM | ].
  destruct (vkCode lParam =? VK_RMENU); [neutral_case HS HC HM | ].
  destruct (vkCode lParam =? VK_LWIN); [neutral_untouched | ].
  destruct (vkCode lParam =? VK_RWIN); [neutral_untouched | ].
  destruct (vkCode lParam =? VK_SHIFT);
    [destruct (sc =? SC_RSHIFT); neutral_case HS HC HM | ].
  destruct (vkCode lParam =? VK_CONTROL);
    [destruct (sc =? SC_RCONTROL); neutral_case HS HC HM | ].
  destruct (vkCode lParam =? VK_MENU);
    [destruct (sc =? SC_RALT); neutral_case HS HC HM | ].
  rewrite exec_ret. repeat split; assumption.
Qed.

(** C6, at the failing input.  On Windows 2000 the user presses Ctrl, Alt
    and Delete.  After the first two keys every neutral entry is the
    disjunction of its sides; after the Delete key-down the Ctrl-Alt-Del
    reset of AllowIt has cleared the four side entries but not VK_CONTROL
    and VK_MENU, which stay down with both of their sides up. *)
Lemma C6_ctrl_alt_del_leaves_neutral_entries_down :
  let os := ex_Win2000 in
  let before := run [ex_down (os 100) VK_LCONTROL 0x1D;
                     ex_down (os 200) VK_LMENU 0x38] ex_engine0 in
  let after := run [ex_down (os 300) VK_DELETE 0x53] (snd before) in
  let p := g_PhysicalKeyState (trk (snd before)) in
  let q := g_PhysicalKeyState (trk (snd after)) in
  (p VK_SHIFT = p VK_LSHIFT || p VK_RSHIFT
   /\ p VK_CONTROL = p VK_LCONTROL || p VK_RCONTROL
   /\ p VK_MENU = p VK_LMENU || p VK_RMENU)
  /\ fst after = [PassedOn]
  /\ (q VK_CONTROL = true /\ q VK_LCONTROL = false /\ q VK_RCONTROL = false)
  /\ (q VK_MENU = true /\ q VK_LMENU = false /\ q VK_RMENU = false)
  /\ (neutral_consistent (snd after) -> False).
Proof.
  cbv zeta. split; [vm_compute; repeat split | ].
  split; [vm_compute; reflexivity | ].
  split; [vm_compute; repeat split | ].
  split; [vm_compute; repeat split | ].
  intros (_ & H & _). vm_compute in H. discriminate H.
Qed.

(* ================================================================== *)
(** ** Disguise of a WIN / ALT key-up *)
(* ================================================================== *)

(** Evaluates the comparisons between key constants that a goal contains. *)
Ltac eqb_consts :=
  repeat match goal with
         | |- context [?a =? ?b] =>
             is_ground a; is_ground b;
             let v := eval vm_compute in (a =? b) in
             change (a =? b) with v
         end.

Lemma bookkeeping_core os lParam vk sc key_up :
  keeps (same hook_core) (bookkeeping os lParam vk sc key_up).
Proof.
  unfold bookkeeping, claim_history_slot, update_pad_state,
    AltTabMenuHeuristic, track_plain_key, phys_key_store.
  frame.
Qed.

Lemma bookkeeping_sent os lParam vk sc key_up :
  keeps (same sent) (bookkeeping os lParam vk sc key_up).
Proof.
  unfold bookkeeping, claim_history_slot, update_pad_state,
    AltTabMenuHeuristic, track_plain_key, phys_key_store.
  frame.
Qed.
#[export] Hint Resolve bookkeeping_core bookkeeping_sent : hook_frame.

Lemma AllowIt_core os lParam sc key_up cur disguise :
  keeps (same hook_core) (AllowIt KeyEvent os lParam sc key_up cur disguise).
Proof. unfold AllowIt, phys_key_store. frame. Qed.
#[export] Hint Resolve AllowIt_core : hook_frame.

Lemma disguise_flag_for_core vk s s' :
  hook_core s' = hook_core s -> disguise_flag_for vk s' = disguise_flag_for vk s.
Proof.
  unfold hook_core, disguise_flag_for. intro H.
  injection H as _ _ _ H1 H2 H3 H4 _ _. rewrite H1, H2, H3, H4. reflexivity.
Qed.

Lemma disguise_armed_iff vk s :
  disguise_armed vk true s = true <-> disguise_flag_for vk s = Some true.
Proof.
  unfold disguise_armed, disguise_flag_for. cbn [andb].
  destruct (Z.eqb_spec vk VK_LWIN) as [-> | _];
    [ | destruct (Z.eqb_spec vk VK_RWIN) as [-> | _];
        [ | destruct (Z.eqb_spec vk VK_LMENU) as [-> | _];
            [ | destruct (Z.eqb_spec vk VK_MENU) as [-> | _];
                [ | destruct (Z.eqb_spec vk VK_RMENU) as [-> | _] ] ] ] ];
    eqb_consts;
    destruct (disguise_next_lwin_up (dsp s)), (disguise_next_rwin_up (dsp s)),
      (disguise_next_lalt_up (dsp s)), (disguise_next_ralt_up (dsp s));
    cbn [orb andb]; split; congruence.
Qed.

Lemma clear_disguise_flag_clears vk s :
  disguise_flag_for vk s = Some true ->
  disguise_flag_for vk (exec (clear_disguise_flag vk) s) = Some false.
Proof.
  unfold disguise_flag_for, clear_disguise_flag.
  destruct (vk =? VK_LWIN); [reflexivity | ].
  destruct (vk =? VK_RWIN); [reflexivity | ].
  destruct (vk =? VK_LMENU), (vk =? VK_MENU); cbn [orb]; try reflexivity.
  destruct (vk =? VK_RMENU); [reflexivity | discriminate].
Qed.

Lemma clear_disguise_flag_sent vk : keeps (same sent) (clear_disguise_flag vk).
Proof. unfold clear_disguise_flag. frame. Qed.

(** C4, as the code has it.  A WIN or ALT key-up that does not carry
    KEYIGNORE and arrives while the disguise flag of its key is armed is
    suppressed; the flag is cleared; and the engine sends exactly SHIFT
    down, the key's own up (with the event's scan code), SHIFT up, in that
    order. *)
Theorem C4_armed_disguise_replaces_key_up :
  forall os wParam lParam s,
    dwExtraInfo lParam <> KEYIGNORE ->
    (wParam = WM_KEYUP \/ wParam = WM_SYSKEYUP) ->
    disguise_flag_for (vk_of (vkCode lParam)) s = Some true ->
    let vk := vk_of (vkCode lParam) in
    let sc := normalized_sc s lParam in
    let s' := exec (KeybdProc os HC_ACTION wParam lParam) s in
    eval (KeybdProc os HC_ACTION wParam lParam) s = Suppressed
    /\ disguise_flag_for vk s' = Some false
    /\ sent s' = sent s ++ [mkSent false VK_SHIFT 0 KEYIGNORE;
                            mkSent true vk sc KEYIGNORE;
                            mkSent true VK_SHIFT 0 KEYIGNORE].
Proof.
  intros os wParam lParam s Hx Hup Harmed. cbv zeta.
  assert (Hku : (wParam =? WM_KEYUP) || (wParam =? WM_SYSKEYUP) = true).
  { destruct Hup as [-> | ->]; reflexivity. }
  assert (Hnum : (vkCode lParam =? VK_NUMLOCK) = false).
  { apply Z.eqb_neq. intro E. rewrite E in Harmed. discriminate Harmed. }
  unfold KeybdProc, LowLevelKeybdProc.
  change (HC_ACTION =? HC_ACTION) with true. cbn [negb].
  rewrite Hku. rewrite (proj2 (Z.eqb_neq _ _) Hx).
  rewrite eval_bind, exec_bind, eval_get, exec_get.
  rewrite eval_bind, exec_bind.
  set (vk := vk_of (vkCode lParam)) in *.
  set (sc := normalized_sc s lParam).
  set (cur := eval (bookkeeping os lParam vk sc true) s).
  set (s1 := exec (bookkeeping os lParam vk sc true) s).
  assert (H1 : hook_core s1 = hook_core s) by apply bookkeeping_core.
  assert (H1s : sent s1 = sent s) by apply bookkeeping_sent.
  rewrite eval_bind, exec_bind, eval_get, exec_get.
  assert (Ha : disguise_armed vk true s1 = true).
  { apply disguise_armed_iff. rewrite (disguise_flag_for_core vk s s1 H1).
    exact Harmed. }
  rewrite Ha.
  split; [ | split].
  - rewrite !eval_bind. apply SuppressThisKeyFunc_returns.
  - rewrite !exec_bind.
    set (s2 := exec (clear_disguise_flag vk) s1).
    assert (H2 : disguise_flag_for vk s2 = Some false).
    { apply clear_disguise_flag_clears.
      rewrite (disguise_flag_for_core vk s s1 H1). exact Harmed. }
    rewrite <- H2. apply disguise_flag_for_core.
    match goal with
    | |- hook_core (exec ?c3 (exec ?c2 (exec ?c1 (exec ?c0 s2)))) = _ =>
        transitivity (hook_core (exec c2 (exec c1 (exec c0 s2))));
        [apply SuppressThisKeyFunc_core | ];
        transitivity (hook_core (exec c1 (exec c0 s2))); [apply KeyEvent_core | ];
        transitivity (hook_core (exec c0 s2)); [apply KeyEvent_core | ];
        apply KeyEvent_core
    end.
  - rewrite !exec_bind.
    unfold SuppressThisKey. rewrite SuppressThisKeyFunc_sent, Hnum.
    cbn [andb]. rewrite app_nil_r.
    rewrite !KeyEvent_sent. rewrite clear_disguise_flag_sent, H1s.
    cbn [keystrokes]. rewrite <- !app_assoc. reflexivity.
Qed.

(** A run that meets the hypotheses of C4: the physical release of LWIN
    while disguise_next_lwin_up is armed. *)
Lemma C4_armed_disguise_replaces_key_up_witness :
  eval (deliver (ex_up (ex_WinXP 50) VK_LWIN 0x5B)) ex_engine_lwin_armed
  = Suppressed
  /\ sent (exec (deliver (ex_up (ex_WinXP 50) VK_LWIN 0x5B)) ex_engine_lwin_armed)
     = [mkSent false VK_SHIFT 0 KEYIGNORE; mkSent true VK_LWIN 0x5B KEYIGNORE;
        mkSent true VK_SHIFT 0 KEYIGNORE].
Proof.
  assert (Hx : dwExtraInfo (d_lParam (ex_up (ex_WinXP 50) VK_LWIN 0x5B))
               <> KEYIGNORE) by (vm_compute; discriminate).
  destruct (C4_armed_disguise_replaces_key_up
              (ex_WinXP 50) WM_KEYUP
              (d_lParam (ex_up (ex_WinXP 50) VK_LWIN 0x5B))
              ex_engine_lwin_armed Hx (or_introl eq_refl) eq_refl)
    as (Hv & _ & Hs).
  split; [exact Hv | exact Hs].
Defined.

(** C4, counterexample to "every WIN or ALT key-up".  A LWIN key-up that
    carries KEYIGNORE (one the engine or the script's Send sent) arrives
    while disguise_next_lwin_up is armed: it passes through, nothing is
    sent in its place, and the flag stays armed. *)
Lemma C4_counterexample_self_tagged_key_up :
  let d := ex_up_self (ex_WinXP 50) VK_LWIN 0x5B in
  disguise_next_lwin_up (dsp ex_engine_lwin_armed) = true
  /\ eval (deliver d) ex_engine_lwin_armed = PassedOn
  /\ sent (exec (deliver d) ex_engine_lwin_armed) = []
  /\ disguise_next_lwin_up (dsp (exec (deliver d) ex_engine_lwin_armed)) = true.
Proof. vm_compute. repeat split. Qed.

(* ================================================================== *)
(** ** Key records and the prefix slot *)
(* ================================================================== *)

Lemma KeyRef_eqb_eq a b : KeyRef_eqb a b = true <-> a = b.
Proof.
  destruct a, b; cbn; rewrite ?Z.eqb_eq; split; intro H;
    try discriminate; congruence.
Qed.

Lemma KeyRef_eqb_refl a : KeyRef_eqb a a = true.
Proof. apply KeyRef_eqb_eq. reflexivity. Qed.

Lemma ptr_eqb_true p r : ptr_eqb p r = true <-> p = Some r.
Proof.
  destruct p as [q | ]; cbn; [ | split; discriminate].
  rewrite KeyRef_eqb_eq. split; congruence.
Qed.

Lemma ptr_eqb_false p r : ptr_eqb p r = false <-> p <> Some r.
Proof.
  rewrite <- ptr_eqb_true. destruct (ptr_eqb p r); split; congruence.
Qed.

Lemma deref_on_key r f s r' :
  deref (on_key r f s) r'
  = if KeyRef_eqb r' r then f (deref s r) else deref s r'.
Proof.
  destruct r, r'; cbn; unfold upd; try reflexivity;
    destruct (Z.eqb_spec _ _); subst; reflexivity.
Qed.

Lemma pPrefixKey_on_key r f s :
  pPrefixKey (dsp (on_key r f s)) = pPrefixKey (dsp s).
Proof. destruct r; reflexivity. Qed.

Lemma tbl_on_key r f s : tbl (on_key r f s) = tbl s.
Proof. destruct r; reflexivity. Qed.

Lemma settled_refl s : settled s s.
Proof. split; [ | split]; reflexivity. Qed.

Lemma settled_trans s1 s2 s3 : settled s1 s2 -> settled s2 s3 -> settled s1 s3.
Proof.
  intros (A1 & B1 & C1) (A2 & B2 & C2).
  split; [congruence | split; [congruence | ]].
  intro r. rewrite C2. apply C1.
Qed.

Lemma settled_of_core s s' : hook_core s' = hook_core s -> settled s s'.
Proof.
  unfold hook_core. intro H. injection H as Hk Hc Hp _ _ _ _ Ht _.
  split; [assumption | split; [assumption | ]].
  intro r. destruct r; cbn; rewrite ?Hk, ?Hc; reflexivity.
Qed.

Lemma keeps_settled_of_core {A} (c : M A) :
  keeps (same hook_core) c -> keeps settled c.
Proof. intros H s. apply settled_of_core. apply H. Qed.

Lemma settled_on_key r f s :
  (forall k, key_static (f k) = key_static k) -> settled s (on_key r f s).
Proof.
  intro Hf. split; [ | split].
  - apply pPrefixKey_on_key.
  - apply tbl_on_key.
  - intro r'. rewrite deref_on_key.
    destruct (KeyRef_eqb r' r) eqn:E; [ | reflexivity].
    apply KeyRef_eqb_eq in E. subst r'. apply Hf.
Qed.

Lemma on_prefix_slot f s :
  pPrefixKey (dsp (exec (on_prefix f) s)) = pPrefixKey (dsp s).
Proof.
  unfold on_prefix. rewrite exec_modify.
  destruct (pPrefixKey (dsp s)) eqn:E; [rewrite pPrefixKey_on_key | ]; exact E.
Qed.

Lemma keeps_settled_on_prefix f :
  (forall k, key_static (f k) = key_static k) -> keeps settled (on_prefix f).
Proof.
  intros Hf s. unfold on_prefix. rewrite exec_modify.
  destruct (pPrefixKey (dsp s)); [apply settled_on_key; exact Hf | apply settled_refl].
Qed.

(** A store that touches neither the prefix slot nor the tables nor any
    key record. *)
Ltac settled_leaf :=
  first
    [ apply settled_on_key; intro; reflexivity
    | split; [reflexivity | split; [reflexivity | ]];
      let r := fresh "r" in intro r; destruct r; reflexivity ].

Ltac frame_leaf ::= first [ reflexivity | settled_leaf ].
Ltac rel_refl ::=
  first [ apply same_refl | exact settled_refl | auto with hook_frame ].
Ltac rel_trans ::=
  first [ apply same_trans | exact settled_trans | auto with hook_frame ].

#[export] Hint Extern 1 (keeps settled (on_prefix _)) =>
  apply keeps_settled_on_prefix; intro; reflexivity : hook_frame.
#[export] Hint Extern 1 (keeps settled (KeyEvent _ _ _ _)) =>
  apply keeps_settled_of_core; apply KeyEvent_core : hook_frame.
#[export] Hint Extern 1 (keeps settled (AllowIt KeyEvent _ _ _ _ _ _)) =>
  apply keeps_settled_of_core; apply AllowIt_core : hook_frame.
#[export] Hint Extern 1 (keeps settled (SuppressThisKeyFunc KeyEvent _ _ _ _ _)) =>
  apply keeps_settled_of_core; apply SuppressThisKeyFunc_core : hook_frame.
#[export] Hint Extern 1 (keeps settled (set_curr_event_type _ _)) =>
  apply keeps_settled_of_core; apply set_curr_event_type_core : hook_frame.
#[export] Hint Extern 1 (keeps settled (bookkeeping _ _ _ _ _)) =>
  apply keeps_settled_of_core; apply bookkeeping_core : hook_frame.

Lemma allow_if_settled os lParam sc key_up cur r :
  keeps settled
    (allow_if_modifier_or_neutral_toggle KeyEvent os lParam sc key_up cur r).
Proof.
  unfold allow_if_modifier_or_neutral_toggle, AllowKeyToGoToSystem,
    SuppressThisKey.
  frame.
Qed.
#[export] Hint Resolve allow_if_settled : hook_frame.

Lemma Case2_settled os lParam sc key_up cur dpa :
  keeps settled (Case2 KeyEvent os lParam sc key_up cur dpa).
Proof. unfold Case2, AllowKeyToGoToSystem, SuppressThisKey. frame. Qed.
#[export] Hint Resolve Case2_settled : hook_frame.

Lemma arm_disguise_settled : keeps settled arm_disguise.
Proof. unfold arm_disguise. cbv zeta. frame. Qed.
#[export] Hint Resolve arm_disguise_settled : hook_frame.

Lemma switch_alt_tab_settled os lParam vk sc key_up cur id :
  keeps settled (switch_alt_tab KeyEvent os lParam vk sc key_up cur id).
Proof. unfold switch_alt_tab, AllowKeyToGoToSystem. cbv zeta. frame. Qed.
#[export] Hint Resolve switch_alt_tab_settled : hook_frame.

Lemma switch_alt_tab_menu_settled os lParam vk sc key_up cur r id :
  keeps settled (switch_alt_tab_menu KeyEvent os lParam vk sc key_up cur r id).
Proof. unfold switch_alt_tab_menu. cbv zeta. frame. Qed.
#[export] Hint Resolve switch_alt_tab_menu_settled : hook_frame.

Lemma perform_hotkey_settled os lParam vk sc key_up cur r id :
  keeps settled (perform_hotkey KeyEvent os lParam vk sc key_up cur r id).
Proof. unfold perform_hotkey, AllowKeyToGoToSystem. frame. Qed.
#[export] Hint Resolve perform_hotkey_settled : hook_frame.

Lemma after_hotkey_settled os lParam vk sc key_up cur r ns :
  keeps settled (after_hotkey KeyEvent os lParam vk sc key_up cur r ns).
Proof.
  unfold after_hotkey, AllowKeyToGoToSystem,
    AllowKeyToGoToSystemButDisguiseWinAlt, SuppressThisKey.
  frame.
Qed.
#[export] Hint Resolve after_hotkey_settled : hook_frame.

Lemma prefixed_alt_tab_settled os lParam vk sc key_up cur r id :
  keeps settled (prefixed_alt_tab KeyEvent os lParam vk sc key_up cur r id).
Proof. unfold prefixed_alt_tab, SuppressThisKey. frame. Qed.
#[export] Hint Resolve prefixed_alt_tab_settled : hook_frame.

Lemma find_same {A} (f g : A -> bool) l :
  (forall a, f a = g a) -> find f l = find g l.
Proof.
  intro H. induction l as [ | a l IH]; cbn [find]; [reflexivity | ].
  rewrite H, IH. reflexivity.
Qed.


(* ================================================================== *)
(** ** How the dispatcher moves the prefix slot *)
(* ================================================================== *)

Lemma fire_hotkey_settled os lParam vk sc key_up cur r found :
  keeps settled (fire_hotkey KeyEvent os lParam vk sc key_up cur r found).
Proof. unfold fire_hotkey. frame. Qed.
#[export] Hint Resolve fire_hotkey_settled : hook_frame.

Lemma lookup_and_fire_settled os lParam vk sc key_up cur r found :
  keeps settled (lookup_and_fire KeyEvent os lParam vk sc key_up cur r found).
Proof. unfold lookup_and_fire, AllowKeyToGoToSystem. cbv zeta. frame. Qed.
#[export] Hint Resolve lookup_and_fire_settled : hook_frame.

Lemma Case3_unused_settled os lParam sc key_up cur r w :
  keeps settled (Case3_unused KeyEvent os lParam sc key_up cur r w).
Proof. unfold Case3_unused, AllowKeyToGoToSystem. frame. Qed.
#[export] Hint Resolve Case3_unused_settled : hook_frame.

Lemma Case3_released_settled os lParam vk sc key_up cur r w :
  keeps settled (Case3_released KeyEvent os lParam vk sc key_up cur r w).
Proof.
  unfold Case3_released, AllowKeyToGoToSystem,
    AllowKeyToGoToSystemButDisguiseWinAlt, SuppressThisKey.
  frame.
Qed.
#[export] Hint Resolve Case3_released_settled : hook_frame.

(** CASE #3 either leaves the prefix slot alone or, when the released key
    holds it, empties it; it writes no configuration and no is_down. *)
Lemma Case3_slot os lParam vk sc key_up cur this w s :
  let s' := exec (Case3 KeyEvent os lParam vk sc key_up cur this w) s in
  (pPrefixKey (dsp s') = pPrefixKey (dsp s)
   \/ (pPrefixKey (dsp s) = Some this /\ pPrefixKey (dsp s') = None))
  /\ tbl s' = tbl s
  /\ (forall r, key_static (deref s' r) = key_static (deref s r)).
Proof.
  cbv zeta. unfold Case3.
  rewrite exec_bind, eval_get, exec_get, exec_bind.
  set (s1 := exec (when _ _) s).
  destruct (Case3_released_settled os lParam vk sc key_up cur this w s1)
    as (Hp & Ht & Hk).
  fold (exec (Case3_released KeyEvent os lParam vk sc key_up cur this w) s1) in *.
  rewrite Hp, Ht.
  destruct (ptr_eqb (pPrefixKey (dsp s)) this) eqn:E; subst s1; cbn [when].
  - rewrite exec_modify in *. split; [ | split].
    + right. split; [apply ptr_eqb_true; exact E | reflexivity].
    + reflexivity.
    + intro r. rewrite Hk. destruct r; reflexivity.
  - rewrite exec_ret in *. split; [left; reflexivity | split; [reflexivity | ]].
    exact Hk.
Qed.

(** The loop over ModifierVK[]: the slot is left alone or bound to an
    entry's key that is down; nothing else that matters is written. *)
Lemma find_modifier_vk_slot this s :
  let s' := exec (find_modifier_vk this) s in
  (pPrefixKey (dsp s') = pPrefixKey (dsp s)
   \/ exists m, In m (ModifierVK (deref s this))
                /\ pPrefixKey (dsp s') = Some (InKvk (mod_key m))
                /\ is_down (deref s (InKvk (mod_key m))) = true)
  /\ tbl s' = tbl s
  /\ (forall r, key_static (deref s' r) = key_static (deref s r)).
Proof.
  cbv zeta. unfold find_modifier_vk.
  rewrite exec_bind, eval_get, exec_get.
  destruct (find _ _) as [m | ] eqn:F.
  - apply find_some in F. destruct F as [Hin Hdown].
    rewrite !exec_bind, exec_ret, exec_modify.
    set (s1 := on_dsp (set_pPrefixKey (Some (InKvk (mod_key m)))) s).
    destruct (keeps_settled_on_prefix (set_was_just_used AS_PREFIX_FOR_HOTKEY)
                (fun k => eq_refl) s1) as (Hp & Ht & Hk).
    split; [ | split].
    + right. exists m. split; [exact Hin | split; [ | exact Hdown]].
      rewrite Hp. reflexivity.
    + rewrite Ht. reflexivity.
    + intro r. rewrite Hk. destruct r; reflexivity.
  - rewrite exec_ret. split; [left; reflexivity | split; reflexivity].
Qed.

Lemma find_modifier_sc_slot this found s :
  let s' := exec (find_modifier_sc this found) s in
  (pPrefixKey (dsp s') = pPrefixKey (dsp s)
   \/ exists m, In m (ModifierSC (deref s this))
                /\ pPrefixKey (dsp s') = Some (InKsc (mod_key m))
                /\ is_down (deref s (InKsc (mod_key m))) = true)
  /\ tbl s' = tbl s
  /\ (forall r, key_static (deref s' r) = key_static (deref s r)).
Proof.
  cbv zeta. unfold find_modifier_sc.
  destruct (fst found =? HOTKEY_ID_INVALID).
  2: { rewrite exec_ret. split; [left; reflexivity | split; reflexivity]. }
  rewrite exec_bind, eval_get, exec_get.
  destruct (find _ _) as [m | ] eqn:F.
  - apply find_some in F. destruct F as [Hin Hdown].
    rewrite !exec_bind, exec_ret, exec_modify.
    set (s1 := on_dsp (set_pPrefixKey (Some (InKsc (mod_key m)))) s).
    destruct (keeps_settled_on_prefix (set_was_just_used AS_PREFIX_FOR_HOTKEY)
                (fun k => eq_refl) s1) as (Hp & Ht & Hk).
    split; [ | split].
    + right. exists m. split; [exact Hin | split; [ | exact Hdown]].
      rewrite Hp. reflexivity.
    + rewrite Ht. reflexivity.
    + intro r. rewrite Hk. destruct r; reflexivity.
  - rewrite exec_ret. split; [left; reflexivity | split; reflexivity].
Qed.

Lemma key_static_fields k k' :
  key_static k = key_static k' ->
  used_as_prefix k = used_as_prefix k'
  /\ used_as_suffix k = used_as_suffix k'
  /\ as_modifiersLR k = as_modifiersLR k'
  /\ pForceToggle k = pForceToggle k'
  /\ sc_takes_precedence k = sc_takes_precedence k'
  /\ ModifierVK k = ModifierVK k'
  /\ ModifierSC k = ModifierSC k'
  /\ is_down k = is_down k'.
Proof.
  unfold key_static, key_config. intro H.
  injection H as H1 H2 H3 H4 H5 H6 H7 H8. repeat split; assumption.
Qed.

Lemma key_config_fields k k' :
  key_config k = key_config k' ->
  used_as_prefix k = used_as_prefix k'
  /\ used_as_suffix k = used_as_suffix k'
  /\ as_modifiersLR k = as_modifiersLR k'
  /\ pForceToggle k = pForceToggle k'
  /\ sc_takes_precedence k = sc_takes_precedence k'
  /\ ModifierVK k = ModifierVK k'
  /\ ModifierSC k = ModifierSC k'.
Proof.
  unfold key_config. intro H.
  injection H as H1 H2 H3 H4 H5 H6 H7. repeat split; assumption.
Qed.

(** CASE #4 either leaves the prefix slot alone or, on a key-down while a
    prefix is held, rebinds it to a key of the suffix's ModifierVK /
    ModifierSC list that is down. *)
Lemma Case4_slot os lParam vk sc key_up cur this s :
  let s' := exec (Case4 KeyEvent os lParam vk sc key_up cur this) s in
  (pPrefixKey (dsp s') = pPrefixKey (dsp s)
   \/ (key_up = false /\ pPrefixKey (dsp s) <> None
       /\ ((exists m, In m (ModifierVK (deref s this))
                      /\ pPrefixKey (dsp s') = Some (InKvk (mod_key m))
                      /\ is_down (deref s' (InKvk (mod_key m))) = true)
           \/ (exists m, In m (ModifierSC (deref s this))
                         /\ pPrefixKey (dsp s') = Some (InKsc (mod_key m))
                         /\ is_down (deref s' (InKsc (mod_key m))) = true))))
  /\ tbl s' = tbl s
  /\ (forall r, key_static (deref s' r) = key_static (deref s r)).
Proof.
  cbv zeta. unfold Case4.
  rewrite exec_bind, eval_get, exec_get.
  destruct (pPrefixKey (dsp s)) as [q | ] eqn:Hq; cbn [andb].
  2: { destruct (lookup_and_fire_settled os lParam vk sc key_up cur this
                   (HOTKEY_ID_INVALID, false) s) as (Hp & Ht & Hk).
       split; [left; rewrite Hp; exact Hq | split; assumption]. }
  destruct key_up; cbn [negb].
  { destruct (lookup_and_fire_settled os lParam vk sc true cur this
                (HOTKEY_ID_INVALID, false) s) as (Hp & Ht & Hk).
    split; [left; rewrite Hp; exact Hq | split; assumption]. }
  rewrite exec_bind.
  set (f1 := eval (find_modifier_vk this) s).
  set (s1 := exec (find_modifier_vk this) s).
  destruct (find_modifier_vk_slot this s) as (Hv & Ht1 & Hk1).
  fold s1 in Hv, Ht1, Hk1.
  rewrite exec_bind.
  set (f2 := eval (find_modifier_sc this f1) s1).
  set (s2 := exec (find_modifier_sc this f1) s1).
  destruct (find_modifier_sc_slot this f1 s1) as (Hs & Ht2 & Hk2).
  fold s2 in Hs, Ht2, Hk2.
  match goal with
  | |- context [exec ?c s2] =>
      assert (Hrest : settled s2 (exec c s2));
      [ destruct ((fst f2 =? HOTKEY_ID_ALT_TAB)
                  || (fst f2 =? HOTKEY_ID_ALT_TAB_SHIFT));
        [apply prefixed_alt_tab_settled | apply lookup_and_fire_settled]
      | set (s3 := exec c s2) in * ]
  end.
  destruct Hrest as (Hp3 & Ht3 & Hk3).
  split; [ | split].
  - destruct Hs as [Hs | (m & Hin & Hp & Hdown)].
    + destruct Hv as [Hv | (m & Hin & Hp & Hdown)].
      * left. rewrite Hp3, Hs, Hv. exact Hq.
      * right. split; [reflexivity | split; [discriminate | left]].
        exists m. split; [exact Hin | split].
        -- rewrite Hp3, Hs. exact Hp.
        -- destruct (key_static_fields _ _ (Hk3 (InKvk (mod_key m))))
             as (_ & _ & _ & _ & _ & _ & _ & E3).
           destruct (key_static_fields _ _ (Hk2 (InKvk (mod_key m))))
             as (_ & _ & _ & _ & _ & _ & _ & E2).
           destruct (key_static_fields _ _ (Hk1 (InKvk (mod_key m))))
             as (_ & _ & _ & _ & _ & _ & _ & E1).
           rewrite E3, E2, E1. exact Hdown.
    + right. split; [reflexivity | split; [discriminate | right]].
      exists m. split; [ | split].
      * destruct (key_static_fields _ _ (Hk1 this))
          as (_ & _ & _ & _ & _ & _ & E & _).
        rewrite <- E. exact Hin.
      * rewrite Hp3. exact Hp.
      * destruct (key_static_fields _ _ (Hk3 (InKsc (mod_key m))))
          as (_ & _ & _ & _ & _ & _ & _ & E3).
        destruct (key_static_fields _ _ (Hk2 (InKsc (mod_key m))))
          as (_ & _ & _ & _ & _ & _ & _ & E2).
        rewrite E3, E2. exact Hdown.
  - rewrite Ht3, Ht2, Ht1. reflexivity.
  - intro r. rewrite Hk3, Hk2, Hk1. reflexivity.
Qed.

(** The result of the two loops depends on the state only through the
    prefix slot and through the configuration and is_down of the key
    records. *)
Lemma held_modifier_ext s s' this :
  (forall r, key_static (deref s' r) = key_static (deref s r)) ->
  held_modifier_vk s' this = held_modifier_vk s this
  /\ held_modifier_sc s' this = held_modifier_sc s this.
Proof.
  intro Hk. unfold held_modifier_vk, held_modifier_sc.
  destruct (key_static_fields _ _ (Hk this))
    as (_ & _ & _ & _ & _ & Evk & Esc & _).
  rewrite Evk, Esc. split; apply find_same; intro m.
  - destruct (key_static_fields _ _ (Hk (InKvk (mod_key m))))
      as (_ & _ & _ & _ & _ & _ & _ & E). exact E.
  - destruct (key_static_fields _ _ (Hk (InKsc (mod_key m))))
      as (_ & _ & _ & _ & _ & _ & _ & E). exact E.
Qed.

Lemma Case4_loops_prefix_ext s s' this :
  pPrefixKey (dsp s') = pPrefixKey (dsp s) ->
  (forall r, key_static (deref s' r) = key_static (deref s r)) ->
  Case4_loops_prefix s' this = Case4_loops_prefix s this.
Proof.
  intros Hp Hk. unfold Case4_loops_prefix.
  destruct (held_modifier_ext s s' this Hk) as (Ev & Es).
  rewrite Ev, Es, Hp. reflexivity.
Qed.

(** CASE #4 on a key-down while a prefix is held: the prefix slot ends up
    where the two loops leave it. *)
Lemma Case4_loops os lParam vk sc cur this s :
  pPrefixKey (dsp s) <> None ->
  pPrefixKey (dsp (exec (Case4 KeyEvent os lParam vk sc false cur this) s))
  = Case4_loops_prefix s this.
Proof.
  intro Hp. unfold Case4.
  rewrite exec_bind, eval_get, exec_get.
  destruct (pPrefixKey (dsp s)) as [q | ] eqn:Hq; [ | contradiction].
  cbn [andb negb]. rewrite exec_bind.
  set (f1 := eval (find_modifier_vk this) s).
  set (s1 := exec (find_modifier_vk this) s).
  destruct (find_modifier_vk_slot this s) as (_ & _ & Hk1).
  fold s1 in Hk1.
  rewrite exec_bind.
  set (f2 := eval (find_modifier_sc this f1) s1).
  set (s2 := exec (find_modifier_sc this f1) s1).
  match goal with
  | |- context [exec ?c s2] =>
      assert (Hrest : settled s2 (exec c s2));
      [ destruct ((fst f2 =? HOTKEY_ID_ALT_TAB)
                  || (fst f2 =? HOTKEY_ID_ALT_TAB_SHIFT));
        [apply prefixed_alt_tab_settled | apply lookup_and_fire_settled]
      | destruct Hrest as (Hp3 & _ & _); rewrite Hp3 ]
  end.
  assert (E1 : (f1, pPrefixKey (dsp s1))
               = match held_modifier_vk s this with
                 | Some m => (GET_HOTKEY_ID_AND_FLAGS (id_with_flags m),
                              Some (InKvk (mod_key m)))
                 | None => ((HOTKEY_ID_INVALID, false), Some q)
                 end).
  { unfold f1, s1, find_modifier_vk, held_modifier_vk.
    rewrite eval_bind, exec_bind, eval_get, exec_get.
    destruct (find _ _) as [m | ].
    - rewrite !eval_bind, !exec_bind, eval_ret, exec_ret, exec_modify.
      rewrite on_prefix_slot. reflexivity.
    - rewrite eval_ret, exec_ret, Hq. reflexivity. }
  assert (E2 : pPrefixKey (dsp s2)
               = match (if fst f1 =? HOTKEY_ID_INVALID
                        then held_modifier_sc s this else None) with
                 | Some m => Some (InKsc (mod_key m))
                 | None => pPrefixKey (dsp s1)
                 end).
  { destruct (held_modifier_ext s s1 this Hk1) as (_ & Es). rewrite <- Es.
    unfold s2, find_modifier_sc, held_modifier_sc.
    destruct (fst f1 =? HOTKEY_ID_INVALID); [ | reflexivity].
    rewrite exec_bind, eval_get, exec_get.
    destruct (find _ _) as [m | ].
    - rewrite !exec_bind, exec_ret, exec_modify.
      rewrite on_prefix_slot. reflexivity.
    - reflexivity. }
  rewrite E2. unfold Case4_loops_prefix. cbv zeta.
  destruct (held_modifier_vk s this) as [m | ];
    injection E1 as E1 E1p; rewrite E1, E1p; cbn [fst].
  - destruct (if fst (GET_HOTKEY_ID_AND_FLAGS (id_with_flags m)) =? HOTKEY_ID_INVALID
              then held_modifier_sc s this else None); reflexivity.
  - rewrite Z.eqb_refl, Hq.
    destruct (held_modifier_sc s this); reflexivity.
Qed.

Lemma key_static_set_is_down b k k' :
  key_config k = key_config k' ->
  key_static (set_is_down b k) = key_static (set_is_down b k').
Proof.
  intro H. unfold key_static.
  change (key_config (set_is_down b k)) with (key_config k).
  change (key_config (set_is_down b k')) with (key_config k').
  rewrite H. reflexivity.
Qed.

(** The state the loops of CASE #4 see differs from the entry state, for
    what they read, only by is_down of the pressed key. *)
Lemma Case4_loops_prefix_pressed s s' this :
  pPrefixKey (dsp s') = pPrefixKey (dsp s) ->
  (forall r, key_static (deref s' r) = key_static (deref s r)) ->
  Case4_loops_prefix (on_key this (set_is_down true) s') this
  = Case4_loops_prefix (on_key this (set_is_down true) s) this.
Proof.
  intros Hp Hk. apply Case4_loops_prefix_ext.
  - rewrite !pPrefixKey_on_key. exact Hp.
  - intro r. rewrite !deref_on_key.
    destruct (KeyRef_eqb r this); [ | apply Hk].
    apply key_static_set_is_down.
    exact (f_equal fst (Hk this)).
Qed.

Lemma key_static_config k k' : key_static k = key_static k' -> key_config k = key_config k'.
Proof. unfold key_static. intro H. apply (f_equal fst) in H. exact H. Qed.

Lemma set_is_down_config r b s r' :
  key_config (deref (on_key r (set_is_down b) s) r') = key_config (deref s r').
Proof.
  rewrite deref_on_key. destruct (KeyRef_eqb r' r) eqn:E; [ | reflexivity].
  apply KeyRef_eqb_eq in E. subst r'. reflexivity.
Qed.

(** The state in which the dispatcher chooses among its four cases: the
    held prefix has been marked as used, and is_down of the event's key
    has been written.  The prefix slot and every configuration are still
    those of the entry state. *)
Lemma dispatch_slot os lParam vk sc key_up cur s :
  prefix_transition (this_key s vk sc) key_up s
    (exec (dispatch KeyEvent os lParam vk sc key_up cur) s).
Proof.
  unfold dispatch. rewrite exec_bind, eval_get, exec_get. cbv zeta.
  set (this := this_key s vk sc).
  destruct (ptr_eqb (pPrefixKey (dsp s)) this && negb key_up).
  { left.
    destruct (nz (as_modifiersLR (deref s this)));
      [ apply (keeps_settled_of_core _ (AllowIt_core os lParam sc key_up cur false))
      | apply (keeps_settled_of_core _
                 (SuppressThisKeyFunc_core os lParam sc key_up cur)) ]. }
  rewrite exec_bind.
  set (s2 := exec (when _ _) s).
  assert (S2 : settled s s2).
  { subst s2. apply (keeps_when settled settled_refl). auto with hook_frame. }
  destruct S2 as (Hp2 & Ht2 & Hk2).
  rewrite exec_bind, eval_get, exec_get.
  destruct (negb (used_as_prefix (deref s2 this))
            && negb (used_as_suffix (deref s2 this))) eqn:U.
  { left. rewrite <- Hp2.
    apply (keeps_settled_of_core _ (AllowIt_core os lParam sc key_up cur false)). }
  rewrite exec_bind.
  set (s2' := exec (when key_up _) s2).
  assert (S2' : settled s2 s2').
  { subst s2'. apply (keeps_when settled settled_refl).
    apply keeps_modify. intro. apply settled_on_key. intro; reflexivity. }
  destruct S2' as (Hp2' & Ht2' & Hk2').
  rewrite exec_bind, exec_modify.
  set (s3 := on_key this (set_is_down (negb key_up)) s2').
  assert (Hp3 : pPrefixKey (dsp s3) = pPrefixKey (dsp s)).
  { subst s3. rewrite pPrefixKey_on_key, Hp2', Hp2. reflexivity. }
  assert (Hc3 : forall r, key_config (deref s3 r) = key_config (deref s r)).
  { intro r. subst s3. rewrite set_is_down_config.
    rewrite (key_static_config _ _ (Hk2' r)). apply key_static_config, Hk2. }
  destruct (key_config_fields _ _ (Hc3 this))
    as (Epre & Esuf & _ & _ & _ & Evk & Esc).
  rewrite exec_bind, eval_get, exec_get.
  destruct (used_as_prefix (deref s3 this) && negb key_up
            && (match pPrefixKey (dsp s3) with Some _ => false | None => true end
                || negb (used_as_suffix (deref s3 this)))) eqn:C1.
  { (* CASE #1 *)
    apply andb_true_iff in C1. destruct C1 as [C1 C1c].
    apply andb_true_iff in C1. destruct C1 as [C1a C1b].
    right. right. left.
    split; [destruct key_up; [discriminate | reflexivity] | ].
    split; [ | split].
    - unfold Case1. rewrite !exec_bind, exec_modify.
      set (s4 := on_dsp (set_pPrefixKey (Some this)) s3).
      destruct (keeps_settled_on_prefix (set_was_just_used Unused)
                  (fun k => eq_refl) s4) as (Hp5 & _ & _).
      destruct (allow_if_settled os lParam sc key_up cur this
                  (exec (on_prefix (set_was_just_used Unused)) s4))
        as (Hp6 & _ & _).
      fold (exec (allow_if_modifier_or_neutral_toggle KeyEvent os lParam sc
                    key_up cur this)
                 (exec (on_prefix (set_was_just_used Unused)) s4)) in Hp6.
      rewrite Hp6, Hp5. reflexivity.
    - rewrite <- Epre. exact C1a.
    - rewrite <- Hp3, <- Esuf. apply orb_true_iff in C1c.
      destruct C1c as [C | C].
      + left. destruct (pPrefixKey (dsp s3)); [discriminate | reflexivity].
      + right. apply negb_true_iff. exact C. }
  destruct (used_as_suffix (deref s3 this)
            && negb (ptr_eqb (pPrefixKey (dsp s3)) this) && key_up).
  { (* CASE #2 *)
    left. rewrite <- Hp3.
    apply (Case2_settled os lParam sc key_up cur
             (down_performed_action (deref s2 this)) s3). }
  destruct (used_as_prefix (deref s3 this) && key_up) eqn:C3.
  { (* CASE #3, possibly falling through into CASE #4 *)
    apply andb_true_iff in C3. destruct C3 as [_ Hku]. subst key_up.
    rewrite exec_bind.
    set (w := is_down (deref s2 this)).
    destruct (Case3_slot os lParam vk sc true cur this w s3)
      as (H3 & _ & _).
    cbv zeta in H3.
    set (s4 := exec (Case3 KeyEvent os lParam vk sc true cur this w) s3) in *.
    assert (Hend : pPrefixKey
                     (dsp (exec match eval (Case3 KeyEvent os lParam vk sc true
                                              cur this w) s3 with
                                | Some v => ret v
                                | None => Case4 KeyEvent os lParam vk sc true
                                                cur this
                                end s4))
                   = pPrefixKey (dsp s4)).
    { destruct (eval (Case3 KeyEvent os lParam vk sc true cur this w) s3).
      - reflexivity.
      - destruct (Case4_slot os lParam vk sc true cur this s4) as (H4 & _ & _).
        cbv zeta in H4. destruct H4 as [H4 | (H4 & _)];
          [exact H4 | discriminate H4]. }
    unfold prefix_transition. rewrite Hend.
    destruct H3 as [H3 | (H3a & H3b)].
    - left. rewrite H3. exact Hp3.
    - right. left. split; [reflexivity | split; [ | exact H3b]].
      rewrite <- Hp3. exact H3a. }
  (* CASE #4 *)
  destruct (Case4_slot os lParam vk sc key_up cur this s3) as (H4 & _ & _).
  cbv zeta in H4.
  destruct H4 as [H4 | (Hku & Hheld & H4)].
  - left. rewrite H4. exact Hp3.
  - right. right. right. subst key_up.
    split; [reflexivity | split; [rewrite <- Hp3; exact Hheld | ]].
    split; [ | split].
    + (* not CASE #1 although a prefix is held, and not unused: a suffix *)
      destruct (key_static_fields _ _ (Hk2 this)) as (Epre2 & Esuf2 & _).
      rewrite Epre2, Esuf2 in U. rewrite Epre, Esuf in C1.
      destruct (pPrefixKey (dsp s3)); [ | contradiction].
      destruct (used_as_suffix (deref s this)); [reflexivity | ].
      destruct (used_as_prefix (deref s this)); discriminate.
    + rewrite (Case4_loops os lParam vk sc cur this s3 Hheld).
      apply Case4_loops_prefix_ext.
      * rewrite pPrefixKey_on_key. exact Hp3.
      * intro r. unfold s3. rewrite !deref_on_key.
        destruct (KeyRef_eqb r this).
        -- apply key_static_set_is_down.
           rewrite (key_static_config _ _ (Hk2' this)).
           apply key_static_config, Hk2.
        -- rewrite Hk2'. apply Hk2.
    + rewrite <- Evk, <- Esc. exact H4.
Qed.

Lemma clear_disguise_flag_settled vk : keeps settled (clear_disguise_flag vk).
Proof. unfold clear_disguise_flag. frame. Qed.
#[export] Hint Resolve clear_disguise_flag_settled : hook_frame.

Lemma deref_core s s' r : hook_core s' = hook_core s -> deref s' r = deref s r.
Proof.
  unfold hook_core. intro H. injection H as Hk Hc _ _ _ _ _ _ _.
  destruct r; cbn; rewrite ?Hk, ?Hc; reflexivity.
Qed.

Lemma pPrefixKey_core s s' :
  hook_core s' = hook_core s -> pPrefixKey (dsp s') = pPrefixKey (dsp s).
Proof. unfold hook_core. intro H. injection H as _ _ Hp _ _ _ _ _ _. exact Hp. Qed.

Lemma this_key_core s s' vk sc :
  hook_core s' = hook_core s -> this_key s' vk sc = this_key s vk sc.
Proof.
  unfold hook_core, this_key. intro H. injection H as _ Hc _ _ _ _ _ _ _.
  rewrite Hc. reflexivity.
Qed.

Lemma tbl_core s s' : hook_core s' = hook_core s -> tbl s' = tbl s.
Proof. unfold hook_core. intro H. injection H as _ _ _ _ _ _ _ Ht _. exact Ht. Qed.

(** Every delivery moves the prefix slot in one of the four ways of
    [prefix_transition]. *)
Lemma deliver_slot os code wParam lParam s :
  prefix_transition (event_key s lParam) (is_key_up wParam) s
    (exec (KeybdProc os code wParam lParam) s).
Proof.
  unfold KeybdProc, LowLevelKeybdProc.
  destruct (negb (code =? HC_ACTION)); [left; reflexivity | ].
  rewrite exec_bind, eval_get, exec_get. cbv zeta.
  fold (is_key_up wParam).
  set (key_up := is_key_up wParam).
  set (vk := vk_of (vkCode lParam)).
  set (sc := normalized_sc s lParam).
  rewrite exec_bind.
  set (cur := eval (bookkeeping os lParam vk sc key_up) s).
  set (s1 := exec (bookkeeping os lParam vk sc key_up) s).
  assert (H1 : hook_core s1 = hook_core s) by apply bookkeeping_core.
  destruct (dwExtraInfo lParam =? KEYIGNORE).
  { left. rewrite <- (pPrefixKey_core _ _ H1).
    apply (keeps_settled_of_core _ (AllowIt_core os lParam sc key_up cur false)). }
  rewrite exec_bind, eval_get, exec_get.
  destruct (disguise_armed vk key_up s1).
  { left. rewrite <- (pPrefixKey_core _ _ H1).
    assert (K : keeps settled
                  (clear_disguise_flag vk ;;
                   KeyEvent os KEYDOWN VK_SHIFT 0 ;;
                   KeyEvent os KEYUP vk sc ;;
                   KeyEvent os KEYUP VK_SHIFT 0 ;;
                   SuppressThisKey KeyEvent os lParam sc key_up cur)).
    { unfold SuppressThisKey. frame. }
    apply K. }
  pose proof (dispatch_slot os lParam vk sc key_up cur s1) as D.
  unfold event_key. fold vk sc.
  rewrite (this_key_core _ _ vk sc H1) in D.
  unfold prefix_transition in *.
  rewrite (pPrefixKey_core _ _ H1), (deref_core _ _ (this_key s vk sc) H1) in D.
  rewrite (Case4_loops_prefix_pressed s s1 (this_key s vk sc)
             (pPrefixKey_core _ _ H1)
             (fun r => f_equal key_static (deref_core _ _ r H1))) in D.
  exact D.
Qed.

(** C3, as the code has it.  The prefix slot is one pointer, so it never
    holds two records.  When a delivery changes it from one key's record
    to a different one, the event is a key-down and either CASE #1 has
    installed the event's own key, which is configured as a prefix and not
    as a suffix, or the event's key is a suffix and CASE #4 has rebound
    the slot to what its two loops find with the suffix itself already
    recorded as down: the first entry of the suffix's ModifierVK list
    whose key is down or, when there is no such entry or its hotkey id is
    HOTKEY_ID_INVALID, the first entry of its ModifierSC list whose key is
    down, if there is one.  The key found is still recorded as down after
    the delivery; it may itself be configured as a suffix. *)
Theorem C3_prefix_slot_changes :
  forall d s a b,
    pPrefixKey (dsp s) = Some a ->
    pPrefixKey (dsp (exec (deliver d) s)) = Some b ->
    a <> b ->
    let this := event_key s (d_lParam d) in
    let s' := exec (deliver d) s in
    (forall r1 r2, pPrefixKey (dsp s') = Some r1 ->
                   pPrefixKey (dsp s') = Some r2 -> r1 = r2)
    /\ is_key_up (d_wParam d) = false
    /\ ((b = this /\ used_as_prefix (deref s this) = true
         /\ used_as_suffix (deref s this) = false)
        \/ (used_as_suffix (deref s this) = true
            /\ Case4_loops_prefix (on_key this (set_is_down true) s) this
               = Some b
            /\ is_down (deref s' b) = true
            /\ ((exists m, In m (ModifierVK (deref s this))
                           /\ b = InKvk (mod_key m))
                \/ (exists m, In m (ModifierSC (deref s this))
                              /\ b = InKsc (mod_key m))))).
Proof.
  intros d s a b Ha Hb Hab. cbv zeta.
  split; [intros r1 r2 E1 E2; congruence | ].
  pose proof (deliver_slot (d_os d) (d_code d) (d_wParam d) (d_lParam d) s) as T.
  fold (deliver d) in T.
  destruct T as [T | [(_ & _ & T) | [(Hku & Hp & Hpre & Hsuf)
                                     | (Hku & _ & Hsuf & Hfirst & T)]]].
  - exfalso. rewrite Ha, Hb in T. apply Hab. congruence.
  - rewrite Hb in T. discriminate T.
  - split; [exact Hku | left].
    rewrite Hb in Hp. injection Hp as Hp.
    split; [exact Hp | split; [exact Hpre | ]].
    destruct Hsuf as [Hsuf | Hsuf]; [congruence | exact Hsuf].
  - split; [exact Hku | right].
    split; [exact Hsuf | ].
    split; [rewrite <- Hfirst; exact Hb | ].
    destruct T as [(m & Hin & Hp & Hd) | (m & Hin & Hp & Hd)];
      rewrite Hb in Hp; injection Hp as Hp; subst b.
    + split; [exact Hd | left]. exists m. split; [exact Hin | reflexivity].
    + split; [exact Hd | right]. exists m. split; [exact Hin | reflexivity].
Qed.

(** A run that meets the hypotheses of C3: in the script "a & b", "b & c",
    "a & c", with b and then a held so that a holds the prefix slot, c goes
    down and CASE #4 rebinds the slot to b, the first held key of c's
    list. *)
Lemma C3_prefix_slot_changes_witness :
  let d := ex_down (ex_WinXP 300) ex_VK_C 0x2E in
  let s := ex_engine_b_then_a in
  pPrefixKey (dsp s) = Some (InKvk ex_VK_A)
  /\ pPrefixKey (dsp (exec (deliver d) s)) = Some (InKvk ex_VK_B)
  /\ is_key_up (d_wParam d) = false
  /\ Case4_loops_prefix
       (on_key (event_key s (d_lParam d)) (set_is_down true) s)
       (event_key s (d_lParam d))
     = Some (InKvk ex_VK_B).
Proof.
  cbv zeta.
  assert (Ha : pPrefixKey (dsp ex_engine_b_then_a) = Some (InKvk ex_VK_A))
    by (vm_compute; reflexivity).
  assert (Hb : pPrefixKey
                 (dsp (exec (deliver (ex_down (ex_WinXP 300) ex_VK_C 0x2E))
                            ex_engine_b_then_a))
               = Some (InKvk ex_VK_B)) by (vm_compute; reflexivity).
  assert (Hab : InKvk ex_VK_A <> InKvk ex_VK_B) by discriminate.
  destruct (C3_prefix_slot_changes _ _ _ _ Ha Hb Hab) as (_ & Hku & H).
  split; [exact Ha | split; [exact Hb | split; [exact Hku | ]]].
  destruct H as [(H & _) | (_ & H & _)].
  - vm_compute in H. discriminate H.
  - exact H.
Defined.

(** C3, counterexample to "the newly installed prefix key is not itself
    also configured as a suffix".  With the hotkeys a & b, b & c and a & c,
    the user holds b, then a (which takes the slot), then presses c: CASE #4
    finds b first in c's ModifierVK list and rebinds the slot from a's
    record to b's, and b is configured as a suffix. *)
Lemma C3_counterexample_rebinding_to_a_suffix :
  let s := ex_engine_b_then_a in
  let s' := exec (deliver (ex_down (ex_WinXP 300) ex_VK_C 0x2E)) s in
  pPrefixKey (dsp s) = Some (InKvk ex_VK_A)
  /\ pPrefixKey (dsp s') = Some (InKvk ex_VK_B)
  /\ used_as_suffix (deref s' (InKvk ex_VK_B)) = true
  /\ used_as_prefix (deref s' (InKvk ex_VK_B)) = true
  /\ posted s' = [(2, 0)].
Proof. vm_compute. repeat split. Qed.

(* ================================================================== *)
(** ** CASE #1: a prefix key goes down *)
(* ================================================================== *)

Lemma allow_if_core os lParam sc key_up cur r :
  keeps (same hook_core)
    (allow_if_modifier_or_neutral_toggle KeyEvent os lParam sc key_up cur r).
Proof.
  unfold allow_if_modifier_or_neutral_toggle, AllowKeyToGoToSystem,
    SuppressThisKey.
  frame.
Qed.

Lemma toggle_is_neutral_config s s' k k' :
  tbl s' = tbl s -> key_config k' = key_config k ->
  toggle_is_neutral s' k' = toggle_is_neutral s k.
Proof.
  intros Ht Hk. destruct (key_config_fields _ _ Hk) as (_ & _ & _ & E & _).
  unfold toggle_is_neutral, toggle_value. rewrite E, Ht. reflexivity.
Qed.

Lemma toggle_is_forced_config s s' k k' :
  tbl s' = tbl s -> key_config k' = key_config k ->
  toggle_is_forced s' k' = toggle_is_forced s k.
Proof.
  intros Ht Hk. destruct (key_config_fields _ _ Hk) as (_ & _ & _ & E & _).
  unfold toggle_is_forced, toggle_value. rewrite E, Ht. reflexivity.
Qed.

(** The verdict of "modifier or neutral toggle ? allow : suppress". *)
Lemma allow_if_verdict os lParam sc key_up cur r s :
  dwExtraInfo lParam <> KEYIGNORE ->
  eval (allow_if_modifier_or_neutral_toggle KeyEvent os lParam sc key_up cur r) s
  = if (nz (as_modifiersLR (deref s r)) || toggle_is_neutral s (deref s r))
       && negb (toggle_is_forced s (kvk (dsp s) (vk_of (vkCode lParam))))
    then PassedOn else Suppressed.
Proof.
  intro Hx. unfold allow_if_modifier_or_neutral_toggle.
  rewrite eval_bind, eval_get, exec_get.
  destruct (nz (as_modifiersLR (deref s r)) || toggle_is_neutral s (deref s r));
    cbn [andb].
  - unfold AllowKeyToGoToSystem.
    destruct (toggle_is_forced s (kvk (dsp s) (vk_of (vkCode lParam)))) eqn:F;
      cbn [negb].
    + apply AllowIt_forced_returns. rewrite F.
      rewrite (proj2 (Z.eqb_neq _ _) Hx). reflexivity.
    + apply AllowIt_plain_returns. rewrite F. apply andb_false_r.
  - apply SuppressThisKeyFunc_returns.
Qed.

(** The dispatcher on a key-down of a prefix key that does not already hold
    the slot, when the slot is empty or the key is not a suffix: the state
    in which the verdict is chosen, and the verdict. *)
Lemma dispatch_Case1 os lParam vk sc cur s :
  let this := this_key s vk sc in
  dwExtraInfo lParam <> KEYIGNORE ->
  used_as_prefix (deref s this) = true ->
  pPrefixKey (dsp s) <> Some this ->
  (pPrefixKey (dsp s) = None \/ used_as_suffix (deref s this) = false) ->
  exists s5,
    pPrefixKey (dsp s5) = Some this
    /\ was_just_used (deref s5 this) = Unused
    /\ tbl s5 = tbl s
    /\ (forall r, key_config (deref s5 r) = key_config (deref s r))
    /\ dispatch KeyEvent os lParam vk sc false cur s
       = allow_if_modifier_or_neutral_toggle KeyEvent os lParam sc false cur
           this s5.
Proof.
  cbv zeta. set (this := this_key s vk sc). intros Hx Hpre Hne Hcase.
  unfold dispatch. fold this.
  assert (E1 : ptr_eqb (pPrefixKey (dsp s)) this = false)
    by (apply ptr_eqb_false; exact Hne).
  set (c2 := when (match pPrefixKey (dsp s) with Some _ => true | None => false end
                   && negb false && negb (nz (as_modifiersLR (deref s this))))
                  (on_prefix (set_was_just_used AS_PREFIX))).
  set (s2 := exec c2 s).
  assert (S2 : settled s s2).
  { subst s2 c2. apply (keeps_when settled settled_refl). auto with hook_frame. }
  destruct S2 as (Hp2 & Ht2 & Hk2).
  set (s3 := on_key this (set_is_down true) s2).
  set (s4 := on_dsp (set_pPrefixKey (Some this)) s3).
  set (s5 := on_key this (set_was_just_used Unused) s4).
  assert (Hc3 : forall r, key_config (deref s3 r) = key_config (deref s r)).
  { intro r. subst s3. rewrite set_is_down_config. apply key_static_config, Hk2. }
  assert (Hp3 : pPrefixKey (dsp s3) = pPrefixKey (dsp s)).
  { subst s3. rewrite pPrefixKey_on_key. exact Hp2. }
  destruct (key_config_fields _ _ (key_static_config _ _ (Hk2 this)))
    as (Epre2 & Esuf2 & _).
  destruct (key_config_fields _ _ (Hc3 this)) as (Epre3 & Esuf3 & _).
  exists s5. split; [ | split; [ | split; [ | split]]].
  - subst s5. rewrite pPrefixKey_on_key. reflexivity.
  - subst s5. rewrite deref_on_key, KeyRef_eqb_refl. reflexivity.
  - subst s5 s4 s3. rewrite tbl_on_key. cbn. rewrite tbl_on_key. exact Ht2.
  - intro r. subst s5. rewrite deref_on_key.
    destruct (KeyRef_eqb r this) eqn:E.
    + apply KeyRef_eqb_eq in E. subst r.
      transitivity (key_config (deref s4 this)); [reflexivity | ].
      transitivity (key_config (deref s3 this));
        [destruct this; reflexivity | apply Hc3].
    + transitivity (key_config (deref s3 r));
        [destruct r; reflexivity | apply Hc3].
  - unfold bind at 1. unfold get at 1. cbv zeta. fold this.
    rewrite E1. cbn [andb].
    unfold bind at 1. fold c2. rewrite (run_pair c2 s). fold s2.
    unfold bind at 1. unfold get at 1.
    rewrite Epre2, Hpre. cbn [negb andb].
    unfold bind at 1. cbn [when]. unfold ret at 1.
    unfold bind at 1. unfold modify at 1. fold s3.
    unfold bind at 1. unfold get at 1.
    rewrite Epre3, Hpre, Hp3, Esuf3. cbn [negb andb].
    assert (C : match pPrefixKey (dsp s) with Some _ => false | None => true end
                || negb (used_as_suffix (deref s this)) = true).
    { destruct Hcase as [-> | ->]; [reflexivity | apply orb_true_r]. }
    rewrite C.
    unfold Case1.
    unfold bind at 1. unfold modify at 1. fold s4.
    unfold bind at 1. unfold on_prefix, modify at 1.
    replace (pPrefixKey (dsp s4)) with (Some this) by reflexivity.
    fold s5. reflexivity.
Qed.

Lemma disguise_armed_key_down vk s : disguise_armed vk false s = false.
Proof. reflexivity. Qed.

(** C2, as the code has it.  A key-down that does not carry KEYIGNORE, on
    a key whose record is configured as a prefix and does not already hold
    the prefix slot, when the slot is empty or the key is not also a
    suffix: the dispatcher installs the record as the active prefix and
    resets its was_just_used to Unused.  The event passes through exactly
    when the key is a modifier or a toggle key whose force-toggle value is
    NEUTRAL, and AllowIt does not suppress it on its own account (the
    record kvk[vkCode] has no force-toggle value other than NEUTRAL);
    otherwise the event is suppressed. *)
Theorem C2_prefix_key_down_installs_prefix :
  forall os wParam lParam s,
    dwExtraInfo lParam <> KEYIGNORE ->
    is_key_up wParam = false ->
    used_as_prefix (deref s (event_key s lParam)) = true ->
    pPrefixKey (dsp s) <> Some (event_key s lParam) ->
    (pPrefixKey (dsp s) = None
     \/ used_as_suffix (deref s (event_key s lParam)) = false) ->
    let this := event_key s lParam in
    let v := eval (KeybdProc os HC_ACTION wParam lParam) s in
    let s' := exec (KeybdProc os HC_ACTION wParam lParam) s in
    pPrefixKey (dsp s') = Some this
    /\ was_just_used (deref s' this) = Unused
    /\ (v = PassedOn
        <-> (as_modifiersLR (deref s this) <> 0
             \/ toggle_is_neutral s (deref s this) = true)
            /\ toggle_is_forced s (kvk (dsp s) (vk_of (vkCode lParam))) = false)
    /\ (v <> PassedOn -> v = Suppressed).
Proof.
  intros os wParam lParam s Hx Hku Hpre Hne Hcase. cbv zeta.
  unfold KeybdProc, LowLevelKeybdProc.
  change (HC_ACTION =? HC_ACTION) with true. cbn [negb].
  fold (is_key_up wParam). rewrite Hku.
  rewrite (proj2 (Z.eqb_neq _ _) Hx).
  rewrite !eval_bind, !exec_bind, !eval_get, !exec_get.
  set (vk := vk_of (vkCode lParam)).
  set (sc := normalized_sc s lParam).
  set (cur := eval (bookkeeping os lParam vk sc false) s).
  set (s1 := exec (bookkeeping os lParam vk sc false) s).
  assert (H1 : hook_core s1 = hook_core s) by apply bookkeeping_core.
  rewrite disguise_armed_key_down.
  unfold event_key in *. fold vk sc in Hpre, Hne, Hcase |- *.
  set (this := this_key s vk sc) in *.
  assert (Hthis : this_key s1 vk sc = this) by apply (this_key_core _ _ vk sc H1).
  destruct (dispatch_Case1 os lParam vk sc cur s1) as (s5 & Hp5 & Hw5 & Ht5 & Hc5 & Hd).
  - exact Hx.
  - rewrite Hthis, (deref_core _ _ this H1). exact Hpre.
  - rewrite Hthis, (pPrefixKey_core _ _ H1). exact Hne.
  - rewrite Hthis, (pPrefixKey_core _ _ H1), (deref_core _ _ this H1). exact Hcase.
  - rewrite Hthis in Hp5, Hw5, Hd.
    assert (Ev : eval (dispatch KeyEvent os lParam vk sc false cur) s1
                 = eval (allow_if_modifier_or_neutral_toggle KeyEvent os lParam
                           sc false cur this) s5)
      by (unfold eval; rewrite Hd; reflexivity).
    assert (Es : exec (dispatch KeyEvent os lParam vk sc false cur) s1
                 = exec (allow_if_modifier_or_neutral_toggle KeyEvent os lParam
                           sc false cur this) s5)
      by (unfold exec; rewrite Hd; reflexivity).
    rewrite Ev, Es.
    pose proof (allow_if_core os lParam sc false cur this s5) as Hf.
    unfold same in Hf.
    rewrite (pPrefixKey_core _ _ Hf), (deref_core _ _ this Hf).
    split; [exact Hp5 | split; [exact Hw5 | ]].
    rewrite (allow_if_verdict os lParam sc false cur this s5 Hx). fold vk.
    assert (Hc5' : forall r, key_config (deref s5 r) = key_config (deref s r)).
    { intro r. rewrite Hc5. rewrite (deref_core _ _ r H1). reflexivity. }
    assert (Ht5' : tbl s5 = tbl s) by (rewrite Ht5; apply (tbl_core _ _ H1)).
    destruct (key_config_fields _ _ (Hc5' this)) as (_ & _ & Emod & _).
    rewrite Emod.
    rewrite (toggle_is_neutral_config s s5 _ _ Ht5' (Hc5' this)).
    change (kvk (dsp s5) vk) with (deref s5 (InKvk vk)).
    rewrite (toggle_is_forced_config s s5 _ _ Ht5' (Hc5' (InKvk vk))).
    change (deref s (InKvk vk)) with (kvk (dsp s) vk).
    assert (Hb : (nz (as_modifiersLR (deref s this))
                  || toggle_is_neutral s (deref s this))
                 && negb (toggle_is_forced s (kvk (dsp s) vk)) = true
                 <-> (as_modifiersLR (deref s this) <> 0
                      \/ toggle_is_neutral s (deref s this) = true)
                     /\ toggle_is_forced s (kvk (dsp s) vk) = false).
    { rewrite andb_true_iff, orb_true_iff, negb_true_iff, nz_true_iff.
      reflexivity. }
    destruct ((nz (as_modifiersLR (deref s this))
               || toggle_is_neutral s (deref s this))
              && negb (toggle_is_forced s (kvk (dsp s) vk))).
    + split.
      * split; [intros _; apply Hb; reflexivity | reflexivity].
      * intro N. exfalso. apply N. reflexivity.
    + split.
      * split; [discriminate | intro H; apply Hb in H; discriminate H].
      * reflexivity.
Qed.

(** A run that meets the hypotheses of C2: CapsLock, a prefix only and free
    to toggle, goes down while no prefix is held. *)
Lemma C2_prefix_key_down_installs_prefix_witness :
  let d := ex_down (ex_WinXP 100) ex_VK_CAPITAL 0x3A in
  pPrefixKey (dsp (exec (deliver d) ex_engine_caps)) = Some (InKvk ex_VK_CAPITAL)
  /\ was_just_used (deref (exec (deliver d) ex_engine_caps) (InKvk ex_VK_CAPITAL))
     = Unused
  /\ eval (deliver d) ex_engine_caps = PassedOn.
Proof.
  cbv zeta.
  assert (Hx : dwExtraInfo (d_lParam (ex_down (ex_WinXP 100) ex_VK_CAPITAL 0x3A))
               <> KEYIGNORE) by (vm_compute; discriminate).
  assert (Hne : pPrefixKey (dsp ex_engine_caps)
                <> Some (event_key ex_engine_caps
                           (d_lParam (ex_down (ex_WinXP 100) ex_VK_CAPITAL 0x3A))))
    by (vm_compute; discriminate).
  destruct (C2_prefix_key_down_installs_prefix
              (ex_WinXP 100) WM_KEYDOWN
              (d_lParam (ex_down (ex_WinXP 100) ex_VK_CAPITAL 0x3A))
              ex_engine_caps Hx eq_refl eq_refl Hne (or_introl eq_refl))
    as (Hp & Hw & Hv & _).
  split; [exact Hp | split; [exact Hw | ]].
  apply Hv. split; [right | ]; vm_compute; reflexivity.
Defined.

(** C2, counterexample to "every key-down on a key configured as a
    prefix".  CapsLock is a prefix, not a suffix, and free to toggle
    (NEUTRAL).  While it is held, with was_just_used = AS_PREFIX, its
    auto-repeated key-down reaches the return-on-repeat test before
    CASE #1: the event is suppressed although the key is a NEUTRAL toggle
    key, and was_just_used is not reset.  A CapsLock key-down carrying
    KEYIGNORE, arriving while no prefix is held, installs nothing. *)
Lemma C2_counterexample_repeat_and_self_tagged :
  let caps := InKvk ex_VK_CAPITAL in
  let repeat_down := ex_down (ex_WinXP 300) ex_VK_CAPITAL 0x3A in
  let tagged_down :=
    mkDelivery (ex_WinXP 100) HC_ACTION WM_KEYDOWN
               (mkEvent ex_VK_CAPITAL 0x3A LLKHF_INJECTED 100 KEYIGNORE) in
  (used_as_prefix (deref ex_engine_caps_held caps) = true
   /\ used_as_suffix (deref ex_engine_caps_held caps) = false
   /\ toggle_is_neutral ex_engine_caps_held (deref ex_engine_caps_held caps) = true
   /\ pPrefixKey (dsp ex_engine_caps_held) = Some caps
   /\ was_just_used (deref ex_engine_caps_held caps) = AS_PREFIX
   /\ eval (deliver repeat_down) ex_engine_caps_held = Suppressed
   /\ was_just_used (deref (exec (deliver repeat_down) ex_engine_caps_held) caps)
      = AS_PREFIX)
  /\ (pPrefixKey (dsp ex_engine_caps) = None
      /\ used_as_prefix (deref ex_engine_caps caps) = true
      /\ pPrefixKey (dsp (exec (deliver tagged_down) ex_engine_caps)) = None).
Proof. vm_compute. repeat split. Qed.

(* ================================================================== *)
(** ** What holds across a whole delivery *)
(* ================================================================== *)

Ltac frame_leaf ::=
  first [ reflexivity | settled_leaf | solve [auto with hook_frame] ].
Ltac rel_refl ::=
  first [ apply same_refl | exact settled_refl | assumption
        | auto with hook_frame ].
Ltac rel_trans ::=
  first [ apply same_trans | exact settled_trans | assumption
        | auto with hook_frame ].

(** A relation between the engine before and after that every store of
    the hook respects is respected by the hook procedure as a whole, with
    the keystrokes it sends to itself included.  The stores are listed one
    by one; the three functions that compute what they store from the
    state they read (the history slot, the history tag, pad_state) are
    taken whole. *)
Section Everywhere.

Variable R : Engine -> Engine -> Prop.
Variable os : OSView.
Variable K : OSView -> KeyEventTypes -> Z -> Z -> M unit.

Hypothesis R_refl : forall s, R s s.
Hypothesis R_trans : forall s1 s2 s3, R s1 s2 -> R s2 s3 -> R s1 s3.

Hypothesis R_trk : forall f s, R s (on_trk f s).
Hypothesis R_flag :
  forall b s, R s (on_fix (set_next_phys_shift_down_is_not_phys b) s).
Hypothesis R_snapshot :
  forall m a b s, R s (on_fix (set_prior_snapshot m a b) s).
Hypothesis R_prior_key : forall v c u s, R s (on_fix (set_prior_key v c u) s).
Hypothesis R_prior_physical :
  forall b s, R s (on_fix (set_prior_event_was_physical b) s).
Hypothesis R_prior_tick :
  forall t s, R s (on_fix (set_prior_event_tickcount t) s).
Hypothesis R_alt_tab :
  forall b s, R s (on_dsp (set_alt_tab_menu_is_visible b) s).
Hypothesis R_lwin : forall b s, R s (on_dsp (set_disguise_next_lwin_up b) s).
Hypothesis R_rwin : forall b s, R s (on_dsp (set_disguise_next_rwin_up b) s).
Hypothesis R_lalt : forall b s, R s (on_dsp (set_disguise_next_lalt_up b) s).
Hypothesis R_ralt : forall b s, R s (on_dsp (set_disguise_next_ralt_up b) s).
Hypothesis R_prefix : forall p s, R s (on_dsp (set_pPrefixKey p) s).
Hypothesis R_is_down : forall r b s, R s (on_key r (set_is_down b) s).
Hypothesis R_performed :
  forall r b s, R s (on_key r (set_down_performed_action b) s).
Hypothesis R_just_used : forall r u s, R s (on_key r (set_was_just_used u) s).
Hypothesis R_alt_down : forall r b s, R s (on_key r (set_it_put_alt_down b) s).
Hypothesis R_shift_down :
  forall r b s, R s (on_key r (set_it_put_shift_down b) s).
Hypothesis R_posted : forall m s, R s (push_posted m s).
Hypothesis R_claim :
  forall vk sc key_up extra, keeps R (claim_history_slot vk sc key_up extra).
Hypothesis R_tag : forall cur ty, keeps R (set_curr_event_type cur ty).
Hypothesis R_pad : forall vk sc key_up, keeps R (update_pad_state os vk sc key_up).
Hypothesis R_KeyEvent : forall ty vk sc, keeps R (K os ty vk sc).

Hint Resolve R_claim R_tag R_pad R_KeyEvent : hook_frame.

Lemma EventIsPhysical_everywhere lParam sc key_up :
  keeps R (EventIsPhysical os lParam sc key_up).
Proof. unfold EventIsPhysical. cbv zeta. frame. Qed.
Hint Resolve EventIsPhysical_everywhere : hook_frame.

Lemma track_modifier_everywhere lParam sc key_up sup bit side pair :
  keeps R (track_modifier os lParam sc key_up sup bit side pair).
Proof.
  unfold track_modifier, logical_clear, logical_set, physical_clear,
    physical_set, phys_key_store, phys_key_copy.
  frame.
Qed.
Hint Resolve track_modifier_everywhere : hook_frame.

Lemma UpdateModifierState_everywhere lParam sc key_up sup :
  keeps R (UpdateModifierState os lParam sc key_up sup).
Proof. unfold UpdateModifierState. cbv zeta. frame. Qed.
Hint Resolve UpdateModifierState_everywhere : hook_frame.

Lemma UpdateKeyState_everywhere lParam sc key_up sup :
  keeps R (UpdateKeyState os lParam sc key_up sup).
Proof. unfold UpdateKeyState, phys_key_store. cbv zeta. frame. Qed.
Hint Resolve UpdateKeyState_everywhere : hook_frame.

Lemma SuppressThisKeyFunc_everywhere lParam sc key_up cur :
  keeps R (SuppressThisKeyFunc K os lParam sc key_up cur).
Proof. unfold SuppressThisKeyFunc. frame. Qed.
Hint Resolve SuppressThisKeyFunc_everywhere : hook_frame.

Lemma AllowIt_everywhere lParam sc key_up cur disguise :
  keeps R (AllowIt K os lParam sc key_up cur disguise).
Proof. unfold AllowIt, phys_key_store. frame. Qed.
Hint Resolve AllowIt_everywhere : hook_frame.

Lemma on_prefix_everywhere f :
  (forall r s, R s (on_key r f s)) -> keeps R (on_prefix f).
Proof.
  intros Hf s. unfold on_prefix. rewrite exec_modify.
  destruct (pPrefixKey (dsp s)); [apply Hf | apply R_refl].
Qed.

Lemma on_prefix_just_used_everywhere u :
  keeps R (on_prefix (set_was_just_used u)).
Proof. apply on_prefix_everywhere. intros. apply R_just_used. Qed.
Lemma on_prefix_alt_down_everywhere b :
  keeps R (on_prefix (set_it_put_alt_down b)).
Proof. apply on_prefix_everywhere. intros. apply R_alt_down. Qed.
Lemma on_prefix_shift_down_everywhere b :
  keeps R (on_prefix (set_it_put_shift_down b)).
Proof. apply on_prefix_everywhere. intros. apply R_shift_down. Qed.
Hint Resolve on_prefix_just_used_everywhere on_prefix_alt_down_everywhere
  on_prefix_shift_down_everywhere : hook_frame.

Lemma bookkeeping_everywhere lParam vk sc key_up :
  keeps R (bookkeeping os lParam vk sc key_up).
Proof.
  unfold bookkeeping, AltTabMenuHeuristic, track_plain_key, phys_key_store.
  frame.
Qed.
Hint Resolve bookkeeping_everywhere : hook_frame.

Lemma clear_disguise_flag_everywhere vk : keeps R (clear_disguise_flag vk).
Proof. unfold clear_disguise_flag. frame. Qed.
Hint Resolve clear_disguise_flag_everywhere : hook_frame.

Lemma allow_if_everywhere lParam sc key_up cur r :
  keeps R (allow_if_modifier_or_neutral_toggle K os lParam sc key_up cur r).
Proof.
  unfold allow_if_modifier_or_neutral_toggle, AllowKeyToGoToSystem,
    SuppressThisKey.
  frame.
Qed.
Hint Resolve allow_if_everywhere : hook_frame.

Lemma Case1_everywhere lParam sc key_up cur r :
  keeps R (Case1 K os lParam sc key_up cur r).
Proof. unfold Case1. frame. Qed.

Lemma Case2_everywhere lParam sc key_up cur dpa :
  keeps R (Case2 K os lParam sc key_up cur dpa).
Proof. unfold Case2, AllowKeyToGoToSystem, SuppressThisKey. frame. Qed.

Lemma Case3_unused_everywhere lParam sc key_up cur r w :
  keeps R (Case3_unused K os lParam sc key_up cur r w).
Proof. unfold Case3_unused, AllowKeyToGoToSystem. frame. Qed.
Hint Resolve Case1_everywhere Case2_everywhere Case3_unused_everywhere
  : hook_frame.

Lemma Case3_released_everywhere lParam vk sc key_up cur r w :
  keeps R (Case3_released K os lParam vk sc key_up cur r w).
Proof.
  unfold Case3_released, AllowKeyToGoToSystem,
    AllowKeyToGoToSystemButDisguiseWinAlt, SuppressThisKey.
  frame.
Qed.
Hint Resolve Case3_released_everywhere : hook_frame.

Lemma Case3_everywhere lParam vk sc key_up cur r w :
  keeps R (Case3 K os lParam vk sc key_up cur r w).
Proof. unfold Case3. frame. Qed.
Hint Resolve Case3_everywhere : hook_frame.

Lemma find_modifier_vk_everywhere r : keeps R (find_modifier_vk r).
Proof. unfold find_modifier_vk. frame. Qed.

Lemma find_modifier_sc_everywhere r found : keeps R (find_modifier_sc r found).
Proof. unfold find_modifier_sc. frame. Qed.
Hint Resolve find_modifier_vk_everywhere find_modifier_sc_everywhere
  : hook_frame.

Lemma prefixed_alt_tab_everywhere lParam vk sc key_up cur r id :
  keeps R (prefixed_alt_tab K os lParam vk sc key_up cur r id).
Proof. unfold prefixed_alt_tab, SuppressThisKey. frame. Qed.

Lemma arm_disguise_everywhere : keeps R arm_disguise.
Proof. unfold arm_disguise. cbv zeta. frame. Qed.

Lemma switch_alt_tab_everywhere lParam vk sc key_up cur id :
  keeps R (switch_alt_tab K os lParam vk sc key_up cur id).
Proof. unfold switch_alt_tab, AllowKeyToGoToSystem. cbv zeta. frame. Qed.
Hint Resolve prefixed_alt_tab_everywhere arm_disguise_everywhere
  switch_alt_tab_everywhere : hook_frame.

Lemma switch_alt_tab_menu_everywhere lParam vk sc key_up cur r id :
  keeps R (switch_alt_tab_menu K os lParam vk sc key_up cur r id).
Proof. unfold switch_alt_tab_menu. cbv zeta. frame. Qed.
Hint Resolve switch_alt_tab_menu_everywhere : hook_frame.

Lemma perform_hotkey_everywhere lParam vk sc key_up cur r id :
  keeps R (perform_hotkey K os lParam vk sc key_up cur r id).
Proof. unfold perform_hotkey, AllowKeyToGoToSystem. frame. Qed.

Lemma after_hotkey_everywhere lParam vk sc key_up cur r ns :
  keeps R (after_hotkey K os lParam vk sc key_up cur r ns).
Proof.
  unfold after_hotkey, AllowKeyToGoToSystem,
    AllowKeyToGoToSystemButDisguiseWinAlt, SuppressThisKey.
  frame.
Qed.
Hint Resolve perform_hotkey_everywhere after_hotkey_everywhere : hook_frame.

Lemma fire_hotkey_everywhere lParam vk sc key_up cur r found :
  keeps R (fire_hotkey K os lParam vk sc key_up cur r found).
Proof. unfold fire_hotkey. frame. Qed.
Hint Resolve fire_hotkey_everywhere : hook_frame.

Lemma lookup_and_fire_everywhere lParam vk sc key_up cur r found :
  keeps R (lookup_and_fire K os lParam vk sc key_up cur r found).
Proof. unfold lookup_and_fire, AllowKeyToGoToSystem. cbv zeta. frame. Qed.
Hint Resolve lookup_and_fire_everywhere : hook_frame.

Lemma Case4_everywhere lParam vk sc key_up cur r :
  keeps R (Case4 K os lParam vk sc key_up cur r).
Proof. unfold Case4. frame. Qed.
Hint Resolve Case4_everywhere : hook_frame.

Lemma dispatch_everywhere lParam vk sc key_up cur :
  keeps R (dispatch K os lParam vk sc key_up cur).
Proof.
  unfold dispatch, AllowKeyToGoToSystem, SuppressThisKey. cbv zeta. frame.
Qed.
Hint Resolve dispatch_everywhere : hook_frame.

Lemma LowLevelKeybdProc_everywhere code wParam lParam :
  keeps R (LowLevelKeybdProc K os code wParam lParam).
Proof.
  unfold LowLevelKeybdProc, AllowKeyToGoToSystem, SuppressThisKey.
  cbv zeta. frame.
Qed.

End Everywhere.

(** The hook as installed respects what every store respects. *)
Lemma KeyEvent_respects R os :
  respected R os -> forall ty vk sc, keeps R (KeyEvent os ty vk sc).
Proof.
  intros H.
  assert (K0 : forall ty vk sc, keeps R (KeyEvent_record_only os ty vk sc)).
  { intros ty vk sc s. destruct ty; cbn [KeyEvent_record_only];
      rewrite ?exec_bind, ?exec_modify; try apply (r_sent R os H).
    eapply (r_trans R os H); apply (r_sent R os H). }
  assert (P0 : forall code wParam lParam,
             keeps R (LowLevelKeybdProc KeyEvent_record_only os code wParam lParam)).
  { intros. apply (LowLevelKeybdProc_everywhere R os KeyEvent_record_only);
      try apply H; try assumption;
      intros; intro s; apply H. }
  assert (S1 : forall up vk sc, keeps R (send_one os up vk sc)).
  { intros up vk sc s. unfold send_one.
    rewrite !exec_bind, exec_ret, exec_modify.
    eapply (r_trans R os H); [apply (r_sent R os H) | apply P0]. }
  intros ty vk sc s. destruct ty; cbn [KeyEvent]; try apply S1.
  rewrite exec_bind. eapply (r_trans R os H); apply S1.
Qed.

Lemma KeybdProc_respects R os :
  respected R os ->
  forall code wParam lParam, keeps R (KeybdProc os code wParam lParam).
Proof.
  intros H code wParam lParam. unfold KeybdProc.
  apply (LowLevelKeybdProc_everywhere R os KeyEvent);
    try apply H; try (apply KeyEvent_respects; exact H);
    intros; intro s; apply H.
Qed.

Lemma run_respects R (ds : list Delivery) :
  (forall d, In d ds -> respected R (d_os d)) ->
  (forall s, R s s) ->
  forall s, R s (snd (run ds s)).
Proof.
  intros H Hrefl. induction ds as [ | d ds IH]; intro s; cbn [run].
  - apply Hrefl.
  - rewrite (run_pair (deliver d) s).
    destruct (run ds (exec (deliver d) s)) as [vs s2] eqn:E. cbn [snd].
    assert (Hd : respected R (d_os d)) by (apply H; left; reflexivity).
    eapply (r_trans R (d_os d) Hd).
    + apply (KeybdProc_respects R (d_os d) Hd).
    + fold (deliver d). change s2 with (snd (vs, s2)). rewrite <- E.
      apply IH. intros d' Hin. apply H. right. exact Hin.
Qed.

(** *** The tables are read-only *)

Lemma configured_refl s : configured s s.
Proof. split; reflexivity. Qed.

Lemma configured_trans s1 s2 s3 :
  configured s1 s2 -> configured s2 s3 -> configured s1 s3.
Proof.
  intros (A1 & B1) (A2 & B2). split; [congruence | ].
  intro r. rewrite B2. apply B1.
Qed.

Lemma configured_on_key r f s :
  (forall k, key_config (f k) = key_config k) -> configured s (on_key r f s).
Proof.
  intro Hf. split; [apply tbl_on_key | ].
  intro r'. rewrite deref_on_key.
  destruct (KeyRef_eqb r' r) eqn:E; [ | reflexivity].
  apply KeyRef_eqb_eq in E. subst r'. apply Hf.
Qed.

(** A store that leaves [tbl], [kvk] and [ksc] alone. *)
Ltac configured_leaf :=
  split; [reflexivity | let r := fresh "r" in intro r; destruct r; reflexivity].

Lemma configured_respected os : respected configured os.
Proof.
  constructor; intros;
    try apply configured_refl;
    try (eapply configured_trans; eassumption);
    try (apply configured_on_key; intro; reflexivity);
    try configured_leaf.
  - unfold update_pad_state.
    destruct (negb (nz (Z.land sc 256)) && NumLockToggledOn os); cbn [when];
      [destruct (pad_index vk) | ]; configured_leaf.
Qed.

(** X1.  No stream of deliveries changes the read-only tables (the
    vk-to-sc map, Kvkm, Kscm, the force-toggle settings) or the
    configuration of any key record: used_as_prefix, used_as_suffix,
    as_modifiersLR, pForceToggle, sc_takes_precedence and the two modifier
    lists are what the builder of the tables made them. *)
Theorem X1_hook_never_writes_the_configuration :
  forall (ds : list Delivery) (s : Engine),
    tbl (snd (run ds s)) = tbl s
    /\ forall r, key_config (deref (snd (run ds s)) r) = key_config (deref s r).
Proof.
  intros ds s.
  apply (run_respects configured ds).
  - intros d _. apply configured_respected.
  - apply configured_refl.
Qed.

(** *** The key history ring *)

Lemma claim_history_slot_exec vk sc key_up extra s :
  g_KeyHistoryNext (exec (claim_history_slot vk sc key_up extra) s)
  = if g_KeyHistoryNext s + 1 >=? MAX_HISTORY_KEYS then 0
    else g_KeyHistoryNext s + 1.
Proof. reflexivity. Qed.

Lemma ring_kept_respected os : respected ring_kept os.
Proof.
  constructor; unfold ring_kept; intros;
    try assumption;
    try (match goal with
         | |- ring_ok (on_key ?r _ _) => destruct r; assumption
         end);
    try (match goal with
         | H1 : ring_ok ?a -> ring_ok ?b, H2 : ring_ok ?b -> ring_ok ?c,
           H3 : ring_ok ?a |- ring_ok ?c => exact (H2 (H1 H3))
         end).
  - unfold ring_ok in *. rewrite claim_history_slot_exec.
    unfold MAX_HISTORY_KEYS in *.
    destruct (Z.geb_spec (g_KeyHistoryNext s + 1) 40); lia.
  - unfold update_pad_state.
    destruct (negb (nz (Z.land sc 256)) && NumLockToggledOn os); cbn [when];
      [destruct (pad_index vk) | ]; assumption.
Qed.

(** X2.  The index of the next history slot never leaves the ring: if it
    lies in [0, MAX_HISTORY_KEYS) before a stream of deliveries it lies
    there afterwards, however many keystrokes the engine sent to itself on
    the way (each of them takes a slot of its own). *)
Theorem X2_history_index_stays_in_the_ring :
  forall (ds : list Delivery) (s : Engine),
    0 <= g_KeyHistoryNext s < MAX_HISTORY_KEYS ->
    0 <= g_KeyHistoryNext (snd (run ds s)) < MAX_HISTORY_KEYS.
Proof.
  intros ds s.
  apply (run_respects ring_kept ds).
  - intros d _. apply ring_kept_respected.
  - intros s0 H. exact H.
Qed.

(** A run that meets the hypothesis of X2: forty-one key-downs from the
    initial engine bring the index round the ring once. *)
Lemma X2_history_index_stays_in_the_ring_witness :
  (0 <= g_KeyHistoryNext ex_engine0 < MAX_HISTORY_KEYS)
  /\ 0 <= g_KeyHistoryNext
            (snd (run (repeat (ex_down (ex_WinXP 100) ex_VK_A 0x1E) 41)
                      ex_engine0))
       < MAX_HISTORY_KEYS.
Proof.
  assert (H : 0 <= g_KeyHistoryNext ex_engine0 < MAX_HISTORY_KEYS)
    by (change (0 <= 0 < 40); lia).
  split; [exact H | ].
  apply (X2_history_index_stays_in_the_ring
           (repeat (ex_down (ex_WinXP 100) ex_VK_A 0x1E) 41) ex_engine0 H).
Defined.

(** *** pad_state and Numlock *)

Lemma pad_respected os :
  NumLockToggledOn os = false -> respected (same pad_of) os.
Proof.
  intro Hoff.
  constructor; unfold same, pad_of; intros;
    try reflexivity; try congruence;
    try (match goal with
         | |- pad_state (fix_ (on_key ?r _ _)) = _ => destruct r; reflexivity
         end).
  - unfold update_pad_state. rewrite Hoff, andb_false_r. reflexivity.
Qed.

(** X3.  While Numlock is toggled off nothing is recorded in pad_state: a
    stream of deliveries all made with Numlock off leaves every slot as it
    was, so a dual-state numpad key counts as held only if Numlock was on
    when it went down. *)
Theorem X3_pad_state_is_written_only_with_numlock_on :
  forall (ds : list Delivery) (s : Engine),
    (forall d, In d ds -> NumLockToggledOn (d_os d) = false) ->
    (forall i, pad_state (fix_ (snd (run ds s))) i = pad_state (fix_ s) i)
    /\ DualStateNumpadKeyIsDown (snd (run ds s)) = DualStateNumpadKeyIsDown s.
Proof.
  intros ds s Hoff.
  assert (H : pad_of (snd (run ds s)) = pad_of s).
  { apply (run_respects (same pad_of) ds).
    - intros d Hin. apply pad_respected. apply Hoff. exact Hin.
    - intro. reflexivity. }
  unfold pad_of in H. split.
  - intro i. rewrite H. reflexivity.
  - unfold DualStateNumpadKeyIsDown. rewrite H. reflexivity.
Qed.

(** A run that meets the hypothesis of X3: NumpadEnd and a are pressed and
    released with Numlock off. *)
Lemma X3_pad_state_is_written_only_with_numlock_on_witness :
  (forall d, In d ex_numlock_off_session -> NumLockToggledOn (d_os d) = false)
  /\ DualStateNumpadKeyIsDown (snd (run ex_numlock_off_session ex_engine0))
     = false.
Proof.
  assert (Hoff : forall d, In d ex_numlock_off_session ->
                           NumLockToggledOn (d_os d) = false).
  { intros d [<- | [<- | [<- | [<- | []]]]]; reflexivity. }
  split; [exact Hoff | ].
  destruct (X3_pad_state_is_written_only_with_numlock_on
              ex_numlock_off_session ex_engine0 Hoff) as (_ & H).
  rewrite H. reflexivity.
Defined.

(* ================================================================== *)
(** ** Early exits of the hook procedure *)
(* ================================================================== *)

Lemma LowLevelKeybdProc_ignored_returns K os code wParam lParam s :
  dwExtraInfo lParam = KEYIGNORE ->
  eval (LowLevelKeybdProc K os code wParam lParam) s = PassedOn.
Proof.
  intro H. unfold LowLevelKeybdProc.
  destruct (negb (code =? HC_ACTION)); [reflexivity | ].
  rewrite H, Z.eqb_refl.
  rewrite !eval_bind. unfold AllowKeyToGoToSystem.
  apply AllowIt_plain_returns. rewrite H, Z.eqb_refl. reflexivity.
Qed.

(** X4.  An event that carries KEYIGNORE, whatever its key, direction and
    hook code, is passed on to the system; while handling it the hook
    sends no keystroke and posts no message, and it leaves the prefix slot,
    the four disguise flags and every key record (is_down,
    down_performed_action, was_just_used and the rest) exactly as they
    were.  Only the trackers (modifier masks, physical key table,
    prior-event record, pad_state, alt-tab flag, history) may change. *)
Theorem X4_self_tagged_event_passes_untouched :
  forall os code wParam lParam s,
    dwExtraInfo lParam = KEYIGNORE ->
    let s' := exec (KeybdProc os code wParam lParam) s in
    eval (KeybdProc os code wParam lParam) s = PassedOn
    /\ sent s' = sent s
    /\ posted s' = posted s
    /\ pPrefixKey (dsp s') = pPrefixKey (dsp s)
    /\ (forall r, deref s' r = deref s r)
    /\ (forall vk, disguise_flag_for vk s' = disguise_flag_for vk s).
Proof.
  intros os code wParam lParam s H. cbv zeta. unfold KeybdProc.
  pose proof (LowLevelKeybdProc_ignored_core KeyEvent os code wParam lParam s H)
    as Hc.
  split; [apply LowLevelKeybdProc_ignored_returns; exact H | ].
  split; [apply LowLevelKeybdProc_ignored_sends_nothing; exact H | ].
  split; [ | split; [ | split]].
  - unfold hook_core in Hc. injection Hc as _ _ _ _ _ _ _ _ Hp. exact Hp.
  - apply pPrefixKey_core. exact Hc.
  - intro r. apply deref_core. exact Hc.
  - intro vk. apply disguise_flag_for_core. exact Hc.
Qed.

(** A run that meets the hypothesis of X4: a LWIN key-up sent by the
    engine itself. *)
Lemma X4_self_tagged_event_passes_untouched_witness :
  dwExtraInfo (d_lParam (ex_up_self (ex_WinXP 50) VK_LWIN 0x5B)) = KEYIGNORE
  /\ eval (deliver (ex_up_self (ex_WinXP 50) VK_LWIN 0x5B)) ex_engine_lwin_armed
     = PassedOn.
Proof.
  split; [reflexivity | ].
  apply (X4_self_tagged_event_passes_untouched
           (ex_WinXP 50) HC_ACTION WM_KEYUP
           (d_lParam (ex_up_self (ex_WinXP 50) VK_LWIN 0x5B))
           ex_engine_lwin_armed eq_refl).
Defined.

(** An event that is not the engine's own and meets no armed disguise
    reaches the four-case dispatcher in the state the bookkeeping left. *)
Lemma KeybdProc_dispatches os wParam lParam s :
  dwExtraInfo lParam <> KEYIGNORE ->
  disguise_armed (vk_of (vkCode lParam)) (is_key_up wParam) s = false ->
  let vk := vk_of (vkCode lParam) in
  let sc := normalized_sc s lParam in
  let key_up := is_key_up wParam in
  KeybdProc os HC_ACTION wParam lParam s
  = dispatch KeyEvent os lParam vk sc key_up
      (eval (bookkeeping os lParam vk sc key_up) s)
      (exec (bookkeeping os lParam vk sc key_up) s).
Proof.
  intros Hx Hd. cbv zeta. unfold KeybdProc, LowLevelKeybdProc.
  change (HC_ACTION =? HC_ACTION) with true. cbn [negb].
  fold (is_key_up wParam).
  rewrite (proj2 (Z.eqb_neq _ _) Hx).
  unfold bind at 1. unfold get at 1. cbv zeta.
  unfold bind at 1.
  rewrite (run_pair (bookkeeping os lParam (vk_of (vkCode lParam))
                       (normalized_sc s lParam) (is_key_up wParam)) s).
  unfold bind at 1. unfold get at 1.
  set (s1 := exec (bookkeeping _ _ _ _ _) s).
  assert (H1 : hook_core s1 = hook_core s) by apply bookkeeping_core.
  assert (Hd1 : disguise_armed (vk_of (vkCode lParam)) (is_key_up wParam) s1
                = false).
  { rewrite <- Hd. unfold disguise_armed, hook_core in *.
    injection H1 as _ _ _ F1 F2 F3 F4 _ _. rewrite F1, F2, F3, F4. reflexivity. }
  rewrite Hd1. reflexivity.
Qed.

Lemma when_on_prefix_sent c f s : sent (exec (when c (on_prefix f)) s) = sent s.
Proof.
  destruct c; [ | reflexivity]. cbn [when]. unfold on_prefix.
  rewrite exec_modify. destruct (pPrefixKey (dsp s)) as [[v | c] | ]; reflexivity.
Qed.

Lemma when_on_prefix_posted c f s :
  posted (exec (when c (on_prefix f)) s) = posted s.
Proof.
  destruct c; [ | reflexivity]. cbn [when]. unfold on_prefix.
  rewrite exec_modify. destruct (pPrefixKey (dsp s)) as [[v | c] | ]; reflexivity.
Qed.

(** AllowIt without a forced toggle and without a disguise request sends
    nothing. *)
Lemma AllowIt_plain_sent K os lParam sc key_up cur s :
  negb (dwExtraInfo lParam =? KEYIGNORE)
  && toggle_is_forced s (kvk (dsp s) (vk_of (vkCode lParam))) = false ->
  sent (exec (AllowIt K os lParam sc key_up cur false) s) = sent s.
Proof.
  intro H. unfold AllowIt.
  rewrite exec_bind, eval_get, exec_get, H. cbn [andb].
  match goal with
  | |- sent (exec ?c s) = sent s =>
      assert (Hk : keeps (same sent) c);
      [unfold phys_key_store; frame | apply Hk]
  end.
Qed.

Lemma posted_core s s' : hook_core s' = hook_core s -> posted s' = posted s.
Proof. unfold hook_core. intro H. injection H as _ _ _ _ _ _ _ _ Hp. exact Hp. Qed.

Lemma disguise_flags_core s s' :
  hook_core s' = hook_core s -> disguise_flags s' = disguise_flags s.
Proof.
  unfold hook_core, disguise_flags. intro H.
  injection H as _ _ _ F1 F2 F3 F4 _ _. rewrite F1, F2, F3, F4. reflexivity.
Qed.

Lemma when_on_prefix_flags c f s :
  disguise_flags (exec (when c (on_prefix f)) s) = disguise_flags s.
Proof.
  destruct c; [ | reflexivity]. cbn [when]. unfold on_prefix.
  rewrite exec_modify. destruct (pPrefixKey (dsp s)) as [[v | c] | ]; reflexivity.
Qed.

(** The early return of the dispatcher for a key that is neither a prefix
    nor a suffix. *)
Lemma unused_key_passes os wParam lParam s :
  dwExtraInfo lParam <> KEYIGNORE ->
  disguise_armed (vk_of (vkCode lParam)) (is_key_up wParam) s = false ->
  used_as_prefix (deref s (event_key s lParam)) = false ->
  used_as_suffix (deref s (event_key s lParam)) = false ->
  pPrefixKey (dsp s) <> Some (event_key s lParam) ->
  toggle_is_forced s (kvk (dsp s) (vk_of (vkCode lParam))) = false ->
  let s' := exec (KeybdProc os HC_ACTION wParam lParam) s in
  eval (KeybdProc os HC_ACTION wParam lParam) s = PassedOn
  /\ sent s' = sent s
  /\ posted s' = posted s
  /\ settled s s'
  /\ disguise_flags s' = disguise_flags s.
Proof.
  intros Hx Hd Hpre Hsuf Hne Hforced. cbv zeta.
  unfold eval, exec. rewrite (KeybdProc_dispatches os wParam lParam s Hx Hd).
  cbv zeta.
  set (vk := vk_of (vkCode lParam)) in *.
  set (sc := normalized_sc s lParam).
  set (key_up := is_key_up wParam) in *.
  set (cur := eval (bookkeeping os lParam vk sc key_up) s).
  set (s1 := exec (bookkeeping os lParam vk sc key_up) s).
  assert (H1 : hook_core s1 = hook_core s) by apply bookkeeping_core.
  assert (H1s : sent s1 = sent s) by apply bookkeeping_sent.
  unfold event_key in *. fold vk sc in Hpre, Hsuf, Hne.
  set (this := this_key s vk sc) in *.
  assert (E1 : ptr_eqb (pPrefixKey (dsp s1)) this = false).
  { apply ptr_eqb_false. rewrite (pPrefixKey_core _ _ H1). exact Hne. }
  assert (E : exists s2,
             settled s1 s2 /\ sent s2 = sent s1 /\ posted s2 = posted s1
             /\ disguise_flags s2 = disguise_flags s1
             /\ dispatch KeyEvent os lParam vk sc key_up cur s1
                = AllowIt KeyEvent os lParam sc key_up cur false s2).
  { unfold dispatch.
    unfold bind at 1. unfold get at 1. cbv zeta.
    rewrite (this_key_core _ _ vk sc H1). fold this.
    rewrite E1. cbn [andb].
    unfold bind at 1.
    match goal with
    | |- context [when ?c (on_prefix ?f) s1] =>
        set (c2 := when c (on_prefix f))
    end.
    rewrite (run_pair c2 s1). exists (exec c2 s1).
    assert (S2 : settled s1 (exec c2 s1)).
    { subst c2. apply (keeps_when settled settled_refl). auto with hook_frame. }
    split; [exact S2 | ].
    split; [apply when_on_prefix_sent | ].
    split; [apply when_on_prefix_posted | ].
    split; [apply when_on_prefix_flags | ].
    destruct S2 as (_ & _ & Hk2).
    destruct (key_static_fields _ _ (Hk2 this)) as (Epre & Esuf & _).
    unfold bind at 1. unfold get at 1.
    rewrite Epre, Esuf, (deref_core _ _ this H1), Hpre, Hsuf.
    reflexivity. }
  destruct E as (s2 & S2 & Hs2 & Hq2 & Hf2 & E). rewrite E.
  pose proof S2 as (Hp2 & Ht2 & Hk2).
  fold (eval (AllowIt KeyEvent os lParam sc key_up cur false) s2).
  fold (exec (AllowIt KeyEvent os lParam sc key_up cur false) s2).
  assert (F2 : negb (dwExtraInfo lParam =? KEYIGNORE)
               && toggle_is_forced s2 (kvk (dsp s2) vk) = false).
  { change (kvk (dsp s2) vk) with (deref s2 (InKvk vk)).
    rewrite (toggle_is_forced_config s1 s2 (deref s1 (InKvk vk)) _ Ht2
               (key_static_config _ _ (Hk2 (InKvk vk)))).
    rewrite (deref_core _ _ (InKvk vk) H1).
    unfold toggle_is_forced, toggle_value in *. rewrite (tbl_core _ _ H1).
    change (deref s (InKvk vk)) with (kvk (dsp s) vk). rewrite Hforced.
    apply andb_false_r. }
  split; [apply AllowIt_plain_returns; exact F2 | ].
  split; [ | split; [ | split]].
  - rewrite (AllowIt_plain_sent KeyEvent os lParam sc key_up cur s2 F2).
    rewrite Hs2. exact H1s.
  - rewrite (posted_core _ _ (AllowIt_core os lParam sc key_up cur false s2)).
    rewrite Hq2. apply (posted_core _ _ H1).
  - apply (settled_trans s s1); [apply settled_of_core; exact H1 | ].
    apply (settled_trans s1 s2); [exact S2 | ].
    apply settled_of_core. apply AllowIt_core.
  - rewrite (disguise_flags_core _ _ (AllowIt_core os lParam sc key_up cur false s2)).
    rewrite Hf2. apply (disguise_flags_core _ _ H1).
Qed.

(** X5.  A key that takes part in no hotkey goes to the system untouched:
    when the event is not the engine's own, meets no armed disguise, its
    key record is neither a prefix nor a suffix and not the held prefix,
    and kvk[vkCode] is not a force-toggled key, the hook passes it on,
    sends nothing, posts nothing and leaves the prefix slot as it was. *)
Theorem X5_key_outside_every_hotkey_passes_through :
  forall os wParam lParam s,
    dwExtraInfo lParam <> KEYIGNORE ->
    disguise_armed (vk_of (vkCode lParam)) (is_key_up wParam) s = false ->
    used_as_prefix (deref s (event_key s lParam)) = false ->
    used_as_suffix (deref s (event_key s lParam)) = false ->
    pPrefixKey (dsp s) <> Some (event_key s lParam) ->
    toggle_is_forced s (kvk (dsp s) (vk_of (vkCode lParam))) = false ->
    let s' := exec (KeybdProc os HC_ACTION wParam lParam) s in
    eval (KeybdProc os HC_ACTION wParam lParam) s = PassedOn
    /\ sent s' = sent s
    /\ posted s' = posted s
    /\ pPrefixKey (dsp s') = pPrefixKey (dsp s).
Proof.
  intros os wParam lParam s Hx Hd Hpre Hsuf Hne Hforced. cbv zeta.
  destruct (unused_key_passes os wParam lParam s Hx Hd Hpre Hsuf Hne Hforced)
    as (Hv & Hs & Hq & (Hp & _) & _).
  repeat split; assumption.
Qed.

(** A run that meets the hypotheses of X5: the letter b in a script whose
    only hotkey is "CapsLock & a". *)
Lemma X5_key_outside_every_hotkey_passes_through_witness :
  eval (deliver (ex_down (ex_WinXP 10) ex_VK_B 0x30)) ex_engine_caps = PassedOn
  /\ sent (exec (deliver (ex_down (ex_WinXP 10) ex_VK_B 0x30)) ex_engine_caps)
     = [].
Proof.
  assert (Hx : dwExtraInfo (d_lParam (ex_down (ex_WinXP 10) ex_VK_B 0x30))
               <> KEYIGNORE) by (vm_compute; discriminate).
  assert (Hne : pPrefixKey (dsp ex_engine_caps)
                <> Some (event_key ex_engine_caps
                           (d_lParam (ex_down (ex_WinXP 10) ex_VK_B 0x30))))
    by (vm_compute; discriminate).
  destruct (X5_key_outside_every_hotkey_passes_through
              (ex_WinXP 10) WM_KEYDOWN
              (d_lParam (ex_down (ex_WinXP 10) ex_VK_B 0x30))
              ex_engine_caps Hx eq_refl eq_refl eq_refl Hne eq_refl)
    as (Hv & Hs & _).
  split; [exact Hv | exact Hs].
Defined.

(* ================================================================== *)
(** ** A script without hotkeys *)
(* ================================================================== *)

Lemma no_hotkeys_settled s s' :
  settled s s' -> disguise_flags s' = disguise_flags s ->
  no_hotkeys s -> no_hotkeys s'.
Proof.
  intros (Hp & Ht & Hk) Hf (N1 & N2 & N3 & N4).
  split; [ | split; [ | split]].
  - intro r. destruct (key_static_fields _ _ (Hk r)) as (E1 & E2 & _).
    rewrite E1, E2. apply N1.
  - intro vk. change (kvk (dsp s') vk) with (deref s' (InKvk vk)).
    rewrite (toggle_is_forced_config s s' (deref s (InKvk vk)) _ Ht
               (key_static_config _ _ (Hk (InKvk vk)))).
    apply N2.
  - rewrite Hp. exact N3.
  - rewrite Hf. exact N4.
Qed.

Lemma no_hotkeys_disarmed vk key_up s :
  no_hotkeys s -> disguise_armed vk key_up s = false.
Proof.
  intros (_ & _ & _ & N4). unfold disguise_flags in N4.
  injection N4 as F1 F2 F3 F4.
  unfold disguise_armed. rewrite F1, F2, F3, F4. cbn [andb orb].
  apply andb_false_r.
Qed.

(** One delivery to the hook of a script without hotkeys. *)
Lemma no_hotkeys_deliver d s :
  no_hotkeys s ->
  eval (deliver d) s = PassedOn
  /\ sent (exec (deliver d) s) = sent s
  /\ posted (exec (deliver d) s) = posted s
  /\ no_hotkeys (exec (deliver d) s).
Proof.
  intro N. destruct d as [os code wParam lParam]. unfold deliver.
  cbn [d_os d_code d_wParam d_lParam].
  destruct (Z.eqb_spec code HC_ACTION) as [-> | Hc].
  - destruct (Z.eqb_spec (dwExtraInfo lParam) KEYIGNORE) as [Hx | Hx].
    + pose proof (LowLevelKeybdProc_ignored_core KeyEvent os HC_ACTION wParam
                    lParam s Hx) as Hcore.
      fold KeybdProc in Hcore.
      split; [apply LowLevelKeybdProc_ignored_returns; exact Hx | ].
      split; [apply LowLevelKeybdProc_ignored_sends_nothing; exact Hx | ].
      split; [apply (posted_core _ _ Hcore) | ].
      apply (no_hotkeys_settled s); [ | | exact N].
      * apply settled_of_core. exact Hcore.
      * apply disguise_flags_core. exact Hcore.
    + pose proof N as (N1 & N2 & N3 & N4).
      assert (Hne : pPrefixKey (dsp s) <> Some (event_key s lParam))
        by (rewrite N3; discriminate).
      destruct (unused_key_passes os wParam lParam s Hx
                  (no_hotkeys_disarmed _ _ s N)
                  (proj1 (N1 _)) (proj2 (N1 _)) Hne (N2 _))
        as (Hv & Hs & Hq & Hset & Hf).
      split; [exact Hv | ]. split; [exact Hs | ]. split; [exact Hq | ].
      apply (no_hotkeys_settled s); assumption.
  - unfold KeybdProc, LowLevelKeybdProc.
    rewrite (proj2 (Z.eqb_neq _ _) Hc). cbn [negb].
    repeat split; try reflexivity; apply N.
Qed.

(** X6.  The hook of a script without hotkeys is transparent.  Started
    with no key record configured as a prefix or a suffix, no force-toggled
    key, an empty prefix slot and no disguise flag set, it passes every
    event of every stream of deliveries on to the system, and over the
    whole stream it sends no keystroke and posts no hotkey message. *)
Theorem X6_script_without_hotkeys_is_transparent :
  forall ds s,
    no_hotkeys s ->
    Forall (fun v => v = PassedOn) (fst (run ds s))
    /\ sent (snd (run ds s)) = sent s
    /\ posted (snd (run ds s)) = posted s.
Proof.
  induction ds as [ | d ds IH]; intros s N; cbn [run].
  - repeat split. constructor.
  - rewrite (run_pair (deliver d) s).
    destruct (no_hotkeys_deliver d s N) as (Hv & Hs & Hq & N').
    specialize (IH (exec (deliver d) s) N').
    destruct (run ds (exec (deliver d) s)) as [vs s2]. cbn [fst snd] in *.
    destruct IH as (IHv & IHs & IHq).
    split; [constructor; assumption | ].
    split; congruence.
Qed.

(** A stream and a state that meet the hypothesis of X6: the default
    tables, and a WIN key held while a letter is typed. *)
Lemma X6_script_without_hotkeys_is_transparent_witness :
  Forall (fun v => v = PassedOn) (fst (run ex_typing ex_engine0))
  /\ sent (snd (run ex_typing ex_engine0)) = sent ex_engine0.
Proof.
  assert (N : no_hotkeys ex_engine0).
  { split; [ | split; [ | split]]; try reflexivity.
    - intros [v | c]; split; try reflexivity;
        cbn; unfold ex_kvk; repeat (destruct (_ =? _)); reflexivity.
    - intro vk. cbn. unfold toggle_is_forced, ex_kvk.
      repeat (destruct (_ =? _)); reflexivity. }
  destruct (X6_script_without_hotkeys_is_transparent ex_typing ex_engine0 N)
    as (Hv & Hs & _).
  split; [exact Hv | exact Hs].
Defined.

(* ================================================================== *)
(** ** Firing a hotkey of the script *)
(* ================================================================== *)

Lemma script_hotkey_tests id :
  script_hotkey id = true ->
  (id =? HOTKEY_ID_INVALID) = false
  /\ (id =? HOTKEY_ID_ALT_TAB) = false
  /\ (id =? HOTKEY_ID_ALT_TAB_SHIFT) = false
  /\ (id =? HOTKEY_ID_ALT_TAB_MENU) = false
  /\ (id =? HOTKEY_ID_ALT_TAB_AND_MENU) = false
  /\ (id =? HOTKEY_ID_ALT_TAB_MENU_DISMISS) = false.
Proof.
  unfold script_hotkey. intro H.
  repeat (apply andb_prop in H; destruct H as [H ?]).
  repeat split; apply negb_true_iff; assumption.
Qed.

(** The default case of switch(hotkey_id): the id is posted. *)
Lemma perform_script_hotkey os lParam vk sc key_up cur this id s :
  script_hotkey id = true ->
  perform_hotkey KeyEvent os lParam vk sc key_up cur this id s
  = (None, push_posted (id, 0) s).
Proof.
  intro H. destruct (script_hotkey_tests id H) as (_ & E1 & E2 & E3 & E4 & E5).
  unfold perform_hotkey. rewrite E1, E2, E3, E4, E5. reflexivity.
Qed.

Lemma arm_disguise_data : keeps (same dispatch_data) arm_disguise.
Proof. unfold arm_disguise. cbv zeta. frame. Qed.

Lemma dispatch_data_fields s s' :
  dispatch_data s' = dispatch_data s ->
  (forall r, deref s' r = deref s r)
  /\ pPrefixKey (dsp s') = pPrefixKey (dsp s)
  /\ tbl s' = tbl s /\ posted s' = posted s /\ sent s' = sent s.
Proof.
  unfold dispatch_data. intro H. injection H as H1 H2 H3 H4 H5 H6.
  repeat split; try assumption.
  intros [v | c]; cbn [deref]; [rewrite H1 | rewrite H2]; reflexivity.
Qed.

Lemma core_fields s s' :
  hook_core s' = hook_core s ->
  (forall r, deref s' r = deref s r)
  /\ pPrefixKey (dsp s') = pPrefixKey (dsp s)
  /\ tbl s' = tbl s /\ posted s' = posted s.
Proof.
  intro H. split; [intro r; apply deref_core; exact H | ].
  split; [apply pPrefixKey_core; exact H | ].
  split; [apply tbl_core; exact H | apply posted_core; exact H].
Qed.

(** What remains of a hotkey on a key-down once the id is posted and the
    records are marked: the substitute keystrokes of a hotkey that is not
    to be suppressed, and the suppression. *)
Lemma hotkey_tail_core os lParam vk sc cur ns :
  keeps (same hook_core)
    (when ns (KeyEvent os KEYDOWNANDUP vk sc) ;;
     SuppressThisKey KeyEvent os lParam sc false cur).
Proof. unfold SuppressThisKey. frame. Qed.

Lemma hotkey_tail_sent os lParam vk sc cur ns s :
  sent (exec (when ns (KeyEvent os KEYDOWNANDUP vk sc) ;;
              SuppressThisKey KeyEvent os lParam sc false cur) s)
  = sent s ++ (if ns then keystrokes KEYDOWNANDUP vk sc else [])
      ++ numlock_fix_for lParam false.
Proof.
  rewrite exec_bind. unfold SuppressThisKey.
  rewrite SuppressThisKeyFunc_sent. unfold numlock_fix_for.
  destruct ns; cbn [when].
  - rewrite KeyEvent_sent, <- app_assoc. reflexivity.
  - rewrite exec_ret. reflexivity.
Qed.

Lemma hotkey_tail_returns os lParam vk sc cur ns s :
  eval (when ns (KeyEvent os KEYDOWNANDUP vk sc) ;;
        SuppressThisKey KeyEvent os lParam sc false cur) s = Suppressed.
Proof. rewrite eval_bind. apply SuppressThisKeyFunc_returns. Qed.

Lemma on_prefix_exec f s :
  exec (on_prefix f) s
  = match pPrefixKey (dsp s) with Some r => on_key r f s | None => s end.
Proof. reflexivity. Qed.

Lemma posted_on_key r f s : posted (on_key r f s) = posted s.
Proof. destruct r; reflexivity. Qed.

Lemma sent_on_key r f s : sent (on_key r f s) = sent s.
Proof. destruct r; reflexivity. Qed.

Lemma ptr_eqb_sym_key p r : ptr_eqb (Some p) r = KeyRef_eqb r p.
Proof.
  cbn [ptr_eqb]. destruct p, r; cbn [KeyRef_eqb]; try reflexivity; apply Z.eqb_sym.
Qed.

(** A hotkey of the script fired by a key-down: the id is posted, the key
    that fired it has down_performed_action set, the held prefix is marked
    AS_PREFIX_FOR_HOTKEY, and the event is suppressed. *)
Lemma fire_script_hotkey_down os lParam vk sc cur this id ns s :
  script_hotkey id = true ->
  let c := fire_hotkey KeyEvent os lParam vk sc false cur this (id, ns) in
  eval c s = Suppressed
  /\ posted (exec c s) = posted s ++ [(id, 0)]
  /\ sent (exec c s)
     = sent s ++ (if ns then keystrokes KEYDOWNANDUP vk sc else [])
         ++ numlock_fix_for lParam false
  /\ pPrefixKey (dsp (exec c s)) = pPrefixKey (dsp s)
  /\ tbl (exec c s) = tbl s
  /\ (forall r, key_static (deref (exec c s) r) = key_static (deref s r))
  /\ (forall r, down_performed_action (deref (exec c s) r)
                = if KeyRef_eqb r this then true
                  else down_performed_action (deref s r))
  /\ (forall r, was_just_used (deref (exec c s) r)
                = if ptr_eqb (pPrefixKey (dsp s)) r then AS_PREFIX_FOR_HOTKEY
                  else was_just_used (deref s r)).
Proof.
  intro H. cbv zeta.
  set (s1 := exec arm_disguise s).
  destruct (dispatch_data_fields s s1 (arm_disguise_data s))
    as (D1 & P1 & T1 & Q1 & S1).
  set (s2 := exec (set_curr_event_type cur ET_hotkey) (push_posted (id, 0) s1)).
  set (s3 := on_key this (set_down_performed_action true) s2).
  set (s4 := exec (on_prefix (set_was_just_used AS_PREFIX_FOR_HOTKEY)) s3).
  set (tail := when ns (KeyEvent os KEYDOWNANDUP vk sc) ;;
               SuppressThisKey KeyEvent os lParam sc false cur).
  assert (E : fire_hotkey KeyEvent os lParam vk sc false cur this (id, ns) s
              = tail s4).
  { unfold fire_hotkey. unfold bind at 1. rewrite (run_pair arm_disguise s).
    fold s1. unfold bind at 1. cbn [fst snd].
    rewrite (perform_script_hotkey os lParam vk sc false cur this id s1 H).
    unfold after_hotkey. unfold bind at 1.
    rewrite (run_pair (set_curr_event_type cur ET_hotkey) (push_posted (id, 0) s1)).
    fold s2. unfold bind at 1. unfold get at 1.
    rewrite !andb_false_r. reflexivity. }
  unfold eval, exec. rewrite E.
  fold (eval tail s4). fold (exec tail s4).
  destruct (core_fields s4 (exec tail s4) (hotkey_tail_core os lParam vk sc cur ns s4))
    as (D5 & P5 & T5 & Q5).
  assert (P2 : pPrefixKey (dsp s2) = pPrefixKey (dsp s)) by (rewrite <- P1; reflexivity).
  assert (P3 : pPrefixKey (dsp s3) = pPrefixKey (dsp s))
    by (unfold s3; rewrite pPrefixKey_on_key; exact P2).
  assert (D2 : forall r, deref s2 r = deref s r)
    by (intro r; rewrite <- D1; destruct r; reflexivity).
  assert (D4 : forall r, deref s4 r
                 = if ptr_eqb (pPrefixKey (dsp s)) r
                   then set_was_just_used AS_PREFIX_FOR_HOTKEY (deref s3 r)
                   else deref s3 r).
  { intro r. unfold s4. rewrite on_prefix_exec, P3.
    destruct (pPrefixKey (dsp s)) as [p | ]; [ | reflexivity].
    rewrite deref_on_key, ptr_eqb_sym_key.
    destruct (KeyRef_eqb r p) eqn:Er; [ | reflexivity].
    apply KeyRef_eqb_eq in Er. subst r. reflexivity. }
  assert (D3 : forall r, deref s3 r
                 = if KeyRef_eqb r this
                   then set_down_performed_action true (deref s r)
                   else deref s r).
  { intro r. unfold s3. rewrite deref_on_key, !D2.
    destruct (KeyRef_eqb r this) eqn:Er; [ | reflexivity].
    apply KeyRef_eqb_eq in Er. subst r. reflexivity. }
  split; [apply hotkey_tail_returns | ].
  split.
  { rewrite Q5. unfold s4. rewrite on_prefix_exec.
    assert (Q3 : posted s3 = posted s ++ [(id, 0)]).
    { unfold s3. rewrite posted_on_key. unfold s2.
      change (posted (exec (set_curr_event_type cur ET_hotkey)
                        (push_posted (id, 0) s1)))
        with (posted s1 ++ [(id, 0)]).
      rewrite Q1. reflexivity. }
    destruct (pPrefixKey (dsp s3)); [rewrite posted_on_key | ]; exact Q3. }
  split.
  { unfold tail. rewrite hotkey_tail_sent. f_equal.
    unfold s4. rewrite on_prefix_exec.
    assert (S3 : sent s3 = sent s).
    { unfold s3. rewrite sent_on_key. rewrite <- S1. reflexivity. }
    destruct (pPrefixKey (dsp s3)); [rewrite sent_on_key | ]; exact S3. }
  split.
  { rewrite P5. unfold s4. rewrite on_prefix_exec.
    rewrite <- P3.
    destruct (pPrefixKey (dsp s3)) eqn:E3;
      [rewrite pPrefixKey_on_key | ]; exact E3. }
  split.
  { rewrite T5. unfold s4. rewrite on_prefix_exec.
    assert (T3 : tbl s3 = tbl s).
    { unfold s3. rewrite tbl_on_key. rewrite <- T1. reflexivity. }
    destruct (pPrefixKey (dsp s3)); [rewrite tbl_on_key | ]; exact T3. }
  split; [ | split]; intro r; rewrite D5, D4, D3;
    destruct (ptr_eqb (pPrefixKey (dsp s)) r), (KeyRef_eqb r this); reflexivity.
Qed.

(** Firing a hotkey of the script touches the disguise flags only where it
    arms them, before the id is posted. *)
Lemma fire_script_hotkey_flags os lParam vk sc cur this id ns s :
  script_hotkey id = true ->
  disguise_flags
    (exec (fire_hotkey KeyEvent os lParam vk sc false cur this (id, ns)) s)
  = disguise_flags (exec arm_disguise s).
Proof.
  intro H.
  set (s1 := exec arm_disguise s).
  set (s2 := exec (set_curr_event_type cur ET_hotkey) (push_posted (id, 0) s1)).
  set (s3 := on_key this (set_down_performed_action true) s2).
  set (s4 := exec (on_prefix (set_was_just_used AS_PREFIX_FOR_HOTKEY)) s3).
  set (tail := when ns (KeyEvent os KEYDOWNANDUP vk sc) ;;
               SuppressThisKey KeyEvent os lParam sc false cur).
  assert (E : fire_hotkey KeyEvent os lParam vk sc false cur this (id, ns) s
              = tail s4).
  { unfold fire_hotkey. unfold bind at 1. rewrite (run_pair arm_disguise s).
    fold s1. unfold bind at 1. cbn [fst snd].
    rewrite (perform_script_hotkey os lParam vk sc false cur this id s1 H).
    unfold after_hotkey. unfold bind at 1.
    rewrite (run_pair (set_curr_event_type cur ET_hotkey) (push_posted (id, 0) s1)).
    fold s2. unfold bind at 1. unfold get at 1.
    rewrite !andb_false_r. reflexivity. }
  unfold exec at 1. rewrite E. fold (exec tail s4).
  transitivity (disguise_flags s4);
    [exact (disguise_flags_core _ _ (hotkey_tail_core os lParam vk sc cur ns s4)) | ].
  unfold s4. rewrite on_prefix_exec.
  assert (F3 : disguise_flags s3 = disguise_flags s1)
    by (unfold s3; destruct this; reflexivity).
  destruct (pPrefixKey (dsp s3)) as [[v | c] | ]; exact F3.
Qed.

(** What arm_disguise does when the only modifier logically down is the
    left WIN key and that key is not a prefix. *)
Lemma arm_disguise_lwin s :
  logical_mods s = MOD_LWIN ->
  used_as_prefix (kvk (dsp s) VK_LWIN) = false ->
  disguise_next_lwin_up (dsp (exec arm_disguise s)) = true.
Proof.
  unfold logical_mods. intros Hl Hp.
  unfold arm_disguise. rewrite exec_bind, eval_get, exec_get. cbv zeta.
  unfold logical_has. rewrite Hl, Hp.
  reflexivity.
Qed.

(** The dispatcher on the key-down of a suffix while another key holds the
    prefix slot: the held prefix is marked AS_PREFIX (unless the suffix is
    a modifier), the suffix is recorded as down, and CASE #4 runs. *)
Lemma dispatch_suffix_down os lParam vk sc cur s p :
  pPrefixKey (dsp s) = Some p ->
  p <> this_key s vk sc ->
  used_as_suffix (deref s (this_key s vk sc)) = true ->
  dispatch KeyEvent os lParam vk sc false cur s
  = Case4 KeyEvent os lParam vk sc false cur (this_key s vk sc)
      (on_key (this_key s vk sc) (set_is_down true)
         (exec (when (negb (nz (as_modifiersLR (deref s (this_key s vk sc)))))
                  (on_prefix (set_was_just_used AS_PREFIX))) s)).
Proof.
  intros Hp Hne Hsuf.
  set (this := this_key s vk sc) in *.
  unfold dispatch. unfold bind at 1. unfold get at 1. cbv zeta. fold this.
  assert (E1 : ptr_eqb (pPrefixKey (dsp s)) this = false).
  { apply ptr_eqb_false. rewrite Hp. intro E. injection E as E. exact (Hne E). }
  rewrite E1, Hp. cbn [andb negb].
  set (c2 := when (negb (nz (as_modifiersLR (deref s this))))
               (on_prefix (set_was_just_used AS_PREFIX))).
  unfold bind at 1. rewrite (run_pair c2 s).
  set (s2 := exec c2 s).
  assert (S2 : settled s s2).
  { subst s2 c2. apply (keeps_when settled settled_refl). auto with hook_frame. }
  destruct S2 as (Hp2 & Ht2 & Hk2).
  destruct (key_static_fields _ _ (Hk2 this)) as (Epre & Esuf & _).
  unfold bind at 1. unfold get at 1.
  rewrite Esuf, Hsuf, andb_false_r.
  unfold bind at 1. cbn [when ret].
  unfold bind at 1. cbn [modify].
  unfold bind at 1. unfold get at 1.
  set (s3 := on_key this (set_is_down true) s2).
  assert (Hp3 : pPrefixKey (dsp s3) = Some p)
    by (unfold s3; rewrite pPrefixKey_on_key, Hp2; exact Hp).
  assert (Hs3 : used_as_suffix (deref s3 this) = true).
  { destruct (key_config_fields _ _ (set_is_down_config this true s2 this))
      as (_ & E & _).
    fold s3 in E. rewrite E, Esuf. exact Hsuf. }
  rewrite Hp3, Hs3. cbn [negb orb]. rewrite !andb_false_r. reflexivity.
Qed.

Lemma find_modifier_vk_found this s m :
  find (fun m => is_down (kvk (dsp s) (mod_key m))) (ModifierVK (deref s this))
    = Some m ->
  find_modifier_vk this s
  = (GET_HOTKEY_ID_AND_FLAGS (id_with_flags m),
     exec (on_prefix (set_was_just_used AS_PREFIX_FOR_HOTKEY))
       (on_dsp (set_pPrefixKey (Some (InKvk (mod_key m)))) s)).
Proof.
  intro F. unfold find_modifier_vk. unfold bind at 1. unfold get at 1.
  rewrite F. reflexivity.
Qed.

(** CASE #4 when the first loop finds a held key for a hotkey of the
    script. *)
Lemma Case4_held_prefix os lParam vk sc cur this s m :
  pPrefixKey (dsp s) <> None ->
  find (fun m => is_down (kvk (dsp s) (mod_key m))) (ModifierVK (deref s this))
    = Some m ->
  script_hotkey (fst (GET_HOTKEY_ID_AND_FLAGS (id_with_flags m))) = true ->
  Case4 KeyEvent os lParam vk sc false cur this s
  = fire_hotkey KeyEvent os lParam vk sc false cur this
      (GET_HOTKEY_ID_AND_FLAGS (id_with_flags m))
      (exec (on_prefix (set_was_just_used AS_PREFIX_FOR_HOTKEY))
         (on_dsp (set_pPrefixKey (Some (InKvk (mod_key m)))) s)).
Proof.
  intros Hp F H.
  destruct (script_hotkey_tests _ H) as (E0 & E1 & E2 & _).
  unfold Case4. unfold bind at 1. unfold get at 1.
  destruct (pPrefixKey (dsp s)) as [q | ] eqn:Hq; [ | contradiction].
  cbn [andb negb].
  unfold bind at 1. rewrite (find_modifier_vk_found this s m F).
  unfold bind at 1. unfold find_modifier_sc. rewrite E0.
  cbn [ret]. rewrite E1, E2. cbn [orb].
  unfold lookup_and_fire. rewrite E0. reflexivity.
Qed.

(** The key-down of a suffix while another key holds the prefix slot and
    the first loop of CASE #4 finds a hotkey of the script. *)
Lemma suffix_down_fires os wParam lParam s p m :
  dwExtraInfo lParam <> KEYIGNORE ->
  is_key_up wParam = false ->
  pPrefixKey (dsp s) = Some p ->
  p <> event_key s lParam ->
  used_as_suffix (deref s (event_key s lParam)) = true ->
  first_held_modifier s (event_key s lParam) = Some m ->
  script_hotkey (fst (GET_HOTKEY_ID_AND_FLAGS (id_with_flags m))) = true ->
  let s' := exec (KeybdProc os HC_ACTION wParam lParam) s in
  let found := GET_HOTKEY_ID_AND_FLAGS (id_with_flags m) in
  eval (KeybdProc os HC_ACTION wParam lParam) s = Suppressed
  /\ posted s' = posted s ++ [(fst found, 0)]
  /\ sent s'
     = sent s
       ++ (if snd found
           then keystrokes KEYDOWNANDUP (vk_of (vkCode lParam))
                  (normalized_sc s lParam)
           else [])
       ++ numlock_fix_for lParam false
  /\ pPrefixKey (dsp s') = Some (InKvk (mod_key m))
  /\ was_just_used (deref s' (InKvk (mod_key m))) = AS_PREFIX_FOR_HOTKEY
  /\ is_down (deref s' (event_key s lParam)) = true
  /\ down_performed_action (deref s' (event_key s lParam)) = true.
Proof.
  intros Hx Hup Hp Hne Hsuf Hfind Hid. cbv zeta.
  assert (Hd : disguise_armed (vk_of (vkCode lParam)) (is_key_up wParam) s = false)
    by (rewrite Hup; apply disguise_armed_key_down).
  unfold eval, exec. rewrite (KeybdProc_dispatches os wParam lParam s Hx Hd).
  cbv zeta. rewrite Hup.
  set (vk := vk_of (vkCode lParam)) in *.
  set (sc := normalized_sc s lParam).
  set (cur := eval (bookkeeping os lParam vk sc false) s).
  set (s1 := exec (bookkeeping os lParam vk sc false) s).
  assert (H1 : hook_core s1 = hook_core s) by apply bookkeeping_core.
  assert (H1s : sent s1 = sent s) by apply bookkeeping_sent.
  destruct (core_fields s s1 H1) as (D1 & P1 & T1 & Q1).
  unfold event_key in *. fold vk sc in Hne, Hsuf, Hfind |- *.
  set (this := this_key s vk sc) in *.
  assert (Hthis : this_key s1 vk sc = this) by apply (this_key_core _ _ vk sc H1).
  rewrite (dispatch_suffix_down os lParam vk sc cur s1 p);
    rewrite ?Hthis, ?P1, ?D1; try assumption.
  set (c2 := when (negb (nz (as_modifiersLR (deref s this))))
               (on_prefix (set_was_just_used AS_PREFIX))).
  set (s2 := exec c2 s1).
  assert (S2 : settled s1 s2).
  { subst s2 c2. apply (keeps_when settled settled_refl). auto with hook_frame. }
  destruct S2 as (Hp2 & Ht2 & Hk2).
  set (s3 := on_key this (set_is_down true) s2).
  assert (Hdown : forall r, is_down (deref s3 r)
                            = is_down (deref (on_key this (set_is_down true) s) r)).
  { intro r. unfold s3. rewrite !deref_on_key.
    destruct (KeyRef_eqb r this); [reflexivity | ].
    destruct (key_static_fields _ _ (Hk2 r)) as (_ & _ & _ & _ & _ & _ & _ & E).
    rewrite E, D1. reflexivity. }
  assert (Hmods : ModifierVK (deref s3 this) = ModifierVK (deref s this)).
  { destruct (key_config_fields _ _ (set_is_down_config this true s2 this))
      as (_ & _ & _ & _ & _ & E & _).
    fold s3 in E. rewrite E.
    destruct (key_static_fields _ _ (Hk2 this)) as (_ & _ & _ & _ & _ & E2 & _).
    rewrite E2, D1. reflexivity. }
  assert (Hp3 : pPrefixKey (dsp s3) = Some p).
  { unfold s3. rewrite pPrefixKey_on_key, Hp2, P1. exact Hp. }
  assert (F3 : find (fun m => is_down (kvk (dsp s3) (mod_key m)))
                 (ModifierVK (deref s3 this)) = Some m).
  { rewrite Hmods. rewrite <- Hfind. unfold first_held_modifier.
    apply find_same. intro a. apply (Hdown (InKvk (mod_key a))). }
  rewrite (Case4_held_prefix os lParam vk sc cur this s3 m);
    [ | rewrite Hp3; discriminate | exact F3 | exact Hid].
  set (s4 := on_dsp (set_pPrefixKey (Some (InKvk (mod_key m)))) s3).
  set (s5 := exec (on_prefix (set_was_just_used AS_PREFIX_FOR_HOTKEY)) s4).
  assert (P5 : pPrefixKey (dsp s5) = Some (InKvk (mod_key m))).
  { unfold s5. rewrite on_prefix_exec.
    change (pPrefixKey (dsp s4)) with (Some (InKvk (mod_key m))).
    apply pPrefixKey_on_key. }
  assert (Q5 : posted s5 = posted s).
  { unfold s5. rewrite on_prefix_exec.
    change (pPrefixKey (dsp s4)) with (Some (InKvk (mod_key m))). cbv iota beta.
    rewrite posted_on_key. change (posted s4) with (posted s3).
    unfold s3. rewrite posted_on_key. unfold s2, c2.
    rewrite when_on_prefix_posted. exact Q1. }
  assert (S5 : sent s5 = sent s).
  { unfold s5. rewrite on_prefix_exec.
    change (pPrefixKey (dsp s4)) with (Some (InKvk (mod_key m))). cbv iota beta.
    rewrite sent_on_key. change (sent s4) with (sent s3).
    unfold s3. rewrite sent_on_key. unfold s2, c2.
    rewrite when_on_prefix_sent. exact H1s. }
  assert (I5 : is_down (deref s5 this) = true).
  { unfold s5. rewrite on_prefix_exec.
    change (pPrefixKey (dsp s4)) with (Some (InKvk (mod_key m))). cbv iota beta.
    rewrite deref_on_key.
    assert (I4 : forall r, deref s4 r = deref s3 r) by (intros [v | c]; reflexivity).
    assert (I3 : is_down (deref s3 this) = true).
    { unfold s3. rewrite deref_on_key, KeyRef_eqb_refl. reflexivity. }
    destruct (KeyRef_eqb this (InKvk (mod_key m))) eqn:E.
    - apply KeyRef_eqb_eq in E. rewrite <- E, I4.
      change (is_down (set_was_just_used AS_PREFIX_FOR_HOTKEY (deref s3 this)))
        with (is_down (deref s3 this)). exact I3.
    - rewrite I4. exact I3. }
  destruct (GET_HOTKEY_ID_AND_FLAGS (id_with_flags m)) as [id ns] eqn:G.
  cbn [fst snd] in *.
  destruct (fire_script_hotkey_down os lParam vk sc cur this id ns s5 Hid)
    as (Rv & Rq & Rs & Rp & _ & Rk & Rd & Rw).
  fold (eval (fire_hotkey KeyEvent os lParam vk sc false cur this (id, ns)) s5).
  fold (exec (fire_hotkey KeyEvent os lParam vk sc false cur this (id, ns)) s5).
  split; [exact Rv | ].
  split; [rewrite Rq, Q5; reflexivity | ].
  split; [rewrite Rs, S5; reflexivity | ].
  split; [rewrite Rp; exact P5 | ].
  split; [rewrite Rw, P5; cbn [ptr_eqb]; rewrite KeyRef_eqb_refl; reflexivity | ].
  split.
  - destruct (key_static_fields _ _ (Rk this)) as (_ & _ & _ & _ & _ & _ & _ & E).
    rewrite E. exact I5.
  - rewrite Rd, KeyRef_eqb_refl. reflexivity.
Qed.

(** X7.  A custom combination "prefix & suffix" fires on the suffix's
    key-down.  When a key-down that is not the engine's own arrives for a
    key configured as a suffix while another key holds the prefix slot,
    and the first entry of the suffix's ModifierVK list whose key is down
    carries a hotkey id of the script, the hook suppresses the event and
    posts exactly that id; it sends nothing but the substitute down-and-up
    pair of a hotkey flagged HOTKEY_NO_SUPPRESS (and the Numlock fix when
    the suffix is NUMLOCK); the entry's key becomes the held prefix and is
    marked AS_PREFIX_FOR_HOTKEY; the suffix is recorded as down with
    down_performed_action set. *)
Theorem X7_suffix_down_fires_the_prefix_combination :
  forall os wParam lParam s p m,
    dwExtraInfo lParam <> KEYIGNORE ->
    is_key_up wParam = false ->
    pPrefixKey (dsp s) = Some p ->
    p <> event_key s lParam ->
    used_as_suffix (deref s (event_key s lParam)) = true ->
    first_held_modifier s (event_key s lParam) = Some m ->
    script_hotkey (fst (GET_HOTKEY_ID_AND_FLAGS (id_with_flags m))) = true ->
    let s' := exec (KeybdProc os HC_ACTION wParam lParam) s in
    let found := GET_HOTKEY_ID_AND_FLAGS (id_with_flags m) in
    eval (KeybdProc os HC_ACTION wParam lParam) s = Suppressed
    /\ posted s' = posted s ++ [(fst found, 0)]
    /\ sent s'
       = sent s
         ++ (if snd found
             then keystrokes KEYDOWNANDUP (vk_of (vkCode lParam))
                    (normalized_sc s lParam)
             else [])
         ++ numlock_fix_for lParam false
    /\ pPrefixKey (dsp s') = Some (InKvk (mod_key m))
    /\ was_just_used (deref s' (InKvk (mod_key m))) = AS_PREFIX_FOR_HOTKEY
    /\ is_down (deref s' (event_key s lParam)) = true
    /\ down_performed_action (deref s' (event_key s lParam)) = true.
Proof.
  intros os wParam lParam s p m Hx Hup Hp Hne Hsuf Hfind Hid.
  exact (suffix_down_fires os wParam lParam s p m Hx Hup Hp Hne Hsuf Hfind Hid).
Qed.

(** A run that meets the hypotheses of X7: the script "CapsLock & a" with
    CapsLock held, and the key-down of a. *)
Lemma X7_suffix_down_fires_the_prefix_combination_witness :
  eval (deliver (ex_down (ex_WinXP 300) ex_VK_A 0x1E)) ex_engine_caps_held
    = Suppressed
  /\ posted (exec (deliver (ex_down (ex_WinXP 300) ex_VK_A 0x1E))
               ex_engine_caps_held)
     = posted ex_engine_caps_held ++ [(1, 0)].
Proof.
  assert (Hx : dwExtraInfo (d_lParam (ex_down (ex_WinXP 300) ex_VK_A 0x1E))
               <> KEYIGNORE) by (vm_compute; discriminate).
  assert (Hne : InKvk ex_VK_CAPITAL
                <> event_key ex_engine_caps_held
                     (d_lParam (ex_down (ex_WinXP 300) ex_VK_A 0x1E)))
    by (vm_compute; discriminate).
  assert (Hp : pPrefixKey (dsp ex_engine_caps_held) = Some (InKvk ex_VK_CAPITAL))
    by (vm_compute; reflexivity).
  assert (Hsuf : used_as_suffix
                   (deref ex_engine_caps_held
                      (event_key ex_engine_caps_held
                         (d_lParam (ex_down (ex_WinXP 300) ex_VK_A 0x1E))))
                 = true) by (vm_compute; reflexivity).
  assert (Hfind : first_held_modifier ex_engine_caps_held
                    (event_key ex_engine_caps_held
                       (d_lParam (ex_down (ex_WinXP 300) ex_VK_A 0x1E)))
                  = Some (mkMod ex_VK_CAPITAL 1)) by (vm_compute; reflexivity).
  destruct (X7_suffix_down_fires_the_prefix_combination
              (ex_WinXP 300) WM_KEYDOWN
              (d_lParam (ex_down (ex_WinXP 300) ex_VK_A 0x1E))
              ex_engine_caps_held (InKvk ex_VK_CAPITAL) (mkMod ex_VK_CAPITAL 1)
              Hx eq_refl Hp Hne Hsuf Hfind eq_refl)
    as (Hv & Hq & _).
  split; [exact Hv | exact Hq].
Defined.

(* ================================================================== *)
(** ** Key-up events in the dispatcher *)
(* ================================================================== *)

Lemma deref_released this s :
  deref (on_key this (set_is_down false)
           (on_key this (set_down_performed_action false) s)) this
  = set_is_down false (set_down_performed_action false (deref s this)).
Proof. rewrite !deref_on_key, !KeyRef_eqb_refl. reflexivity. Qed.

(** The dispatcher on the key-up of a key that is a prefix or a suffix:
    down_performed_action and is_down of the key are reset, then CASE #2,
    CASE #3 or CASE #4 runs. *)
Lemma dispatch_key_up os lParam vk sc cur s :
  used_as_prefix (deref s (this_key s vk sc))
  || used_as_suffix (deref s (this_key s vk sc)) = true ->
  dispatch KeyEvent os lParam vk sc true cur s
  = (if used_as_suffix (deref s (this_key s vk sc))
        && negb (ptr_eqb (pPrefixKey (dsp s)) (this_key s vk sc))
     then Case2 KeyEvent os lParam sc true cur
            (down_performed_action (deref s (this_key s vk sc)))
     else if used_as_prefix (deref s (this_key s vk sc))
     then r <- Case3 KeyEvent os lParam vk sc true cur (this_key s vk sc)
                 (is_down (deref s (this_key s vk sc))) ;;
          match r with
          | Some v => ret v
          | None => Case4 KeyEvent os lParam vk sc true cur (this_key s vk sc)
          end
     else Case4 KeyEvent os lParam vk sc true cur (this_key s vk sc))
      (on_key (this_key s vk sc) (set_is_down false)
         (on_key (this_key s vk sc) (set_down_performed_action false) s)).
Proof.
  intro Hused.
  set (this := this_key s vk sc) in *.
  unfold dispatch. unfold bind at 1. unfold get at 1. cbv zeta. fold this.
  cbn [negb]. rewrite !andb_false_r. cbn [andb when].
  unfold bind at 1. cbn [ret].
  unfold bind at 1. unfold get at 1.
  assert (E : negb (used_as_prefix (deref s this))
              && negb (used_as_suffix (deref s this)) = false).
  { rewrite <- negb_orb, Hused. reflexivity. }
  rewrite E.
  unfold bind at 1. cbn [modify].
  unfold bind at 1. cbn [modify].
  unfold bind at 1. unfold get at 1.
  rewrite deref_released, !pPrefixKey_on_key.
  change (used_as_prefix (set_is_down false
            (set_down_performed_action false (deref s this))))
    with (used_as_prefix (deref s this)).
  change (used_as_suffix (set_is_down false
            (set_down_performed_action false (deref s this))))
    with (used_as_suffix (deref s this)).
  cbn [negb]. rewrite !andb_false_r, !andb_true_r. cbn [andb].
  destruct (used_as_suffix (deref s this)
            && negb (ptr_eqb (pPrefixKey (dsp s)) this)); [reflexivity | ].
  destruct (used_as_prefix (deref s this)); reflexivity.
Qed.

Lemma disguise_armed_core vk key_up s s' :
  hook_core s' = hook_core s ->
  disguise_armed vk key_up s' = disguise_armed vk key_up s.
Proof.
  unfold disguise_armed, hook_core. intro H.
  injection H as _ _ _ F1 F2 F3 F4 _ _. rewrite F1, F2, F3, F4. reflexivity.
Qed.

(** SuppressThisKey and AllowKeyToGoToSystem send nothing on a key-up. *)
Lemma SuppressThisKey_up_sent os lParam sc cur s :
  sent (exec (SuppressThisKey KeyEvent os lParam sc true cur) s) = sent s.
Proof.
  unfold SuppressThisKey. rewrite SuppressThisKeyFunc_sent.
  cbn [negb]. rewrite andb_false_r. cbn [andb]. apply app_nil_r.
Qed.

Lemma AllowKeyToGoToSystem_up_sent os lParam sc cur s :
  sent (exec (AllowKeyToGoToSystem KeyEvent os lParam sc true cur) s) = sent s.
Proof.
  unfold AllowKeyToGoToSystem.
  destruct (negb (dwExtraInfo lParam =? KEYIGNORE)
            && toggle_is_forced s (kvk (dsp s) (vk_of (vkCode lParam)))) eqn:F.
  - unfold AllowIt. rewrite exec_bind, eval_get, exec_get, F.
    apply SuppressThisKey_up_sent.
  - apply AllowIt_plain_sent. exact F.
Qed.

(** CASE #2 for an event of the system: the release of a suffix that does
    not hold the prefix slot. *)
Lemma suffix_up_follows os wParam lParam s :
  dwExtraInfo lParam <> KEYIGNORE ->
  is_key_up wParam = true ->
  disguise_armed (vk_of (vkCode lParam)) true s = false ->
  used_as_suffix (deref s (event_key s lParam)) = true ->
  pPrefixKey (dsp s) <> Some (event_key s lParam) ->
  let s' := exec (KeybdProc os HC_ACTION wParam lParam) s in
  eval (KeybdProc os HC_ACTION wParam lParam) s
    = (if down_performed_action (deref s (event_key s lParam))
          || toggle_is_forced s (kvk (dsp s) (vk_of (vkCode lParam)))
       then Suppressed else PassedOn)
  /\ down_performed_action (deref s' (event_key s lParam)) = false
  /\ is_down (deref s' (event_key s lParam)) = false
  /\ sent s' = sent s
  /\ posted s' = posted s
  /\ pPrefixKey (dsp s') = pPrefixKey (dsp s)
  /\ disguise_flags s' = disguise_flags s.
Proof.
  intros Hx Hup Hd Hsuf Hne. cbv zeta.
  rewrite <- Hup in Hd.
  unfold eval, exec. rewrite (KeybdProc_dispatches os wParam lParam s Hx Hd).
  cbv zeta. rewrite Hup.
  set (vk := vk_of (vkCode lParam)) in *.
  set (sc := normalized_sc s lParam).
  set (cur := eval (bookkeeping os lParam vk sc true) s).
  set (s1 := exec (bookkeeping os lParam vk sc true) s).
  assert (H1 : hook_core s1 = hook_core s) by apply bookkeeping_core.
  assert (H1s : sent s1 = sent s) by apply bookkeeping_sent.
  destruct (core_fields s s1 H1) as (D1 & P1 & T1 & Q1).
  unfold event_key in *. fold vk sc in Hne, Hsuf |- *.
  set (this := this_key s vk sc) in *.
  assert (Hthis : this_key s1 vk sc = this) by apply (this_key_core _ _ vk sc H1).
  rewrite (dispatch_key_up os lParam vk sc cur s1);
    rewrite ?Hthis, ?P1, ?D1; [ | rewrite Hsuf; apply orb_true_r].
  rewrite Hsuf, (proj2 (ptr_eqb_false _ _) Hne). cbn [andb negb].
  set (s3 := on_key this (set_is_down false)
               (on_key this (set_down_performed_action false) s1)).
  assert (D3 : deref s3 this
               = set_is_down false (set_down_performed_action false (deref s this))).
  { unfold s3. rewrite deref_released, D1. reflexivity. }
  assert (Hforced : toggle_is_forced s3 (kvk (dsp s3) vk)
                    = toggle_is_forced s (kvk (dsp s) vk)).
  { change (kvk (dsp s3) vk) with (deref s3 (InKvk vk)).
    change (kvk (dsp s) vk) with (deref s (InKvk vk)).
    apply toggle_is_forced_config.
    - unfold s3. rewrite !tbl_on_key. exact T1.
    - unfold s3. rewrite set_is_down_config, deref_on_key, !D1.
      destruct (KeyRef_eqb (InKvk vk) this) eqn:E; [ | reflexivity].
      apply KeyRef_eqb_eq in E. rewrite <- E. reflexivity. }
  set (c := Case2 KeyEvent os lParam sc true cur
              (down_performed_action (deref s this))).
  fold (eval c s3). fold (exec c s3).
  assert (Hc : hook_core (exec c s3) = hook_core s3).
  { unfold c, Case2. destruct (down_performed_action (deref s this));
      [apply SuppressThisKeyFunc_core | apply AllowIt_core]. }
  destruct (core_fields s3 (exec c s3) Hc) as (Dc & Pc & Tc & Qc).
  split.
  { unfold c, Case2. destruct (down_performed_action (deref s this)); cbn [orb].
    - apply SuppressThisKeyFunc_returns.
    - unfold AllowKeyToGoToSystem.
      destruct (toggle_is_forced s (kvk (dsp s) vk)) eqn:F.
      + apply AllowIt_forced_returns. fold vk.
        rewrite Hforced, (proj2 (Z.eqb_neq _ _) Hx). reflexivity.
      + apply AllowIt_plain_returns. fold vk.
        rewrite Hforced. apply andb_false_r. }
  split; [rewrite Dc, D3; reflexivity | ].
  split; [rewrite Dc, D3; reflexivity | ].
  split.
  { unfold c, Case2. destruct (down_performed_action (deref s this));
      [rewrite SuppressThisKey_up_sent | rewrite AllowKeyToGoToSystem_up_sent];
      unfold s3; rewrite !sent_on_key; exact H1s. }
  split; [rewrite Qc; unfold s3; rewrite !posted_on_key; exact Q1 | ].
  split; [rewrite Pc; unfold s3; rewrite !pPrefixKey_on_key; exact P1 | ].
  rewrite (disguise_flags_core _ _ Hc), <- (disguise_flags_core _ _ H1).
  unfold s3. destruct this; reflexivity.
Qed.

(** X8.  The release of a suffix follows its key-down (CASE #2).  A key-up
    that is not the engine's own, meets no armed disguise, and belongs to a
    key configured as a suffix that does not hold the prefix slot, is
    suppressed exactly when the key's down_performed_action is set or
    kvk[vkCode] is force-toggled, and passed on otherwise.  Either way
    down_performed_action and is_down of the key are reset, nothing is
    sent, nothing is posted and the prefix slot stays as it was. *)
Theorem X8_suffix_release_follows_its_key_down :
  forall os wParam lParam s,
    dwExtraInfo lParam <> KEYIGNORE ->
    is_key_up wParam = true ->
    disguise_armed (vk_of (vkCode lParam)) true s = false ->
    used_as_suffix (deref s (event_key s lParam)) = true ->
    pPrefixKey (dsp s) <> Some (event_key s lParam) ->
    let s' := exec (KeybdProc os HC_ACTION wParam lParam) s in
    eval (KeybdProc os HC_ACTION wParam lParam) s
      = (if down_performed_action (deref s (event_key s lParam))
            || toggle_is_forced s (kvk (dsp s) (vk_of (vkCode lParam)))
         then Suppressed else PassedOn)
    /\ down_performed_action (deref s' (event_key s lParam)) = false
    /\ is_down (deref s' (event_key s lParam)) = false
    /\ sent s' = sent s
    /\ posted s' = posted s
    /\ pPrefixKey (dsp s') = pPrefixKey (dsp s).
Proof.
  intros os wParam lParam s Hx Hup Hd Hsuf Hne.
  destruct (suffix_up_follows os wParam lParam s Hx Hup Hd Hsuf Hne)
    as (Hv & Ha & Hi & Hs & Hq & Hp & _).
  repeat split; assumption.
Qed.

(** A run that meets the hypotheses of X8: the release of a in the script
    "CapsLock & a", typed on its own. *)
Lemma X8_suffix_release_follows_its_key_down_witness :
  eval (deliver (ex_up (ex_WinXP 20) ex_VK_A 0x1E)) ex_engine_caps = PassedOn
  /\ sent (exec (deliver (ex_up (ex_WinXP 20) ex_VK_A 0x1E)) ex_engine_caps) = [].
Proof.
  assert (Hx : dwExtraInfo (d_lParam (ex_up (ex_WinXP 20) ex_VK_A 0x1E))
               <> KEYIGNORE) by (vm_compute; discriminate).
  assert (Hne : pPrefixKey (dsp ex_engine_caps)
                <> Some (event_key ex_engine_caps
                           (d_lParam (ex_up (ex_WinXP 20) ex_VK_A 0x1E))))
    by (vm_compute; discriminate).
  destruct (X8_suffix_release_follows_its_key_down
              (ex_WinXP 20) WM_KEYUP
              (d_lParam (ex_up (ex_WinXP 20) ex_VK_A 0x1E))
              ex_engine_caps Hx eq_refl eq_refl eq_refl Hne)
    as (Hv & _ & _ & Hs & _).
  split; [exact Hv | exact Hs].
Defined.

(* ================================================================== *)
(** ** A hotkey takes both halves of its suffix's keystroke *)
(* ================================================================== *)

Lemma disguise_armed_no_flag vk key_up s s' :
  disguise_flag_for vk s = None -> disguise_armed vk key_up s' = false.
Proof.
  unfold disguise_flag_for, disguise_armed.
  destruct (vk =? VK_LWIN); [discriminate | ].
  destruct (vk =? VK_RWIN); [discriminate | ].
  destruct ((vk =? VK_LMENU) || (vk =? VK_MENU)); [discriminate | ].
  destruct (vk =? VK_RMENU); [discriminate | ].
  intros _. rewrite !andb_false_r. reflexivity.
Qed.

(** The key record chosen for an event depends on the event only through
    its key, scan code and extended flag, and on the engine only through
    its configuration. *)
Lemma event_key_same s s' lParam lParam' :
  configured s s' -> same_key lParam lParam' ->
  normalized_sc s' lParam' = normalized_sc s lParam
  /\ event_key s' lParam' = event_key s lParam.
Proof.
  intros (Ht & Hk) (Ev & Es & Ef).
  assert (N : normalized_sc s' lParam' = normalized_sc s lParam).
  { unfold normalized_sc. rewrite Ev, Es, Ef, Ht. reflexivity. }
  split; [exact N | ].
  unfold event_key, this_key. rewrite N, Ev.
  destruct (key_config_fields _ _ (Hk (InKsc (normalized_sc s lParam))))
    as (_ & _ & _ & _ & E & _).
  cbn [deref] in E. rewrite E. reflexivity.
Qed.

Lemma KeybdProc_configured os code wParam lParam s :
  configured s (exec (KeybdProc os code wParam lParam) s).
Proof. apply (KeybdProc_respects configured os (configured_respected os)). Qed.

(** X9.  A hotkey takes both halves of its suffix's keystroke.  Two
    events that do not carry KEYIGNORE: the key-down of a suffix (no WIN
    or ALT key, so that no disguise flag belongs to it) while another key
    holds the prefix slot, the first entry of the suffix's ModifierVK list
    whose key is down carrying a hotkey id of the script and naming a key
    other than the suffix; then, delivered next, the key-up of the same
    key.  Both are suppressed; the key-up sends nothing and posts nothing
    more, so that over the two events the one hotkey id is posted once,
    and down_performed_action of the suffix is clear again. *)
Theorem X9_hotkey_takes_key_down_and_key_up :
  forall os wParam lParam os' wParam' lParam' s p m,
    dwExtraInfo lParam <> KEYIGNORE ->
    is_key_up wParam = false ->
    pPrefixKey (dsp s) = Some p ->
    p <> event_key s lParam ->
    used_as_suffix (deref s (event_key s lParam)) = true ->
    first_held_modifier s (event_key s lParam) = Some m ->
    script_hotkey (fst (GET_HOTKEY_ID_AND_FLAGS (id_with_flags m))) = true ->
    InKvk (mod_key m) <> event_key s lParam ->
    disguise_flag_for (vk_of (vkCode lParam)) s = None ->
    dwExtraInfo lParam' <> KEYIGNORE ->
    is_key_up wParam' = true ->
    same_key lParam lParam' ->
    let s1 := exec (KeybdProc os HC_ACTION wParam lParam) s in
    let s2 := exec (KeybdProc os' HC_ACTION wParam' lParam') s1 in
    eval (KeybdProc os HC_ACTION wParam lParam) s = Suppressed
    /\ eval (KeybdProc os' HC_ACTION wParam' lParam') s1 = Suppressed
    /\ posted s2
       = posted s ++ [(fst (GET_HOTKEY_ID_AND_FLAGS (id_with_flags m)), 0)]
    /\ sent s2 = sent s1
    /\ down_performed_action (deref s2 (event_key s lParam)) = false.
Proof.
  intros os wParam lParam os' wParam' lParam' s p m
         Hx Hup Hp Hne Hsuf Hfind Hid Hm Hflag Hx' Hup' Hsame.
  cbv zeta.
  destruct (suffix_down_fires os wParam lParam s p m Hx Hup Hp Hne Hsuf Hfind Hid)
    as (Hv & Hq & _ & Hp1 & _ & _ & Hdpa).
  set (s1 := exec (KeybdProc os HC_ACTION wParam lParam) s) in *.
  pose proof (KeybdProc_configured os HC_ACTION wParam lParam s) as Hc.
  fold s1 in Hc.
  destruct (event_key_same s s1 lParam lParam' Hc Hsame) as (_ & Hkey).
  assert (Ev : vkCode lParam' = vkCode lParam) by apply Hsame.
  assert (Hd : disguise_armed (vk_of (vkCode lParam')) true s1 = false).
  { rewrite Ev. apply (disguise_armed_no_flag _ _ s). exact Hflag. }
  assert (Hsuf1 : used_as_suffix (deref s1 (event_key s1 lParam')) = true).
  { rewrite Hkey. destruct Hc as (_ & Hk).
    destruct (key_config_fields _ _ (Hk (event_key s lParam))) as (_ & E & _).
    rewrite E. exact Hsuf. }
  assert (Hne1 : pPrefixKey (dsp s1) <> Some (event_key s1 lParam')).
  { rewrite Hkey, Hp1. intro E. injection E as E. exact (Hm E). }
  destruct (suffix_up_follows os' wParam' lParam' s1 Hx' Hup' Hd Hsuf1 Hne1)
    as (Hv2 & Hdpa2 & _ & Hs2 & Hq2 & _).
  rewrite Hkey in Hv2, Hdpa2. rewrite Hdpa in Hv2. cbn [orb] in Hv2.
  split; [exact Hv | ]. split; [exact Hv2 | ].
  split; [rewrite Hq2; exact Hq | ].
  split; [exact Hs2 | exact Hdpa2].
Qed.

(** A run that meets the hypotheses of X9: "CapsLock & a" with CapsLock
    held, a pressed and released. *)
Lemma X9_hotkey_takes_key_down_and_key_up_witness :
  eval (deliver (ex_up (ex_WinXP 400) ex_VK_A 0x1E))
    (exec (deliver (ex_down (ex_WinXP 300) ex_VK_A 0x1E)) ex_engine_caps_held)
  = Suppressed.
Proof.
  assert (Hx : dwExtraInfo (d_lParam (ex_down (ex_WinXP 300) ex_VK_A 0x1E))
               <> KEYIGNORE) by (vm_compute; discriminate).
  assert (Hx' : dwExtraInfo (d_lParam (ex_up (ex_WinXP 400) ex_VK_A 0x1E))
                <> KEYIGNORE) by (vm_compute; discriminate).
  assert (Hne : InKvk ex_VK_CAPITAL
                <> event_key ex_engine_caps_held
                     (d_lParam (ex_down (ex_WinXP 300) ex_VK_A 0x1E)))
    by (vm_compute; discriminate).
  assert (Hp : pPrefixKey (dsp ex_engine_caps_held) = Some (InKvk ex_VK_CAPITAL))
    by (vm_compute; reflexivity).
  assert (Hsuf : used_as_suffix
                   (deref ex_engine_caps_held
                      (event_key ex_engine_caps_held
                         (d_lParam (ex_down (ex_WinXP 300) ex_VK_A 0x1E))))
                 = true) by (vm_compute; reflexivity).
  assert (Hfind : first_held_modifier ex_engine_caps_held
                    (event_key ex_engine_caps_held
                       (d_lParam (ex_down (ex_WinXP 300) ex_VK_A 0x1E)))
                  = Some (mkMod ex_VK_CAPITAL 1)) by (vm_compute; reflexivity).
  assert (Hsame : same_key (d_lParam (ex_down (ex_WinXP 300) ex_VK_A 0x1E))
                    (d_lParam (ex_up (ex_WinXP 400) ex_VK_A 0x1E)))
    by (repeat split).
  destruct (X9_hotkey_takes_key_down_and_key_up
              (ex_WinXP 300) WM_KEYDOWN
              (d_lParam (ex_down (ex_WinXP 300) ex_VK_A 0x1E))
              (ex_WinXP 400) WM_KEYUP
              (d_lParam (ex_up (ex_WinXP 400) ex_VK_A 0x1E))
              ex_engine_caps_held (InKvk ex_VK_CAPITAL) (mkMod ex_VK_CAPITAL 1)
              Hx eq_refl Hp Hne Hsuf Hfind eq_refl Hne eq_refl Hx' eq_refl Hsame)
    as (_ & Hv & _).
  exact Hv.
Defined.

(* ================================================================== *)
(** ** The release of a prefix key *)
(* ================================================================== *)

(** One of the two blocks of CASE #3 that let go of a key put down for
    alt-tab. *)
Lemma release_block os this (flag : key_type -> bool)
    (clear : key_type -> key_type) vk s :
  let c := when (flag (deref s this))
             (modify (on_key this clear) ;; KeyEvent os KEYUP vk 0) in
  (forall r, deref (exec c s) r
             = if flag (deref s this) && KeyRef_eqb r this
               then clear (deref s this) else deref s r)
  /\ pPrefixKey (dsp (exec c s)) = pPrefixKey (dsp s)
  /\ tbl (exec c s) = tbl s
  /\ posted (exec c s) = posted s
  /\ sent (exec c s)
     = sent s ++ (if flag (deref s this) then [mkSent true vk 0 KEYIGNORE] else []).
Proof.
  cbv zeta. destruct (flag (deref s this)); cbn [when andb].
  - rewrite exec_bind, exec_modify.
    destruct (core_fields _ _ (KeyEvent_core os KEYUP vk 0 (on_key this clear s)))
      as (D & P & T & Q).
    split; [intro r; rewrite D; apply deref_on_key | ].
    split; [rewrite P; apply pPrefixKey_on_key | ].
    split; [rewrite T; apply tbl_on_key | ].
    split; [rewrite Q; apply posted_on_key | ].
    rewrite KeyEvent_sent, sent_on_key. reflexivity.
  - rewrite exec_ret, app_nil_r. repeat split; reflexivity.
Qed.

Lemma cleared_alt (b : bool) k :
  key_static (if b then set_it_put_alt_down false k else k) = key_static k
  /\ it_put_shift_down (if b then set_it_put_alt_down false k else k)
     = it_put_shift_down k.
Proof. destruct b; split; reflexivity. Qed.

Lemma cleared_shift (b : bool) k :
  key_static (if b then set_it_put_shift_down false k else k) = key_static k
  /\ it_put_alt_down (if b then set_it_put_shift_down false k else k)
     = it_put_alt_down k.
Proof. destruct b; split; reflexivity. Qed.

(** CASE #3 for a pure prefix key, once the prefix slot has been dealt
    with: whatever was_just_used says, the release is suppressed. *)
Lemma Case3_released_pure os lParam vk sc cur this w s :
  pure_prefix (deref s this) ->
  let c := Case3_released KeyEvent os lParam vk sc true cur this w in
  eval c s = Some Suppressed
  /\ pPrefixKey (dsp (exec c s)) = pPrefixKey (dsp s)
  /\ posted (exec c s) = posted s
  /\ sent (exec c s) = sent s ++ alt_tab_releases (deref s this)
  /\ (forall r, key_static (deref (exec c s) r) = key_static (deref s r)).
Proof.
  intros (Hpre & Hsuf & Hmod & Htog). cbv zeta.
  unfold Case3_released.
  rewrite eval_bind, exec_bind, eval_get, exec_get.
  rewrite eval_bind, exec_bind.
  destruct (release_block os this it_put_alt_down (set_it_put_alt_down false)
              VK_MENU s) as (D1 & P1 & T1 & Q1 & S1).
  cbv zeta in D1, P1, T1, Q1, S1.
  set (s1 := exec (when (it_put_alt_down (deref s this)) _) s) in *.
  rewrite eval_bind, exec_bind, eval_get, exec_get.
  rewrite eval_bind, exec_bind.
  destruct (release_block os this it_put_shift_down (set_it_put_shift_down false)
              VK_SHIFT s1) as (D2 & P2 & T2 & Q2 & S2).
  cbv zeta in D2, P2, T2, Q2, S2.
  set (s2 := exec (when (it_put_shift_down (deref s1 this)) _) s1) in *.
  rewrite eval_bind, exec_bind, eval_get, exec_get.
  assert (K1 : deref s1 this
               = if it_put_alt_down (deref s this)
                 then set_it_put_alt_down false (deref s this) else deref s this).
  { rewrite D1, KeyRef_eqb_refl, andb_true_r. reflexivity. }
  assert (K2 : deref s2 this
               = if it_put_shift_down (deref s1 this)
                 then set_it_put_shift_down false (deref s1 this)
                 else deref s1 this).
  { rewrite D2, KeyRef_eqb_refl, andb_true_r. reflexivity. }
  assert (Hshift : it_put_shift_down (deref s1 this)
                   = it_put_shift_down (deref s this)).
  { rewrite K1. apply (proj2 (cleared_alt _ _)). }
  assert (St : forall r, key_static (deref s2 r) = key_static (deref s r)).
  { intro r. destruct (KeyRef_eqb r this) eqn:E.
    - apply KeyRef_eqb_eq in E. subst r.
      rewrite K2, (proj1 (cleared_shift _ _)), K1. apply (proj1 (cleared_alt _ _)).
    - rewrite D2, E, andb_false_r, D1, E, andb_false_r. reflexivity. }
  assert (C2 : key_config (deref s2 this) = key_config (deref s this))
    by (apply key_static_config; apply St).
  destruct (key_config_fields _ _ C2) as (_ & Esuf & Emod & Etog & _).
  assert (N2 : toggle_is_neutral s2 (deref s2 this) = false).
  { unfold toggle_is_neutral. rewrite Etog, Htog. reflexivity. }
  assert (Ssent : sent s2 = sent s ++ alt_tab_releases (deref s this)).
  { rewrite S2, S1, Hshift. unfold alt_tab_releases.
    rewrite <- app_assoc. reflexivity. }
  rewrite N2, Emod, Hmod. cbn [nz Z.eqb negb].
  assert (Tail : forall c',
             c' = (r <- SuppressThisKey KeyEvent os lParam sc true cur ;;
                   ret (Some r))
             \/ c' = Case3_unused KeyEvent os lParam sc true cur this w ->
             eval c' s2 = Some Suppressed
             /\ hook_core (exec c' s2) = hook_core s2
             /\ sent (exec c' s2) = sent s2).
  { assert (Sup : eval (r <- SuppressThisKey KeyEvent os lParam sc true cur ;;
                        ret (Some r)) s2 = Some Suppressed
                  /\ hook_core (exec (r <- SuppressThisKey KeyEvent os lParam sc
                                            true cur ;; ret (Some r)) s2)
                     = hook_core s2
                  /\ sent (exec (r <- SuppressThisKey KeyEvent os lParam sc true
                                       cur ;; ret (Some r)) s2) = sent s2).
    { rewrite eval_bind, exec_bind, exec_ret, eval_ret.
      unfold SuppressThisKey at 1. rewrite SuppressThisKeyFunc_returns.
      split; [reflexivity | ].
      split; [apply SuppressThisKeyFunc_core | apply SuppressThisKey_up_sent]. }
    intros c' [-> | ->]; [exact Sup | ].
    unfold Case3_unused.
    rewrite eval_bind, exec_bind, eval_get, exec_get, Esuf, Hsuf. cbn [negb].
    unfold allow_if_modifier_or_neutral_toggle.
    rewrite !eval_bind, !exec_bind, !eval_get, !exec_get.
    rewrite N2, Emod, Hmod. cbn [nz Z.eqb negb orb].
    rewrite exec_ret, eval_ret.
    unfold SuppressThisKey at 1. rewrite SuppressThisKeyFunc_returns.
    split; [reflexivity | ].
    split; [apply SuppressThisKeyFunc_core | apply SuppressThisKey_up_sent]. }
  match goal with
  | |- eval ?c' s2 = _ /\ _ =>
      assert (T : eval c' s2 = Some Suppressed
                  /\ hook_core (exec c' s2) = hook_core s2
                  /\ sent (exec c' s2) = sent s2)
        by (apply Tail;
            destruct (negb (JustUsed_is (was_just_used (deref s2 this)) Unused));
            [left | right]; reflexivity);
      destruct T as (Tv & Tc & Ts);
      destruct (core_fields _ _ Tc) as (Dc & Pc & _ & Qc)
  end.
  split; [exact Tv | ].
  split; [rewrite Pc, P2, P1; reflexivity | ].
  split; [rewrite Qc, Q2, Q1; reflexivity | ].
  split; [rewrite Ts; exact Ssent | ].
  intro r. rewrite Dc. apply St.
Qed.

(** CASE #3 for a pure prefix key. *)
Lemma pure_prefix_release os wParam lParam s :
  dwExtraInfo lParam <> KEYIGNORE ->
  is_key_up wParam = true ->
  disguise_armed (vk_of (vkCode lParam)) true s = false ->
  pure_prefix (deref s (event_key s lParam)) ->
  let s' := exec (KeybdProc os HC_ACTION wParam lParam) s in
  eval (KeybdProc os HC_ACTION wParam lParam) s = Suppressed
  /\ pPrefixKey (dsp s')
     = (if ptr_eqb (pPrefixKey (dsp s)) (event_key s lParam)
        then None else pPrefixKey (dsp s))
  /\ is_down (deref s' (event_key s lParam)) = false
  /\ posted s' = posted s
  /\ sent s' = sent s ++ alt_tab_releases (deref s (event_key s lParam)).
Proof.
  intros Hx Hup Hd Hpure. cbv zeta.
  rewrite <- Hup in Hd.
  unfold eval, exec. rewrite (KeybdProc_dispatches os wParam lParam s Hx Hd).
  cbv zeta. rewrite Hup.
  set (vk := vk_of (vkCode lParam)) in *.
  set (sc := normalized_sc s lParam).
  set (cur := eval (bookkeeping os lParam vk sc true) s).
  set (s1 := exec (bookkeeping os lParam vk sc true) s).
  assert (H1 : hook_core s1 = hook_core s) by apply bookkeeping_core.
  assert (H1s : sent s1 = sent s) by apply bookkeeping_sent.
  destruct (core_fields s s1 H1) as (D1 & P1 & T1 & Q1).
  unfold event_key in *. fold vk sc in Hpure |- *.
  set (this := this_key s vk sc) in *.
  assert (Hthis : this_key s1 vk sc = this) by apply (this_key_core _ _ vk sc H1).
  pose proof Hpure as (Hpre & Hsuf & Hmod & Htog).
  rewrite (dispatch_key_up os lParam vk sc cur s1);
    rewrite ?Hthis, ?P1, ?D1; [ | rewrite Hpre; reflexivity].
  rewrite Hsuf, Hpre. cbn [andb].
  set (s3 := on_key this (set_is_down false)
               (on_key this (set_down_performed_action false) s1)).
  assert (D3 : deref s3 this
               = set_is_down false (set_down_performed_action false (deref s this))).
  { unfold s3. rewrite deref_released, D1. reflexivity. }
  assert (P3 : pPrefixKey (dsp s3) = pPrefixKey (dsp s))
    by (unfold s3; rewrite !pPrefixKey_on_key; exact P1).
  set (s4 := exec (when (ptr_eqb (pPrefixKey (dsp s3)) this)
                     (modify (on_dsp (set_pPrefixKey None)))) s3).
  assert (D4 : forall r, deref s4 r = deref s3 r).
  { intro r. unfold s4. destruct (ptr_eqb (pPrefixKey (dsp s3)) this);
      [destruct r | ]; reflexivity. }
  assert (P4 : pPrefixKey (dsp s4)
               = if ptr_eqb (pPrefixKey (dsp s)) this then None
                 else pPrefixKey (dsp s)).
  { unfold s4. rewrite P3.
    destruct (ptr_eqb (pPrefixKey (dsp s)) this); [reflexivity | exact P3]. }
  assert (Q4 : posted s4 = posted s).
  { unfold s4. destruct (ptr_eqb (pPrefixKey (dsp s3)) this);
      cbn [when]; rewrite ?exec_modify, ?exec_ret;
      change (posted (on_dsp (set_pPrefixKey None) s3)) with (posted s3);
      unfold s3; rewrite !posted_on_key; exact Q1. }
  assert (S4 : sent s4 = sent s).
  { unfold s4. destruct (ptr_eqb (pPrefixKey (dsp s3)) this);
      cbn [when]; rewrite ?exec_modify, ?exec_ret;
      change (sent (on_dsp (set_pPrefixKey None) s3)) with (sent s3);
      unfold s3; rewrite !sent_on_key; exact H1s. }
  assert (Hpure4 : pure_prefix (deref s4 this)).
  { rewrite D4, D3. exact Hpure. }
  destruct (Case3_released_pure os lParam vk sc cur this
              (is_down (deref s this)) s4 Hpure4)
    as (Rv & Rp & Rq & Rs & Rk).
  cbv zeta in Rv, Rp, Rq, Rs, Rk.
  set (c := Case3_released KeyEvent os lParam vk sc true cur this
              (is_down (deref s this))) in *.
  assert (E : (r <- Case3 KeyEvent os lParam vk sc true cur this
                      (is_down (deref s this)) ;;
               match r with
               | Some v => ret v
               | None => Case4 KeyEvent os lParam vk sc true cur this
               end) s3
              = (Suppressed, exec c s4)).
  { unfold Case3. unfold bind at 1. unfold bind at 1. unfold get at 1.
    unfold bind at 1.
    rewrite (run_pair (when (ptr_eqb (pPrefixKey (dsp s3)) this)
                         (modify (on_dsp (set_pPrefixKey None)))) s3).
    fold s4. fold c. rewrite (run_pair c s4), Rv. reflexivity. }
  rewrite E. cbn [fst snd].
  split; [reflexivity | ].
  split; [rewrite Rp; exact P4 | ].
  split.
  { destruct (key_static_fields _ _ (Rk this)) as (_ & _ & _ & _ & _ & _ & _ & Ed).
    rewrite Ed, D4, D3. reflexivity. }
  split; [rewrite Rq; exact Q4 | ].
  rewrite Rs, S4, D4, D3. reflexivity.
Qed.

(** X10.  A pure prefix key never reaches the system on its way up.  The
    key-up (not the engine's own, no disguise armed) of a key configured
    as a prefix that is not a suffix, not a modifier and not a toggle key
    is suppressed whether or not the prefix was used; if the key held the
    prefix slot the slot is emptied, otherwise it is left as it was; the
    key is recorded as up; nothing is posted; and the only keystrokes sent
    are the releases of the ALT and SHIFT keys the prefix had put down for
    the alt-tab menu. *)
Theorem X10_pure_prefix_release_is_suppressed :
  forall os wParam lParam s,
    dwExtraInfo lParam <> KEYIGNORE ->
    is_key_up wParam = true ->
    disguise_armed (vk_of (vkCode lParam)) true s = false ->
    pure_prefix (deref s (event_key s lParam)) ->
    let s' := exec (KeybdProc os HC_ACTION wParam lParam) s in
    eval (KeybdProc os HC_ACTION wParam lParam) s = Suppressed
    /\ pPrefixKey (dsp s')
       = (if ptr_eqb (pPrefixKey (dsp s)) (event_key s lParam)
          then None else pPrefixKey (dsp s))
    /\ is_down (deref s' (event_key s lParam)) = false
    /\ posted s' = posted s
    /\ sent s' = sent s ++ alt_tab_releases (deref s (event_key s lParam)).
Proof.
  intros os wParam lParam s Hx Hup Hd Hpure.
  exact (pure_prefix_release os wParam lParam s Hx Hup Hd Hpure).
Qed.

(** A run that meets the hypotheses of X10: in the script "a & b", "b & c",
    "a & c", the key a is held and then released. *)
Lemma X10_pure_prefix_release_is_suppressed_witness :
  let s := exec (deliver (ex_down (ex_WinXP 100) ex_VK_A 0x1E)) ex_engine_abc in
  pPrefixKey (dsp s) = Some (InKvk ex_VK_A)
  /\ eval (deliver (ex_up (ex_WinXP 200) ex_VK_A 0x1E)) s = Suppressed
  /\ pPrefixKey (dsp (exec (deliver (ex_up (ex_WinXP 200) ex_VK_A 0x1E)) s))
     = None.
Proof.
  cbv zeta.
  set (s := exec (deliver (ex_down (ex_WinXP 100) ex_VK_A 0x1E)) ex_engine_abc).
  assert (Hx : dwExtraInfo (d_lParam (ex_up (ex_WinXP 200) ex_VK_A 0x1E))
               <> KEYIGNORE) by (vm_compute; discriminate).
  assert (Hpure : pure_prefix
                    (deref s (event_key s
                                (d_lParam (ex_up (ex_WinXP 200) ex_VK_A 0x1E)))))
    by (repeat split).
  destruct (X10_pure_prefix_release_is_suppressed
              (ex_WinXP 200) WM_KEYUP
              (d_lParam (ex_up (ex_WinXP 200) ex_VK_A 0x1E)) s
              Hx eq_refl eq_refl Hpure)
    as (Hv & Hp & _).
  split; [reflexivity | ]. split; [exact Hv | exact Hp].
Defined.

(* ================================================================== *)
(** ** Hotkeys looked up by the modifiers that are down *)
(* ================================================================== *)

Lemma bookkeeping_logical os lParam vk sc key_up :
  keeps (same logical_mods) (bookkeeping os lParam vk sc key_up).
Proof.
  unfold bookkeeping, claim_history_slot, update_pad_state,
    AltTabMenuHeuristic, track_plain_key, phys_key_store, EventIsPhysical.
  cbv zeta. frame.
Qed.

(** The bookkeeping may show the alt-tab menu, it never hides it. *)
Lemma bookkeeping_visible os lParam vk sc key_up s :
  alt_tab_menu_is_visible (dsp s) = true ->
  alt_tab_menu_is_visible (dsp (exec (bookkeeping os lParam vk sc key_up) s))
  = true.
Proof.
  intro H. unfold bookkeeping. rewrite !exec_bind, exec_ret.
  set (vis := fun s : Engine => alt_tab_menu_is_visible (dsp s)).
  assert (K1 : keeps (same vis)
                 (claim_history_slot vk sc key_up (dwExtraInfo lParam)))
    by (unfold claim_history_slot; frame).
  assert (K2 : keeps (same vis) (update_pad_state os vk sc key_up))
    by (unfold update_pad_state; frame).
  assert (K4 : keeps (same vis) (track_plain_key os lParam vk sc key_up))
    by (unfold track_plain_key, phys_key_store, EventIsPhysical; cbv zeta; frame).
  set (s1 := exec (claim_history_slot vk sc key_up (dwExtraInfo lParam)) s).
  set (s2 := exec (update_pad_state os vk sc key_up) s1).
  set (s3 := exec (AltTabMenuHeuristic vk key_up) s2).
  change (vis (exec (track_plain_key os lParam vk sc key_up) s3) = true).
  rewrite (K4 s3).
  assert (V2 : vis s2 = true).
  { unfold s2. rewrite (K2 s1). unfold s1. rewrite (K1 s). exact H. }
  unfold s3, AltTabMenuHeuristic.
  rewrite exec_bind, eval_get, exec_get.
  destruct (alt_tab_heuristic vk key_up s2); [reflexivity | exact V2].
Qed.

(** lookup_by_modifiers finds the same hotkey in two states that agree on
    the tables, the logical modifiers and the key's configuration, when the
    alt-tab menu, if shown in the first, is shown in the second. *)
Lemma lookup_by_modifiers_stable vk sc this s s' :
  tbl s' = tbl s ->
  logical_mods s' = logical_mods s ->
  sc_takes_precedence (ksc (dsp s') sc) = sc_takes_precedence (ksc (dsp s) sc) ->
  as_modifiersLR (deref s' this) = as_modifiersLR (deref s this) ->
  (alt_tab_menu_is_visible (dsp s) = true ->
   alt_tab_menu_is_visible (dsp s') = true) ->
  (fst (lookup_by_modifiers vk sc this s) =? HOTKEY_ID_INVALID) = false ->
  lookup_by_modifiers vk sc this s' = lookup_by_modifiers vk sc this s.
Proof.
  unfold logical_mods, lookup_by_modifiers. cbv zeta.
  intros Ht Hl Hc Hm Hv. rewrite Ht, Hl, Hc, Hm.
  match goal with
  | |- context [if (fst ?f =? HOTKEY_ID_INVALID) && _ then _ else _] =>
      set (found := f)
  end.
  destruct (fst found =? HOTKEY_ID_INVALID) eqn:E; cbn [andb]; [ | reflexivity].
  destruct (alt_tab_menu_is_visible (dsp s)) eqn:V.
  - rewrite (Hv eq_refl). reflexivity.
  - intro Hbad. rewrite E in Hbad. discriminate Hbad.
Qed.

(** The dispatcher on the key-down of a suffix that is not a prefix, while
    no prefix is held: the suffix is recorded as down and CASE #4 runs. *)
Lemma dispatch_plain_suffix_down os lParam vk sc cur s :
  pPrefixKey (dsp s) = None ->
  used_as_prefix (deref s (this_key s vk sc)) = false ->
  used_as_suffix (deref s (this_key s vk sc)) = true ->
  dispatch KeyEvent os lParam vk sc false cur s
  = Case4 KeyEvent os lParam vk sc false cur (this_key s vk sc)
      (on_key (this_key s vk sc) (set_is_down true) s).
Proof.
  intros Hp Hpre Hsuf.
  set (this := this_key s vk sc) in *.
  unfold dispatch. unfold bind at 1. unfold get at 1. cbv zeta. fold this.
  rewrite Hp. cbn [ptr_eqb andb when].
  unfold bind at 1. cbn [ret].
  unfold bind at 1. unfold get at 1.
  rewrite Hsuf, andb_false_r.
  unfold bind at 1. cbn [when ret].
  unfold bind at 1. cbn [modify].
  unfold bind at 1. unfold get at 1. change (negb false) with true.
  destruct (key_config_fields _ _ (set_is_down_config this true s this))
    as (E1 & E2 & _).
  rewrite E1, E2, Hpre, Hsuf, pPrefixKey_on_key, Hp.
  cbn [andb negb orb]. rewrite !andb_false_r. reflexivity.
Qed.

(** CASE #4 without a held prefix, when the lookup by modifiers finds a
    hotkey of the script. *)
Lemma Case4_lookup os lParam vk sc cur this s :
  pPrefixKey (dsp s) = None ->
  script_hotkey (fst (lookup_by_modifiers vk sc this s)) = true ->
  Case4 KeyEvent os lParam vk sc false cur this s
  = fire_hotkey KeyEvent os lParam vk sc false cur this
      (lookup_by_modifiers vk sc this s) s.
Proof.
  intros Hp H. destruct (script_hotkey_tests _ H) as (E0 & _).
  unfold Case4. unfold bind at 1. unfold get at 1. rewrite Hp. cbn [andb].
  unfold lookup_and_fire. cbn [fst]. rewrite Z.eqb_refl.
  unfold bind at 1. unfold get at 1. cbv zeta. rewrite E0. reflexivity.
Qed.

(** The key-down of a suffix, with no prefix held, for which the lookup by
    modifiers finds a hotkey of the script. *)
Lemma modifier_hotkey_fires os wParam lParam s :
  dwExtraInfo lParam <> KEYIGNORE ->
  is_key_up wParam = false ->
  pPrefixKey (dsp s) = None ->
  used_as_prefix (deref s (event_key s lParam)) = false ->
  used_as_suffix (deref s (event_key s lParam)) = true ->
  script_hotkey
    (fst (lookup_by_modifiers (vk_of (vkCode lParam)) (normalized_sc s lParam)
            (event_key s lParam) s)) = true ->
  let s' := exec (KeybdProc os HC_ACTION wParam lParam) s in
  let found := lookup_by_modifiers (vk_of (vkCode lParam))
                 (normalized_sc s lParam) (event_key s lParam) s in
  eval (KeybdProc os HC_ACTION wParam lParam) s = Suppressed
  /\ posted s' = posted s ++ [(fst found, 0)]
  /\ sent s'
     = sent s
       ++ (if snd found
           then keystrokes KEYDOWNANDUP (vk_of (vkCode lParam))
                  (normalized_sc s lParam)
           else [])
       ++ numlock_fix_for lParam false
  /\ pPrefixKey (dsp s') = None
  /\ is_down (deref s' (event_key s lParam)) = true
  /\ down_performed_action (deref s' (event_key s lParam)) = true
  /\ (exists s3, logical_mods s3 = logical_mods s
                 /\ (forall r, key_config (deref s3 r) = key_config (deref s r))
                 /\ disguise_flags s3 = disguise_flags s
                 /\ disguise_flags s' = disguise_flags (exec arm_disguise s3)).
Proof.
  intros Hx Hup Hp Hpre Hsuf Hid. cbv zeta.
  assert (Hd : disguise_armed (vk_of (vkCode lParam)) (is_key_up wParam) s = false)
    by (rewrite Hup; apply disguise_armed_key_down).
  unfold eval, exec. rewrite (KeybdProc_dispatches os wParam lParam s Hx Hd).
  cbv zeta. rewrite Hup.
  set (vk := vk_of (vkCode lParam)) in *.
  set (sc := normalized_sc s lParam) in *.
  set (cur := eval (bookkeeping os lParam vk sc false) s).
  set (s1 := exec (bookkeeping os lParam vk sc false) s).
  assert (H1 : hook_core s1 = hook_core s) by apply bookkeeping_core.
  assert (H1s : sent s1 = sent s) by apply bookkeeping_sent.
  assert (H1l : logical_mods s1 = logical_mods s) by apply bookkeeping_logical.
  destruct (core_fields s s1 H1) as (D1 & P1 & T1 & Q1).
  unfold event_key in *. fold vk sc in Hpre, Hsuf, Hid |- *.
  set (this := this_key s vk sc) in *.
  assert (Hthis : this_key s1 vk sc = this) by apply (this_key_core _ _ vk sc H1).
  rewrite (dispatch_plain_suffix_down os lParam vk sc cur s1);
    rewrite ?Hthis, ?P1, ?D1; try assumption.
  set (s3 := on_key this (set_is_down true) s1).
  assert (P3 : pPrefixKey (dsp s3) = None)
    by (unfold s3; rewrite pPrefixKey_on_key, P1; exact Hp).
  assert (C3 : forall r, key_config (deref s3 r) = key_config (deref s r)).
  { intro r. unfold s3. rewrite set_is_down_config, D1. reflexivity. }
  assert (L3 : lookup_by_modifiers vk sc this s3 = lookup_by_modifiers vk sc this s).
  { apply lookup_by_modifiers_stable.
    - unfold s3. rewrite tbl_on_key. exact T1.
    - unfold s3. rewrite <- H1l. destruct this; reflexivity.
    - destruct (key_config_fields _ _ (C3 (InKsc sc))) as (_ & _ & _ & _ & E & _).
      exact E.
    - destruct (key_config_fields _ _ (C3 this)) as (_ & _ & E & _). exact E.
    - intro V.
      assert (V1 : alt_tab_menu_is_visible (dsp s1) = true)
        by (apply bookkeeping_visible; exact V).
      rewrite <- V1. unfold s3. destruct this; reflexivity.
    - apply (script_hotkey_tests _ Hid). }
  rewrite (Case4_lookup os lParam vk sc cur this s3 P3); [ | rewrite L3; exact Hid].
  rewrite L3.
  destruct (lookup_by_modifiers vk sc this s) as [id ns] eqn:G.
  cbn [fst snd] in *.
  destruct (fire_script_hotkey_down os lParam vk sc cur this id ns s3 Hid)
    as (Rv & Rq & Rs & Rp & _ & Rk & Rd & _).
  pose proof (fire_script_hotkey_flags os lParam vk sc cur this id ns s3 Hid) as Rf.
  fold (eval (fire_hotkey KeyEvent os lParam vk sc false cur this (id, ns)) s3).
  fold (exec (fire_hotkey KeyEvent os lParam vk sc false cur this (id, ns)) s3).
  split; [exact Rv | ].
  split; [rewrite Rq; unfold s3; rewrite posted_on_key, Q1; reflexivity | ].
  split; [rewrite Rs; unfold s3; rewrite sent_on_key, H1s; reflexivity | ].
  split; [rewrite Rp; exact P3 | ].
  split.
  { destruct (key_static_fields _ _ (Rk this)) as (_ & _ & _ & _ & _ & _ & _ & E).
    rewrite E. unfold s3. rewrite deref_on_key, KeyRef_eqb_refl. reflexivity. }
  split; [rewrite Rd, KeyRef_eqb_refl; reflexivity | ].
  exists s3. split; [ | split; [exact C3 | split; [ | exact Rf]]].
  - rewrite <- H1l. unfold s3. destruct this; reflexivity.
  - rewrite <- (disguise_flags_core _ _ H1). unfold s3. destruct this; reflexivity.
Qed.

(** X11.  A hotkey defined by modifiers fires on the key-down of its
    suffix.  When a key-down that is not the engine's own arrives for a
    key configured as a suffix and not as a prefix, no prefix is held, and
    lookup_by_modifiers finds a hotkey id of the script for the modifiers
    that are logically down, the hook suppresses the event and posts
    exactly that id; it sends nothing but the substitute down-and-up pair
    of a hotkey flagged HOTKEY_NO_SUPPRESS (and the Numlock fix when the
    suffix is NUMLOCK); the prefix slot stays empty; the suffix is
    recorded as down with down_performed_action set. *)
Theorem X11_modifier_hotkey_fires_on_key_down :
  forall os wParam lParam s,
    dwExtraInfo lParam <> KEYIGNORE ->
    is_key_up wParam = false ->
    pPrefixKey (dsp s) = None ->
    used_as_prefix (deref s (event_key s lParam)) = false ->
    used_as_suffix (deref s (event_key s lParam)) = true ->
    script_hotkey
      (fst (lookup_by_modifiers (vk_of (vkCode lParam)) (normalized_sc s lParam)
              (event_key s lParam) s)) = true ->
    let s' := exec (KeybdProc os HC_ACTION wParam lParam) s in
    let found := lookup_by_modifiers (vk_of (vkCode lParam))
                   (normalized_sc s lParam) (event_key s lParam) s in
    eval (KeybdProc os HC_ACTION wParam lParam) s = Suppressed
    /\ posted s' = posted s ++ [(fst found, 0)]
    /\ sent s'
       = sent s
         ++ (if snd found
             then keystrokes KEYDOWNANDUP (vk_of (vkCode lParam))
                    (normalized_sc s lParam)
             else [])
         ++ numlock_fix_for lParam false
    /\ pPrefixKey (dsp s') = None
    /\ is_down (deref s' (event_key s lParam)) = true
    /\ down_performed_action (deref s' (event_key s lParam)) = true.
Proof.
  intros os wParam lParam s Hx Hup Hp Hpre Hsuf Hid.
  destruct (modifier_hotkey_fires os wParam lParam s Hx Hup Hp Hpre Hsuf Hid)
    as (Hv & Hq & Hs & Hp' & Hi & Ha & _).
  repeat split; assumption.
Qed.

(** A run that meets the hypotheses of X11: the script "#a" with the left
    WIN key held, and the key-down of a. *)
Lemma X11_modifier_hotkey_fires_on_key_down_witness :
  eval (deliver (ex_down (ex_WinXP 200) ex_VK_A 0x1E)) ex_engine_win_held
    = Suppressed
  /\ posted (exec (deliver (ex_down (ex_WinXP 200) ex_VK_A 0x1E))
               ex_engine_win_held) = [(7, 0)].
Proof.
  assert (Hx : dwExtraInfo (d_lParam (ex_down (ex_WinXP 200) ex_VK_A 0x1E))
               <> KEYIGNORE) by (vm_compute; discriminate).
  destruct (X11_modifier_hotkey_fires_on_key_down
              (ex_WinXP 200) WM_KEYDOWN
              (d_lParam (ex_down (ex_WinXP 200) ex_VK_A 0x1E))
              ex_engine_win_held Hx eq_refl eq_refl eq_refl eq_refl eq_refl)
    as (Hv & Hq & _).
  split; [exact Hv | exact Hq].
Defined.

(* ================================================================== *)
(** ** A WIN hotkey from the first key-down to the last key-up *)
(* ================================================================== *)

(** The release of a WIN or ALT key whose disguise flag is armed. *)
Lemma armed_key_up_is_disguised os wParam lParam s :
  dwExtraInfo lParam <> KEYIGNORE ->
  is_key_up wParam = true ->
  disguise_flag_for (vk_of (vkCode lParam)) s = Some true ->
  let vk := vk_of (vkCode lParam) in
  let s' := exec (KeybdProc os HC_ACTION wParam lParam) s in
  eval (KeybdProc os HC_ACTION wParam lParam) s = Suppressed
  /\ disguise_flag_for vk s' = Some false
  /\ sent s' = sent s ++ disguise_triple vk (normalized_sc s lParam)
  /\ posted s' = posted s.
Proof.
  intros Hx Hup Harmed. cbv zeta.
  assert (Hnum : (vkCode lParam =? VK_NUMLOCK) = false).
  { apply Z.eqb_neq. intro E. rewrite E in Harmed. discriminate Harmed. }
  unfold KeybdProc, LowLevelKeybdProc.
  change (HC_ACTION =? HC_ACTION) with true. cbn [negb].
  fold (is_key_up wParam). rewrite Hup. rewrite (proj2 (Z.eqb_neq _ _) Hx).
  rewrite eval_bind, exec_bind, eval_get, exec_get.
  rewrite eval_bind, exec_bind.
  set (vk := vk_of (vkCode lParam)) in *.
  set (sc := normalized_sc s lParam).
  set (cur := eval (bookkeeping os lParam vk sc true) s).
  set (s1 := exec (bookkeeping os lParam vk sc true) s).
  assert (H1 : hook_core s1 = hook_core s) by apply bookkeeping_core.
  assert (H1s : sent s1 = sent s) by apply bookkeeping_sent.
  rewrite eval_bind, exec_bind, eval_get, exec_get.
  assert (Ha : disguise_armed vk true s1 = true).
  { apply disguise_armed_iff. rewrite (disguise_flag_for_core vk s s1 H1).
    exact Harmed. }
  rewrite Ha.
  set (s2 := exec (clear_disguise_flag vk) s1).
  assert (K : keeps (same hook_core)
                (KeyEvent os KEYDOWN VK_SHIFT 0 ;;
                 KeyEvent os KEYUP vk sc ;;
                 KeyEvent os KEYUP VK_SHIFT 0 ;;
                 SuppressThisKey KeyEvent os lParam sc true cur)).
  { unfold SuppressThisKey. frame. }
  split; [rewrite !eval_bind; apply SuppressThisKeyFunc_returns | ].
  rewrite exec_bind. fold s2.
  split; [ | split].
  - rewrite (disguise_flag_for_core vk s2 _ (K s2)).
    apply clear_disguise_flag_clears.
    rewrite (disguise_flag_for_core vk s s1 H1). exact Harmed.
  - rewrite !exec_bind.
    unfold SuppressThisKey. rewrite SuppressThisKeyFunc_sent, Hnum.
    cbn [andb]. rewrite app_nil_r.
    rewrite !KeyEvent_sent. unfold s2. rewrite clear_disguise_flag_sent, H1s.
    cbn [keystrokes]. unfold disguise_triple. rewrite <- !app_assoc. reflexivity.
  - rewrite (posted_core _ _ (K s2)).
    unfold s2, clear_disguise_flag.
    rewrite <- (posted_core _ _ H1).
    repeat (match goal with
            | |- context [if ?b then _ else _] => destruct b
            end); reflexivity.
Qed.

Lemma disguise_flags_lwin s s' :
  disguise_flags s' = disguise_flags s ->
  disguise_next_lwin_up (dsp s') = disguise_next_lwin_up (dsp s).
Proof. unfold disguise_flags. intro H. injection H as E _ _ _. exact E. Qed.

(** X12.  A WIN hotkey from the first key-down to the last key-up.  Three
    successive events, none of which carries KEYIGNORE.  Initially no
    prefix is held, the left WIN key is the only modifier logically down
    and is not a prefix key itself.  The first event is the key-down of a
    suffix (not a prefix, no WIN or ALT key) for which the lookup by
    modifiers finds a hotkey of the script; the second is the key-up of
    the same key; the third is the key-up of the left WIN key.  All three
    are suppressed.  The hotkey id is posted once.  The first event arms
    disguise_next_lwin_up; the WIN key-up is replaced by SHIFT down, LWIN
    up, SHIFT up, so that the Start menu does not open, and the flag is
    cleared again. *)
Theorem X12_win_hotkey_is_disguised_to_the_end :
  forall os1 w1 l1 os2 w2 l2 os3 w3 l3 s,
    dwExtraInfo l1 <> KEYIGNORE ->
    is_key_up w1 = false ->
    pPrefixKey (dsp s) = None ->
    used_as_prefix (deref s (event_key s l1)) = false ->
    used_as_suffix (deref s (event_key s l1)) = true ->
    script_hotkey
      (fst (lookup_by_modifiers (vk_of (vkCode l1)) (normalized_sc s l1)
              (event_key s l1) s)) = true ->
    logical_mods s = MOD_LWIN ->
    used_as_prefix (kvk (dsp s) VK_LWIN) = false ->
    disguise_flag_for (vk_of (vkCode l1)) s = None ->
    dwExtraInfo l2 <> KEYIGNORE ->
    is_key_up w2 = true ->
    same_key l1 l2 ->
    dwExtraInfo l3 <> KEYIGNORE ->
    is_key_up w3 = true ->
    vk_of (vkCode l3) = VK_LWIN ->
    let s1 := exec (KeybdProc os1 HC_ACTION w1 l1) s in
    let s2 := exec (KeybdProc os2 HC_ACTION w2 l2) s1 in
    let s3 := exec (KeybdProc os3 HC_ACTION w3 l3) s2 in
    eval (KeybdProc os1 HC_ACTION w1 l1) s = Suppressed
    /\ eval (KeybdProc os2 HC_ACTION w2 l2) s1 = Suppressed
    /\ eval (KeybdProc os3 HC_ACTION w3 l3) s2 = Suppressed
    /\ disguise_next_lwin_up (dsp s1) = true
    /\ disguise_next_lwin_up (dsp s3) = false
    /\ posted s3
       = posted s
         ++ [(fst (lookup_by_modifiers (vk_of (vkCode l1)) (normalized_sc s l1)
                     (event_key s l1) s), 0)]
    /\ sent s3 = sent s1 ++ disguise_triple VK_LWIN (normalized_sc s2 l3).
Proof.
  intros os1 w1 l1 os2 w2 l2 os3 w3 l3 s
         Hx1 Hup1 Hp Hpre Hsuf Hid Hlog Hwin Hflag Hx2 Hup2 Hsame Hx3 Hup3 Hvk3.
  cbv zeta.
  destruct (modifier_hotkey_fires os1 w1 l1 s Hx1 Hup1 Hp Hpre Hsuf Hid)
    as (Hv1 & Hq1 & _ & Hp1 & _ & Hdpa1 & (sa & La & Ca & _ & Fa)).
  set (s1 := exec (KeybdProc os1 HC_ACTION w1 l1) s) in *.
  assert (Harm1 : disguise_next_lwin_up (dsp s1) = true).
  { rewrite (disguise_flags_lwin _ _ Fa). apply arm_disguise_lwin.
    - rewrite La. exact Hlog.
    - destruct (key_config_fields _ _ (Ca (InKvk VK_LWIN))) as (E & _).
      cbn [deref] in E. rewrite E. exact Hwin. }
  pose proof (KeybdProc_configured os1 HC_ACTION w1 l1 s) as Hc.
  fold s1 in Hc.
  destruct (event_key_same s s1 l1 l2 Hc Hsame) as (_ & Hkey).
  assert (Ev : vkCode l2 = vkCode l1) by apply Hsame.
  assert (Hd2 : disguise_armed (vk_of (vkCode l2)) true s1 = false).
  { rewrite Ev. apply (disguise_armed_no_flag _ _ s). exact Hflag. }
  assert (Hsuf1 : used_as_suffix (deref s1 (event_key s1 l2)) = true).
  { rewrite Hkey. destruct Hc as (_ & Hk).
    destruct (key_config_fields _ _ (Hk (event_key s l1))) as (_ & E & _).
    rewrite E. exact Hsuf. }
  assert (Hne1 : pPrefixKey (dsp s1) <> Some (event_key s1 l2))
    by (rewrite Hp1; discriminate).
  destruct (suffix_up_follows os2 w2 l2 s1 Hx2 Hup2 Hd2 Hsuf1 Hne1)
    as (Hv2 & _ & _ & Hs2 & Hq2 & _ & Hf2).
  rewrite Hkey, Hdpa1 in Hv2. cbn [orb] in Hv2.
  set (s2 := exec (KeybdProc os2 HC_ACTION w2 l2) s1) in *.
  assert (Harm2 : disguise_flag_for (vk_of (vkCode l3)) s2 = Some true).
  { rewrite Hvk3. unfold disguise_flag_for. rewrite Z.eqb_refl.
    rewrite (disguise_flags_lwin _ _ Hf2), Harm1. reflexivity. }
  destruct (armed_key_up_is_disguised os3 w3 l3 s2 Hx3 Hup3 Harm2)
    as (Hv3 & Hc3 & Hs3 & Hq3).
  rewrite Hvk3 in Hc3, Hs3.
  split; [exact Hv1 | ]. split; [exact Hv2 | ]. split; [exact Hv3 | ].
  split; [exact Harm1 | ].
  split.
  { unfold disguise_flag_for in Hc3. rewrite Z.eqb_refl in Hc3.
    injection Hc3 as E. exact E. }
  split; [rewrite Hq3, Hq2; exact Hq1 | ].
  rewrite Hs3, Hs2. reflexivity.
Qed.

(** A run that meets the hypotheses of X12: the script "#a" with the left
    WIN key held; a goes down and up, then the WIN key goes up. *)
Lemma X12_win_hotkey_is_disguised_to_the_end_witness :
  let s1 := exec (deliver (ex_down (ex_WinXP 200) ex_VK_A 0x1E))
              ex_engine_win_held in
  let s2 := exec (deliver (ex_up (ex_WinXP 300) ex_VK_A 0x1E)) s1 in
  eval (deliver (ex_down (ex_WinXP 200) ex_VK_A 0x1E)) ex_engine_win_held
    = Suppressed
  /\ eval (deliver (ex_up (ex_WinXP 300) ex_VK_A 0x1E)) s1 = Suppressed
  /\ eval (deliver (ex_up (ex_WinXP 400) VK_LWIN 0x5B)) s2 = Suppressed.
Proof.
  cbv zeta.
  assert (Hx1 : dwExtraInfo (d_lParam (ex_down (ex_WinXP 200) ex_VK_A 0x1E))
                <> KEYIGNORE) by (vm_compute; discriminate).
  assert (Hx2 : dwExtraInfo (d_lParam (ex_up (ex_WinXP 300) ex_VK_A 0x1E))
                <> KEYIGNORE) by (vm_compute; discriminate).
  assert (Hx3 : dwExtraInfo (d_lParam (ex_up (ex_WinXP 400) VK_LWIN 0x5B))
                <> KEYIGNORE) by (vm_compute; discriminate).
  assert (Hsame : same_key (d_lParam (ex_down (ex_WinXP 200) ex_VK_A 0x1E))
                    (d_lParam (ex_up (ex_WinXP 300) ex_VK_A 0x1E)))
    by (repeat split).
  destruct (X12_win_hotkey_is_disguised_to_the_end
              (ex_WinXP 200) WM_KEYDOWN
              (d_lParam (ex_down (ex_WinXP 200) ex_VK_A 0x1E))
              (ex_WinXP 300) WM_KEYUP
              (d_lParam (ex_up (ex_WinXP 300) ex_VK_A 0x1E))
              (ex_WinXP 400) WM_KEYUP
              (d_lParam (ex_up (ex_WinXP 400) VK_LWIN 0x5B))
              ex_engine_win_held
              Hx1 eq_refl eq_refl eq_refl eq_refl eq_refl eq_refl eq_refl
              eq_refl Hx2 eq_refl Hsame Hx3 eq_refl eq_refl)
    as (Hv1 & Hv2 & Hv3 & _).
  split; [exact Hv1 | split; [exact Hv2 | exact Hv3]].
Defined.

(* ================================================================== *)
(** ** The trackers *)
(* ================================================================== *)

(** X13.  UpdateModifierState keeps the physical key table consistent:
    if before the call each of g_PhysicalKeyState[VK_SHIFT], [VK_CONTROL]
    and [VK_MENU] is the disjunction of its left and right key, it is so
    after the call, for every event, direction and suppression flag. *)
Theorem X13_UpdateModifierState_keeps_neutral_keys_consistent :
  forall os lParam sc key_up aIsSuppressed s,
    neutral_consistent s ->
    neutral_consistent
      (exec (UpdateModifierState os lParam sc key_up aIsSuppressed) s).
Proof.
  intros os lParam sc key_up aIsSuppressed s H.
  apply UpdateModifierState_keeps_neutral_consistent. exact H.
Qed.

(** A call that meets the hypothesis of X13: the physical release of the
    left SHIFT key while it is held. *)
Lemma X13_UpdateModifierState_keeps_neutral_keys_consistent_witness :
  neutral_consistent ex_engine_lshift_held
  /\ neutral_consistent
       (exec (UpdateModifierState (ex_WinXP 200)
                (mkEvent VK_LSHIFT 0x2A 0 200 0) 0x2A true false)
          ex_engine_lshift_held).
Proof.
  assert (H : neutral_consistent ex_engine_lshift_held)
    by (vm_compute; repeat split).
  split; [exact H | ].
  apply (X13_UpdateModifierState_keeps_neutral_keys_consistent
           (ex_WinXP 200) (mkEvent VK_LSHIFT 0x2A 0 200 0) 0x2A true false
           ex_engine_lshift_held H).
Defined.

Lemma land_byte x : 0 <= Z.land x 0xFF <= 0xFF.
Proof.
  assert (E : Z.land x 0xFF = x mod 2 ^ 8)
    by (change 0xFF with (Z.ones 8); apply Z.land_ones; lia).
  rewrite E. pose proof (Z.mod_pos_bound x (2 ^ 8)). lia.
Qed.

Lemma lor_ninth_bit x : 0 <= x <= 0xFF -> 0 <= Z.lor x 0x100 <= 0x1FF.
Proof.
  intro H. split.
  - apply Z.lor_nonneg. lia.
  - pose proof (Z.add_lor_land x 0x100) as E.
    assert (0 <= Z.land x 0x100) by (apply Z.land_nonneg; lia).
    lia.
Qed.

(** X14.  The key record the hook selects for an event always lies inside
    its table, whatever virtual key, scan code and flags the event
    carries: an index into kvk is within 0 .. 0xFF and an index into ksc
    within 0 .. 0x1FF. *)
Theorem X14_selected_key_record_is_inside_its_table :
  forall s lParam,
    0 <= normalized_sc s lParam <= 0x1FF
    /\ index_in_range (event_key s lParam).
Proof.
  intros s lParam.
  assert (Hsc : 0 <= normalized_sc s lParam <= 0x1FF).
  { unfold normalized_sc. cbv zeta.
    match goal with
    | |- context [Z.land ?x 0xFF] => pose proof (land_byte x) as Hb
    end.
    destruct (nz (Z.land (flags lParam) LLKHF_EXTENDED));
      [apply lor_ninth_bit; exact Hb | lia]. }
  split; [exact Hsc | ].
  unfold event_key, this_key.
  destruct (sc_takes_precedence _); cbn [index_in_range]; [exact Hsc | ].
  unfold vk_of. pose proof (Z.mod_pos_bound (vkCode lParam) 256). lia.
Qed.

(* ================================================================== *)
(** ** The driver-generated shift events around a shifted numpad key *)
(* ================================================================== *)

Lemma EventIsPhysical_memory os lParam sc key_up :
  keeps (same shift_memory) (EventIsPhysical os lParam sc key_up).
Proof. unfold EventIsPhysical. cbv zeta. frame. Qed.

Lemma EventIsPhysical_physical_shift os lParam sc key_up :
  keeps (same physical_shift) (EventIsPhysical os lParam sc key_up).
Proof. unfold EventIsPhysical. cbv zeta. frame. Qed.

Lemma EventIsPhysical_dsp os lParam sc key_up :
  keeps (same dsp) (EventIsPhysical os lParam sc key_up).
Proof. unfold EventIsPhysical. cbv zeta. frame. Qed.

Lemma UpdateModifierState_memory os lParam sc key_up sup :
  keeps (same shift_memory) (UpdateModifierState os lParam sc key_up sup).
Proof.
  pose proof EventIsPhysical_memory.
  unfold UpdateModifierState, track_modifier, logical_clear, logical_set,
    physical_clear, physical_set, phys_key_store, phys_key_copy.
  cbv zeta. frame.
Qed.

Lemma UpdateModifierState_dsp os lParam sc key_up sup :
  keeps (same dsp) (UpdateModifierState os lParam sc key_up sup).
Proof.
  pose proof EventIsPhysical_dsp.
  unfold UpdateModifierState, track_modifier, logical_clear, logical_set,
    physical_clear, physical_set, phys_key_store, phys_key_copy.
  cbv zeta. frame.
Qed.

(** A key-up that is not injected is always physical. *)
Lemma EventIsPhysical_key_up os lParam sc s :
  injected lParam = false ->
  eval (EventIsPhysical os lParam sc true) s = true.
Proof.
  intro H. unfold eval. rewrite (EventIsPhysical_not_injected _ _ _ _ _ H).
  cbn [negb]. rewrite andb_false_r. reflexivity.
Qed.

(** What UpdateKeyState remembers of an event that does not itself follow
    a recent physical shift event. *)
Lemma UpdateKeyState_remembers os lParam sc key_up sup s :
  prior_was_recent_physical_shift os s = false ->
  let s' := exec (UpdateKeyState os lParam sc key_up sup) s in
  prior_vk (fix_ s') = vk_of (vkCode lParam)
  /\ prior_event_was_key_up (fix_ s') = key_up
  /\ prior_event_tickcount (fix_ s') = GetTickCount os
  /\ prior_physical_shift s' = physical_shift s
  /\ dsp s' = dsp s
  /\ (injected lParam = false -> key_up = true ->
      prior_event_was_physical (fix_ s') = true).
Proof.
  intro Hno. cbv zeta. unfold UpdateKeyState.
  rewrite exec_bind, eval_get, exec_get, Hno. cbn [when].
  rewrite exec_bind, exec_ret, exec_bind, exec_modify.
  set (s1 := on_fix _ s).
  rewrite exec_bind, eval_get, exec_get, exec_bind.
  set (s2 := exec (when _ _) s1).
  assert (M2 : shift_memory s2 = shift_memory s1).
  { apply (keeps_when (same shift_memory) (same_refl shift_memory)).
    apply UpdateModifierState_memory. }
  assert (D2 : dsp s2 = dsp s1).
  { apply (keeps_when (same dsp) (same_refl dsp)).
    apply UpdateModifierState_dsp. }
  rewrite exec_bind, exec_modify.
  set (s3 := on_fix (set_prior_key (vk_of (vkCode lParam)) sc key_up) s2).
  rewrite exec_bind.
  set (phys := eval (EventIsPhysical os lParam sc key_up) s3).
  set (s4 := exec (EventIsPhysical os lParam sc key_up) s3).
  assert (M4 : shift_memory s4 = shift_memory s3) by apply EventIsPhysical_memory.
  assert (D4 : dsp s4 = dsp s3) by apply EventIsPhysical_dsp.
  rewrite exec_bind, !exec_modify.
  unfold shift_memory in M2, M4.
  injection M4 as _ V4 _ U4 _ _ A4 B4 C4.
  injection M2 as _ _ _ _ _ _ A2 B2 C2.
  split; [exact V4 | ]. split; [exact U4 | ]. split; [reflexivity | ].
  split.
  { unfold prior_physical_shift. cbn [fix_ on_fix set_prior_event_tickcount
      set_prior_event_was_physical prior_modifiersLR_physical
      prior_shift_state prior_lshift_state].
    rewrite A4, B4, C4.
    change (prior_modifiersLR_physical (fix_ s3))
      with (prior_modifiersLR_physical (fix_ s2)).
    change (prior_shift_state (fix_ s3)) with (prior_shift_state (fix_ s2)).
    change (prior_lshift_state (fix_ s3)) with (prior_lshift_state (fix_ s2)).
    rewrite A2, B2, C2. reflexivity. }
  split.
  { change (dsp s4 = dsp s). rewrite D4. change (dsp s2 = dsp s). rewrite D2.
    reflexivity. }
  intros Hinj ->. cbn [fix_ on_fix set_prior_event_tickcount
    set_prior_event_was_physical prior_event_was_physical].
  apply EventIsPhysical_key_up. exact Hinj.
Qed.

(** The restore UpdateKeyState makes for a dual-state numpad event that
    follows a recent physical shift key-up. *)
Lemma UpdateKeyState_restores os lParam sc key_up sup s :
  prior_was_recent_physical_shift os s = true ->
  prior_event_was_key_up (fix_ s) = true ->
  IsDualStateNumpadKey (vk_of (vkCode lParam)) sc = true ->
  nz (as_modifiersLR (kvk (dsp s) (vk_of (vkCode lParam)))) = false ->
  let s' := exec (UpdateKeyState os lParam sc key_up sup) s in
  physical_shift s' = prior_physical_shift s
  /\ (key_up = true -> next_phys_shift_down_is_not_phys (fix_ s') = true).
Proof.
  intros Hrecent Hup Hdual Hmod. cbv zeta. unfold UpdateKeyState.
  rewrite exec_bind, eval_get, exec_get, Hrecent, Hup, Hdual.
  cbn [when negb andb orb]. rewrite andb_true_r, orb_true_r. cbn [when].
  rewrite !exec_bind, !exec_modify, !eval_get, !exec_get.
  unfold phys_key_store. rewrite !exec_modify.
  set (s0 := exec (when key_up _) s).
  assert (F0 : fix_ s0 = if key_up
                         then set_next_phys_shift_down_is_not_phys true (fix_ s)
                         else fix_ s)
    by (unfold s0; destruct key_up; reflexivity).
  assert (T0 : trk s0 = trk s) by (unfold s0; destruct key_up; reflexivity).
  assert (D0 : dsp s0 = dsp s) by (unfold s0; destruct key_up; reflexivity).
  cbn [dsp on_fix on_trk]. rewrite D0, Hmod. cbn [when]. rewrite !exec_ret.
  match goal with
  | |- context [exec (EventIsPhysical os lParam sc key_up) ?st] =>
      set (s3 := st);
      set (s4 := exec (EventIsPhysical os lParam sc key_up) s3)
  end.
  assert (P4 : physical_shift s4 = physical_shift s3)
    by apply EventIsPhysical_physical_shift.
  split.
  - transitivity (physical_shift s4); [reflexivity | ].
    rewrite P4. unfold s3, physical_shift, prior_physical_shift.
    cbn [trk fix_ on_fix on_trk set_physical set_PhysicalKeyState
         g_modifiersLR_physical g_PhysicalKeyState].
    unfold upd. cbn. reflexivity.
  - intros ->.
    cbn [fix_ on_fix set_prior_event_tickcount set_prior_event_was_physical
         next_phys_shift_down_is_not_phys].
    assert (F3 : next_phys_shift_down_is_not_phys (fix_ s3) = true).
    { unfold s3. cbn [fix_ on_fix on_trk set_prior_key set_prior_snapshot
                      next_phys_shift_down_is_not_phys].
      rewrite F0. reflexivity. }
    unfold s4. destruct (injected lParam) eqn:Hinj.
    + unfold EventIsPhysical. rewrite Hinj. rewrite exec_ret. exact F3.
    + unfold exec. rewrite (EventIsPhysical_not_injected _ _ _ _ _ Hinj).
      cbn [negb]. rewrite andb_false_r. cbn [snd]. exact F3.
Qed.

(** X15.  The driver's shift release before a shifted numpad key is
    undone.  UpdateKeyState is called for a left or neutral SHIFT key-up
    that is not injected (and does not itself follow a recent physical
    shift event), and then, less than SHIFT_KEY_WORKAROUND_TIMEOUT
    milliseconds later by the tick counter, for an event of a dual-state
    numpad key that is not a modifier.  After the second call
    g_modifiersLR_physical, g_PhysicalKeyState[VK_SHIFT] and
    g_PhysicalKeyState[VK_LSHIFT] are what they were before the first; and
    if the numpad event is a key-up, next_phys_shift_down_is_not_phys is
    set, so that the shift key-down the driver sends next is not taken for
    a physical one. *)
Theorem X15_driver_shift_release_is_undone :
  forall osA lA scA supA osB lB scB kuB supB s,
    injected lA = false ->
    vk_of (vkCode lA) = VK_LSHIFT \/ vk_of (vkCode lA) = VK_SHIFT ->
    prior_was_recent_physical_shift osA s = false ->
    IsDualStateNumpadKey (vk_of (vkCode lB)) scB = true ->
    nz (as_modifiersLR (kvk (dsp s) (vk_of (vkCode lB)))) = false ->
    (DWORD (GetTickCount osB - GetTickCount osA)
     <? DWORD SHIFT_KEY_WORKAROUND_TIMEOUT) = true ->
    let sA := exec (UpdateKeyState osA lA scA true supA) s in
    let sB := exec (UpdateKeyState osB lB scB kuB supB) sA in
    physical_shift sB = physical_shift s
    /\ (kuB = true -> next_phys_shift_down_is_not_phys (fix_ sB) = true).
Proof.
  intros osA lA scA supA osB lB scB kuB supB s Hinj Hvk Hno Hdual Hmod Htick.
  cbv zeta.
  destruct (UpdateKeyState_remembers osA lA scA true supA s Hno)
    as (Rv & Ru & Rt & Rs & Rd & Rp).
  set (sA := exec (UpdateKeyState osA lA scA true supA) s) in *.
  assert (Hrecent : prior_was_recent_physical_shift osB sA = true).
  { unfold prior_was_recent_physical_shift.
    rewrite (Rp Hinj eq_refl), Rv, Rt, Htick.
    destruct Hvk as [-> | ->]; reflexivity. }
  assert (Hmod' : nz (as_modifiersLR (kvk (dsp sA) (vk_of (vkCode lB)))) = false)
    by (rewrite Rd; exact Hmod).
  destruct (UpdateKeyState_restores osB lB scB kuB supB sA Hrecent Ru Hdual Hmod')
    as (Hphys & Hflag).
  split; [rewrite Hphys; exact Rs | exact Hflag].
Qed.

(** Calls that meet the hypotheses of X15: with the left SHIFT key held,
    the driver's shift key-up at tick 200 and the release of NumpadEnd at
    tick 205. *)
Lemma X15_driver_shift_release_is_undone_witness :
  physical_shift
    (exec (UpdateKeyState (ex_WinXP 205) (mkEvent VK_END 0x4F 0 205 0) 0x4F
             true false)
       (exec (UpdateKeyState (ex_WinXP 200) (mkEvent VK_LSHIFT 0x2A 0 200 0)
                0x2A true false)
          ex_engine_lshift_held))
  = physical_shift ex_engine_lshift_held.
Proof.
  destruct (X15_driver_shift_release_is_undone
              (ex_WinXP 200) (mkEvent VK_LSHIFT 0x2A 0 200 0) 0x2A false
              (ex_WinXP 205) (mkEvent VK_END 0x4F 0 205 0) 0x4F true false
              ex_engine_lshift_held
              eq_refl (or_introl eq_refl) eq_refl eq_refl eq_refl eq_refl)
    as (H & _).
  exact H.
Defined.

(* ================================================================== *)
(** ** The key in the prefix slot is down *)
(* ================================================================== *)

Lemma holder_ok_settled s s' : settled s s' -> holder_ok s -> holder_ok s'.
Proof.
  intros (Hp & _ & Hk) H r Hr. rewrite Hp in Hr. destruct (H r Hr) as (A & B).
  destruct (key_static_fields _ _ (Hk r)) as (E1 & _ & _ & _ & _ & _ & _ & E8).
  rewrite E1, E8. split; assumption.
Qed.

Lemma holder_ok_core s s' : hook_core s' = hook_core s -> holder_ok s -> holder_ok s'.
Proof. intro H. apply holder_ok_settled. apply settled_of_core. exact H. Qed.

Lemma modifiers_are_prefixes_configured s s' :
  configured s s' -> modifiers_are_prefixes s -> modifiers_are_prefixes s'.
Proof.
  intros (_ & Hk) H r m.
  destruct (key_config_fields _ _ (Hk r)) as (_ & _ & _ & _ & _ & Evk & Esc).
  destruct (key_config_fields _ _ (Hk (InKvk (mod_key m)))) as (Ev & _).
  destruct (key_config_fields _ _ (Hk (InKsc (mod_key m)))) as (Ec & _).
  rewrite Evk, Esc, Ev, Ec. apply H.
Qed.

Lemma Case3_slot_exact os lParam vk sc key_up cur this w s :
  pPrefixKey (dsp (exec (Case3 KeyEvent os lParam vk sc key_up cur this w) s))
  = if ptr_eqb (pPrefixKey (dsp s)) this then None else pPrefixKey (dsp s).
Proof.
  unfold Case3. rewrite exec_bind, eval_get, exec_get, exec_bind.
  set (s1 := exec (when _ _) s).
  destruct (Case3_released_settled os lParam vk sc key_up cur this w s1)
    as (Hp & _ & _).
  fold (exec (Case3_released KeyEvent os lParam vk sc key_up cur this w) s1) in Hp.
  rewrite Hp. unfold s1.
  destruct (ptr_eqb (pPrefixKey (dsp s)) this); reflexivity.
Qed.

Lemma Case1_static os lParam sc key_up cur this s :
  let s' := exec (Case1 KeyEvent os lParam sc key_up cur this) s in
  pPrefixKey (dsp s') = Some this
  /\ forall r, key_static (deref s' r) = key_static (deref s r).
Proof.
  cbv zeta. unfold Case1. rewrite !exec_bind, exec_modify.
  set (s4 := on_dsp (set_pPrefixKey (Some this)) s).
  destruct (keeps_settled_on_prefix (set_was_just_used Unused)
              (fun k => eq_refl) s4) as (Hp5 & _ & Hk5).
  destruct (allow_if_settled os lParam sc key_up cur this
              (exec (on_prefix (set_was_just_used Unused)) s4))
    as (Hp6 & _ & Hk6).
  fold (exec (allow_if_modifier_or_neutral_toggle KeyEvent os lParam sc
                key_up cur this)
             (exec (on_prefix (set_was_just_used Unused)) s4)) in Hp6, Hk6.
  split; [rewrite Hp6, Hp5; reflexivity | ].
  intro r. rewrite Hk6, Hk5. destruct r; reflexivity.
Qed.

(** The dispatcher keeps the prefix slot on a key that is down. *)
Lemma dispatch_holder os lParam vk sc key_up cur s :
  modifiers_are_prefixes s -> holder_ok s ->
  holder_ok (exec (dispatch KeyEvent os lParam vk sc key_up cur) s).
Proof.
  intros Hcfg Hok.
  unfold dispatch. rewrite exec_bind, eval_get, exec_get. cbv zeta.
  set (this := this_key s vk sc).
  destruct (ptr_eqb (pPrefixKey (dsp s)) this && negb key_up) eqn:G1.
  { apply (holder_ok_core s); [ | exact Hok].
    destruct (nz (as_modifiersLR (deref s this)));
      [apply AllowIt_core | apply SuppressThisKeyFunc_core]. }
  rewrite exec_bind.
  set (s2 := exec (when _ _) s).
  assert (S2 : settled s s2).
  { subst s2. apply (keeps_when settled settled_refl). auto with hook_frame. }
  rewrite exec_bind, eval_get, exec_get.
  destruct (negb (used_as_prefix (deref s2 this))
            && negb (used_as_suffix (deref s2 this))).
  { apply (holder_ok_core s2); [apply AllowIt_core | ].
    apply (holder_ok_settled s); assumption. }
  destruct S2 as (Hp2 & Ht2 & Hk2).
  rewrite exec_bind.
  set (s2' := exec (when key_up _) s2).
  assert (S2' : settled s2 s2').
  { subst s2'. apply (keeps_when settled settled_refl).
    apply keeps_modify. intro. apply settled_on_key. intro; reflexivity. }
  destruct S2' as (Hp2' & Ht2' & Hk2').
  rewrite exec_bind, exec_modify.
  set (s3 := on_key this (set_is_down (negb key_up)) s2').
  assert (Hp3 : pPrefixKey (dsp s3) = pPrefixKey (dsp s)).
  { subst s3. rewrite pPrefixKey_on_key, Hp2', Hp2. reflexivity. }
  assert (Hc3 : forall r, key_config (deref s3 r) = key_config (deref s r)).
  { intro r. subst s3. rewrite set_is_down_config.
    rewrite (key_static_config _ _ (Hk2' r)). apply key_static_config, Hk2. }
  assert (Hd3 : forall r, is_down (deref s3 r)
                          = if KeyRef_eqb r this then negb key_up
                            else is_down (deref s r)).
  { intro r. subst s3. rewrite deref_on_key.
    destruct (KeyRef_eqb r this); [reflexivity | ].
    destruct (key_static_fields _ _ (Hk2' r)) as (_ & _ & _ & _ & _ & _ & _ & E1).
    destruct (key_static_fields _ _ (Hk2 r)) as (_ & _ & _ & _ & _ & _ & _ & E2).
    rewrite E1, E2. reflexivity. }
  assert (Hpre3 : forall r, used_as_prefix (deref s3 r) = used_as_prefix (deref s r)).
  { intro r. destruct (key_config_fields _ _ (Hc3 r)) as (E & _). exact E. }
  (* how a final state, static with respect to s3, is recognised as fine *)
  assert (Fin : forall sf,
             (forall r, key_static (deref sf r) = key_static (deref s3 r)) ->
             (forall r, pPrefixKey (dsp sf) = Some r ->
                        (is_down (deref s3 r) = true
                         /\ used_as_prefix (deref s r) = true)
                        \/ (r <> this /\ pPrefixKey (dsp s) = Some r)) ->
             holder_ok sf).
  { intros sf Hst Hcl r Hr.
    destruct (key_static_fields _ _ (Hst r)) as (E1 & _ & _ & _ & _ & _ & _ & E8).
    rewrite E1, E8, Hpre3.
    destruct (Hcl r Hr) as [(A & B) | (Hne & Hs)]; [split; assumption | ].
    destruct (Hok r Hs) as (A & B). split; [ | exact B].
    rewrite Hd3.
    destruct (KeyRef_eqb r this) eqn:E; [ | exact A].
    apply KeyRef_eqb_eq in E. contradiction. }
  rewrite exec_bind, eval_get, exec_get.
  destruct (used_as_prefix (deref s3 this) && negb key_up
            && (match pPrefixKey (dsp s3) with Some _ => false | None => true end
                || negb (used_as_suffix (deref s3 this)))) eqn:C1.
  { (* CASE #1 *)
    apply andb_true_iff in C1. destruct C1 as [C1 _].
    apply andb_true_iff in C1. destruct C1 as [C1a C1b].
    destruct (Case1_static os lParam sc key_up cur this s3) as (Hp & Hst).
    apply (Fin _ Hst). intros r Hr. rewrite Hp in Hr. injection Hr as <-.
    left. split.
    - rewrite Hd3, KeyRef_eqb_refl. exact C1b.
    - rewrite <- Hpre3. exact C1a. }
  destruct (used_as_suffix (deref s3 this)
            && negb (ptr_eqb (pPrefixKey (dsp s3)) this) && key_up) eqn:C2.
  { (* CASE #2 *)
    apply andb_true_iff in C2. destruct C2 as [C2 _].
    apply andb_true_iff in C2. destruct C2 as [_ C2].
    apply negb_true_iff in C2.
    destruct (Case2_settled os lParam sc key_up cur
                (down_performed_action (deref s2 this)) s3) as (Hp & _ & Hst).
    apply (Fin _ Hst). intros r Hr. right.
    rewrite Hp, Hp3 in Hr. split; [ | exact Hr].
    intros ->. rewrite Hp3, Hr in C2. cbn [ptr_eqb] in C2.
    rewrite KeyRef_eqb_refl in C2. discriminate C2. }
  destruct (used_as_prefix (deref s3 this) && key_up) eqn:C3.
  { (* CASE #3, possibly falling through into CASE #4 *)
    apply andb_true_iff in C3. destruct C3 as [_ Hku]. subst key_up.
    rewrite exec_bind.
    set (w := is_down (deref s2 this)).
    pose proof (Case3_slot_exact os lParam vk sc true cur this w s3) as P4.
    destruct (Case3_slot os lParam vk sc true cur this w s3) as (_ & _ & K4).
    cbv zeta in K4.
    set (s4 := exec (Case3 KeyEvent os lParam vk sc true cur this w) s3) in *.
    set (sf := exec match eval (Case3 KeyEvent os lParam vk sc true cur this w)
                            s3 with
                    | Some v => ret v
                    | None => Case4 KeyEvent os lParam vk sc true cur this
                    end s4).
    assert (Hend : pPrefixKey (dsp sf) = pPrefixKey (dsp s4)
                   /\ forall r, key_static (deref sf r) = key_static (deref s4 r)).
    { unfold sf.
      destruct (eval (Case3 KeyEvent os lParam vk sc true cur this w) s3).
      - split; reflexivity.
      - destruct (Case4_slot os lParam vk sc true cur this s4) as (H4 & _ & K).
        cbv zeta in H4, K. split; [ | exact K].
        destruct H4 as [H4 | (H4 & _)]; [exact H4 | discriminate H4]. }
    destruct Hend as (Pf & Kf).
    apply (Fin sf); [intro r; rewrite Kf; apply K4 | ].
    intros r Hr. right. rewrite Pf, P4 in Hr.
    destruct (ptr_eqb (pPrefixKey (dsp s3)) this) eqn:E; [discriminate Hr | ].
    rewrite Hp3 in Hr, E. split; [ | exact Hr].
    intros ->. rewrite Hr in E. cbn [ptr_eqb] in E.
    rewrite KeyRef_eqb_refl in E. discriminate E. }
  (* CASE #4 *)
  destruct (Case4_slot os lParam vk sc key_up cur this s3) as (H4 & _ & K4).
  cbv zeta in H4, K4.
  apply (Fin _ K4). intros r Hr.
  destruct H4 as [H4 | (Hku & Hheld & H4)].
  - right. rewrite H4, Hp3 in Hr. split; [ | exact Hr].
    intros ->.
    destruct (Hok this Hr) as (_ & Hpre).
    rewrite Hr in G1. cbn [ptr_eqb] in G1. rewrite KeyRef_eqb_refl in G1.
    rewrite Hpre3, Hpre in C3. destruct key_up; discriminate.
  - left.
    destruct (key_config_fields _ _ (Hc3 this))
      as (_ & _ & _ & _ & _ & Evk & Esc).
    destruct H4 as [(m & Hin & Hp & Hdown) | (m & Hin & Hp & Hdown)];
      rewrite Hp in Hr; injection Hr as <-.
    + split.
      * destruct (key_static_fields _ _ (K4 (InKvk (mod_key m))))
          as (_ & _ & _ & _ & _ & _ & _ & E).
        rewrite <- E. exact Hdown.
      * rewrite Evk in Hin. apply (proj1 (Hcfg this m) Hin).
    + split.
      * destruct (key_static_fields _ _ (K4 (InKsc (mod_key m))))
          as (_ & _ & _ & _ & _ & _ & _ & E).
        rewrite <- E. exact Hdown.
      * rewrite Esc in Hin. apply (proj2 (Hcfg this m) Hin).
Qed.

Lemma modifiers_are_prefixes_core s s' :
  hook_core s' = hook_core s -> modifiers_are_prefixes s ->
  modifiers_are_prefixes s'.
Proof.
  intros H Hm r m. rewrite !(deref_core _ _ _ H). apply Hm.
Qed.

Lemma deliver_holder d s :
  modifiers_are_prefixes s -> holder_ok s -> holder_ok (exec (deliver d) s).
Proof.
  intros Hcfg Hok. destruct d as [os code wParam lParam]. unfold deliver.
  cbn [d_os d_code d_wParam d_lParam].
  unfold KeybdProc, LowLevelKeybdProc.
  destruct (negb (code =? HC_ACTION)); [exact Hok | ].
  rewrite exec_bind, eval_get, exec_get. cbv zeta.
  set (key_up := (wParam =? WM_KEYUP) || (wParam =? WM_SYSKEYUP)).
  set (vk := vk_of (vkCode lParam)).
  set (sc := normalized_sc s lParam).
  rewrite exec_bind.
  set (cur := eval (bookkeeping os lParam vk sc key_up) s).
  set (s1 := exec (bookkeeping os lParam vk sc key_up) s).
  assert (H1 : hook_core s1 = hook_core s) by apply bookkeeping_core.
  assert (Hok1 : holder_ok s1) by (apply (holder_ok_core s); assumption).
  assert (Hcfg1 : modifiers_are_prefixes s1)
    by (apply (modifiers_are_prefixes_core s); assumption).
  destruct (dwExtraInfo lParam =? KEYIGNORE).
  { apply (holder_ok_core s1); [apply AllowIt_core | exact Hok1]. }
  rewrite exec_bind, eval_get, exec_get.
  destruct (disguise_armed vk key_up s1).
  { apply (holder_ok_settled s1); [ | exact Hok1].
    assert (K : keeps settled
                  (clear_disguise_flag vk ;;
                   KeyEvent os KEYDOWN VK_SHIFT 0 ;;
                   KeyEvent os KEYUP vk sc ;;
                   KeyEvent os KEYUP VK_SHIFT 0 ;;
                   SuppressThisKey KeyEvent os lParam sc key_up cur)).
    { unfold SuppressThisKey. frame. }
    apply K. }
  apply dispatch_holder; assumption.
Qed.

(** X16.  The prefix slot never refers to a key the hook believes to be
    up.  Provided every key listed in a ModifierVK or ModifierSC array is
    configured as a prefix, the following holds after every stream of
    deliveries if it holds before: the key in the prefix slot, if any, has
    is_down set and is configured as a prefix. *)
Theorem X16_held_prefix_is_down :
  forall ds s,
    modifiers_are_prefixes s ->
    holder_ok s ->
    holder_ok (snd (run ds s)).
Proof.
  induction ds as [ | d ds IH]; intros s Hcfg Hok; cbn [run]; [exact Hok | ].
  rewrite (run_pair (deliver d) s).
  assert (Hok1 : holder_ok (exec (deliver d) s))
    by (apply deliver_holder; assumption).
  assert (Hcfg1 : modifiers_are_prefixes (exec (deliver d) s)).
  { apply (modifiers_are_prefixes_configured s); [ | exact Hcfg].
    destruct d. apply KeybdProc_configured. }
  specialize (IH (exec (deliver d) s) Hcfg1 Hok1).
  destruct (run ds (exec (deliver d) s)) as [vs s2]. exact IH.
Qed.

(** A stream and a state that meet the hypotheses of X16: the script
    "a & b", "b & c", "a & c"; b, a and c go down.  CASE #4 has rebound the
    slot to b, which is down. *)
Lemma X16_held_prefix_is_down_witness :
  let sf := snd (run [ex_down (ex_WinXP 100) ex_VK_B 0x30;
                      ex_down (ex_WinXP 200) ex_VK_A 0x1E;
                      ex_down (ex_WinXP 300) ex_VK_C 0x2E] ex_engine_abc) in
  pPrefixKey (dsp sf) = Some (InKvk ex_VK_B)
  /\ is_down (deref sf (InKvk ex_VK_B)) = true.
Proof.
  cbv zeta.
  assert (Hcfg : modifiers_are_prefixes ex_engine_abc).
  { intros r m. destruct r as [v | c];
      cbn [deref ex_engine_abc ex_engine dsp kvk ksc].
    - unfold ex_kvk_abc.
      destruct (v =? ex_VK_A); [split; intros [] | ].
      destruct (v =? ex_VK_B);
        [split; [intros [<- | []]; reflexivity | intros []] | ].
      destruct (v =? ex_VK_C);
        [split; [intros [<- | [<- | []]]; reflexivity | intros []] | ].
      unfold ex_kvk.
      repeat (match goal with
              | |- context [if ?b then _ else _] => destruct b
              end); split; intros [].
    - split; intros []. }
  assert (Hok : holder_ok ex_engine_abc) by (intros r Hr; discriminate Hr).
  pose proof (X16_held_prefix_is_down
                [ex_down (ex_WinXP 100) ex_VK_B 0x30;
                 ex_down (ex_WinXP 200) ex_VK_A 0x1E;
                 ex_down (ex_WinXP 300) ex_VK_C 0x2E] ex_engine_abc Hcfg Hok)
    as H.
  assert (Hp : pPrefixKey
                 (dsp (snd (run [ex_down (ex_WinXP 100) ex_VK_B 0x30;
                                 ex_down (ex_WinXP 200) ex_VK_A 0x1E;
                                 ex_down (ex_WinXP 300) ex_VK_C 0x2E]
                              ex_engine_abc)))
               = Some (InKvk ex_VK_B)) by (vm_compute; reflexivity).
  split; [exact Hp | exact (proj1 (H (InKvk ex_VK_B) Hp))].
Defined.

(* ================================================================== *)
(** ** What AllowIt returns and sends *)
(* ================================================================== *)

(** AllowIt up to the test of kvk[vk].as_modifiersLR: the trackers are
    brought up to date, and reset on Win-L and Ctrl-Alt-Del. *)
Lemma AllowIt_tracking_core os lParam sc key_up :
  keeps (same hook_core)
    (UpdateKeyState os lParam sc key_up false ;;
     s <- get ;;
     when (win_L_lock os lParam key_up s)
       (modify (on_trk (set_physical 0)) ;;
        modify (on_trk (set_logical 0)) ;;
        phys_key_store VK_RWIN false ;;
        phys_key_store VK_LWIN false ;;
        phys_key_store (vkCode lParam) false) ;;
     s <- get ;;
     when (ctrl_alt_del os lParam key_up s)
       (modify (on_trk (set_physical 0)) ;;
        modify (on_trk (set_logical 0)) ;;
        phys_key_store VK_RMENU false ;;
        phys_key_store VK_LMENU false ;;
        phys_key_store VK_RCONTROL false ;;
        phys_key_store VK_LCONTROL false ;;
        phys_key_store (vkCode lParam) false)).
Proof. unfold phys_key_store. frame. Qed.

Lemma AllowIt_tracking_sent os lParam sc key_up :
  keeps (same sent)
    (UpdateKeyState os lParam sc key_up false ;;
     s <- get ;;
     when (win_L_lock os lParam key_up s)
       (modify (on_trk (set_physical 0)) ;;
        modify (on_trk (set_logical 0)) ;;
        phys_key_store VK_RWIN false ;;
        phys_key_store VK_LWIN false ;;
        phys_key_store (vkCode lParam) false) ;;
     s <- get ;;
     when (ctrl_alt_del os lParam key_up s)
       (modify (on_trk (set_physical 0)) ;;
        modify (on_trk (set_logical 0)) ;;
        phys_key_store VK_RMENU false ;;
        phys_key_store VK_LMENU false ;;
        phys_key_store VK_RCONTROL false ;;
        phys_key_store VK_LCONTROL false ;;
        phys_key_store (vkCode lParam) false)).
Proof. unfold phys_key_store. frame. Qed.

(** The verdict of AllowIt, the keystrokes it sends, and what it leaves
    alone. *)
Lemma AllowIt_contract os lParam sc key_up cur DisguiseWinAlt s :
  let vk := vk_of (vkCode lParam) in
  let forced :=
    negb (dwExtraInfo lParam =? KEYIGNORE)
    && toggle_is_forced s (kvk (dsp s) vk) in
  let disguised :=
    nz (as_modifiersLR (kvk (dsp s) vk))
    && (DisguiseWinAlt && key_up && is_win_or_alt (vkCode lParam)) in
  let c := AllowIt KeyEvent os lParam sc key_up cur DisguiseWinAlt in
  eval c s = (if forced then Suppressed
              else if disguised then Suppressed else PassedOn)
  /\ sent (exec c s)
     = sent s ++ (if forced then numlock_fix_for lParam key_up
                  else if disguised then disguise_triple vk sc else [])
  /\ hook_core (exec c s) = hook_core s.
Proof.
  cbv zeta.
  split; [ | split; [ | apply AllowIt_core]].
  - destruct (negb (dwExtraInfo lParam =? KEYIGNORE)
              && toggle_is_forced s (kvk (dsp s) (vk_of (vkCode lParam)))) eqn:F.
    { apply AllowIt_forced_returns. exact F. }
    unfold AllowIt. rewrite eval_bind, eval_get, exec_get, F.
    rewrite eval_bind.
    rewrite eval_bind, eval_get, exec_get, eval_bind.
    rewrite eval_bind, eval_get, exec_get, eval_bind.
    rewrite eval_bind, eval_get, exec_get.
    match goal with
    | |- eval _ ?st = _ => set (s3 := st)
    end.
    assert (H3 : hook_core s3 = hook_core s).
    { unfold s3.
      pose proof (AllowIt_tracking_core os lParam sc key_up s) as H.
      unfold same in H. rewrite <- H. f_equal.
      rewrite !exec_bind, !eval_get, !exec_get. reflexivity. }
    change (kvk (dsp s3) (vk_of (vkCode lParam)))
      with (deref s3 (InKvk (vk_of (vkCode lParam)))).
    rewrite (deref_core _ _ _ H3). cbn [deref].
    destruct (nz (as_modifiersLR (kvk (dsp s) (vk_of (vkCode lParam)))));
      cbn [negb andb]; [ | reflexivity].
    rewrite eval_bind.
    destruct (DisguiseWinAlt && key_up && is_win_or_alt (vkCode lParam));
      [ | reflexivity].
    rewrite !eval_bind. reflexivity.
  - destruct (negb (dwExtraInfo lParam =? KEYIGNORE)
              && toggle_is_forced s (kvk (dsp s) (vk_of (vkCode lParam)))) eqn:F.
    { unfold AllowIt. rewrite exec_bind, eval_get, exec_get, F.
      apply SuppressThisKeyFunc_sent. }
    unfold AllowIt. rewrite exec_bind, eval_get, exec_get, F.
    rewrite exec_bind.
    rewrite exec_bind, eval_get, exec_get, exec_bind.
    rewrite exec_bind, eval_get, exec_get, exec_bind.
    rewrite exec_bind, eval_get, exec_get.
    match goal with
    | |- sent (exec _ ?st) = _ => set (s3 := st)
    end.
    assert (E3 : s3 = exec (UpdateKeyState os lParam sc key_up false ;;
                            s <- get ;;
                            when (win_L_lock os lParam key_up s)
                              (modify (on_trk (set_physical 0)) ;;
                               modify (on_trk (set_logical 0)) ;;
                               phys_key_store VK_RWIN false ;;
                               phys_key_store VK_LWIN false ;;
                               phys_key_store (vkCode lParam) false) ;;
                            s <- get ;;
                            when (ctrl_alt_del os lParam key_up s)
                              (modify (on_trk (set_physical 0)) ;;
                               modify (on_trk (set_logical 0)) ;;
                               phys_key_store VK_RMENU false ;;
                               phys_key_store VK_LMENU false ;;
                               phys_key_store VK_RCONTROL false ;;
                               phys_key_store VK_LCONTROL false ;;
                               phys_key_store (vkCode lParam) false)) s).
    { unfold s3. rewrite !exec_bind, !eval_get, !exec_get. reflexivity. }
    assert (H3 : hook_core s3 = hook_core s)
      by (rewrite E3; apply AllowIt_tracking_core).
    assert (S3 : sent s3 = sent s)
      by (rewrite E3; apply AllowIt_tracking_sent).
    change (kvk (dsp s3) (vk_of (vkCode lParam)))
      with (deref s3 (InKvk (vk_of (vkCode lParam)))).
    rewrite (deref_core _ _ _ H3). cbn [deref].
    destruct (nz (as_modifiersLR (kvk (dsp s) (vk_of (vkCode lParam)))));
      cbn [negb andb]; [ | rewrite exec_ret, S3, app_nil_r; reflexivity].
    rewrite exec_bind.
    set (s4 := exec (when _ _) s3).
    assert (S4 : sent s4 = sent s).
    { rewrite <- S3. unfold s4.
      apply (keeps_when (same sent) (same_refl sent)).
      apply keeps_modify. intro. reflexivity. }
    destruct (DisguiseWinAlt && key_up && is_win_or_alt (vkCode lParam)) eqn:D;
      [ | rewrite exec_ret, S4, app_nil_r; reflexivity].
    apply andb_true_iff in D. destruct D as [D _].
    apply andb_true_iff in D. destruct D as [_ ->].
    rewrite !exec_bind, exec_ret, eval_get, exec_get.
    match goal with
    | |- sent (exec (when ?b ?c) ?st) = _ =>
        assert (Hw : sent (exec (when b c) st) = sent st)
          by (apply (keeps_when (same sent) (same_refl sent));
              apply set_curr_event_type_sent);
        rewrite Hw
    end.
    rewrite !KeyEvent_sent, S4. cbn [keystrokes]. unfold disguise_triple.
    rewrite <- !app_assoc. reflexivity.
Qed.

(** X17.  What AllowIt returns and sends.  AllowIt suppresses the event in
    two cases: the event is not the engine's own and kvk[vk] is a
    force-toggled key, in which case it goes through SuppressThisKeyFunc
    (which sends the Numlock fix for a NUMLOCK key-down); or kvk[vk] is a
    modifier, DisguiseWinAlt was asked for, and the event is the key-up of
    a WIN or ALT key, in which case SHIFT down, the key's up and SHIFT up
    are sent in its place.  In every other case the event is passed on and
    nothing is sent.  AllowIt never touches the key records, the prefix
    slot, the disguise flags, the tables or the posted messages. *)
Theorem X17_AllowIt_verdict_and_keystrokes :
  forall os lParam sc key_up cur DisguiseWinAlt s,
    let vk := vk_of (vkCode lParam) in
    let forced :=
      negb (dwExtraInfo lParam =? KEYIGNORE)
      && toggle_is_forced s (kvk (dsp s) vk) in
    let disguised :=
      nz (as_modifiersLR (kvk (dsp s) vk))
      && (DisguiseWinAlt && key_up && is_win_or_alt (vkCode lParam)) in
    let c := AllowIt KeyEvent os lParam sc key_up cur DisguiseWinAlt in
    eval c s = (if forced then Suppressed
                else if disguised then Suppressed else PassedOn)
    /\ sent (exec c s)
       = sent s ++ (if forced then numlock_fix_for lParam key_up
                    else if disguised then disguise_triple vk sc else [])
    /\ hook_core (exec c s) = hook_core s.
Proof.
  intros os lParam sc key_up cur DisguiseWinAlt s.
  exact (AllowIt_contract os lParam sc key_up cur DisguiseWinAlt s).
Qed.

(* ================================================================== *)
(** ** The auto-repeat of the held prefix key *)
(* ================================================================== *)

(** X18.  While a prefix key is held, its auto-repeat changes nothing.  A
    key-down that is not the engine's own, for the key that already holds
    the prefix slot, returns before the dispatcher's cases: it is passed on
    if the key is a modifier (and kvk[vk] is not force-toggled) and
    suppressed otherwise; no key record, and in particular no
    was_just_used, is written; the prefix slot, the disguise flags and the
    posted messages stay as they were; and nothing is sent except the
    Numlock fix that goes with the suppression of a NUMLOCK key-down. *)
Theorem X18_prefix_auto_repeat_changes_nothing :
  forall os wParam lParam s,
    dwExtraInfo lParam <> KEYIGNORE ->
    is_key_up wParam = false ->
    pPrefixKey (dsp s) = Some (event_key s lParam) ->
    let s' := exec (KeybdProc os HC_ACTION wParam lParam) s in
    let passes :=
      nz (as_modifiersLR (deref s (event_key s lParam)))
      && negb (toggle_is_forced s (kvk (dsp s) (vk_of (vkCode lParam)))) in
    eval (KeybdProc os HC_ACTION wParam lParam) s
      = (if passes then PassedOn else Suppressed)
    /\ sent s' = sent s ++ (if passes then [] else numlock_fix_for lParam false)
    /\ (forall r, deref s' r = deref s r)
    /\ pPrefixKey (dsp s') = pPrefixKey (dsp s)
    /\ disguise_flags s' = disguise_flags s
    /\ posted s' = posted s.
Proof.
  intros os wParam lParam s Hx Hup Hp. cbv zeta.
  assert (Hd : disguise_armed (vk_of (vkCode lParam)) (is_key_up wParam) s = false)
    by (rewrite Hup; apply disguise_armed_key_down).
  unfold eval, exec. rewrite (KeybdProc_dispatches os wParam lParam s Hx Hd).
  cbv zeta. rewrite Hup.
  set (vk := vk_of (vkCode lParam)) in *.
  set (sc := normalized_sc s lParam) in *.
  set (cur := eval (bookkeeping os lParam vk sc false) s).
  set (s1 := exec (bookkeeping os lParam vk sc false) s).
  assert (H1 : hook_core s1 = hook_core s) by apply bookkeeping_core.
  assert (H1s : sent s1 = sent s) by apply bookkeeping_sent.
  destruct (core_fields s s1 H1) as (D1 & P1 & T1 & Q1).
  unfold event_key in *. fold vk sc in Hp |- *.
  set (this := this_key s vk sc) in *.
  assert (Hthis : this_key s1 vk sc = this) by apply (this_key_core _ _ vk sc H1).
  set (c := if nz (as_modifiersLR (deref s this))
            then AllowKeyToGoToSystem KeyEvent os lParam sc false cur
            else SuppressThisKey KeyEvent os lParam sc false cur).
  assert (E : dispatch KeyEvent os lParam vk sc false cur s1 = c s1).
  { unfold dispatch. unfold bind at 1. unfold get at 1. cbv zeta.
    rewrite Hthis, P1, Hp. cbn [ptr_eqb]. rewrite KeyRef_eqb_refl.
    cbn [andb negb]. rewrite D1. reflexivity. }
  rewrite E. fold (eval c s1). fold (exec c s1).
  assert (F1 : toggle_is_forced s1 (kvk (dsp s1) vk)
               = toggle_is_forced s (kvk (dsp s) vk)).
  { change (kvk (dsp s1) vk) with (deref s1 (InKvk vk)). rewrite D1.
    unfold toggle_is_forced, toggle_value. rewrite T1. reflexivity. }
  assert (Hc : hook_core (exec c s1) = hook_core s1).
  { unfold c. destruct (nz (as_modifiersLR (deref s this)));
      [apply AllowIt_core | apply SuppressThisKeyFunc_core]. }
  assert (Hv : eval c s1
               = (if nz (as_modifiersLR (deref s this))
                     && negb (toggle_is_forced s (kvk (dsp s) vk))
                  then PassedOn else Suppressed)
               /\ sent (exec c s1)
                  = sent s ++ (if nz (as_modifiersLR (deref s this))
                                  && negb (toggle_is_forced s (kvk (dsp s) vk))
                               then [] else numlock_fix_for lParam false)).
  { unfold c. destruct (nz (as_modifiersLR (deref s this))); cbn [andb].
    - destruct (AllowIt_contract os lParam sc false cur false s1)
        as (Av & As & _).
      cbv zeta in Av, As. fold vk in Av, As.
      rewrite F1, (proj2 (Z.eqb_neq _ _) Hx) in Av, As.
      cbn [negb andb] in Av, As. rewrite andb_false_r in Av, As.
      unfold AllowKeyToGoToSystem. rewrite Av, As, H1s.
      destruct (toggle_is_forced s (kvk (dsp s) vk)); split; reflexivity.
    - unfold SuppressThisKey. rewrite SuppressThisKeyFunc_returns.
      rewrite SuppressThisKeyFunc_sent, H1s. split; reflexivity. }
  destruct Hv as (Hv & Hs).
  destruct (core_fields s1 (exec c s1) Hc) as (Dc & Pc & _ & Qc).
  split; [exact Hv | ]. split; [exact Hs | ].
  split; [intro r; rewrite Dc; apply D1 | ].
  split; [rewrite Pc; exact P1 | ].
  split; [rewrite (disguise_flags_core _ _ Hc); apply (disguise_flags_core _ _ H1) | ].
  rewrite Qc. exact Q1.
Qed.

(** A run that meets the hypotheses of X18: in the script "CapsLock & a",
    CapsLock is held and repeats. *)
Lemma X18_prefix_auto_repeat_changes_nothing_witness :
  eval (deliver (ex_down (ex_WinXP 300) ex_VK_CAPITAL 0x3A)) ex_engine_caps_held
    = Suppressed
  /\ sent (exec (deliver (ex_down (ex_WinXP 300) ex_VK_CAPITAL 0x3A))
              ex_engine_caps_held)
     = sent ex_engine_caps_held.
Proof.
  assert (Hx : dwExtraInfo (d_lParam (ex_down (ex_WinXP 300) ex_VK_CAPITAL 0x3A))
               <> KEYIGNORE) by (vm_compute; discriminate).
  assert (Hp : pPrefixKey (dsp ex_engine_caps_held)
               = Some (event_key ex_engine_caps_held
                         (d_lParam (ex_down (ex_WinXP 300) ex_VK_CAPITAL 0x3A))))
    by (vm_compute; reflexivity).
  destruct (X18_prefix_auto_repeat_changes_nothing
              (ex_WinXP 300) WM_KEYDOWN
              (d_lParam (ex_down (ex_WinXP 300) ex_VK_CAPITAL 0x3A))
              ex_engine_caps_held Hx eq_refl Hp)
    as (Hv & Hs & _).
  split; [exact Hv | ].
  etransitivity; [exact Hs | vm_compute; reflexivity].
Defined.

(* ================================================================== *)
(** ** Win-L *)
(* ================================================================== *)

(** For a key that is not a modifier UpdateKeyState leaves the logical
    modifiers alone. *)
Lemma UpdateKeyState_logical_plain os lParam sc key_up sup s :
  nz (as_modifiersLR (kvk (dsp s) (vk_of (vkCode lParam)))) = false ->
  logical_mods (exec (UpdateKeyState os lParam sc key_up sup) s) = logical_mods s.
Proof.
  intro Hmod. unfold UpdateKeyState.
  rewrite exec_bind, eval_get, exec_get, exec_bind.
  set (s0 := exec (when _ _) s).
  assert (L0 : logical_mods s0 = logical_mods s).
  { assert (K : keeps (same logical_mods)
                  (when (prior_was_recent_physical_shift os s)
                     (let current_is_dual_state :=
                        IsDualStateNumpadKey (vk_of (vkCode lParam)) sc in
                      let fix_it :=
                        (negb (prior_event_was_key_up (fix_ s))
                         && DualStateNumpadKeyIsDown s)
                        || (prior_event_was_key_up (fix_ s) && key_up
                            && current_is_dual_state) in
                      when fix_it
                        (modify (on_fix (set_next_phys_shift_down_is_not_phys true))) ;;
                      when (fix_it || (prior_event_was_key_up (fix_ s)
                                       && current_is_dual_state))
                        (modify (on_trk (set_physical
                                           (prior_modifiersLR_physical (fix_ s)))) ;;
                         phys_key_store VK_SHIFT (prior_shift_state (fix_ s)) ;;
                         phys_key_store VK_LSHIFT (prior_lshift_state (fix_ s))))))
      by (unfold phys_key_store; cbv zeta; frame).
    apply K. }
  assert (D0 : dsp s0 = dsp s).
  { assert (K : keeps (same dsp)
                  (when (prior_was_recent_physical_shift os s)
                     (let current_is_dual_state :=
                        IsDualStateNumpadKey (vk_of (vkCode lParam)) sc in
                      let fix_it :=
                        (negb (prior_event_was_key_up (fix_ s))
                         && DualStateNumpadKeyIsDown s)
                        || (prior_event_was_key_up (fix_ s) && key_up
                            && current_is_dual_state) in
                      when fix_it
                        (modify (on_fix (set_next_phys_shift_down_is_not_phys true))) ;;
                      when (fix_it || (prior_event_was_key_up (fix_ s)
                                       && current_is_dual_state))
                        (modify (on_trk (set_physical
                                           (prior_modifiersLR_physical (fix_ s)))) ;;
                         phys_key_store VK_SHIFT (prior_shift_state (fix_ s)) ;;
                         phys_key_store VK_LSHIFT (prior_lshift_state (fix_ s))))))
      by (unfold phys_key_store; cbv zeta; frame).
    apply K. }
  rewrite exec_bind, exec_modify, exec_bind, eval_get, exec_get, exec_bind.
  cbn [dsp on_fix]. rewrite D0, Hmod. cbn [when].
  rewrite !exec_bind, !exec_modify, exec_ret.
  match goal with
  | |- context [exec (EventIsPhysical os lParam sc key_up) ?st] =>
      set (s3 := st);
      pose proof (EventIsPhysical_logical os lParam sc key_up s3) as L4
  end.
  unfold same in L4.
  transitivity (logical_mods (exec (EventIsPhysical os lParam sc key_up) s3));
    [reflexivity | ].
  rewrite L4. exact L0.
Qed.

Lemma UpdateKeyState_dsp os lParam sc key_up sup s :
  dsp (exec (UpdateKeyState os lParam sc key_up sup) s) = dsp s.
Proof.
  pose proof (UpdateKeyState_outside os lParam sc key_up sup s) as H.
  unfold same, outside_tracker in H. injection H as H _ _ _ _ _. exact H.
Qed.

(** X19.  Win-L resets the trackers.  When AllowIt lets the key-down of L
    through on Windows XP or later while the logical modifier state is
    exactly the left WIN key or exactly the right WIN key (L being neither
    a modifier nor a force-toggled key), the event is passed on and both
    modifier masks are zeroed and L and both WIN keys are recorded as
    physically up, because the key-ups will never reach the hook once the
    workstation is locked. *)
Theorem X19_win_L_resets_the_trackers :
  forall os lParam sc cur DisguiseWinAlt s,
    vkCode lParam = VK_L ->
    IsWinXPorLater os = true ->
    logical_mods s = MOD_LWIN \/ logical_mods s = MOD_RWIN ->
    nz (as_modifiersLR (kvk (dsp s) VK_L)) = false ->
    negb (dwExtraInfo lParam =? KEYIGNORE)
    && toggle_is_forced s (kvk (dsp s) VK_L) = false ->
    let c := AllowIt KeyEvent os lParam sc false cur DisguiseWinAlt in
    eval c s = PassedOn
    /\ g_modifiersLR_logical (trk (exec c s)) = 0
    /\ g_modifiersLR_physical (trk (exec c s)) = 0
    /\ g_PhysicalKeyState (trk (exec c s)) VK_L = false
    /\ g_PhysicalKeyState (trk (exec c s)) VK_LWIN = false
    /\ g_PhysicalKeyState (trk (exec c s)) VK_RWIN = false.
Proof.
  intros os lParam sc cur DisguiseWinAlt s Hvk Hxp Hlog Hmod Hforced. cbv zeta.
  assert (Hvk' : vk_of (vkCode lParam) = VK_L) by (rewrite Hvk; reflexivity).
  set (s1 := exec (UpdateKeyState os lParam sc false false) s).
  assert (L1 : logical_mods s1 = logical_mods s)
    by (apply UpdateKeyState_logical_plain; rewrite Hvk'; exact Hmod).
  assert (D1 : dsp s1 = dsp s) by apply UpdateKeyState_dsp.
  assert (W : win_L_lock os lParam false s1 = true).
  { unfold win_L_lock. unfold logical_mods in L1, Hlog.
    rewrite Hvk, Hxp, L1, Z.eqb_refl.
    destruct Hlog as [-> | ->]; reflexivity. }
  set (s2 := exec (modify (on_trk (set_physical 0)) ;;
                   modify (on_trk (set_logical 0)) ;;
                   phys_key_store VK_RWIN false ;;
                   phys_key_store VK_LWIN false ;;
                   phys_key_store (vkCode lParam) false) s1).
  assert (E : AllowIt KeyEvent os lParam sc false cur DisguiseWinAlt s
              = (PassedOn, s2)).
  { unfold AllowIt. unfold bind at 1. unfold get at 1.
    rewrite Hvk', Hforced.
    unfold bind at 1. rewrite (run_pair (UpdateKeyState os lParam sc false false) s).
    fold s1. unfold bind at 1. unfold get at 1. rewrite W. cbn [when].
    unfold bind at 1.
    rewrite (run_pair (modify (on_trk (set_physical 0)) ;;
                       modify (on_trk (set_logical 0)) ;;
                       phys_key_store VK_RWIN false ;;
                       phys_key_store VK_LWIN false ;;
                       phys_key_store (vkCode lParam) false) s1).
    fold s2. unfold bind at 1. unfold get at 1.
    assert (C : ctrl_alt_del os lParam false s2 = false)
      by (unfold ctrl_alt_del; rewrite Hvk; reflexivity).
    rewrite C. cbn [when]. unfold bind at 1. cbn [ret].
    unfold bind at 1. unfold get at 1.
    change (dsp s2) with (dsp s1). rewrite D1, Hmod. reflexivity. }
  unfold eval, exec. rewrite E. cbn [fst snd].
  unfold s2. rewrite Hvk.
  repeat split; reflexivity.
Qed.

(** A call that meets the hypotheses of X19: L goes down on Windows XP
    while the left WIN key is held. *)
Lemma X19_win_L_resets_the_trackers_witness :
  logical_mods ex_engine_win_held = MOD_LWIN
  /\ g_modifiersLR_logical
       (trk (exec (AllowIt KeyEvent (ex_WinXP 200) (mkEvent VK_L 0x26 0 200 0)
                     0x26 false 0 false) ex_engine_win_held)) = 0.
Proof.
  split; [reflexivity | ].
  apply (X19_win_L_resets_the_trackers
           (ex_WinXP 200) (mkEvent VK_L 0x26 0 200 0) 0x26 0 false
           ex_engine_win_held eq_refl eq_refl (or_introl eq_refl)
           eq_refl eq_refl).
Defined.

(* ================================================================== *)
(** ** CASE #3 for toggle keys, modifiers, and keys that are also suffixes *)
(* ================================================================== *)

Lemma bind_bind {A B C} (c : M A) (k : A -> M B) (h : B -> M C) s :
  bind (bind c k) h s = bind c (fun a => bind (k a) h) s.
Proof. unfold bind. destruct (c s) as [a s1]. reflexivity. Qed.

(** The key-up of a prefix key that does not go to CASE #2: the state in
    which CASE #3, after it has dealt with the prefix slot, lets go of the
    keys put down for alt-tab and chooses its verdict. *)
Lemma prefix_release_enters os wParam lParam s :
  dwExtraInfo lParam <> KEYIGNORE ->
  is_key_up wParam = true ->
  disguise_armed (vk_of (vkCode lParam)) true s = false ->
  used_as_prefix (deref s (event_key s lParam)) = true ->
  used_as_suffix (deref s (event_key s lParam)) = false
  \/ pPrefixKey (dsp s) = Some (event_key s lParam) ->
  exists cur s4,
    KeybdProc os HC_ACTION wParam lParam s
    = (r <- Case3_released KeyEvent os lParam (vk_of (vkCode lParam))
              (normalized_sc s lParam) true cur (event_key s lParam)
              (is_down (deref s (event_key s lParam))) ;;
       match r with
       | Some v => ret v
       | None => Case4 KeyEvent os lParam (vk_of (vkCode lParam))
                   (normalized_sc s lParam) true cur (event_key s lParam)
       end) s4
    /\ (forall r, deref s4 r
                  = if KeyRef_eqb r (event_key s lParam)
                    then set_is_down false
                           (set_down_performed_action false (deref s r))
                    else deref s r)
    /\ pPrefixKey (dsp s4)
       = (if ptr_eqb (pPrefixKey (dsp s)) (event_key s lParam)
          then None else pPrefixKey (dsp s))
    /\ tbl s4 = tbl s
    /\ posted s4 = posted s
    /\ sent s4 = sent s
    /\ logical_mods s4 = logical_mods s
    /\ (alt_tab_menu_is_visible (dsp s) = true ->
        alt_tab_menu_is_visible (dsp s4) = true).
Proof.
  intros Hx Hup Hd Hpre Hcase.
  rewrite <- Hup in Hd.
  rewrite (KeybdProc_dispatches os wParam lParam s Hx Hd).
  cbv zeta. rewrite Hup.
  set (vk := vk_of (vkCode lParam)) in *.
  set (sc := normalized_sc s lParam).
  set (cur := eval (bookkeeping os lParam vk sc true) s).
  set (s1 := exec (bookkeeping os lParam vk sc true) s).
  assert (H1 : hook_core s1 = hook_core s) by apply bookkeeping_core.
  assert (H1s : sent s1 = sent s) by apply bookkeeping_sent.
  assert (H1l : logical_mods s1 = logical_mods s) by apply bookkeeping_logical.
  destruct (core_fields s s1 H1) as (D1 & P1 & T1 & Q1).
  unfold event_key in *. fold vk sc in Hpre, Hcase |- *.
  set (this := this_key s vk sc) in *.
  assert (Hthis : this_key s1 vk sc = this) by apply (this_key_core _ _ vk sc H1).
  rewrite (dispatch_key_up os lParam vk sc cur s1);
    rewrite ?Hthis, ?P1, ?D1; [ | rewrite Hpre; reflexivity].
  assert (C2 : used_as_suffix (deref s this)
               && negb (ptr_eqb (pPrefixKey (dsp s)) this) = false).
  { destruct Hcase as [-> | ->]; [reflexivity | ].
    cbn [ptr_eqb]. rewrite KeyRef_eqb_refl. apply andb_false_r. }
  rewrite C2, Hpre.
  set (s3 := on_key this (set_is_down false)
               (on_key this (set_down_performed_action false) s1)).
  set (s4 := exec (when (ptr_eqb (pPrefixKey (dsp s3)) this)
                     (modify (on_dsp (set_pPrefixKey None)))) s3).
  exists cur, s4.
  assert (P3 : pPrefixKey (dsp s3) = pPrefixKey (dsp s))
    by (unfold s3; rewrite !pPrefixKey_on_key; exact P1).
  assert (S43 : forall (X : Type) (proj : Engine -> X),
             (forall f t, proj (on_dsp f t) = proj t) -> proj s4 = proj s3).
  { intros X proj Hproj. unfold s4.
    destruct (ptr_eqb (pPrefixKey (dsp s3)) this); cbn [when];
      rewrite ?exec_modify, ?exec_ret; [apply Hproj | reflexivity]. }
  split.
  { cbv beta iota. unfold Case3.
    rewrite bind_bind. unfold bind at 1. unfold get at 1.
    rewrite bind_bind. unfold bind at 1.
    rewrite (run_pair (when (ptr_eqb (pPrefixKey (dsp s3)) this)
                         (modify (on_dsp (set_pPrefixKey None)))) s3).
    fold s4. reflexivity. }
  split.
  { intro r.
    assert (D4 : deref s4 r = deref s3 r).
    { unfold s4. destruct (ptr_eqb (pPrefixKey (dsp s3)) this);
        [destruct r | ]; reflexivity. }
    rewrite D4. unfold s3. rewrite !deref_on_key.
    destruct (KeyRef_eqb r this) eqn:E; [ | apply D1].
    apply KeyRef_eqb_eq in E. subst r.
    rewrite KeyRef_eqb_refl, D1. reflexivity. }
  split.
  { unfold s4. rewrite P3.
    destruct (ptr_eqb (pPrefixKey (dsp s)) this); [reflexivity | exact P3]. }
  split; [rewrite (S43 _ tbl (fun _ _ => eq_refl)); unfold s3;
          rewrite !tbl_on_key; exact T1 | ].
  split; [rewrite (S43 _ posted (fun _ _ => eq_refl)); unfold s3;
          rewrite !posted_on_key; exact Q1 | ].
  split; [rewrite (S43 _ sent (fun _ _ => eq_refl)); unfold s3;
          rewrite !sent_on_key; exact H1s | ].
  split.
  { rewrite (S43 _ logical_mods (fun _ _ => eq_refl)). rewrite <- H1l.
    unfold s3. destruct this; reflexivity. }
  intro V.
  assert (V1 : alt_tab_menu_is_visible (dsp s1) = true)
    by (apply bookkeeping_visible; exact V).
  rewrite <- V1. unfold s4.
  destruct (ptr_eqb (pPrefixKey (dsp s3)) this); unfold s3; destruct this;
    reflexivity.
Qed.

Lemma cleared_alt_used (b : bool) k :
  was_just_used (if b then set_it_put_alt_down false k else k) = was_just_used k.
Proof. destruct b; reflexivity. Qed.

Lemma cleared_shift_used (b : bool) k :
  was_just_used (if b then set_it_put_shift_down false k else k)
  = was_just_used k.
Proof. destruct b; reflexivity. Qed.

(** Case3_released lets go of the keys put down for alt-tab and then
    gives the verdict. *)
Lemma Case3_released_blocks os lParam vk sc cur this w s :
  exists s2,
    Case3_released KeyEvent os lParam vk sc true cur this w s
    = Case3_verdict os lParam vk sc cur this w s2
    /\ (forall r, key_static (deref s2 r) = key_static (deref s r))
    /\ (forall r, was_just_used (deref s2 r) = was_just_used (deref s r))
    /\ pPrefixKey (dsp s2) = pPrefixKey (dsp s)
    /\ tbl s2 = tbl s
    /\ posted s2 = posted s
    /\ sent s2 = sent s ++ alt_tab_releases (deref s this)
    /\ (alt_tab_releases (deref s this) = [] -> s2 = s).
Proof.
  destruct (release_block os this it_put_alt_down (set_it_put_alt_down false)
              VK_MENU s) as (D1 & P1 & T1 & Q1 & S1).
  cbv zeta in D1, P1, T1, Q1, S1.
  set (b1 := when (it_put_alt_down (deref s this))
               (modify (on_key this (set_it_put_alt_down false)) ;;
                KeyEvent os KEYUP VK_MENU 0)) in *.
  set (s1 := exec b1 s) in *.
  destruct (release_block os this it_put_shift_down (set_it_put_shift_down false)
              VK_SHIFT s1) as (D2 & P2 & T2 & Q2 & S2).
  cbv zeta in D2, P2, T2, Q2, S2.
  set (b2 := when (it_put_shift_down (deref s1 this))
               (modify (on_key this (set_it_put_shift_down false)) ;;
                KeyEvent os KEYUP VK_SHIFT 0)) in *.
  set (s2 := exec b2 s1) in *.
  exists s2.
  assert (K1 : deref s1 this
               = if it_put_alt_down (deref s this)
                 then set_it_put_alt_down false (deref s this) else deref s this).
  { rewrite D1, KeyRef_eqb_refl, andb_true_r. reflexivity. }
  assert (Hshift : it_put_shift_down (deref s1 this)
                   = it_put_shift_down (deref s this)).
  { rewrite K1. apply (proj2 (cleared_alt _ _)). }
  assert (K2 : deref s2 this
               = if it_put_shift_down (deref s1 this)
                 then set_it_put_shift_down false (deref s1 this)
                 else deref s1 this).
  { rewrite D2, KeyRef_eqb_refl, andb_true_r. reflexivity. }
  assert (Dall : forall r, key_static (deref s2 r) = key_static (deref s r)
                           /\ was_just_used (deref s2 r)
                              = was_just_used (deref s r)).
  { intro r. destruct (KeyRef_eqb r this) eqn:E.
    - apply KeyRef_eqb_eq in E. subst r. rewrite K2. split.
      + rewrite (proj1 (cleared_shift _ _)), K1. apply (proj1 (cleared_alt _ _)).
      + rewrite cleared_shift_used, K1. apply cleared_alt_used.
    - rewrite D2, E, andb_false_r, D1, E, andb_false_r. split; reflexivity. }
  split.
  { unfold Case3_released. unfold bind at 1. unfold get at 1.
    unfold bind at 1. fold b1. rewrite (run_pair b1 s). fold s1.
    unfold bind at 1. unfold get at 1.
    unfold bind at 1. fold b2. rewrite (run_pair b2 s1). fold s2.
    reflexivity. }
  split; [intro r; apply Dall | ].
  split; [intro r; apply Dall | ].
  split; [rewrite P2, P1; reflexivity | ].
  split; [rewrite T2, T1; reflexivity | ].
  split; [rewrite Q2, Q1; reflexivity | ].
  split.
  { rewrite S2, S1, Hshift. unfold alt_tab_releases.
    rewrite <- app_assoc. reflexivity. }
  intro Hnil.
  assert (AB : it_put_alt_down (deref s this) = false
               /\ it_put_shift_down (deref s this) = false).
  { clear - Hnil. unfold alt_tab_releases in Hnil.
    destruct (it_put_alt_down (deref s this)); [discriminate Hnil | ].
    destruct (it_put_shift_down (deref s this)); [discriminate Hnil | ].
    split; reflexivity. }
  destruct AB as (A & B).
  unfold s2, b2. rewrite Hshift, B. cbn [when]. rewrite exec_ret.
  unfold s1, b1. rewrite A. reflexivity.
Qed.

Lemma released_config s4 s this :
  (forall r, deref s4 r
             = if KeyRef_eqb r this
               then set_is_down false (set_down_performed_action false (deref s r))
               else deref s r) ->
  forall r, key_config (deref s4 r) = key_config (deref s r)
            /\ was_just_used (deref s4 r) = was_just_used (deref s r)
            /\ alt_tab_releases (deref s4 r) = alt_tab_releases (deref s r).
Proof.
  intros D r. rewrite D. destruct (KeyRef_eqb r this); repeat split; reflexivity.
Qed.

(** What the two branches of the verdict that suppress do. *)
Lemma suppress_some os lParam sc cur s :
  let c := (r <- SuppressThisKey KeyEvent os lParam sc true cur ;; ret (Some r)) in
  eval c s = Some Suppressed
  /\ hook_core (exec c s) = hook_core s
  /\ sent (exec c s) = sent s.
Proof.
  cbv zeta. rewrite eval_bind, exec_bind, exec_ret, eval_ret.
  unfold SuppressThisKey at 1. rewrite SuppressThisKeyFunc_returns.
  split; [reflexivity | ].
  split; [apply SuppressThisKeyFunc_core | apply SuppressThisKey_up_sent].
Qed.

(** The verdict for a toggle key, left free to toggle, that has just fired
    a hotkey as a prefix: it is toggled back. *)
Lemma Case3_verdict_toggle_back os lParam vk sc cur this w s :
  toggle_is_neutral s (deref s this) = true ->
  was_just_used (deref s this) = AS_PREFIX_FOR_HOTKEY ->
  let c := Case3_verdict os lParam vk sc cur this w in
  eval c s = Some Suppressed
  /\ hook_core (exec c s) = hook_core s
  /\ sent (exec c s) = sent s ++ toggle_back vk sc.
Proof.
  intros Hn Hw. cbv zeta. unfold Case3_verdict.
  rewrite eval_bind, exec_bind, eval_get, exec_get, Hn, Hw.
  cbn [JustUsed_is].
  rewrite !eval_bind, !exec_bind.
  set (s3 := exec (KeyEvent os KEYUP vk sc)
               (exec (KeyEvent os KEYDOWN vk sc)
                  (exec (KeyEvent os KEYUP vk sc) s))).
  destruct (suppress_some os lParam sc cur s3) as (Sv & Sc & Ss).
  cbv zeta in Sv, Sc, Ss.
  rewrite eval_bind in Sv. rewrite exec_bind in Sc, Ss.
  split; [exact Sv | ].
  split.
  - rewrite Sc. unfold s3.
    rewrite (KeyEvent_core os KEYUP vk sc _), (KeyEvent_core os KEYDOWN vk sc _).
    apply KeyEvent_core.
  - rewrite Ss. unfold s3. rewrite !KeyEvent_sent. cbn [keystrokes].
    unfold toggle_back. rewrite <- !app_assoc. reflexivity.
Qed.

(** The verdict for a modifier that has just fired a hotkey as a prefix:
    it goes to the system, disguised if it is a WIN or ALT key. *)
Lemma Case3_verdict_modifier os lParam vk sc cur this w s :
  toggle_is_neutral s (deref s this) = false ->
  nz (as_modifiersLR (deref s this)) = true ->
  was_just_used (deref s this) = AS_PREFIX_FOR_HOTKEY ->
  let c := Case3_verdict os lParam vk sc cur this w in
  let a := AllowKeyToGoToSystemButDisguiseWinAlt KeyEvent os lParam sc true cur in
  eval c s = Some (eval a s) /\ exec c s = exec a s.
Proof.
  intros Hn Hm Hw. cbv zeta. unfold Case3_verdict.
  rewrite eval_bind, exec_bind, eval_get, exec_get, Hn, Hm, Hw.
  cbn [JustUsed_is negb].
  rewrite eval_bind, exec_bind, eval_ret, exec_ret. split; reflexivity.
Qed.

(** The verdict for a key that is neither a toggle key nor a modifier: a
    prefix that was used is suppressed; one that was not falls through to
    CASE #4 if it is also a suffix and was down. *)
Lemma Case3_verdict_plain os lParam vk sc cur this s :
  toggle_is_neutral s (deref s this) = false ->
  nz (as_modifiersLR (deref s this)) = false ->
  used_as_suffix (deref s this) = true ->
  let c := Case3_verdict os lParam vk sc cur this true in
  eval c s = (if JustUsed_is (was_just_used (deref s this)) Unused
              then None else Some Suppressed)
  /\ hook_core (exec c s) = hook_core s
  /\ sent (exec c s) = sent s
  /\ (was_just_used (deref s this) = Unused -> exec c s = s).
Proof.
  intros Hn Hm Hs. cbv zeta. unfold Case3_verdict.
  rewrite eval_bind, exec_bind, eval_get, exec_get, Hn, Hm.
  destruct (JustUsed_is (was_just_used (deref s this)) Unused) eqn:U;
    cbn [negb].
  - unfold Case3_unused.
    rewrite eval_bind, exec_bind, eval_get, exec_get, Hs. cbn [negb].
    repeat split; reflexivity.
  - destruct (suppress_some os lParam sc cur s) as (Sv & Sc & Ss).
    split; [exact Sv | ]. split; [exact Sc | ]. split; [exact Ss | ].
    intro E. rewrite E in U. discriminate U.
Qed.

(** A hotkey of the script fired by the key-up of a key that is neither a
    toggle key nor a modifier and whose hotkey is to be suppressed. *)
Lemma fire_script_hotkey_up_plain os lParam vk sc cur this id s :
  script_hotkey id = true ->
  toggle_is_neutral s (deref s this) = false ->
  nz (as_modifiersLR (deref s this)) = false ->
  let c := fire_hotkey KeyEvent os lParam vk sc true cur this (id, false) in
  eval c s = Suppressed
  /\ posted (exec c s) = posted s ++ [(id, 0)]
  /\ sent (exec c s) = sent s
  /\ pPrefixKey (dsp (exec c s)) = pPrefixKey (dsp s)
  /\ (forall r, deref (exec c s) r = deref s r).
Proof.
  intros H Hn Hm. cbv zeta.
  set (s1 := exec arm_disguise s).
  destruct (dispatch_data_fields s s1 (arm_disguise_data s))
    as (D1 & P1 & T1 & Q1 & S1).
  set (s2 := exec (set_curr_event_type cur ET_hotkey) (push_posted (id, 0) s1)).
  assert (D2 : forall r, deref s2 r = deref s r)
    by (intro r; rewrite <- D1; destruct r; reflexivity).
  assert (N2 : toggle_is_neutral s2 (deref s2 this) = false).
  { rewrite D2. unfold toggle_is_neutral, toggle_value in *.
    change (tbl s2) with (tbl s1). rewrite T1. exact Hn. }
  assert (E : fire_hotkey KeyEvent os lParam vk sc true cur this (id, false) s
              = SuppressThisKey KeyEvent os lParam sc true cur s2).
  { unfold fire_hotkey. unfold bind at 1. rewrite (run_pair arm_disguise s).
    fold s1. unfold bind at 1. cbn [fst snd].
    rewrite (perform_script_hotkey os lParam vk sc true cur this id s1 H).
    unfold after_hotkey. unfold bind at 1.
    rewrite (run_pair (set_curr_event_type cur ET_hotkey) (push_posted (id, 0) s1)).
    fold s2. unfold bind at 1. unfold get at 1.
    rewrite N2, D2, Hm. reflexivity. }
  unfold eval, exec. rewrite E.
  fold (eval (SuppressThisKey KeyEvent os lParam sc true cur) s2).
  fold (exec (SuppressThisKey KeyEvent os lParam sc true cur) s2).
  destruct (core_fields s2 _ (SuppressThisKeyFunc_core os lParam sc true cur s2))
    as (Dc & Pc & _ & Qc).
  split; [apply SuppressThisKeyFunc_returns | ].
  split.
  { unfold SuppressThisKey. rewrite Qc.
    change (posted s2) with (posted s1 ++ [(id, 0)]). rewrite Q1. reflexivity. }
  split.
  { rewrite SuppressThisKey_up_sent. rewrite <- S1. reflexivity. }
  split; [unfold SuppressThisKey; rewrite Pc, <- P1; reflexivity | ].
  intro r. unfold SuppressThisKey. rewrite Dc. apply D2.
Qed.

(** X20.  A toggle key that fired a hotkey as a prefix is toggled back.
    The key-up (not the engine's own, no disguise armed) of a prefix key
    that is a toggle key left free to toggle (pForceToggle set, its value
    NEUTRAL) and whose was_just_used is AS_PREFIX_FOR_HOTKEY is suppressed
    and replaced by the key's up, down and up, so that the toggle made by
    its key-down is undone; before that the ALT and SHIFT keys put down for
    alt-tab are released.  Nothing is posted, the prefix slot is emptied if
    the key held it, and the key is recorded as up. *)
Theorem X20_toggle_prefix_is_toggled_back :
  forall os wParam lParam s,
    dwExtraInfo lParam <> KEYIGNORE ->
    is_key_up wParam = true ->
    disguise_armed (vk_of (vkCode lParam)) true s = false ->
    used_as_prefix (deref s (event_key s lParam)) = true ->
    used_as_suffix (deref s (event_key s lParam)) = false
    \/ pPrefixKey (dsp s) = Some (event_key s lParam) ->
    toggle_is_neutral s (deref s (event_key s lParam)) = true ->
    was_just_used (deref s (event_key s lParam)) = AS_PREFIX_FOR_HOTKEY ->
    let s' := exec (KeybdProc os HC_ACTION wParam lParam) s in
    eval (KeybdProc os HC_ACTION wParam lParam) s = Suppressed
    /\ sent s'
       = sent s ++ alt_tab_releases (deref s (event_key s lParam))
           ++ toggle_back (vk_of (vkCode lParam)) (normalized_sc s lParam)
    /\ posted s' = posted s
    /\ pPrefixKey (dsp s')
       = (if ptr_eqb (pPrefixKey (dsp s)) (event_key s lParam)
          then None else pPrefixKey (dsp s))
    /\ is_down (deref s' (event_key s lParam)) = false.
Proof.
  intros os wParam lParam s Hx Hup Hd Hpre Hcase Hn Hw. cbv zeta.
  destruct (prefix_release_enters os wParam lParam s Hx Hup Hd Hpre Hcase)
    as (cur & s4 & E & D4 & P4 & T4 & Q4 & S4 & _ & _).
  set (this := event_key s lParam) in *.
  set (vk := vk_of (vkCode lParam)) in *.
  set (sc := normalized_sc s lParam) in *.
  destruct (Case3_released_blocks os lParam vk sc cur this
              (is_down (deref s this)) s4)
    as (s2 & E2 & K2 & W2 & P2 & T2 & Q2 & S2 & _).
  pose proof (released_config s4 s this D4) as R4.
  assert (N2 : toggle_is_neutral s2 (deref s2 this) = true).
  { rewrite <- Hn. apply toggle_is_neutral_config; [rewrite T2; exact T4 | ].
    rewrite (key_static_config _ _ (K2 this)). apply R4. }
  assert (U2 : was_just_used (deref s2 this) = AS_PREFIX_FOR_HOTKEY).
  { rewrite W2, (proj1 (proj2 (R4 this))). exact Hw. }
  destruct (Case3_verdict_toggle_back os lParam vk sc cur this
              (is_down (deref s this)) s2 N2 U2) as (Vv & Vc & Vs).
  cbv zeta in Vv, Vc, Vs.
  assert (EE : KeybdProc os HC_ACTION wParam lParam s
               = (Suppressed,
                  exec (Case3_verdict os lParam vk sc cur this
                          (is_down (deref s this))) s2)).
  { rewrite E. unfold bind at 1. rewrite E2.
    rewrite (run_pair (Case3_verdict os lParam vk sc cur this
                         (is_down (deref s this))) s2), Vv.
    reflexivity. }
  change (eval (KeybdProc os HC_ACTION wParam lParam) s)
    with (fst (KeybdProc os HC_ACTION wParam lParam s)).
  change (exec (KeybdProc os HC_ACTION wParam lParam) s)
    with (snd (KeybdProc os HC_ACTION wParam lParam s)).
  rewrite EE. cbn [fst snd].
  destruct (core_fields _ _ Vc) as (Dc & Pc & _ & Qc).
  split; [reflexivity | ].
  split.
  { rewrite Vs, S2, S4, (proj2 (proj2 (R4 this))), <- app_assoc. reflexivity. }
  split; [rewrite Qc, Q2; exact Q4 | ].
  split; [rewrite Pc, P2; exact P4 | ].
  rewrite Dc.
  destruct (key_static_fields _ _ (K2 this)) as (_ & _ & _ & _ & _ & _ & _ & Ed).
  rewrite Ed, D4, KeyRef_eqb_refl. reflexivity.
Qed.

(** A run that meets the hypotheses of X20: in the script "CapsLock & a",
    CapsLock is released after it has fired the hotkey. *)
Lemma X20_toggle_prefix_is_toggled_back_witness :
  eval (deliver (ex_up (ex_WinXP 300) ex_VK_CAPITAL 0x3A)) ex_engine_caps_fired
    = Suppressed
  /\ sent (exec (deliver (ex_up (ex_WinXP 300) ex_VK_CAPITAL 0x3A))
             ex_engine_caps_fired)
     = sent ex_engine_caps_fired ++ toggle_back ex_VK_CAPITAL 0x3A.
Proof.
  assert (Hx : dwExtraInfo (d_lParam (ex_up (ex_WinXP 300) ex_VK_CAPITAL 0x3A))
               <> KEYIGNORE) by (vm_compute; discriminate).
  destruct (X20_toggle_prefix_is_toggled_back
              (ex_WinXP 300) WM_KEYUP
              (d_lParam (ex_up (ex_WinXP 300) ex_VK_CAPITAL 0x3A))
              ex_engine_caps_fired Hx eq_refl eq_refl eq_refl
              (or_introl eq_refl) eq_refl eq_refl)
    as (Hv & Hs & _).
  split; [exact Hv | ].
  etransitivity; [exact Hs | vm_compute; reflexivity].
Defined.

(** X21.  A modifier that fired a hotkey as a prefix is released to the
    system, disguised if it is a WIN or ALT key.  The key-up (not the
    engine's own, no disguise armed) of a prefix key that is a modifier
    and not a neutral toggle key, whose record is kvk[vk] and whose
    was_just_used is AS_PREFIX_FOR_HOTKEY: if the key is a WIN or ALT key
    the event is suppressed and SHIFT down, the key's up and SHIFT up are
    sent in its place; otherwise the event is passed on and nothing is sent
    for it.  Nothing is posted and the prefix slot is emptied if the key
    held it. *)
Theorem X21_modifier_prefix_release_is_disguised :
  forall os wParam lParam s,
    dwExtraInfo lParam <> KEYIGNORE ->
    is_key_up wParam = true ->
    disguise_armed (vk_of (vkCode lParam)) true s = false ->
    event_key s lParam = InKvk (vk_of (vkCode lParam)) ->
    used_as_prefix (deref s (event_key s lParam)) = true ->
    used_as_suffix (deref s (event_key s lParam)) = false
    \/ pPrefixKey (dsp s) = Some (event_key s lParam) ->
    pForceToggle (deref s (event_key s lParam)) = None ->
    nz (as_modifiersLR (deref s (event_key s lParam))) = true ->
    was_just_used (deref s (event_key s lParam)) = AS_PREFIX_FOR_HOTKEY ->
    let s' := exec (KeybdProc os HC_ACTION wParam lParam) s in
    eval (KeybdProc os HC_ACTION wParam lParam) s
      = (if is_win_or_alt (vkCode lParam) then Suppressed else PassedOn)
    /\ sent s'
       = sent s ++ alt_tab_releases (deref s (event_key s lParam))
           ++ (if is_win_or_alt (vkCode lParam)
               then disguise_triple (vk_of (vkCode lParam))
                      (normalized_sc s lParam)
               else [])
    /\ posted s' = posted s
    /\ pPrefixKey (dsp s')
       = (if ptr_eqb (pPrefixKey (dsp s)) (event_key s lParam)
          then None else pPrefixKey (dsp s)).
Proof.
  intros os wParam lParam s Hx Hup Hd Hkvk Hpre Hcase Htog Hm Hw. cbv zeta.
  destruct (prefix_release_enters os wParam lParam s Hx Hup Hd Hpre Hcase)
    as (cur & s4 & E & D4 & P4 & T4 & Q4 & S4 & _ & _).
  set (this := event_key s lParam) in *.
  set (vk := vk_of (vkCode lParam)) in *.
  set (sc := normalized_sc s lParam) in *.
  destruct (Case3_released_blocks os lParam vk sc cur this
              (is_down (deref s this)) s4)
    as (s2 & E2 & K2 & W2 & P2 & T2 & Q2 & S2 & _).
  pose proof (released_config s4 s this D4) as R4.
  assert (C2 : key_config (deref s2 this) = key_config (deref s this)).
  { rewrite (key_static_config _ _ (K2 this)). apply R4. }
  destruct (key_config_fields _ _ C2) as (_ & _ & Em & Et & _).
  assert (N2 : toggle_is_neutral s2 (deref s2 this) = false).
  { unfold toggle_is_neutral. rewrite Et, Htog. reflexivity. }
  assert (M2 : nz (as_modifiersLR (deref s2 this)) = true)
    by (rewrite Em; exact Hm).
  assert (U2 : was_just_used (deref s2 this) = AS_PREFIX_FOR_HOTKEY).
  { rewrite W2, (proj1 (proj2 (R4 this))). exact Hw. }
  destruct (Case3_verdict_modifier os lParam vk sc cur this
              (is_down (deref s this)) s2 N2 M2 U2) as (Vv & Ve).
  cbv zeta in Vv, Ve.
  destruct (AllowIt_contract os lParam sc true cur true s2) as (Av & As & Ac).
  cbv zeta in Av, As, Ac. fold vk in Av, As.
  assert (F2 : toggle_is_forced s2 (kvk (dsp s2) vk) = false).
  { change (kvk (dsp s2) vk) with (deref s2 (InKvk vk)). rewrite <- Hkvk.
    unfold toggle_is_forced. rewrite Et, Htog. reflexivity. }
  assert (M2' : nz (as_modifiersLR (kvk (dsp s2) vk)) = true).
  { change (kvk (dsp s2) vk) with (deref s2 (InKvk vk)). rewrite <- Hkvk.
    exact M2. }
  rewrite F2, M2', andb_false_r in Av, As. cbn [andb] in Av, As.
  assert (EE : KeybdProc os HC_ACTION wParam lParam s
               = (eval (AllowIt KeyEvent os lParam sc true cur true) s2,
                  exec (AllowIt KeyEvent os lParam sc true cur true) s2)).
  { rewrite E. unfold bind at 1. rewrite E2.
    rewrite (run_pair (Case3_verdict os lParam vk sc cur this
                         (is_down (deref s this))) s2), Vv, Ve.
    reflexivity. }
  change (eval (KeybdProc os HC_ACTION wParam lParam) s)
    with (fst (KeybdProc os HC_ACTION wParam lParam s)).
  change (exec (KeybdProc os HC_ACTION wParam lParam) s)
    with (snd (KeybdProc os HC_ACTION wParam lParam s)).
  rewrite EE. cbn [fst snd].
  destruct (core_fields _ _ Ac) as (Dc & Pc & _ & Qc).
  split; [exact Av | ].
  split.
  { rewrite As, S2, S4, (proj2 (proj2 (R4 this))), <- app_assoc. reflexivity. }
  split; [rewrite Qc, Q2; exact Q4 | ].
  rewrite Pc, P2. exact P4.
Qed.

(** A run that meets the hypotheses of X21: in the script "LWin & a", the
    left WIN key is released after it has fired the hotkey. *)
Lemma X21_modifier_prefix_release_is_disguised_witness :
  eval (deliver (ex_up (ex_WinXP 300) VK_LWIN 0x5B)) ex_engine_lwin_fired
    = Suppressed
  /\ sent (exec (deliver (ex_up (ex_WinXP 300) VK_LWIN 0x5B))
             ex_engine_lwin_fired)
     = sent ex_engine_lwin_fired ++ disguise_triple VK_LWIN 0x5B.
Proof.
  assert (Hx : dwExtraInfo (d_lParam (ex_up (ex_WinXP 300) VK_LWIN 0x5B))
               <> KEYIGNORE) by (vm_compute; discriminate).
  destruct (X21_modifier_prefix_release_is_disguised
              (ex_WinXP 300) WM_KEYUP
              (d_lParam (ex_up (ex_WinXP 300) VK_LWIN 0x5B))
              ex_engine_lwin_fired Hx eq_refl eq_refl eq_refl eq_refl
              (or_introl eq_refl) eq_refl eq_refl eq_refl)
    as (Hv & Hs & _).
  split; [exact Hv | ].
  etransitivity; [exact Hs | vm_compute; reflexivity].
Defined.

(** X22.  A key that is a prefix and a suffix fires its own hotkey on
    release only if it modified nothing.  The key-up (not the engine's
    own, no disguise armed) of a key that is configured as a prefix and as
    a suffix, holds the prefix slot, is recorded as down, is neither a
    modifier nor a toggle key and has put no key down for alt-tab, when
    the lookup by modifiers finds for it a hotkey of the script that is to
    be suppressed: if was_just_used is still 0, CASE #3 falls through into
    CASE #4 and the hotkey id is posted; if the key was used as a prefix
    meanwhile, nothing is posted.  Either way the event is suppressed,
    nothing is sent and the prefix slot is emptied. *)
Theorem X22_prefix_and_suffix_key_fires_on_release :
  forall os wParam lParam s,
    dwExtraInfo lParam <> KEYIGNORE ->
    is_key_up wParam = true ->
    disguise_armed (vk_of (vkCode lParam)) true s = false ->
    used_as_prefix (deref s (event_key s lParam)) = true ->
    used_as_suffix (deref s (event_key s lParam)) = true ->
    pPrefixKey (dsp s) = Some (event_key s lParam) ->
    is_down (deref s (event_key s lParam)) = true ->
    pForceToggle (deref s (event_key s lParam)) = None ->
    nz (as_modifiersLR (deref s (event_key s lParam))) = false ->
    alt_tab_releases (deref s (event_key s lParam)) = [] ->
    script_hotkey
      (fst (lookup_by_modifiers (vk_of (vkCode lParam)) (normalized_sc s lParam)
              (event_key s lParam) s)) = true ->
    snd (lookup_by_modifiers (vk_of (vkCode lParam)) (normalized_sc s lParam)
           (event_key s lParam) s) = false ->
    let s' := exec (KeybdProc os HC_ACTION wParam lParam) s in
    let id := fst (lookup_by_modifiers (vk_of (vkCode lParam))
                     (normalized_sc s lParam) (event_key s lParam) s) in
    eval (KeybdProc os HC_ACTION wParam lParam) s = Suppressed
    /\ posted s'
       = (if JustUsed_is (was_just_used (deref s (event_key s lParam))) Unused
          then posted s ++ [(id, 0)] else posted s)
    /\ sent s' = sent s
    /\ pPrefixKey (dsp s') = None.
Proof.
  intros os wParam lParam s Hx Hup Hd Hpre Hsuf Hp Hdown Htog Hm Hrel Hid Hns.
  cbv zeta.
  destruct (prefix_release_enters os wParam lParam s Hx Hup Hd Hpre
              (or_intror Hp))
    as (cur & s4 & E & D4 & P4 & T4 & Q4 & S4 & L4 & V4).
  set (this := event_key s lParam) in *.
  set (vk := vk_of (vkCode lParam)) in *.
  set (sc := normalized_sc s lParam) in *.
  rewrite Hp in P4. cbn [ptr_eqb] in P4. rewrite KeyRef_eqb_refl in P4.
  pose proof (released_config s4 s this D4) as R4.
  destruct (Case3_released_blocks os lParam vk sc cur this
              (is_down (deref s this)) s4)
    as (s2 & E2 & _ & _ & _ & _ & _ & _ & Z2).
  assert (Hs2 : s2 = s4)
    by (apply Z2; rewrite (proj2 (proj2 (R4 this))); exact Hrel).
  subst s2. rewrite Hdown in E2.
  destruct (key_config_fields _ _ (proj1 (R4 this)))
    as (_ & Esuf & Em & Et & _).
  assert (N4 : toggle_is_neutral s4 (deref s4 this) = false).
  { unfold toggle_is_neutral. rewrite Et, Htog. reflexivity. }
  assert (M4 : nz (as_modifiersLR (deref s4 this)) = false)
    by (rewrite Em; exact Hm).
  assert (U4 : used_as_suffix (deref s4 this) = true)
    by (rewrite Esuf; exact Hsuf).
  destruct (Case3_verdict_plain os lParam vk sc cur this s4 N4 M4 U4)
    as (Vv & Vc & Vs & Vz).
  cbv zeta in Vv, Vc, Vs, Vz.
  rewrite (proj1 (proj2 (R4 this))) in Vv, Vz.
  assert (EE : KeybdProc os HC_ACTION wParam lParam s
               = (let (r, s5) := (if JustUsed_is (was_just_used (deref s this))
                                       Unused
                                  then None else Some Suppressed,
                                  exec (Case3_verdict os lParam vk sc cur this
                                          true) s4) in
                  match r with
                  | Some v => ret v
                  | None => Case4 KeyEvent os lParam vk sc true cur this
                  end s5)).
  { rewrite E. unfold bind at 1. rewrite Hdown, E2.
    rewrite (run_pair (Case3_verdict os lParam vk sc cur this true) s4), Vv.
    reflexivity. }
  change (eval (KeybdProc os HC_ACTION wParam lParam) s)
    with (fst (KeybdProc os HC_ACTION wParam lParam s)).
  change (exec (KeybdProc os HC_ACTION wParam lParam) s)
    with (snd (KeybdProc os HC_ACTION wParam lParam s)).
  rewrite EE. clear EE E.
  destruct (was_just_used (deref s this)) eqn:W; cbn [JustUsed_is].
  - (* not used as a prefix: CASE #4 on the key-up *)
    rewrite (Vz eq_refl).
    assert (L : lookup_by_modifiers vk sc this s4
                = lookup_by_modifiers vk sc this s).
    { destruct (key_config_fields _ _ (proj1 (R4 (InKsc sc))))
        as (_ & _ & _ & _ & Ec & _).
      exact (lookup_by_modifiers_stable vk sc this s s4 T4 L4 Ec Em V4
               (proj1 (script_hotkey_tests _ Hid))). }
    destruct (lookup_by_modifiers vk sc this s) as [id ns] eqn:G.
    cbn [fst snd] in Hid, Hns |- *. subst ns.
    destruct (script_hotkey_tests _ Hid) as (E0 & _).
    assert (EC : Case4 KeyEvent os lParam vk sc true cur this s4
                 = fire_hotkey KeyEvent os lParam vk sc true cur this
                     (id, false) s4).
    { unfold Case4. unfold bind at 1. unfold get at 1.
      rewrite andb_false_r.
      unfold lookup_and_fire. cbn [fst]. rewrite Z.eqb_refl.
      unfold bind at 1. unfold get at 1. cbv zeta. rewrite L. cbn [fst].
      rewrite E0. reflexivity. }
    rewrite EC.
    destruct (fire_script_hotkey_up_plain os lParam vk sc cur this id s4
                Hid N4 M4) as (Fv & Fq & Fs & Fp & _).
    cbv zeta in Fv, Fq, Fs, Fp.
    fold (eval (fire_hotkey KeyEvent os lParam vk sc true cur this (id, false)) s4).
    fold (exec (fire_hotkey KeyEvent os lParam vk sc true cur this (id, false)) s4).
    split; [exact Fv | ].
    split; [rewrite Fq, Q4; reflexivity | ].
    split; [rewrite Fs; exact S4 | rewrite Fp; exact P4].
  - cbn [ret fst snd]. destruct (core_fields _ _ Vc) as (_ & Pc & _ & Qc).
    split; [reflexivity | ].
    split; [rewrite Qc; exact Q4 | ].
    split; [rewrite Vs; exact S4 | rewrite Pc; exact P4].
  - cbn [ret fst snd]. destruct (core_fields _ _ Vc) as (_ & Pc & _ & Qc).
    split; [reflexivity | ].
    split; [rewrite Qc; exact Q4 | ].
    split; [rewrite Vs; exact S4 | rewrite Pc; exact P4].
Qed.

(** A run that meets the hypotheses of X22: in the script "a & b", "a",
    the key a is pressed and released on its own. *)
Lemma X22_prefix_and_suffix_key_fires_on_release_witness :
  eval (deliver (ex_up (ex_WinXP 200) ex_VK_A 0x1E)) ex_engine_a_held = Suppressed
  /\ posted (exec (deliver (ex_up (ex_WinXP 200) ex_VK_A 0x1E)) ex_engine_a_held)
     = [(9, 0)].
Proof.
  assert (Hx : dwExtraInfo (d_lParam (ex_up (ex_WinXP 200) ex_VK_A 0x1E))
               <> KEYIGNORE) by (vm_compute; discriminate).
  destruct (X22_prefix_and_suffix_key_fires_on_release
              (ex_WinXP 200) WM_KEYUP
              (d_lParam (ex_up (ex_WinXP 200) ex_VK_A 0x1E))
              ex_engine_a_held Hx eq_refl eq_refl eq_refl eq_refl eq_refl
              eq_refl eq_refl eq_refl eq_refl eq_refl eq_refl)
    as (Hv & Hq & _).
  split; [exact Hv | exact Hq].
Defined.
(* ================================================================== *)
(** ** Alt-tab through a custom combination *)
(* ================================================================== *)

(** A modifier whose bit is neither SHIFT nor CTRL is tracked without
    touching the SHIFT and CTRL bits of the logical mask. *)
Lemma track_modifier_shift_control os lParam sc key_up sup bit side pair :
  Z.land bit (Z.lor (Z.lor MOD_LSHIFT MOD_RSHIFT) (Z.lor MOD_LCONTROL MOD_RCONTROL))
  = 0 ->
  keeps (same shift_control_mods) (track_modifier os lParam sc key_up sup bit side pair).
Proof.
  intro Hbit.
  assert (Kset : keeps (same shift_control_mods) (logical_set bit)).
  { intro s. unfold same, shift_control_mods, logical_mods, logical_set.
    change (g_modifiersLR_logical (trk (exec (modify _) s)))
      with (Z.lor (g_modifiersLR_logical (trk s)) bit).
    rewrite Z.land_lor_distr_l, Hbit, Z.lor_0_r. reflexivity. }
  assert (Kclr : keeps (same shift_control_mods) (logical_clear bit)).
  { intro s. unfold same, shift_control_mods, logical_mods, logical_clear.
    change (g_modifiersLR_logical (trk (exec (modify _) s)))
      with (Z.land (g_modifiersLR_logical (trk s)) (Z.lnot bit)).
    rewrite <- Z.land_assoc.
    f_equal. rewrite Z.land_comm. apply Z.bits_inj'. intros n Hn.
    rewrite Z.land_spec, Z.lnot_spec by exact Hn.
    assert (B : Z.testbit (Z.land bit (Z.lor (Z.lor MOD_LSHIFT MOD_RSHIFT)
                                         (Z.lor MOD_LCONTROL MOD_RCONTROL))) n = false)
      by (rewrite Hbit; apply Z.bits_0).
    rewrite Z.land_spec in B.
    destruct (Z.testbit bit n); cbn [negb andb] in *; [ | apply andb_true_r].
    rewrite B. reflexivity. }
  assert (Kphys : forall ku, keeps (same shift_control_mods) (EventIsPhysical os lParam sc ku)).
  { intro ku. unfold EventIsPhysical. cbv zeta. frame. }
  unfold track_modifier, physical_clear, physical_set, phys_key_store, phys_key_copy.
  destruct key_up, pair as [[n o] | ]; frame.
Qed.

Lemma UpdateModifierState_alt_shift_control os lParam sc key_up sup :
  vkCode lParam = VK_MENU ->
  keeps (same shift_control_mods) (UpdateModifierState os lParam sc key_up sup).
Proof.
  intro H. unfold UpdateModifierState. cbv zeta. rewrite H.
  destruct (sc =? SC_RALT); eqb_consts;
    apply track_modifier_shift_control; reflexivity.
Qed.

Lemma UpdateKeyState_alt_shift_control os lParam sc key_up sup :
  vkCode lParam = VK_MENU ->
  keeps (same shift_control_mods) (UpdateKeyState os lParam sc key_up sup).
Proof.
  intro H.
  pose proof (UpdateModifierState_alt_shift_control os lParam sc key_up sup H) as K.
  assert (Kphys : keeps (same shift_control_mods) (EventIsPhysical os lParam sc key_up))
    by (unfold EventIsPhysical; cbv zeta; frame).
  unfold UpdateKeyState, phys_key_store. cbv zeta. frame.
Qed.

(** AllowIt for the engine's own ALT key-down. *)
Lemma AllowIt_alt_down_shift_control K os lParam sc cur :
  vkCode lParam = VK_MENU -> dwExtraInfo lParam = KEYIGNORE ->
  keeps (same shift_control_mods) (AllowIt K os lParam sc false cur false).
Proof.
  intros Hv Hx s. unfold same, AllowIt.
  rewrite exec_bind, eval_get, exec_get, Hx, Z.eqb_refl. cbn [negb andb].
  rewrite exec_bind.
  set (s1 := exec (UpdateKeyState os lParam sc false false) s).
  assert (L1 : shift_control_mods s1 = shift_control_mods s)
    by (apply UpdateKeyState_alt_shift_control; exact Hv).
  assert (W : forall x, win_L_lock os lParam false x = false)
    by (intro x; unfold win_L_lock; rewrite Hv; reflexivity).
  assert (C : forall x, ctrl_alt_del os lParam false x = false)
    by (intro x; unfold ctrl_alt_del; rewrite Hv; reflexivity).
  rewrite exec_bind, eval_get, exec_get, W. cbn [when].
  rewrite exec_bind, exec_ret.
  rewrite exec_bind, eval_get, exec_get, C. cbn [when].
  rewrite exec_bind, exec_ret.
  rewrite exec_bind, eval_get, exec_get.
  destruct (negb (nz (as_modifiersLR (kvk (dsp s1) (vk_of (vkCode lParam))))));
    [exact L1 | ].
  rewrite exec_bind. cbn [andb]. rewrite exec_ret.
  match goal with
  | |- context [when ?b _] => destruct b
  end; exact L1.
Qed.

Lemma bookkeeping_shift_control os lParam vk sc key_up :
  keeps (same shift_control_mods) (bookkeeping os lParam vk sc key_up).
Proof.
  unfold bookkeeping, claim_history_slot, update_pad_state,
    AltTabMenuHeuristic, track_plain_key, phys_key_store, EventIsPhysical.
  cbv zeta. frame.
Qed.

(** The ALT key-down the hook sends re-enters the hook and is tracked
    there: neither a SHIFT nor a CTRL bit of the logical mask changes. *)
Lemma KeyEvent_alt_down_shift_control os :
  keeps (same shift_control_mods) (KeyEvent os KEYDOWN VK_MENU 0).
Proof.
  intro s. unfold same. cbn [KeyEvent]. unfold send_one.
  rewrite !exec_bind, exec_ret.
  set (s0 := exec (modify (push_sent (mkSent false VK_MENU 0 KEYIGNORE))) s).
  change (shift_control_mods s) with (shift_control_mods s0).
  unfold LowLevelKeybdProc.
  change (negb (HC_ACTION =? HC_ACTION)) with false.
  change ((WM_KEYDOWN =? WM_KEYUP) || (WM_KEYDOWN =? WM_SYSKEYUP)) with false.
  cbv iota zeta.
  rewrite exec_bind, eval_get, exec_get, exec_bind.
  change (dwExtraInfo (synthesized_event os VK_MENU 0) =? KEYIGNORE) with true.
  cbv iota.
  unfold AllowKeyToGoToSystem.
  rewrite AllowIt_alt_down_shift_control by reflexivity.
  apply bookkeeping_shift_control.
Qed.

Lemma trk_on_key r f s : trk (on_key r f s) = trk s.
Proof. destruct r; reflexivity. Qed.

(** With no SHIFT or CTRL bit in the logical mask, none of the four tests
    the alt-tab code makes on them succeeds. *)
Lemma shift_control_quiet s bit :
  shift_control_mods s = 0 ->
  Z.land (Z.lor (Z.lor MOD_LSHIFT MOD_RSHIFT) (Z.lor MOD_LCONTROL MOD_RCONTROL)) bit
  = bit ->
  logical_has s bit = false.
Proof.
  unfold shift_control_mods, logical_has, logical_mods. intros H E.
  rewrite <- E, Z.land_assoc, H. reflexivity.
Qed.

Lemma alt_shift_control_up s :
  alt_shift_control_down s = false ->
  logical_has s MOD_LALT = false /\ logical_has s MOD_RALT = false
  /\ shift_control_mods s = 0.
Proof.
  unfold alt_shift_control_down. intro H.
  repeat (apply orb_false_elim in H; destruct H as [H ?]).
  split; [assumption | split; [assumption | ]].
  unfold logical_has, nz in *. unfold shift_control_mods, logical_mods.
  repeat match goal with
         | X : negb (_ =? 0) = false |- _ =>
             apply negb_false_iff, Z.eqb_eq in X
         end.
  rewrite !Z.land_lor_distr_r.
  repeat match goal with
         | X : Z.land _ _ = 0 |- _ => rewrite X; clear X
         end.
  reflexivity.
Qed.

(** The alt-tab block of CASE #4 for HOTKEY_ID_ALT_TAB, when no ALT, SHIFT
    or CTRL key is logically down and the suffix is no SHIFT or CTRL key. *)
Lemma prefixed_alt_tab_plain os lParam vk sc cur this p s :
  pPrefixKey (dsp s) = Some p ->
  alt_shift_control_down s = false ->
  is_control_vk vk = false ->
  is_shift_vk vk = false ->
  let c := prefixed_alt_tab KeyEvent os lParam vk sc false cur this
             HOTKEY_ID_ALT_TAB in
  eval c s = Suppressed
  /\ sent (exec c s)
     = sent s
       ++ [mkSent false VK_MENU 0 KEYIGNORE; mkSent false VK_TAB 0 KEYIGNORE;
           mkSent true VK_TAB 0 KEYIGNORE]
       ++ numlock_fix_for lParam false
  /\ posted (exec c s) = posted s
  /\ pPrefixKey (dsp (exec c s)) = Some p
  /\ disguise_flags (exec c s) = disguise_flags s
  /\ tbl (exec c s) = tbl s
  /\ forall r,
       deref (exec c s) r
       = deref (on_key p (set_it_put_alt_down true)
                  (on_key this (set_down_performed_action true) s)) r.
Proof.
  intros Hp Hquiet Hctl Hshift. cbv zeta.
  destruct (alt_shift_control_up s Hquiet) as (A1 & A2 & Q0).
  set (s6 := on_key this (set_down_performed_action true) s).
  set (s7 := exec (KeyEvent os KEYDOWN VK_MENU 0) s6).
  set (s8 := on_key p (set_it_put_alt_down true) s7).
  set (s9 := exec (KeyEvent os KEYDOWNANDUP VK_TAB 0) s8).
  set (s10 := exec (set_curr_event_type cur ET_hotkey) s9).
  assert (T6 : trk s6 = trk s) by apply trk_on_key.
  assert (H7 : hook_core s7 = hook_core s6) by apply KeyEvent_core.
  destruct (core_fields s6 s7 H7) as (D7 & P7 & T7 & O7).
  assert (P7' : pPrefixKey (dsp s7) = Some p).
  { rewrite P7. unfold s6. rewrite pPrefixKey_on_key. exact Hp. }
  assert (Q8 : shift_control_mods s8 = 0).
  { unfold shift_control_mods, logical_mods, s8. rewrite trk_on_key.
    change (shift_control_mods s7 = 0).
    unfold s7. rewrite KeyEvent_alt_down_shift_control.
    unfold shift_control_mods, logical_mods. rewrite T6. exact Q0. }
  assert (E : prefixed_alt_tab KeyEvent os lParam vk sc false cur this
                HOTKEY_ID_ALT_TAB s
              = SuppressThisKey KeyEvent os lParam sc false cur s10).
  { unfold prefixed_alt_tab.
    rewrite bind_step.
    change (exec (when (negb false) (modify (on_key this (set_down_performed_action true)))) s)
      with s6.
    rewrite bind_step, eval_get, exec_get.
    assert (A6 : negb (logical_has s6 MOD_LALT) && negb (logical_has s6 MOD_RALT) = true).
    { unfold logical_has. rewrite T6. fold (logical_has s MOD_LALT).
      fold (logical_has s MOD_RALT). rewrite A1, A2. reflexivity. }
    rewrite A6. change (when true ?c) with c.
    rewrite bind_step. fold s7.
    rewrite Hctl. change (when false ?c) with (ret tt).
    rewrite bind_step, exec_ret.
    rewrite bind_step, on_prefix_exec, P7'. fold s8.
    change (HOTKEY_ID_ALT_TAB =? HOTKEY_ID_ALT_TAB_SHIFT) with false.
    change (HOTKEY_ID_ALT_TAB =? HOTKEY_ID_ALT_TAB) with true.
    cbv iota.
    rewrite Hshift. change (when false ?c) with (ret tt).
    rewrite bind_step.
    assert (B8 : forall bit,
               Z.land (Z.lor (Z.lor MOD_LSHIFT MOD_RSHIFT)
                             (Z.lor MOD_LCONTROL MOD_RCONTROL)) bit = bit ->
               logical_has s8 bit = false)
      by (intros bit Hb; apply shift_control_quiet; assumption).
    rewrite exec_bind, exec_ret, exec_bind, eval_get, exec_get.
    rewrite !(B8 MOD_LSHIFT), !(B8 MOD_RSHIFT) by reflexivity.
    cbn [orb]. change (when false ?c) with (ret tt). rewrite exec_ret.
    rewrite bind_step, eval_get, exec_get.
    rewrite !(B8 MOD_LCONTROL), !(B8 MOD_RCONTROL) by reflexivity.
    cbn [orb]. change (when false ?c) with (ret tt).
    rewrite bind_step, exec_ret.
    rewrite bind_step. fold s9.
    rewrite bind_step, eval_get, exec_get.
    cbn [andb]. change (when false ?c) with (ret tt).
    rewrite bind_step, exec_ret.
    rewrite bind_step. fold s10. reflexivity. }
  assert (H9 : hook_core s9 = hook_core s8) by apply KeyEvent_core.
  assert (H10 : hook_core s10 = hook_core s9) by apply set_curr_event_type_core.
  set (sf := exec (SuppressThisKey KeyEvent os lParam sc false cur) s10).
  assert (Hf : hook_core sf = hook_core s10) by apply SuppressThisKeyFunc_core.
  assert (Hf8 : hook_core sf = hook_core s8) by (rewrite Hf, H10; exact H9).
  destruct (core_fields s8 sf Hf8) as (Df & Pf & Tf & Of).
  change (eval (prefixed_alt_tab KeyEvent os lParam vk sc false cur this
                  HOTKEY_ID_ALT_TAB) s)
    with (fst (prefixed_alt_tab KeyEvent os lParam vk sc false cur this
                 HOTKEY_ID_ALT_TAB s)).
  change (exec (prefixed_alt_tab KeyEvent os lParam vk sc false cur this
                  HOTKEY_ID_ALT_TAB) s)
    with (snd (prefixed_alt_tab KeyEvent os lParam vk sc false cur this
                 HOTKEY_ID_ALT_TAB s)).
  rewrite E.
  change (snd (SuppressThisKey KeyEvent os lParam sc false cur s10)) with sf.
  split; [apply SuppressThisKeyFunc_returns | ].
  split.
  { unfold sf, SuppressThisKey. rewrite SuppressThisKeyFunc_sent.
    fold (numlock_fix_for lParam false).
    assert (S10 : sent s10 = sent s9) by reflexivity.
    rewrite S10. unfold s9. rewrite KeyEvent_sent.
    unfold s8. rewrite sent_on_key. unfold s7. rewrite KeyEvent_sent.
    unfold s6. rewrite sent_on_key. cbn [keystrokes].
    rewrite <- !app_assoc. reflexivity. }
  split.
  { rewrite Of. unfold s8. rewrite posted_on_key, O7. unfold s6.
    apply posted_on_key. }
  split.
  { rewrite Pf. unfold s8. rewrite pPrefixKey_on_key. exact P7'. }
  split.
  { rewrite (disguise_flags_core _ _ Hf8).
    transitivity (disguise_flags s7);
      [unfold s8; destruct p; reflexivity | ].
    rewrite (disguise_flags_core _ _ H7). unfold s6. destruct this; reflexivity. }
  split.
  { rewrite Tf. unfold s8. rewrite tbl_on_key, T7. unfold s6. apply tbl_on_key. }
  intro r. rewrite Df. unfold s8. rewrite !deref_on_key, !D7. reflexivity.
Qed.

(** CASE #4 when the first loop finds a held key whose entry stands for
    alt-tab. *)
Lemma Case4_held_alt_tab os lParam vk sc cur this s m :
  pPrefixKey (dsp s) <> None ->
  find (fun m => is_down (kvk (dsp s) (mod_key m))) (ModifierVK (deref s this))
    = Some m ->
  fst (GET_HOTKEY_ID_AND_FLAGS (id_with_flags m)) = HOTKEY_ID_ALT_TAB ->
  Case4 KeyEvent os lParam vk sc false cur this s
  = prefixed_alt_tab KeyEvent os lParam vk sc false cur this HOTKEY_ID_ALT_TAB
      (exec (on_prefix (set_was_just_used AS_PREFIX_FOR_HOTKEY))
         (on_dsp (set_pPrefixKey (Some (InKvk (mod_key m)))) s)).
Proof.
  intros Hp F H.
  unfold Case4. rewrite bind_step, eval_get, exec_get.
  destruct (pPrefixKey (dsp s)) as [q | ] eqn:Hq; [ | contradiction].
  cbn [andb negb].
  rewrite bind_step.
  change (eval (find_modifier_vk this) s) with (fst (find_modifier_vk this s)).
  change (exec (find_modifier_vk this) s) with (snd (find_modifier_vk this s)).
  rewrite (find_modifier_vk_found this s m F). cbn [fst snd].
  rewrite bind_step. unfold find_modifier_sc. rewrite H.
  change (HOTKEY_ID_ALT_TAB =? HOTKEY_ID_INVALID) with false. cbv iota.
  rewrite eval_ret, exec_ret, H.
  change (HOTKEY_ID_ALT_TAB =? HOTKEY_ID_ALT_TAB) with true.
  reflexivity.
Qed.

Lemma shift_down_on_key r f s r' :
  (forall k, it_put_shift_down (f k) = it_put_shift_down k) ->
  it_put_shift_down (deref (on_key r f s) r') = it_put_shift_down (deref s r').
Proof.
  intro H. rewrite deref_on_key.
  destruct (KeyRef_eqb r' r) eqn:E; [ | reflexivity].
  apply KeyRef_eqb_eq in E. subst r'. apply H.
Qed.

Lemma alt_shift_control_down_logical s s' :
  logical_mods s' = logical_mods s ->
  alt_shift_control_down s' = alt_shift_control_down s.
Proof.
  unfold alt_shift_control_down, logical_has, logical_mods. intro H.
  rewrite H. reflexivity.
Qed.

(** The key-down of a suffix while another key holds the prefix slot and
    the first loop of CASE #4 finds an entry that stands for alt-tab. *)
Lemma alt_tab_suffix_down os wParam lParam s p m :
  dwExtraInfo lParam <> KEYIGNORE ->
  is_key_up wParam = false ->
  pPrefixKey (dsp s) = Some p ->
  p <> event_key s lParam ->
  used_as_suffix (deref s (event_key s lParam)) = true ->
  first_held_modifier s (event_key s lParam) = Some m ->
  fst (GET_HOTKEY_ID_AND_FLAGS (id_with_flags m)) = HOTKEY_ID_ALT_TAB ->
  alt_shift_control_down s = false ->
  is_control_vk (vk_of (vkCode lParam)) = false ->
  is_shift_vk (vk_of (vkCode lParam)) = false ->
  let s' := exec (KeybdProc os HC_ACTION wParam lParam) s in
  eval (KeybdProc os HC_ACTION wParam lParam) s = Suppressed
  /\ sent s'
     = sent s
       ++ [mkSent false VK_MENU 0 KEYIGNORE; mkSent false VK_TAB 0 KEYIGNORE;
           mkSent true VK_TAB 0 KEYIGNORE]
       ++ numlock_fix_for lParam false
  /\ posted s' = posted s
  /\ pPrefixKey (dsp s') = Some (InKvk (mod_key m))
  /\ it_put_alt_down (deref s' (InKvk (mod_key m))) = true
  /\ down_performed_action (deref s' (event_key s lParam)) = true
  /\ disguise_flags s' = disguise_flags s
  /\ it_put_shift_down (deref s' (InKvk (mod_key m)))
     = it_put_shift_down (deref s (InKvk (mod_key m))).
Proof.
  intros Hx Hup Hp Hne Hsuf Hfind Hid Hquiet Hctl Hshift. cbv zeta.
  assert (Hd : disguise_armed (vk_of (vkCode lParam)) (is_key_up wParam) s = false)
    by (rewrite Hup; apply disguise_armed_key_down).
  unfold eval, exec. rewrite (KeybdProc_dispatches os wParam lParam s Hx Hd).
  cbv zeta. rewrite Hup.
  set (vk := vk_of (vkCode lParam)) in *.
  set (sc := normalized_sc s lParam).
  set (cur := eval (bookkeeping os lParam vk sc false) s).
  set (s1 := exec (bookkeeping os lParam vk sc false) s).
  assert (H1 : hook_core s1 = hook_core s) by apply bookkeeping_core.
  assert (H1s : sent s1 = sent s) by apply bookkeeping_sent.
  assert (H1l : logical_mods s1 = logical_mods s) by apply bookkeeping_logical.
  destruct (core_fields s s1 H1) as (D1 & P1 & T1 & Q1).
  unfold event_key in *. fold vk sc in Hne, Hsuf, Hfind |- *.
  set (this := this_key s vk sc) in *.
  assert (Hthis : this_key s1 vk sc = this) by apply (this_key_core _ _ vk sc H1).
  rewrite (dispatch_suffix_down os lParam vk sc cur s1 p);
    rewrite ?Hthis, ?P1, ?D1; try assumption.
  set (c2 := when (negb (nz (as_modifiersLR (deref s this))))
               (on_prefix (set_was_just_used AS_PREFIX))).
  set (s2 := exec c2 s1).
  assert (S2 : settled s1 s2).
  { subst s2 c2. apply (keeps_when settled settled_refl). auto with hook_frame. }
  destruct S2 as (Hp2 & Ht2 & Hk2).
  assert (E2 : s2 = s1 \/ s2 = on_key p (set_was_just_used AS_PREFIX) s1).
  { unfold s2, c2. destruct (negb (nz (as_modifiersLR (deref s this))));
      [right | left; reflexivity].
    cbn [when]. rewrite on_prefix_exec, P1, Hp. reflexivity. }
  set (s3 := on_key this (set_is_down true) s2).
  assert (Hdown : forall r, is_down (deref s3 r)
                            = is_down (deref (on_key this (set_is_down true) s) r)).
  { intro r. unfold s3. rewrite !deref_on_key.
    destruct (KeyRef_eqb r this); [reflexivity | ].
    destruct (key_static_fields _ _ (Hk2 r)) as (_ & _ & _ & _ & _ & _ & _ & E).
    rewrite E, D1. reflexivity. }
  assert (Hmods : ModifierVK (deref s3 this) = ModifierVK (deref s this)).
  { destruct (key_config_fields _ _ (set_is_down_config this true s2 this))
      as (_ & _ & _ & _ & _ & E & _).
    fold s3 in E. rewrite E.
    destruct (key_static_fields _ _ (Hk2 this)) as (_ & _ & _ & _ & _ & E2' & _).
    rewrite E2', D1. reflexivity. }
  assert (Hp3 : pPrefixKey (dsp s3) = Some p).
  { unfold s3. rewrite pPrefixKey_on_key, Hp2, P1. exact Hp. }
  assert (F3 : find (fun m => is_down (kvk (dsp s3) (mod_key m)))
                 (ModifierVK (deref s3 this)) = Some m).
  { rewrite Hmods. rewrite <- Hfind. unfold first_held_modifier.
    apply find_same. intro a. apply (Hdown (InKvk (mod_key a))). }
  rewrite (Case4_held_alt_tab os lParam vk sc cur this s3 m);
    [ | rewrite Hp3; discriminate | exact F3 | exact Hid].
  set (pk := InKvk (mod_key m)).
  set (s4 := on_dsp (set_pPrefixKey (Some pk)) s3).
  set (s5 := exec (on_prefix (set_was_just_used AS_PREFIX_FOR_HOTKEY)) s4).
  assert (E5 : s5 = on_key pk (set_was_just_used AS_PREFIX_FOR_HOTKEY) s4)
    by reflexivity.
  assert (I4 : forall r, deref s4 r = deref s3 r) by (intros [v | c]; reflexivity).
  assert (P5 : pPrefixKey (dsp s5) = Some pk).
  { rewrite E5. apply pPrefixKey_on_key. }
  assert (S1' : forall x, x = s1 \/ x = on_key p (set_was_just_used AS_PREFIX) s1 ->
                          sent x = sent s /\ posted x = posted s
                          /\ trk x = trk s1
                          /\ disguise_flags x = disguise_flags s
                          /\ forall r, it_put_shift_down (deref x r)
                                       = it_put_shift_down (deref s r)).
  { intros x [-> | ->].
    - repeat split; try assumption; try reflexivity.
      + apply disguise_flags_core. exact H1.
      + intro r. rewrite D1. reflexivity.
    - rewrite sent_on_key, posted_on_key, trk_on_key.
      repeat split; try assumption; try reflexivity.
      + transitivity (disguise_flags s1);
          [destruct p; reflexivity | apply disguise_flags_core; exact H1].
      + intro r. rewrite shift_down_on_key by reflexivity.
        rewrite D1. reflexivity. }
  destruct (S1' s2 E2) as (S2s & S2q & S2t & S2f & S2d).
  assert (Q5 : alt_shift_control_down s5 = false).
  { rewrite <- Hquiet. apply alt_shift_control_down_logical.
    unfold logical_mods. rewrite E5, trk_on_key.
    change (trk s4) with (trk s3). unfold s3. rewrite trk_on_key, S2t.
    exact H1l. }
  destruct (prefixed_alt_tab_plain os lParam vk sc cur this pk s5 P5 Q5 Hctl Hshift)
    as (Rv & Rs & Rq & Rp & Rf & _ & Rd).
  fold (eval (prefixed_alt_tab KeyEvent os lParam vk sc false cur this
                HOTKEY_ID_ALT_TAB) s5).
  fold (exec (prefixed_alt_tab KeyEvent os lParam vk sc false cur this
                HOTKEY_ID_ALT_TAB) s5).
  split; [exact Rv | ].
  split.
  { rewrite Rs, E5, sent_on_key. change (sent s4) with (sent s3).
    unfold s3. rewrite sent_on_key, S2s. reflexivity. }
  split.
  { rewrite Rq, E5, posted_on_key. change (posted s4) with (posted s3).
    unfold s3. rewrite posted_on_key. exact S2q. }
  split; [rewrite Rp; reflexivity | ].
  split.
  { rewrite Rd, deref_on_key, KeyRef_eqb_refl. reflexivity. }
  split.
  { rewrite Rd, deref_on_key.
    assert (T : forall x, down_performed_action
                            (deref (on_key this (set_down_performed_action true) x)
                               this) = true)
      by (intro x; rewrite deref_on_key, KeyRef_eqb_refl; reflexivity).
    destruct (KeyRef_eqb this pk) eqn:E; [ | apply T].
    apply KeyRef_eqb_eq in E. rewrite <- E.
    change (down_performed_action
              (deref (on_key this (set_down_performed_action true) s5) this) = true).
    apply T. }
  split.
  { rewrite Rf, E5.
    transitivity (disguise_flags s4); [reflexivity | ].
    change (disguise_flags s4) with (disguise_flags s3).
    unfold s3. transitivity (disguise_flags s2); [destruct this; reflexivity | ].
    exact S2f. }
  rewrite Rd. rewrite !shift_down_on_key by reflexivity.
  rewrite E5, shift_down_on_key by reflexivity.
  rewrite I4. unfold s3. rewrite shift_down_on_key by reflexivity.
  apply S2d.
Qed.

(** X23.  A custom combination "prefix & suffix::AltTab" is carried out by
    the hook itself.  When a key-down that is not the engine's own arrives
    for a suffix (no SHIFT or CTRL key) while another key holds the prefix
    slot, the first entry of the suffix's ModifierVK list whose key is down
    carries HOTKEY_ID_ALT_TAB, and no ALT, SHIFT or CTRL key is logically
    down, the hook suppresses the event and sends ALT down followed by TAB
    down and TAB up (and the Numlock fix when the suffix is NUMLOCK); it
    posts nothing to the script; the entry's key becomes the held prefix
    and remembers in it_put_alt_down that it put ALT down; the suffix has
    down_performed_action set. *)
Theorem X23_alt_tab_combination_sends_alt_and_tab :
  forall os wParam lParam s p m,
    dwExtraInfo lParam <> KEYIGNORE ->
    is_key_up wParam = false ->
    pPrefixKey (dsp s) = Some p ->
    p <> event_key s lParam ->
    used_as_suffix (deref s (event_key s lParam)) = true ->
    first_held_modifier s (event_key s lParam) = Some m ->
    fst (GET_HOTKEY_ID_AND_FLAGS (id_with_flags m)) = HOTKEY_ID_ALT_TAB ->
    alt_shift_control_down s = false ->
    is_control_vk (vk_of (vkCode lParam)) = false ->
    is_shift_vk (vk_of (vkCode lParam)) = false ->
    let s' := exec (KeybdProc os HC_ACTION wParam lParam) s in
    eval (KeybdProc os HC_ACTION wParam lParam) s = Suppressed
    /\ sent s'
       = sent s
         ++ [mkSent false VK_MENU 0 KEYIGNORE; mkSent false VK_TAB 0 KEYIGNORE;
             mkSent true VK_TAB 0 KEYIGNORE]
         ++ numlock_fix_for lParam false
    /\ posted s' = posted s
    /\ pPrefixKey (dsp s') = Some (InKvk (mod_key m))
    /\ it_put_alt_down (deref s' (InKvk (mod_key m))) = true
    /\ down_performed_action (deref s' (event_key s lParam)) = true.
Proof.
  intros os wParam lParam s p m Hx Hup Hp Hne Hsuf Hfind Hid Hquiet Hctl Hshift.
  destruct (alt_tab_suffix_down os wParam lParam s p m
              Hx Hup Hp Hne Hsuf Hfind Hid Hquiet Hctl Hshift)
    as (Rv & Rs & Rq & Rp & Ra & Rd & _).
  cbv zeta. repeat split; assumption.
Qed.

(** A run that meets the hypotheses of X23: the script "b & a::AltTab"
    with b held, and the key-down of a. *)
Lemma X23_alt_tab_combination_sends_alt_and_tab_witness :
  eval (deliver (ex_down (ex_WinXP 200) ex_VK_A 0x1E)) ex_engine_alt_tab_held
    = Suppressed
  /\ sent (exec (deliver (ex_down (ex_WinXP 200) ex_VK_A 0x1E))
             ex_engine_alt_tab_held)
     = [mkSent false VK_MENU 0 KEYIGNORE; mkSent false VK_TAB 0 KEYIGNORE;
        mkSent true VK_TAB 0 KEYIGNORE].
Proof.
  assert (Hx : dwExtraInfo (d_lParam (ex_down (ex_WinXP 200) ex_VK_A 0x1E))
               <> KEYIGNORE) by (vm_compute; discriminate).
  assert (Hne : InKvk ex_VK_B
                <> event_key ex_engine_alt_tab_held
                     (d_lParam (ex_down (ex_WinXP 200) ex_VK_A 0x1E)))
    by (vm_compute; discriminate).
  assert (Hp : pPrefixKey (dsp ex_engine_alt_tab_held) = Some (InKvk ex_VK_B))
    by (vm_compute; reflexivity).
  assert (Hsuf : used_as_suffix
                   (deref ex_engine_alt_tab_held
                      (event_key ex_engine_alt_tab_held
                         (d_lParam (ex_down (ex_WinXP 200) ex_VK_A 0x1E))))
                 = true) by (vm_compute; reflexivity).
  assert (Hfind : first_held_modifier ex_engine_alt_tab_held
                    (event_key ex_engine_alt_tab_held
                       (d_lParam (ex_down (ex_WinXP 200) ex_VK_A 0x1E)))
                  = Some (mkMod ex_VK_B HOTKEY_ID_ALT_TAB))
    by (vm_compute; reflexivity).
  assert (Hquiet : alt_shift_control_down ex_engine_alt_tab_held = false)
    by (vm_compute; reflexivity).
  destruct (X23_alt_tab_combination_sends_alt_and_tab
              (ex_WinXP 200) WM_KEYDOWN
              (d_lParam (ex_down (ex_WinXP 200) ex_VK_A 0x1E))
              ex_engine_alt_tab_held (InKvk ex_VK_B)
              (mkMod ex_VK_B HOTKEY_ID_ALT_TAB)
              Hx eq_refl Hp Hne Hsuf Hfind eq_refl Hquiet eq_refl eq_refl)
    as (Hv & Hs & _).
  split; [exact Hv | ].
  etransitivity; [exact Hs | vm_compute; reflexivity].
Defined.

Lemma disguise_armed_flags vk key_up s s' :
  disguise_flags s' = disguise_flags s ->
  disguise_armed vk key_up s' = disguise_armed vk key_up s.
Proof.
  unfold disguise_flags, disguise_armed. intro H.
  injection H as F1 F2 F3 F4. rewrite F1, F2, F3, F4. reflexivity.
Qed.

(** X24.  The ALT key that an alt-tab combination put down goes up with
    the prefix.  After the key-down of X23, the release of the key that
    now holds the prefix slot (a prefix that is no suffix, no modifier and
    no toggle key; the release is not the engine's own and no disguise is
    armed for it), delivered next, is suppressed, empties the prefix slot
    and sends ALT up, followed by SHIFT up only if the prefix had put
    SHIFT down before; over the two events nothing is posted to the
    script. *)
Theorem X24_alt_tab_alt_goes_up_with_the_prefix :
  forall os wParam lParam os' wParam' lParam' s p m,
    dwExtraInfo lParam <> KEYIGNORE ->
    is_key_up wParam = false ->
    pPrefixKey (dsp s) = Some p ->
    p <> event_key s lParam ->
    used_as_suffix (deref s (event_key s lParam)) = true ->
    first_held_modifier s (event_key s lParam) = Some m ->
    fst (GET_HOTKEY_ID_AND_FLAGS (id_with_flags m)) = HOTKEY_ID_ALT_TAB ->
    alt_shift_control_down s = false ->
    is_control_vk (vk_of (vkCode lParam)) = false ->
    is_shift_vk (vk_of (vkCode lParam)) = false ->
    dwExtraInfo lParam' <> KEYIGNORE ->
    is_key_up wParam' = true ->
    event_key s lParam' = InKvk (mod_key m) ->
    pure_prefix (deref s (InKvk (mod_key m))) ->
    disguise_armed (vk_of (vkCode lParam')) true s = false ->
    let s1 := exec (KeybdProc os HC_ACTION wParam lParam) s in
    let s2 := exec (KeybdProc os' HC_ACTION wParam' lParam') s1 in
    eval (KeybdProc os' HC_ACTION wParam' lParam') s1 = Suppressed
    /\ pPrefixKey (dsp s2) = None
    /\ posted s2 = posted s
    /\ sent s2
       = sent s
         ++ [mkSent false VK_MENU 0 KEYIGNORE; mkSent false VK_TAB 0 KEYIGNORE;
             mkSent true VK_TAB 0 KEYIGNORE]
         ++ numlock_fix_for lParam false
         ++ [mkSent true VK_MENU 0 KEYIGNORE]
         ++ (if it_put_shift_down (deref s (InKvk (mod_key m)))
             then [mkSent true VK_SHIFT 0 KEYIGNORE] else []).
Proof.
  intros os wParam lParam os' wParam' lParam' s p m
         Hx Hup Hp Hne Hsuf Hfind Hid Hquiet Hctl Hshift Hx' Hup' Hkey Hpure Hd.
  destruct (alt_tab_suffix_down os wParam lParam s p m
              Hx Hup Hp Hne Hsuf Hfind Hid Hquiet Hctl Hshift)
    as (_ & Rs & Rq & Rp & Ra & _ & Rf & Rsh).
  cbv zeta.
  set (s1 := exec (KeybdProc os HC_ACTION wParam lParam) s) in *.
  assert (Cf : configured s s1) by apply KeybdProc_configured.
  assert (Sk : same_key lParam' lParam') by (repeat split).
  destruct (event_key_same s s1 lParam' lParam' Cf Sk) as (_ & Ek).
  rewrite Hkey in Ek.
  assert (Hpure1 : pure_prefix (deref s1 (event_key s1 lParam'))).
  { rewrite Ek. destruct Cf as (_ & Ck).
    destruct (key_config_fields _ _ (Ck (InKvk (mod_key m))))
      as (E1 & E2 & E3 & E4 & _).
    destruct Hpure as (U1 & U2 & U3 & U4).
    unfold pure_prefix. rewrite E1, E2, E3, E4. repeat split; assumption. }
  assert (Hd1 : disguise_armed (vk_of (vkCode lParam')) true s1 = false)
    by (rewrite (disguise_armed_flags _ _ s s1 Rf); exact Hd).
  destruct (pure_prefix_release os' wParam' lParam' s1 Hx' Hup' Hd1 Hpure1)
    as (Rv2 & Rp2 & _ & Rq2 & Rs2).
  cbv zeta in Rp2, Rq2, Rs2.
  split; [exact Rv2 | ].
  split.
  { rewrite Rp2, Ek, Rp. cbn [ptr_eqb]. rewrite KeyRef_eqb_refl. reflexivity. }
  split; [rewrite Rq2; exact Rq | ].
  rewrite Rs2, Ek, Rs. unfold alt_tab_releases. rewrite Ra, Rsh.
  rewrite <- !app_assoc. reflexivity.
Qed.

(** A run that meets the hypotheses of X24: the script "b & a::AltTab"
    with b held, the key-down of a, and the release of b. *)
Lemma X24_alt_tab_alt_goes_up_with_the_prefix_witness :
  let s1 := exec (deliver (ex_down (ex_WinXP 200) ex_VK_A 0x1E))
              ex_engine_alt_tab_held in
  eval (deliver (ex_up (ex_WinXP 300) ex_VK_B 0x30)) s1 = Suppressed
  /\ sent (exec (deliver (ex_up (ex_WinXP 300) ex_VK_B 0x30)) s1)
     = [mkSent false VK_MENU 0 KEYIGNORE; mkSent false VK_TAB 0 KEYIGNORE;
        mkSent true VK_TAB 0 KEYIGNORE; mkSent true VK_MENU 0 KEYIGNORE].
Proof.
  cbv zeta.
  assert (Hx : dwExtraInfo (d_lParam (ex_down (ex_WinXP 200) ex_VK_A 0x1E))
               <> KEYIGNORE) by (vm_compute; discriminate).
  assert (Hne : InKvk ex_VK_B
                <> event_key ex_engine_alt_tab_held
                     (d_lParam (ex_down (ex_WinXP 200) ex_VK_A 0x1E)))
    by (vm_compute; discriminate).
  assert (Hp : pPrefixKey (dsp ex_engine_alt_tab_held) = Some (InKvk ex_VK_B))
    by (vm_compute; reflexivity).
  assert (Hsuf : used_as_suffix
                   (deref ex_engine_alt_tab_held
                      (event_key ex_engine_alt_tab_held
                         (d_lParam (ex_down (ex_WinXP 200) ex_VK_A 0x1E))))
                 = true) by (vm_compute; reflexivity).
  assert (Hfind : first_held_modifier ex_engine_alt_tab_held
                    (event_key ex_engine_alt_tab_held
                       (d_lParam (ex_down (ex_WinXP 200) ex_VK_A 0x1E)))
                  = Some (mkMod ex_VK_B HOTKEY_ID_ALT_TAB))
    by (vm_compute; reflexivity).
  assert (Hquiet : alt_shift_control_down ex_engine_alt_tab_held = false)
    by (vm_compute; reflexivity).
  assert (Hx' : dwExtraInfo (d_lParam (ex_up (ex_WinXP 300) ex_VK_B 0x30))
                <> KEYIGNORE) by (vm_compute; discriminate).
  assert (Hkey : event_key ex_engine_alt_tab_held
                   (d_lParam (ex_up (ex_WinXP 300) ex_VK_B 0x30))
                 = InKvk (mod_key (mkMod ex_VK_B HOTKEY_ID_ALT_TAB)))
    by (vm_compute; reflexivity).
  assert (Hpure : pure_prefix
                    (deref ex_engine_alt_tab_held
                       (InKvk (mod_key (mkMod ex_VK_B HOTKEY_ID_ALT_TAB)))))
    by (repeat split).
  destruct (X24_alt_tab_alt_goes_up_with_the_prefix
              (ex_WinXP 200) WM_KEYDOWN
              (d_lParam (ex_down (ex_WinXP 200) ex_VK_A 0x1E))
              (ex_WinXP 300) WM_KEYUP
              (d_lParam (ex_up (ex_WinXP 300) ex_VK_B 0x30))
              ex_engine_alt_tab_held (InKvk ex_VK_B)
              (mkMod ex_VK_B HOTKEY_ID_ALT_TAB)
              Hx eq_refl Hp Hne Hsuf Hfind eq_refl Hquiet eq_refl eq_refl
              Hx' eq_refl Hkey Hpure eq_refl)
    as (Hv & _ & _ & Hs).
  split; [exact Hv | ].
  etransitivity; [exact Hs | vm_compute; reflexivity].
Defined.
(* ================================================================== *)
(** ** Alt-tab hotkeys without a prefix *)
(* ================================================================== *)

(** After the bookkeeping the alt-tab menu counts as visible iff it did
    before or the event is the TAB key-down the heuristic looks for. *)
Lemma bookkeeping_menu os lParam vk sc key_up s :
  menu_visible (exec (bookkeeping os lParam vk sc key_up) s)
  = menu_visible s || alt_tab_heuristic vk key_up s.
Proof.
  unfold bookkeeping. rewrite !exec_bind, exec_ret.
  assert (K1 : keeps (same (fun x => (dsp x, trk x)))
                 (claim_history_slot vk sc key_up (dwExtraInfo lParam)))
    by (unfold claim_history_slot; frame).
  assert (K2 : keeps (same (fun x => (dsp x, trk x)))
                 (update_pad_state os vk sc key_up))
    by (unfold update_pad_state; frame).
  assert (K4 : keeps (same menu_visible) (track_plain_key os lParam vk sc key_up))
    by (unfold track_plain_key, phys_key_store, EventIsPhysical; cbv zeta; frame).
  set (s1 := exec (claim_history_slot vk sc key_up (dwExtraInfo lParam)) s).
  set (s2 := exec (update_pad_state os vk sc key_up) s1).
  set (s3 := exec (AltTabMenuHeuristic vk key_up) s2).
  rewrite (K4 s3).
  assert (E2 : (dsp s2, trk s2) = (dsp s, trk s)).
  { unfold s2. rewrite (K2 s1). unfold s1. apply (K1 s). }
  injection E2 as Ed Et.
  assert (H2 : alt_tab_heuristic vk key_up s2 = alt_tab_heuristic vk key_up s)
    by (unfold alt_tab_heuristic; rewrite Ed, Et; reflexivity).
  assert (V2 : menu_visible s2 = menu_visible s)
    by (unfold menu_visible; rewrite Ed; reflexivity).
  unfold s3, AltTabMenuHeuristic.
  rewrite exec_bind, eval_get, exec_get, H2, <- V2.
  destruct (alt_tab_heuristic vk key_up s); cbn [when].
  - rewrite orb_true_r. reflexivity.
  - rewrite orb_false_r. reflexivity.
Qed.

(** The key-down of a suffix, with no prefix held, for which the lookup by
    modifiers finds an id: the state in which the id is acted upon. *)
Lemma plain_suffix_down_found os wParam lParam s :
  dwExtraInfo lParam <> KEYIGNORE ->
  is_key_up wParam = false ->
  pPrefixKey (dsp s) = None ->
  used_as_prefix (deref s (event_key s lParam)) = false ->
  used_as_suffix (deref s (event_key s lParam)) = true ->
  menu_visible s || alt_tab_heuristic (vk_of (vkCode lParam)) false s
  = menu_visible s ->
  (fst (lookup_by_modifiers (vk_of (vkCode lParam)) (normalized_sc s lParam)
          (event_key s lParam) s) =? HOTKEY_ID_INVALID) = false ->
  exists cur s3,
    KeybdProc os HC_ACTION wParam lParam s
    = fire_hotkey KeyEvent os lParam (vk_of (vkCode lParam))
        (normalized_sc s lParam) false cur (event_key s lParam)
        (lookup_by_modifiers (vk_of (vkCode lParam)) (normalized_sc s lParam)
           (event_key s lParam) s) s3
    /\ sent s3 = sent s /\ posted s3 = posted s
    /\ pPrefixKey (dsp s3) = None
    /\ tbl s3 = tbl s
    /\ logical_mods s3 = logical_mods s
    /\ menu_visible s3 = menu_visible s
    /\ disguise_flags s3 = disguise_flags s
    /\ forall r, deref s3 r
                 = deref (on_key (event_key s lParam) (set_is_down true) s) r.
Proof.
  intros Hx Hup Hp Hpre Hsuf Hvis Hid.
  assert (Hd : disguise_armed (vk_of (vkCode lParam)) (is_key_up wParam) s = false)
    by (rewrite Hup; apply disguise_armed_key_down).
  rewrite (KeybdProc_dispatches os wParam lParam s Hx Hd).
  cbv zeta. rewrite Hup.
  set (vk := vk_of (vkCode lParam)) in *.
  set (sc := normalized_sc s lParam) in *.
  set (cur := eval (bookkeeping os lParam vk sc false) s).
  set (s1 := exec (bookkeeping os lParam vk sc false) s).
  assert (H1 : hook_core s1 = hook_core s) by apply bookkeeping_core.
  assert (H1s : sent s1 = sent s) by apply bookkeeping_sent.
  assert (H1l : logical_mods s1 = logical_mods s) by apply bookkeeping_logical.
  assert (H1v : menu_visible s1 = menu_visible s)
    by (unfold s1; rewrite bookkeeping_menu; exact Hvis).
  destruct (core_fields s s1 H1) as (D1 & P1 & T1 & Q1).
  unfold event_key in *. fold vk sc in Hpre, Hsuf, Hid |- *.
  set (this := this_key s vk sc) in *.
  assert (Hthis : this_key s1 vk sc = this) by apply (this_key_core _ _ vk sc H1).
  rewrite (dispatch_plain_suffix_down os lParam vk sc cur s1);
    rewrite ?Hthis, ?P1, ?D1; try assumption.
  set (s3 := on_key this (set_is_down true) s1).
  assert (P3 : pPrefixKey (dsp s3) = None)
    by (unfold s3; rewrite pPrefixKey_on_key, P1; exact Hp).
  assert (C3 : forall r, key_config (deref s3 r) = key_config (deref s r)).
  { intro r. unfold s3. rewrite set_is_down_config, D1. reflexivity. }
  assert (V3 : menu_visible s3 = menu_visible s)
    by (rewrite <- H1v; unfold s3; destruct this; reflexivity).
  assert (L3 : lookup_by_modifiers vk sc this s3 = lookup_by_modifiers vk sc this s).
  { apply lookup_by_modifiers_stable.
    - unfold s3. rewrite tbl_on_key. exact T1.
    - unfold s3. rewrite <- H1l. destruct this; reflexivity.
    - destruct (key_config_fields _ _ (C3 (InKsc sc))) as (_ & _ & _ & _ & E & _).
      exact E.
    - destruct (key_config_fields _ _ (C3 this)) as (_ & _ & E & _). exact E.
    - intro V. fold (menu_visible s) in V. fold (menu_visible s3).
      rewrite V3. exact V.
    - exact Hid. }
  exists cur, s3. split.
  { unfold Case4. rewrite bind_step, eval_get, exec_get, P3. cbn [andb].
    unfold lookup_and_fire. cbn [fst]. rewrite Z.eqb_refl.
    rewrite bind_step, eval_get, exec_get. cbv zeta.
    rewrite L3, Hid. reflexivity. }
  split; [unfold s3; rewrite sent_on_key; exact H1s | ].
  split; [unfold s3; rewrite posted_on_key; exact Q1 | ].
  split; [exact P3 | ].
  split; [unfold s3; rewrite tbl_on_key; exact T1 | ].
  split; [rewrite <- H1l; unfold s3, logical_mods; rewrite trk_on_key; reflexivity | ].
  split; [exact V3 | ].
  split.
  { transitivity (disguise_flags s1);
      [unfold s3; destruct this; reflexivity | apply disguise_flags_core; exact H1]. }
  intro r. unfold s3. rewrite !deref_on_key, !D1. reflexivity.
Qed.

(** AllowIt, when it does not suppress on account of a forced toggle and
    is not asked to disguise: it can only hide the alt-tab menu, and only
    on the key-up of an ALT key. *)
Lemma AllowIt_menu K os lParam sc key_up cur s :
  negb (dwExtraInfo lParam =? KEYIGNORE)
  && toggle_is_forced s (kvk (dsp s) (vk_of (vkCode lParam))) = false ->
  exists b,
    menu_visible (exec (AllowIt K os lParam sc key_up cur false) s)
    = menu_visible s && b
    /\ (((vkCode lParam =? VK_MENU) || (vkCode lParam =? VK_LMENU)
         || (vkCode lParam =? VK_RMENU)) && key_up = false -> b = true).
Proof.
  intro F. unfold AllowIt.
  rewrite exec_bind, eval_get, exec_get, F.
  rewrite exec_bind.
  rewrite exec_bind, eval_get, exec_get, exec_bind.
  rewrite exec_bind, eval_get, exec_get, exec_bind.
  rewrite exec_bind, eval_get, exec_get.
  match goal with
  | |- context [exec _ ?st] => set (s3 := st)
  end.
  assert (Ku : keeps (same dsp) (UpdateKeyState os lParam sc key_up false))
    by (intro x; apply UpdateKeyState_dsp).
  assert (E3 : dsp s3 = dsp s).
  { assert (Kt : keeps (same dsp)
                   (UpdateKeyState os lParam sc key_up false ;;
                    s <- get ;;
                    when (win_L_lock os lParam key_up s)
                      (modify (on_trk (set_physical 0)) ;;
                       modify (on_trk (set_logical 0)) ;;
                       phys_key_store VK_RWIN false ;;
                       phys_key_store VK_LWIN false ;;
                       phys_key_store (vkCode lParam) false) ;;
                    s <- get ;;
                    when (ctrl_alt_del os lParam key_up s)
                      (modify (on_trk (set_physical 0)) ;;
                       modify (on_trk (set_logical 0)) ;;
                       phys_key_store VK_RMENU false ;;
                       phys_key_store VK_LMENU false ;;
                       phys_key_store VK_RCONTROL false ;;
                       phys_key_store VK_LCONTROL false ;;
                       phys_key_store (vkCode lParam) false)))
      by (unfold phys_key_store; frame).
    unfold same in Kt. rewrite <- (Kt s). unfold s3. f_equal.
    rewrite !exec_bind, !eval_get, !exec_get. reflexivity. }
  assert (V3 : menu_visible s3 = menu_visible s)
    by (unfold menu_visible; rewrite E3; reflexivity).
  destruct (negb (nz (as_modifiersLR (kvk (dsp s3) (vk_of (vkCode lParam)))))).
  { exists true. rewrite exec_ret, andb_true_r. split; [exact V3 | reflexivity]. }
  rewrite exec_bind. cbn [andb]. rewrite exec_ret.
  match goal with
  | |- context [when ?c _] => set (hide := c)
  end.
  exists (negb hide). split.
  - destruct hide; cbn [when negb].
    + rewrite andb_false_r. reflexivity.
    + rewrite exec_ret, andb_true_r. exact V3.
  - intro A. unfold hide.
    destruct (alt_tab_menu_is_visible (dsp s3)); [ | reflexivity].
    cbn [andb]. rewrite A. reflexivity.
Qed.

(** The hook on one of its own keystrokes: the heuristic may show the
    alt-tab menu, an ALT key-up may hide it. *)
Lemma ignored_event_menu K os wParam lParam s :
  dwExtraInfo lParam = KEYIGNORE ->
  exists b,
    menu_visible (exec (LowLevelKeybdProc K os HC_ACTION wParam lParam) s)
    = (menu_visible s
       || alt_tab_heuristic (vk_of (vkCode lParam)) (is_key_up wParam) s) && b
    /\ (((vkCode lParam =? VK_MENU) || (vkCode lParam =? VK_LMENU)
         || (vkCode lParam =? VK_RMENU)) && is_key_up wParam = false -> b = true).
Proof.
  intro Hx. unfold LowLevelKeybdProc.
  change (negb (HC_ACTION =? HC_ACTION)) with false. cbv iota zeta.
  rewrite exec_bind, eval_get, exec_get, exec_bind.
  rewrite Hx, Z.eqb_refl. unfold AllowKeyToGoToSystem.
  fold (is_key_up wParam).
  set (vk := vk_of (vkCode lParam)).
  set (sc := normalized_sc s lParam).
  set (s1 := exec (bookkeeping os lParam vk sc (is_key_up wParam)) s).
  set (cur := eval (bookkeeping os lParam vk sc (is_key_up wParam)) s).
  assert (F : negb (dwExtraInfo lParam =? KEYIGNORE)
              && toggle_is_forced s1 (kvk (dsp s1) (vk_of (vkCode lParam))) = false)
    by (rewrite Hx, Z.eqb_refl; reflexivity).
  destruct (AllowIt_menu K os lParam sc (is_key_up wParam) cur s1 F) as (b & E & Hb).
  exists b. split; [ | exact Hb].
  rewrite E. unfold s1. rewrite bookkeeping_menu. reflexivity.
Qed.

Lemma send_one_menu os up v sc s :
  exists b,
    menu_visible (exec (send_one os up v sc) s)
    = (menu_visible s || alt_tab_heuristic (vk_of v) up s) && b
    /\ (((v =? VK_MENU) || (v =? VK_LMENU) || (v =? VK_RMENU)) && up = false ->
        b = true).
Proof.
  unfold send_one. rewrite !exec_bind, exec_ret.
  set (s0 := exec (modify (push_sent (mkSent up v sc KEYIGNORE))) s).
  destruct (ignored_event_menu KeyEvent_record_only os
              (if up then WM_KEYUP else WM_KEYDOWN) (synthesized_event os v sc)
              s0 eq_refl) as (b & E & Hb).
  assert (U : is_key_up (if up then WM_KEYUP else WM_KEYDOWN) = up)
    by (destruct up; reflexivity).
  rewrite U in E, Hb.
  exists b. split; [exact E | exact Hb].
Qed.

(** A keystroke of the hook that is not the key-up of an ALT key leaves a
    visible alt-tab menu visible. *)
Lemma send_one_stays_visible os up v sc s :
  ((v =? VK_MENU) || (v =? VK_LMENU) || (v =? VK_RMENU)) && up = false ->
  menu_visible s = true ->
  menu_visible (exec (send_one os up v sc) s) = true.
Proof.
  intros A V. destruct (send_one_menu os up v sc s) as (b & E & Hb).
  rewrite E, V, (Hb A). reflexivity.
Qed.

(** A keystroke of the hook that is not the key-down of TAB leaves a
    hidden alt-tab menu hidden. *)
Lemma send_one_stays_hidden os up v sc s :
  (vk_of v =? VK_TAB) && negb up = false ->
  menu_visible s = false ->
  menu_visible (exec (send_one os up v sc) s) = false.
Proof.
  intros T V. destruct (send_one_menu os up v sc s) as (b & E & _).
  rewrite E, V. unfold alt_tab_heuristic. rewrite T. reflexivity.
Qed.

Lemma alt_test_order v :
  (v =? VK_MENU) || (v =? VK_LMENU) || (v =? VK_RMENU) = is_alt_vk v.
Proof.
  unfold is_alt_vk.
  destruct (v =? VK_MENU), (v =? VK_LMENU), (v =? VK_RMENU); reflexivity.
Qed.

Lemma KeyEvent_stays_visible os ty v sc s :
  is_alt_vk v = false ->
  menu_visible s = true ->
  menu_visible (exec (KeyEvent os ty v sc) s) = true.
Proof.
  intros A V.
  assert (A' : forall up,
             ((v =? VK_MENU) || (v =? VK_LMENU) || (v =? VK_RMENU)) && up = false)
    by (intro up; rewrite alt_test_order, A; reflexivity).
  destruct ty; cbn [KeyEvent]; rewrite ?exec_bind;
    repeat apply send_one_stays_visible; auto.
Qed.

Lemma KeyEvent_stays_hidden os ty v sc s :
  (vk_of v =? VK_TAB) = false ->
  menu_visible s = false ->
  menu_visible (exec (KeyEvent os ty v sc) s) = false.
Proof.
  intros T V.
  assert (T' : forall up, (vk_of v =? VK_TAB) && negb up = false)
    by (intro up; rewrite T; reflexivity).
  destruct ty; cbn [KeyEvent]; rewrite ?exec_bind;
    repeat apply send_one_stays_hidden; auto.
Qed.

(** SuppressThisKeyFunc leaves the alt-tab menu as it is. *)
Lemma SuppressThisKeyFunc_menu os lParam sc key_up cur s :
  menu_visible (exec (SuppressThisKeyFunc KeyEvent os lParam sc key_up cur) s)
  = menu_visible s.
Proof.
  unfold SuppressThisKeyFunc.
  rewrite exec_bind, eval_get, exec_get, !exec_bind, exec_ret.
  unfold menu_visible at 1. rewrite UpdateKeyState_dsp.
  match goal with
  | |- context [exec (when ?c ?k) ?st] => set (s1 := st); set (fix_it := c)
  end.
  fold (menu_visible (exec (when fix_it
                              (KeyEvent os KEYUP VK_NUMLOCK 0 ;;
                               KeyEvent os KEYDOWN VK_NUMLOCK 0 ;;
                               KeyEvent os KEYUP VK_NUMLOCK 0 ;;
                               KeyEvent os KEYDOWN VK_NUMLOCK 0)) s1)).
  assert (V1 : menu_visible s1 = menu_visible s).
  { unfold s1. destruct (curr_event_type s cur =? ET_blank); reflexivity. }
  rewrite <- V1.
  destruct fix_it; cbn [when]; [ | reflexivity].
  rewrite !exec_bind.
  destruct (menu_visible s1) eqn:V.
  - repeat apply KeyEvent_stays_visible; auto.
  - repeat apply KeyEvent_stays_hidden; auto.
Qed.

Lemma arm_disguise_menu : keeps (same menu_visible) arm_disguise.
Proof. unfold arm_disguise. cbv zeta. frame. Qed.

Lemma arm_disguise_logical : keeps (same logical_mods) arm_disguise.
Proof. unfold arm_disguise. cbv zeta. frame. Qed.

(** AltTab, ShiftAltTab and AltTabMenuDismiss found by the lookup while
    the alt-tab menu is not displayed: the key goes to the system. *)
Lemma alt_tab_without_menu os lParam vk sc cur this id ns s :
  needs_alt_tab_menu id = true ->
  menu_visible s = false ->
  fire_hotkey KeyEvent os lParam vk sc false cur this (id, ns) s
  = AllowKeyToGoToSystem KeyEvent os lParam sc false cur (exec arm_disguise s).
Proof.
  intros Hid V. unfold fire_hotkey. rewrite bind_step.
  set (s1 := exec arm_disguise s).
  assert (V1 : alt_tab_menu_is_visible (dsp s1) = false)
    by (fold (menu_visible s1); unfold s1; rewrite arm_disguise_menu; exact V).
  set (A := AllowKeyToGoToSystem KeyEvent os lParam sc false cur).
  assert (P : perform_hotkey KeyEvent os lParam vk sc false cur this id s1
              = (Some (eval A s1), exec A s1)).
  { unfold needs_alt_tab_menu in Hid.
    apply orb_prop in Hid. destruct Hid as [Hid | Hid];
      [apply orb_prop in Hid; destruct Hid as [Hid | Hid] | ];
      apply Z.eqb_eq in Hid; subst id; unfold perform_hotkey; eqb_consts;
      cbv iota; cbn [orb]; unfold switch_alt_tab;
      rewrite bind_step, eval_get, exec_get, V1; cbn [negb];
      rewrite bind_step; reflexivity. }
  cbn [fst snd]. rewrite bind_step.
  change (eval (perform_hotkey KeyEvent os lParam vk sc false cur this id) s1)
    with (fst (perform_hotkey KeyEvent os lParam vk sc false cur this id s1)).
  change (exec (perform_hotkey KeyEvent os lParam vk sc false cur this id) s1)
    with (snd (perform_hotkey KeyEvent os lParam vk sc false cur this id s1)).
  rewrite P. cbn [fst snd]. rewrite (run_pair A s1). reflexivity.
Qed.

Lemma AllowKeyToGoToSystem_hidden os lParam sc key_up cur s :
  menu_visible s = false ->
  menu_visible (exec (AllowKeyToGoToSystem KeyEvent os lParam sc key_up cur) s)
  = false.
Proof.
  intro V. unfold AllowKeyToGoToSystem.
  destruct (negb (dwExtraInfo lParam =? KEYIGNORE)
            && toggle_is_forced s (kvk (dsp s) (vk_of (vkCode lParam)))) eqn:F.
  - unfold AllowIt. rewrite exec_bind, eval_get, exec_get, F.
    rewrite SuppressThisKeyFunc_menu. exact V.
  - destruct (AllowIt_menu KeyEvent os lParam sc key_up cur s F) as (b & E & _).
    rewrite E, V. reflexivity.
Qed.

(** The key-down of a suffix whose hotkey, found by the modifiers, is
    AltTab, ShiftAltTab or AltTabMenuDismiss, while the alt-tab menu is not
    displayed. *)
Lemma alt_tab_hotkey_needs_menu os wParam lParam s :
  dwExtraInfo lParam <> KEYIGNORE ->
  is_key_up wParam = false ->
  pPrefixKey (dsp s) = None ->
  used_as_prefix (deref s (event_key s lParam)) = false ->
  used_as_suffix (deref s (event_key s lParam)) = true ->
  menu_visible s = false ->
  alt_tab_heuristic (vk_of (vkCode lParam)) false s = false ->
  needs_alt_tab_menu
    (fst (lookup_by_modifiers (vk_of (vkCode lParam)) (normalized_sc s lParam)
            (event_key s lParam) s)) = true ->
  let s' := exec (KeybdProc os HC_ACTION wParam lParam) s in
  let forced := toggle_is_forced s (kvk (dsp s) (vk_of (vkCode lParam))) in
  eval (KeybdProc os HC_ACTION wParam lParam) s
  = (if forced then Suppressed else PassedOn)
  /\ sent s' = sent s ++ (if forced then numlock_fix_for lParam false else [])
  /\ posted s' = posted s
  /\ pPrefixKey (dsp s') = None
  /\ down_performed_action (deref s' (event_key s lParam))
     = down_performed_action (deref s (event_key s lParam))
  /\ menu_visible s' = false.
Proof.
  intros Hx Hup Hp Hpre Hsuf V Hh Hid. cbv zeta.
  assert (Hvis : menu_visible s || alt_tab_heuristic (vk_of (vkCode lParam)) false s
                 = menu_visible s) by (rewrite V, Hh; reflexivity).
  assert (Hfound : (fst (lookup_by_modifiers (vk_of (vkCode lParam))
                           (normalized_sc s lParam) (event_key s lParam) s)
                    =? HOTKEY_ID_INVALID) = false).
  { unfold needs_alt_tab_menu in Hid.
    apply orb_prop in Hid. destruct Hid as [Hid | Hid];
      [apply orb_prop in Hid; destruct Hid as [Hid | Hid] | ];
      apply Z.eqb_eq in Hid; rewrite Hid; reflexivity. }
  destruct (plain_suffix_down_found os wParam lParam s
              Hx Hup Hp Hpre Hsuf Hvis Hfound)
    as (cur & s3 & E & S3 & Q3 & P3 & T3 & L3 & V3 & F3 & D3).
  set (vk := vk_of (vkCode lParam)) in *.
  set (sc := normalized_sc s lParam) in *.
  set (this := event_key s lParam) in *.
  destruct (lookup_by_modifiers vk sc this s) as [id ns].
  cbn [fst] in Hid.
  rewrite (alt_tab_without_menu os lParam vk sc cur this id ns s3 Hid) in E
    by (rewrite V3; exact V).
  set (s4 := exec arm_disguise s3) in *.
  destruct (dispatch_data_fields s3 s4 (arm_disguise_data s3))
    as (D4 & P4 & T4 & Q4 & S4).
  assert (V4 : menu_visible s4 = false)
    by (unfold s4; rewrite arm_disguise_menu, V3; exact V).
  change (eval (KeybdProc os HC_ACTION wParam lParam) s)
    with (fst (KeybdProc os HC_ACTION wParam lParam s)).
  change (exec (KeybdProc os HC_ACTION wParam lParam) s)
    with (snd (KeybdProc os HC_ACTION wParam lParam s)).
  rewrite E.
  set (A := AllowKeyToGoToSystem KeyEvent os lParam sc false cur).
  change (fst (A s4)) with (eval A s4). change (snd (A s4)) with (exec A s4).
  destruct (AllowIt_contract os lParam sc false cur false s4) as (Rv & Rs & Rc).
  cbv zeta in Rv, Rs, Rc. fold vk in Rv, Rs.
  destruct (core_fields s4 (exec A s4) Rc) as (D5 & P5 & T5 & Q5).
  assert (Fx : negb (dwExtraInfo lParam =? KEYIGNORE) = true)
    by (apply negb_true_iff, Z.eqb_neq; exact Hx).
  assert (Ff : toggle_is_forced s4 (kvk (dsp s4) vk)
               = toggle_is_forced s (kvk (dsp s) vk)).
  { apply toggle_is_forced_config; [rewrite T4; exact T3 | ].
    change (kvk (dsp s4) vk) with (deref s4 (InKvk vk)).
    rewrite D4, D3. apply (set_is_down_config this true s (InKvk vk)). }
  rewrite Fx, Ff in Rv, Rs. cbn [andb] in Rv, Rs.
  rewrite andb_false_r in Rv, Rs.
  split; [exact Rv | ].
  split.
  { unfold A, AllowKeyToGoToSystem. rewrite Rs, S4, S3. reflexivity. }
  split; [rewrite Q5, Q4; exact Q3 | ].
  split; [rewrite P5, P4; exact P3 | ].
  split.
  { rewrite D5, D4, D3, deref_on_key, KeyRef_eqb_refl. reflexivity. }
  apply AllowKeyToGoToSystem_hidden. exact V4.
Qed.

(** X25.  AltTab, ShiftAltTab and AltTabMenuDismiss, as hotkeys without a
    prefix, take effect only while the alt-tab menu is displayed.  When a
    key-down that is not the engine's own arrives for a suffix (not a
    prefix, no prefix held) whose hotkey, found by the modifiers, is one of
    the three, and the menu is not displayed (nor is this the TAB key-down
    with ALT held that the hook takes for the menu appearing), the key
    does its native function: the event is passed on, unless the key is
    force-toggled, in which case it is suppressed as any event of that key
    is; nothing is posted, nothing is sent beyond the Numlock fix of that
    suppression, down_performed_action is not set, and the menu still
    counts as not displayed. *)
Theorem X25_alt_tab_hotkey_needs_the_menu :
  forall os wParam lParam s,
    dwExtraInfo lParam <> KEYIGNORE ->
    is_key_up wParam = false ->
    pPrefixKey (dsp s) = None ->
    used_as_prefix (deref s (event_key s lParam)) = false ->
    used_as_suffix (deref s (event_key s lParam)) = true ->
    menu_visible s = false ->
    alt_tab_heuristic (vk_of (vkCode lParam)) false s = false ->
    needs_alt_tab_menu
      (fst (lookup_by_modifiers (vk_of (vkCode lParam)) (normalized_sc s lParam)
              (event_key s lParam) s)) = true ->
    let s' := exec (KeybdProc os HC_ACTION wParam lParam) s in
    let forced := toggle_is_forced s (kvk (dsp s) (vk_of (vkCode lParam))) in
    eval (KeybdProc os HC_ACTION wParam lParam) s
    = (if forced then Suppressed else PassedOn)
    /\ sent s' = sent s ++ (if forced then numlock_fix_for lParam false else [])
    /\ posted s' = posted s
    /\ pPrefixKey (dsp s') = None
    /\ down_performed_action (deref s' (event_key s lParam))
       = down_performed_action (deref s (event_key s lParam))
    /\ menu_visible s' = false.
Proof.
  intros os wParam lParam s Hx Hup Hp Hpre Hsuf V Hh Hid.
  exact (alt_tab_hotkey_needs_menu os wParam lParam s Hx Hup Hp Hpre Hsuf V Hh Hid).
Qed.

(** A run that meets the hypotheses of X25: the script "a::AltTab", and
    the key-down of a with no alt-tab menu on the screen. *)
Lemma X25_alt_tab_hotkey_needs_the_menu_witness :
  eval (deliver (ex_down (ex_WinXP 100) ex_VK_A 0x1E))
    (ex_engine_alt_tab_key HOTKEY_ID_ALT_TAB) = PassedOn
  /\ sent (exec (deliver (ex_down (ex_WinXP 100) ex_VK_A 0x1E))
             (ex_engine_alt_tab_key HOTKEY_ID_ALT_TAB)) = [].
Proof.
  assert (Hx : dwExtraInfo (d_lParam (ex_down (ex_WinXP 100) ex_VK_A 0x1E))
               <> KEYIGNORE) by (vm_compute; discriminate).
  destruct (X25_alt_tab_hotkey_needs_the_menu
              (ex_WinXP 100) WM_KEYDOWN
              (d_lParam (ex_down (ex_WinXP 100) ex_VK_A 0x1E))
              (ex_engine_alt_tab_key HOTKEY_ID_ALT_TAB)
              Hx eq_refl eq_refl eq_refl eq_refl eq_refl eq_refl eq_refl)
    as (Hv & Hs & _).
  split; [exact Hv | exact Hs].
Defined.
(* ================================================================== *)
(** ** Showing and dismissing the alt-tab menu *)
(* ================================================================== *)

(** What follows the switch on a key-down while no prefix is held. *)
Lemma after_hotkey_down os lParam vk sc cur this ns s :
  pPrefixKey (dsp s) = None ->
  let c := after_hotkey KeyEvent os lParam vk sc false cur this ns in
  eval c s = Suppressed
  /\ sent (exec c s)
     = sent s ++ (if ns then keystrokes KEYDOWNANDUP vk sc else [])
         ++ numlock_fix_for lParam false
  /\ posted (exec c s) = posted s
  /\ pPrefixKey (dsp (exec c s)) = None
  /\ (forall r, deref (exec c s) r
                = deref (on_key this (set_down_performed_action true) s) r)
  /\ (ns && is_alt_vk vk = false ->
      menu_visible s = true -> menu_visible (exec c s) = true)
  /\ (ns && (vk_of vk =? VK_TAB) = false ->
      menu_visible s = false -> menu_visible (exec c s) = false).
Proof.
  intro Hp. cbv zeta.
  set (s1 := exec (set_curr_event_type cur ET_hotkey) s).
  set (s2 := on_key this (set_down_performed_action true) s1).
  set (tail := when ns (KeyEvent os KEYDOWNANDUP vk sc) ;;
               SuppressThisKey KeyEvent os lParam sc false cur).
  assert (P2 : pPrefixKey (dsp s2) = None)
    by (unfold s2; rewrite pPrefixKey_on_key; exact Hp).
  assert (E : after_hotkey KeyEvent os lParam vk sc false cur this ns s = tail s2).
  { unfold after_hotkey. rewrite bind_step. fold s1.
    rewrite bind_step, eval_get, exec_get.
    rewrite !andb_false_r.
    rewrite bind_step, exec_modify. fold s2.
    rewrite bind_step, on_prefix_exec, P2. reflexivity. }
  change (eval (after_hotkey KeyEvent os lParam vk sc false cur this ns) s)
    with (fst (after_hotkey KeyEvent os lParam vk sc false cur this ns s)).
  change (exec (after_hotkey KeyEvent os lParam vk sc false cur this ns) s)
    with (snd (after_hotkey KeyEvent os lParam vk sc false cur this ns s)).
  rewrite E.
  change (fst (tail s2)) with (eval tail s2).
  change (snd (tail s2)) with (exec tail s2).
  destruct (core_fields s2 (exec tail s2) (hotkey_tail_core os lParam vk sc cur ns s2))
    as (D5 & P5 & T5 & Q5).
  assert (Vt : forall x, menu_visible (exec tail x)
                         = menu_visible (exec (when ns (KeyEvent os KEYDOWNANDUP vk sc)) x)).
  { intro x. unfold tail. rewrite exec_bind. unfold SuppressThisKey.
    apply SuppressThisKeyFunc_menu. }
  split; [apply hotkey_tail_returns | ].
  split.
  { unfold tail. rewrite hotkey_tail_sent. unfold s2. rewrite sent_on_key.
    reflexivity. }
  split; [rewrite Q5; unfold s2; rewrite posted_on_key; reflexivity | ].
  split; [rewrite P5; exact P2 | ].
  split.
  { intro r. rewrite D5. unfold s2. rewrite !deref_on_key.
    destruct r, this; reflexivity. }
  assert (V2 : menu_visible s2 = menu_visible s)
    by (unfold s2; destruct this; reflexivity).
  split.
  - intros A V. rewrite Vt. destruct ns; cbn [when andb] in *.
    + apply KeyEvent_stays_visible; [exact A | rewrite V2; exact V].
    + rewrite exec_ret, V2. exact V.
  - intros T V. rewrite Vt. destruct ns; cbn [when andb] in *.
    + apply KeyEvent_stays_hidden; [exact T | rewrite V2; exact V].
    + rewrite exec_ret, V2. exact V.
Qed.

(** AltTabMenu and AltTabAndMenu while the alt-tab menu is not displayed,
    no ALT, SHIFT or CTRL key is logically down and the hotkey's own key is
    none of them: ALT and TAB are put down and the menu counts as
    displayed. *)
Lemma switch_shows_menu os lParam vk sc cur this id s :
  shows_alt_tab_menu id = true ->
  menu_visible s = false ->
  alt_shift_control_down s = false ->
  is_alt_vk vk = false -> is_shift_vk vk = false -> is_control_vk vk = false ->
  perform_hotkey KeyEvent os lParam vk sc false cur this id s
  = (None, on_dsp (set_alt_tab_menu_is_visible true)
             (exec (KeyEvent os KEYDOWN VK_TAB 0)
                (exec (KeyEvent os KEYDOWN VK_MENU 0) s))).
Proof.
  intros Hid V Hq Halt Hshift Hctl.
  destruct (alt_shift_control_up s Hq) as (A1 & A2 & Q0).
  assert (B : forall bit,
             Z.land (Z.lor (Z.lor MOD_LSHIFT MOD_RSHIFT)
                           (Z.lor MOD_LCONTROL MOD_RCONTROL)) bit = bit ->
             logical_has s bit = false)
    by (intros bit Hb; apply shift_control_quiet; assumption).
  assert (E : switch_alt_tab_menu KeyEvent os lParam vk sc false cur this id s
              = (None, on_dsp (set_alt_tab_menu_is_visible true)
                         (exec (KeyEvent os KEYDOWN VK_TAB 0)
                            (exec (KeyEvent os KEYDOWN VK_MENU 0) s)))).
  { unfold switch_alt_tab_menu. rewrite bind_step, eval_get, exec_get.
    cbv zeta.
    change (alt_tab_menu_is_visible (dsp s)) with (menu_visible s).
    rewrite V, A1, A2, Halt, Hshift, Hctl.
    rewrite !(B MOD_LSHIFT), !(B MOD_RSHIFT), !(B MOD_LCONTROL), !(B MOD_RCONTROL)
      by reflexivity.
    cbn [negb andb]. change (nz 0) with false. cbn [negb andb when].
    rewrite !bind_step, !exec_ret, exec_modify. reflexivity. }
  unfold shows_alt_tab_menu in Hid.
  apply orb_prop in Hid.
  destruct Hid as [Hid | Hid]; apply Z.eqb_eq in Hid; subst id;
    unfold perform_hotkey; eqb_consts; cbn [orb]; cbv iota; exact E.
Qed.

(** AltTabMenu and AltTabMenuDismiss while the alt-tab menu is displayed:
    the ALT key is released, and so is the hotkey's own key if it is a
    modifier other than a WIN key. *)
Lemma switch_dismisses_menu os lParam vk sc cur this id s :
  dismisses_alt_tab_menu id = true ->
  menu_visible s = true ->
  perform_hotkey KeyEvent os lParam vk sc false cur this id s
  = (None, on_dsp (set_alt_tab_menu_is_visible false)
             (exec (when (nz (as_modifiersLR (deref s this))
                          && negb (vk =? VK_LWIN) && negb (vk =? VK_RWIN))
                      (KeyEvent os KEYUP vk 0))
                (exec (KeyEvent os KEYUP (alt_key_to_release s) 0) s))).
Proof.
  intros Hid V.
  assert (K : (if nz (if logical_has s MOD_LALT then VK_LMENU
                      else if logical_has s MOD_RALT then VK_RMENU else 0)
               then (if logical_has s MOD_LALT then VK_LMENU
                     else if logical_has s MOD_RALT then VK_RMENU else 0)
               else VK_MENU) = alt_key_to_release s).
  { unfold alt_key_to_release.
    destruct (logical_has s MOD_LALT); [reflexivity | ].
    destruct (logical_has s MOD_RALT); reflexivity. }
  assert (E : negb (id =? HOTKEY_ID_ALT_TAB_AND_MENU) = true ->
              switch_alt_tab_menu KeyEvent os lParam vk sc false cur this id s
              = (None, on_dsp (set_alt_tab_menu_is_visible false)
                         (exec (when (nz (as_modifiersLR (deref s this))
                                      && negb (vk =? VK_LWIN) && negb (vk =? VK_RWIN))
                                  (KeyEvent os KEYUP vk 0))
                            (exec (KeyEvent os KEYUP (alt_key_to_release s) 0) s)))).
  { intro N. unfold switch_alt_tab_menu. rewrite bind_step, eval_get, exec_get.
    cbv zeta.
    change (alt_tab_menu_is_visible (dsp s)) with (menu_visible s).
    rewrite V, N, K.
    rewrite !bind_step, exec_modify. reflexivity. }
  unfold dismisses_alt_tab_menu in Hid.
  apply orb_prop in Hid.
  destruct Hid as [Hid | Hid]; apply Z.eqb_eq in Hid; subst id;
    unfold perform_hotkey; eqb_consts; cbn [orb]; cbv iota.
  - apply E. reflexivity.
  - rewrite bind_step, eval_get, exec_get.
    change (alt_tab_menu_is_visible (dsp s)) with (menu_visible s).
    rewrite V. cbn [negb]. apply E. reflexivity.
Qed.

Lemma fire_hotkey_step os lParam vk sc cur this found s s7 :
  perform_hotkey KeyEvent os lParam vk sc false cur this (fst found)
    (exec arm_disguise s) = (None, s7) ->
  fire_hotkey KeyEvent os lParam vk sc false cur this found s
  = after_hotkey KeyEvent os lParam vk sc false cur this (snd found) s7.
Proof.
  intro P. unfold fire_hotkey. rewrite bind_step, bind_step.
  change (eval (perform_hotkey KeyEvent os lParam vk sc false cur this (fst found))
            (exec arm_disguise s))
    with (fst (perform_hotkey KeyEvent os lParam vk sc false cur this (fst found)
                 (exec arm_disguise s))).
  change (exec (perform_hotkey KeyEvent os lParam vk sc false cur this (fst found))
            (exec arm_disguise s))
    with (snd (perform_hotkey KeyEvent os lParam vk sc false cur this (fst found)
                 (exec arm_disguise s))).
  rewrite P. reflexivity.
Qed.

Lemma vk_of_idem x : vk_of (vk_of x) = vk_of x.
Proof. unfold vk_of. apply Z.mod_mod. discriminate. Qed.

(** The key-down of a suffix whose hotkey, found by the modifiers, is
    AltTabMenu or AltTabAndMenu, while the alt-tab menu is not displayed. *)
Lemma alt_tab_menu_shown os wParam lParam s :
  dwExtraInfo lParam <> KEYIGNORE ->
  is_key_up wParam = false ->
  pPrefixKey (dsp s) = None ->
  used_as_prefix (deref s (event_key s lParam)) = false ->
  used_as_suffix (deref s (event_key s lParam)) = true ->
  menu_visible s = false ->
  alt_shift_control_down s = false ->
  is_alt_vk (vk_of (vkCode lParam)) = false ->
  is_shift_vk (vk_of (vkCode lParam)) = false ->
  is_control_vk (vk_of (vkCode lParam)) = false ->
  shows_alt_tab_menu
    (fst (lookup_by_modifiers (vk_of (vkCode lParam)) (normalized_sc s lParam)
            (event_key s lParam) s)) = true ->
  let s' := exec (KeybdProc os HC_ACTION wParam lParam) s in
  let found := lookup_by_modifiers (vk_of (vkCode lParam))
                 (normalized_sc s lParam) (event_key s lParam) s in
  eval (KeybdProc os HC_ACTION wParam lParam) s = Suppressed
  /\ sent s'
     = sent s
       ++ [mkSent false VK_MENU 0 KEYIGNORE; mkSent false VK_TAB 0 KEYIGNORE]
       ++ (if snd found
           then keystrokes KEYDOWNANDUP (vk_of (vkCode lParam))
                  (normalized_sc s lParam)
           else [])
       ++ numlock_fix_for lParam false
  /\ posted s' = posted s
  /\ pPrefixKey (dsp s') = None
  /\ menu_visible s' = true
  /\ down_performed_action (deref s' (event_key s lParam)) = true.
Proof.
  intros Hx Hup Hp Hpre Hsuf V Hq Halt Hshift Hctl Hid. cbv zeta.
  destruct (alt_shift_control_up s Hq) as (A1 & A2 & _).
  assert (Hh : alt_tab_heuristic (vk_of (vkCode lParam)) false s = false).
  { unfold alt_tab_heuristic.
    fold (logical_has s MOD_LALT). fold (logical_has s MOD_RALT).
    rewrite A1, A2. cbn [orb]. rewrite !andb_false_r. reflexivity. }
  assert (Hvis : menu_visible s || alt_tab_heuristic (vk_of (vkCode lParam)) false s
                 = menu_visible s) by (rewrite V, Hh; reflexivity).
  assert (Hfound : (fst (lookup_by_modifiers (vk_of (vkCode lParam))
                           (normalized_sc s lParam) (event_key s lParam) s)
                    =? HOTKEY_ID_INVALID) = false).
  { unfold shows_alt_tab_menu in Hid.
    apply orb_prop in Hid. destruct Hid as [Hid | Hid];
      apply Z.eqb_eq in Hid; rewrite Hid; reflexivity. }
  destruct (plain_suffix_down_found os wParam lParam s
              Hx Hup Hp Hpre Hsuf Hvis Hfound)
    as (cur & s3 & E & S3 & Q3 & P3 & T3 & L3 & V3 & F3 & D3).
  set (vk := vk_of (vkCode lParam)) in *.
  set (sc := normalized_sc s lParam) in *.
  set (this := event_key s lParam) in *.
  set (found := lookup_by_modifiers vk sc this s) in *.
  set (s4 := exec arm_disguise s3).
  destruct (dispatch_data_fields s3 s4 (arm_disguise_data s3))
    as (D4 & P4 & T4 & Q4 & S4).
  assert (V4 : menu_visible s4 = false)
    by (unfold s4; rewrite arm_disguise_menu, V3; exact V).
  assert (Hq4 : alt_shift_control_down s4 = false).
  { rewrite <- Hq. apply alt_shift_control_down_logical.
    unfold s4. rewrite arm_disguise_logical. exact L3. }
  set (s5 := exec (KeyEvent os KEYDOWN VK_MENU 0) s4).
  set (s6 := exec (KeyEvent os KEYDOWN VK_TAB 0) s5).
  set (s7 := on_dsp (set_alt_tab_menu_is_visible true) s6).
  assert (P : perform_hotkey KeyEvent os lParam vk sc false cur this (fst found) s4
              = (None, s7))
    by (apply switch_shows_menu; assumption).
  rewrite (fire_hotkey_step os lParam vk sc cur this found s3 s7 P) in E.
  assert (H5 : hook_core s5 = hook_core s4) by apply KeyEvent_core.
  assert (H6 : hook_core s6 = hook_core s5) by apply KeyEvent_core.
  destruct (core_fields s4 s5 H5) as (D5 & P5 & T5 & Q5).
  destruct (core_fields s5 s6 H6) as (D6 & P6 & T6 & Q6).
  assert (P7 : pPrefixKey (dsp s7) = None).
  { change (pPrefixKey (dsp s7)) with (pPrefixKey (dsp s6)).
    rewrite P6, P5, P4. exact P3. }
  destruct (after_hotkey_down os lParam vk sc cur this (snd found) s7 P7)
    as (Rv & Rs & Rq & Rp & Rd & Rvis & _).
  change (eval (KeybdProc os HC_ACTION wParam lParam) s)
    with (fst (KeybdProc os HC_ACTION wParam lParam s)).
  change (exec (KeybdProc os HC_ACTION wParam lParam) s)
    with (snd (KeybdProc os HC_ACTION wParam lParam s)).
  rewrite E.
  set (c := after_hotkey KeyEvent os lParam vk sc false cur this (snd found)) in *.
  change (fst (c s7)) with (eval c s7). change (snd (c s7)) with (exec c s7).
  split; [exact Rv | ].
  split.
  { rewrite Rs. change (sent s7) with (sent s6).
    unfold s6. rewrite KeyEvent_sent. unfold s5. rewrite KeyEvent_sent.
    rewrite S4, S3. cbn [keystrokes]. rewrite <- !app_assoc. reflexivity. }
  split.
  { rewrite Rq. change (posted s7) with (posted s6).
    rewrite Q6, Q5, Q4. exact Q3. }
  split; [exact Rp | ].
  split.
  { apply Rvis; [rewrite Halt; apply andb_false_r | reflexivity]. }
  rewrite Rd, deref_on_key, KeyRef_eqb_refl. reflexivity.
Qed.

(** The key-down of a suffix whose hotkey, found by the modifiers, is
    AltTabMenu or AltTabMenuDismiss, while the alt-tab menu is displayed. *)
Lemma alt_tab_menu_dismissed os wParam lParam s :
  dwExtraInfo lParam <> KEYIGNORE ->
  is_key_up wParam = false ->
  pPrefixKey (dsp s) = None ->
  used_as_prefix (deref s (event_key s lParam)) = false ->
  used_as_suffix (deref s (event_key s lParam)) = true ->
  menu_visible s = true ->
  dismisses_alt_tab_menu
    (fst (lookup_by_modifiers (vk_of (vkCode lParam)) (normalized_sc s lParam)
            (event_key s lParam) s)) = true ->
  let s' := exec (KeybdProc os HC_ACTION wParam lParam) s in
  let vk := vk_of (vkCode lParam) in
  let found := lookup_by_modifiers vk (normalized_sc s lParam)
                 (event_key s lParam) s in
  eval (KeybdProc os HC_ACTION wParam lParam) s = Suppressed
  /\ sent s'
     = sent s
       ++ [mkSent true (alt_key_to_release s) 0 KEYIGNORE]
       ++ (if nz (as_modifiersLR (deref s (event_key s lParam)))
              && negb (vk =? VK_LWIN) && negb (vk =? VK_RWIN)
           then [mkSent true vk 0 KEYIGNORE] else [])
       ++ (if snd found
           then keystrokes KEYDOWNANDUP vk (normalized_sc s lParam)
           else [])
       ++ numlock_fix_for lParam false
  /\ posted s' = posted s
  /\ pPrefixKey (dsp s') = None
  /\ down_performed_action (deref s' (event_key s lParam)) = true
  /\ (snd found && (vk =? VK_TAB) = false -> menu_visible s' = false).
Proof.
  intros Hx Hup Hp Hpre Hsuf V Hid. cbv zeta.
  assert (Hvis : menu_visible s || alt_tab_heuristic (vk_of (vkCode lParam)) false s
                 = menu_visible s) by (rewrite V; reflexivity).
  assert (Hfound : (fst (lookup_by_modifiers (vk_of (vkCode lParam))
                           (normalized_sc s lParam) (event_key s lParam) s)
                    =? HOTKEY_ID_INVALID) = false).
  { unfold dismisses_alt_tab_menu in Hid.
    apply orb_prop in Hid. destruct Hid as [Hid | Hid];
      apply Z.eqb_eq in Hid; rewrite Hid; reflexivity. }
  destruct (plain_suffix_down_found os wParam lParam s
              Hx Hup Hp Hpre Hsuf Hvis Hfound)
    as (cur & s3 & E & S3 & Q3 & P3 & T3 & L3 & V3 & F3 & D3).
  set (vk := vk_of (vkCode lParam)) in *.
  set (sc := normalized_sc s lParam) in *.
  set (this := event_key s lParam) in *.
  set (found := lookup_by_modifiers vk sc this s) in *.
  set (s4 := exec arm_disguise s3).
  destruct (dispatch_data_fields s3 s4 (arm_disguise_data s3))
    as (D4 & P4 & T4 & Q4 & S4).
  assert (V4 : menu_visible s4 = true)
    by (unfold s4; rewrite arm_disguise_menu, V3; exact V).
  assert (L4 : logical_mods s4 = logical_mods s)
    by (unfold s4; rewrite arm_disguise_logical; exact L3).
  assert (R4 : alt_key_to_release s4 = alt_key_to_release s)
    by (unfold alt_key_to_release, logical_has; fold (logical_mods s4);
        fold (logical_mods s); rewrite L4; reflexivity).
  assert (M4 : as_modifiersLR (deref s4 this) = as_modifiersLR (deref s this)).
  { rewrite D4, D3.
    destruct (key_config_fields _ _ (set_is_down_config this true s this))
      as (_ & _ & M & _). exact M. }
  set (extra := nz (as_modifiersLR (deref s this))
                && negb (vk =? VK_LWIN) && negb (vk =? VK_RWIN)).
  set (s5 := exec (KeyEvent os KEYUP (alt_key_to_release s) 0) s4).
  set (s6 := exec (when extra (KeyEvent os KEYUP vk 0)) s5).
  set (s7 := on_dsp (set_alt_tab_menu_is_visible false) s6).
  assert (P : perform_hotkey KeyEvent os lParam vk sc false cur this (fst found) s4
              = (None, s7)).
  { rewrite (switch_dismisses_menu os lParam vk sc cur this (fst found) s4 Hid V4).
    rewrite R4, M4. reflexivity. }
  rewrite (fire_hotkey_step os lParam vk sc cur this found s3 s7 P) in E.
  assert (H5 : hook_core s5 = hook_core s4) by apply KeyEvent_core.
  assert (H6 : hook_core s6 = hook_core s5).
  { unfold s6. destruct extra; cbn [when]; [apply KeyEvent_core | reflexivity]. }
  assert (S6 : sent s6 = sent s5 ++ (if extra then [mkSent true vk 0 KEYIGNORE] else [])).
  { unfold s6. destruct extra; cbn [when].
    - rewrite KeyEvent_sent. reflexivity.
    - rewrite exec_ret, app_nil_r. reflexivity. }
  destruct (core_fields s4 s5 H5) as (D5 & P5 & T5 & Q5).
  destruct (core_fields s5 s6 H6) as (D6 & P6 & T6 & Q6).
  assert (P7 : pPrefixKey (dsp s7) = None).
  { change (pPrefixKey (dsp s7)) with (pPrefixKey (dsp s6)).
    rewrite P6, P5, P4. exact P3. }
  destruct (after_hotkey_down os lParam vk sc cur this (snd found) s7 P7)
    as (Rv & Rs & Rq & Rp & Rd & _ & Rhid).
  change (eval (KeybdProc os HC_ACTION wParam lParam) s)
    with (fst (KeybdProc os HC_ACTION wParam lParam s)).
  change (exec (KeybdProc os HC_ACTION wParam lParam) s)
    with (snd (KeybdProc os HC_ACTION wParam lParam s)).
  rewrite E.
  set (c := after_hotkey KeyEvent os lParam vk sc false cur this (snd found)) in *.
  change (fst (c s7)) with (eval c s7). change (snd (c s7)) with (exec c s7).
  split; [exact Rv | ].
  split.
  { rewrite Rs. change (sent s7) with (sent s6).
    rewrite S6. unfold s5. rewrite KeyEvent_sent.
    rewrite S4, S3. cbn [keystrokes]. rewrite <- !app_assoc. reflexivity. }
  split.
  { rewrite Rq. change (posted s7) with (posted s6).
    rewrite Q6, Q5, Q4. exact Q3. }
  split; [exact Rp | ].
  split.
  { rewrite Rd, deref_on_key, KeyRef_eqb_refl. reflexivity. }
  intro T. apply Rhid; [ | reflexivity].
  unfold vk. rewrite vk_of_idem. exact T.
Qed.

(** X26.  AltTabMenu and AltTabAndMenu display the alt-tab menu.  When a
    key-down that is not the engine's own arrives for a suffix (not a
    prefix, no prefix held; not an ALT, SHIFT or CTRL key) whose hotkey,
    found by the modifiers, is one of the two, while the menu is not
    displayed and no ALT, SHIFT or CTRL key is logically down, the hook
    suppresses the event and sends ALT down and TAB down, leaving both
    keys down (followed by the substitute down-and-up pair of a hotkey
    flagged HOTKEY_NO_SUPPRESS, and the Numlock fix for NUMLOCK); nothing
    is posted to the script; afterwards the menu counts as displayed and
    the key has down_performed_action set. *)
Theorem X26_alt_tab_menu_hotkey_shows_the_menu :
  forall os wParam lParam s,
    dwExtraInfo lParam <> KEYIGNORE ->
    is_key_up wParam = false ->
    pPrefixKey (dsp s) = None ->
    used_as_prefix (deref s (event_key s lParam)) = false ->
    used_as_suffix (deref s (event_key s lParam)) = true ->
    menu_visible s = false ->
    alt_shift_control_down s = false ->
    is_alt_vk (vk_of (vkCode lParam)) = false ->
    is_shift_vk (vk_of (vkCode lParam)) = false ->
    is_control_vk (vk_of (vkCode lParam)) = false ->
    shows_alt_tab_menu
      (fst (lookup_by_modifiers (vk_of (vkCode lParam)) (normalized_sc s lParam)
              (event_key s lParam) s)) = true ->
    let s' := exec (KeybdProc os HC_ACTION wParam lParam) s in
    let found := lookup_by_modifiers (vk_of (vkCode lParam))
                   (normalized_sc s lParam) (event_key s lParam) s in
    eval (KeybdProc os HC_ACTION wParam lParam) s = Suppressed
    /\ sent s'
       = sent s
         ++ [mkSent false VK_MENU 0 KEYIGNORE; mkSent false VK_TAB 0 KEYIGNORE]
         ++ (if snd found
             then keystrokes KEYDOWNANDUP (vk_of (vkCode lParam))
                    (normalized_sc s lParam)
             else [])
         ++ numlock_fix_for lParam false
    /\ posted s' = posted s
    /\ pPrefixKey (dsp s') = None
    /\ menu_visible s' = true
    /\ down_performed_action (deref s' (event_key s lParam)) = true.
Proof.
  intros os wParam lParam s Hx Hup Hp Hpre Hsuf V Hq Halt Hshift Hctl Hid.
  exact (alt_tab_menu_shown os wParam lParam s
           Hx Hup Hp Hpre Hsuf V Hq Halt Hshift Hctl Hid).
Qed.

(** A run that meets the hypotheses of X26: the script "a::AltTabMenu" and
    the key-down of a. *)
Lemma X26_alt_tab_menu_hotkey_shows_the_menu_witness :
  eval (deliver (ex_down (ex_WinXP 100) ex_VK_A 0x1E))
    (ex_engine_alt_tab_key HOTKEY_ID_ALT_TAB_MENU) = Suppressed
  /\ sent (exec (deliver (ex_down (ex_WinXP 100) ex_VK_A 0x1E))
             (ex_engine_alt_tab_key HOTKEY_ID_ALT_TAB_MENU))
     = [mkSent false VK_MENU 0 KEYIGNORE; mkSent false VK_TAB 0 KEYIGNORE]
  /\ menu_visible (exec (deliver (ex_down (ex_WinXP 100) ex_VK_A 0x1E))
                     (ex_engine_alt_tab_key HOTKEY_ID_ALT_TAB_MENU)) = true.
Proof.
  assert (Hx : dwExtraInfo (d_lParam (ex_down (ex_WinXP 100) ex_VK_A 0x1E))
               <> KEYIGNORE) by (vm_compute; discriminate).
  destruct (X26_alt_tab_menu_hotkey_shows_the_menu
              (ex_WinXP 100) WM_KEYDOWN
              (d_lParam (ex_down (ex_WinXP 100) ex_VK_A 0x1E))
              (ex_engine_alt_tab_key HOTKEY_ID_ALT_TAB_MENU)
              Hx eq_refl eq_refl eq_refl eq_refl eq_refl eq_refl eq_refl eq_refl
              eq_refl eq_refl)
    as (Hv & Hs & _ & _ & Hm & _).
  split; [exact Hv | ]. split; [exact Hs | exact Hm].
Defined.

(** X27.  AltTabMenu and AltTabMenuDismiss dismiss a displayed alt-tab
    menu.  When a key-down that is not the engine's own arrives for a
    suffix (not a prefix, no prefix held) whose hotkey, found by the
    modifiers, is one of the two, while the menu counts as displayed, the
    hook suppresses the event and releases ALT: it sends the key-up of
    VK_LMENU if the left ALT key is logically down, else of VK_RMENU if
    the right one is, else of VK_MENU; if the hotkey's own key is a
    modifier other than a WIN key its key-up is sent too (then the
    substitute pair of a HOTKEY_NO_SUPPRESS hotkey and the Numlock fix for
    NUMLOCK); nothing is posted; the key has down_performed_action set;
    and, unless a substitute TAB key-down was sent, the menu counts as not
    displayed afterwards. *)
Theorem X27_alt_tab_menu_hotkey_dismisses_the_menu :
  forall os wParam lParam s,
    dwExtraInfo lParam <> KEYIGNORE ->
    is_key_up wParam = false ->
    pPrefixKey (dsp s) = None ->
    used_as_prefix (deref s (event_key s lParam)) = false ->
    used_as_suffix (deref s (event_key s lParam)) = true ->
    menu_visible s = true ->
    dismisses_alt_tab_menu
      (fst (lookup_by_modifiers (vk_of (vkCode lParam)) (normalized_sc s lParam)
              (event_key s lParam) s)) = true ->
    let s' := exec (KeybdProc os HC_ACTION wParam lParam) s in
    let vk := vk_of (vkCode lParam) in
    let found := lookup_by_modifiers vk (normalized_sc s lParam)
                   (event_key s lParam) s in
    eval (KeybdProc os HC_ACTION wParam lParam) s = Suppressed
    /\ sent s'
       = sent s
         ++ [mkSent true (alt_key_to_release s) 0 KEYIGNORE]
         ++ (if nz (as_modifiersLR (deref s (event_key s lParam)))
                && negb (vk =? VK_LWIN) && negb (vk =? VK_RWIN)
             then [mkSent true vk 0 KEYIGNORE] else [])
         ++ (if snd found
             then keystrokes KEYDOWNANDUP vk (normalized_sc s lParam)
             else [])
         ++ numlock_fix_for lParam false
    /\ posted s' = posted s
    /\ pPrefixKey (dsp s') = None
    /\ down_performed_action (deref s' (event_key s lParam)) = true
    /\ (snd found && (vk =? VK_TAB) = false -> menu_visible s' = false).
Proof.
  intros os wParam lParam s Hx Hup Hp Hpre Hsuf V Hid.
  exact (alt_tab_menu_dismissed os wParam lParam s Hx Hup Hp Hpre Hsuf V Hid).
Qed.

(** A run that meets the hypotheses of X27: the script "a::AltTabMenu"
    after a has been pressed and released once, and a second key-down of
    a.  The left ALT key is logically down from the first press. *)
Lemma X27_alt_tab_menu_hotkey_dismisses_the_menu_witness :
  eval (deliver (ex_down (ex_WinXP 200) ex_VK_A 0x1E)) ex_engine_menu_shown
    = Suppressed
  /\ sent (exec (deliver (ex_down (ex_WinXP 200) ex_VK_A 0x1E))
             ex_engine_menu_shown)
     = [mkSent false VK_MENU 0 KEYIGNORE; mkSent false VK_TAB 0 KEYIGNORE;
        mkSent true VK_LMENU 0 KEYIGNORE]
  /\ menu_visible (exec (deliver (ex_down (ex_WinXP 200) ex_VK_A 0x1E))
                     ex_engine_menu_shown) = false.
Proof.
  assert (Hx : dwExtraInfo (d_lParam (ex_down (ex_WinXP 200) ex_VK_A 0x1E))
               <> KEYIGNORE) by (vm_compute; discriminate).
  assert (Hp : pPrefixKey (dsp ex_engine_menu_shown) = None)
    by (vm_compute; reflexivity).
  assert (Hpre : used_as_prefix
                   (deref ex_engine_menu_shown
                      (event_key ex_engine_menu_shown
                         (d_lParam (ex_down (ex_WinXP 200) ex_VK_A 0x1E))))
                 = false) by (vm_compute; reflexivity).
  assert (Hsuf : used_as_suffix
                   (deref ex_engine_menu_shown
                      (event_key ex_engine_menu_shown
                         (d_lParam (ex_down (ex_WinXP 200) ex_VK_A 0x1E))))
                 = true) by (vm_compute; reflexivity).
  assert (V : menu_visible ex_engine_menu_shown = true)
    by (vm_compute; reflexivity).
  assert (Hid : dismisses_alt_tab_menu
                  (fst (lookup_by_modifiers
                          (vk_of (vkCode (d_lParam (ex_down (ex_WinXP 200) ex_VK_A 0x1E))))
                          (normalized_sc ex_engine_menu_shown
                             (d_lParam (ex_down (ex_WinXP 200) ex_VK_A 0x1E)))
                          (event_key ex_engine_menu_shown
                             (d_lParam (ex_down (ex_WinXP 200) ex_VK_A 0x1E)))
                          ex_engine_menu_shown)) = true)
    by (vm_compute; reflexivity).
  destruct (X27_alt_tab_menu_hotkey_dismisses_the_menu
              (ex_WinXP 200) WM_KEYDOWN
              (d_lParam (ex_down (ex_WinXP 200) ex_VK_A 0x1E))
              ex_engine_menu_shown Hx eq_refl Hp Hpre Hsuf V Hid)
    as (Hv & Hs & _ & _ & _ & Hm).
  split; [exact Hv | ].
  split; [etransitivity; [exact Hs | vm_compute; reflexivity] | ].
  apply Hm. vm_compute. reflexivity.
Defined.
(* ================================================================== *)
(** ** What a suppressed modifier event still changes *)
(* ================================================================== *)

(** EventIsPhysical may consume the phantom-shift flag and may record the
    time of the event; it writes nothing else of the two. *)
Lemma EventIsPhysical_marks os lParam sc key_up s :
  let s' := exec (EventIsPhysical os lParam sc key_up) s in
  (next_phys_shift_down_is_not_phys (fix_ s')
   = next_phys_shift_down_is_not_phys (fix_ s)
   \/ next_phys_shift_down_is_not_phys (fix_ s') = false)
  /\ (g_TimeLastInputPhysical (trk s') = g_TimeLastInputPhysical (trk s)
      \/ g_TimeLastInputPhysical (trk s') = time lParam).
Proof.
  cbv zeta. unfold EventIsPhysical.
  destruct (injected lParam); [split; left; reflexivity | ].
  cbv zeta.
  destruct (((vkCode lParam =? VK_LSHIFT) || (vkCode lParam =? VK_SHIFT))
            && negb key_up).
  - rewrite exec_bind, eval_get, exec_get.
    destruct (next_phys_shift_down_is_not_phys (fix_ s)
              && negb (DualStateNumpadKeyIsDown s)).
    + split; [right | left]; reflexivity.
    + destruct (prior_was_recent_numpad_up os s).
      * split; left; reflexivity.
      * split; [left | right]; reflexivity.
  - split; [left | right]; reflexivity.
Qed.

(** With aIsSuppressed = true, what track_modifier leaves of the two marks
    is what its call of EventIsPhysical leaves of them. *)
Lemma track_modifier_marks os lParam sc key_up bit side pair s :
  physical_marks (exec (track_modifier os lParam sc key_up true bit side pair) s)
  = physical_marks (exec (EventIsPhysical os lParam sc key_up) s).
Proof.
  unfold track_modifier.
  destruct key_up; cbn [negb when]; rewrite exec_bind, exec_ret, exec_bind;
    match goal with
    | |- physical_marks (exec ?c ?x) = _ =>
        assert (K : keeps (same physical_marks) c);
        [ unfold physical_clear, physical_set, phys_key_store, phys_key_copy;
          destruct pair as [[n o] | ]; frame
        | apply K ]
    end.
Qed.

Lemma UpdateModifierState_marks os lParam sc key_up s :
  physical_marks (exec (UpdateModifierState os lParam sc key_up true) s)
  = physical_marks s
  \/ physical_marks (exec (UpdateModifierState os lParam sc key_up true) s)
     = physical_marks (exec (EventIsPhysical os lParam sc key_up) s).
Proof.
  unfold UpdateModifierState. cbv zeta.
  repeat match goal with
         | |- context [if ?c then _ else _] => destruct c
         end;
    first [right; apply track_modifier_marks | left; reflexivity].
Qed.

(** C7, as the code has it.  With aIsSuppressed = true, UpdateModifierState
    leaves g_modifiersLR_logical as it was, for every event, and so does
    UpdateKeyState, through which the suppressing path reaches it.  Beside
    g_modifiersLR_physical and g_PhysicalKeyState, UpdateModifierState may
    change two more things, through its call of EventIsPhysical: it may
    clear next_phys_shift_down_is_not_phys, and it may store the time of
    the event in g_TimeLastInputPhysical.  Everything else is unchanged:
    the rest of the shift-key workaround's record, the dispatcher's
    globals, the tables, the key history and the two outbound channels. *)
Theorem C7_suppressed_update_keeps_logical_mods :
  forall os lParam sc key_up s,
    let s' := exec (UpdateModifierState os lParam sc key_up true) s in
    g_modifiersLR_logical (trk s') = g_modifiersLR_logical (trk s)
    /\ g_modifiersLR_logical (trk (exec (UpdateKeyState os lParam sc key_up true) s))
       = g_modifiersLR_logical (trk s)
    /\ outside_tracker s' = outside_tracker s
    /\ shift_memory s' = shift_memory s
    /\ (next_phys_shift_down_is_not_phys (fix_ s')
        = next_phys_shift_down_is_not_phys (fix_ s)
        \/ next_phys_shift_down_is_not_phys (fix_ s') = false)
    /\ (g_TimeLastInputPhysical (trk s') = g_TimeLastInputPhysical (trk s)
        \/ g_TimeLastInputPhysical (trk s') = time lParam).
Proof.
  intros os lParam sc key_up s. cbv zeta.
  destruct (suppressed_update_logical os lParam sc key_up) as (HU & HK).
  split; [apply HU | ].
  split; [apply HK | ].
  split; [apply UpdateModifierState_outside | ].
  split; [apply UpdateModifierState_memory | ].
  destruct (EventIsPhysical_marks os lParam sc key_up s) as (F & T).
  cbv zeta in F, T.
  destruct (UpdateModifierState_marks os lParam sc key_up s) as [E | E];
    unfold physical_marks in E; injection E as E1 E2; rewrite E1, E2.
  - split; left; reflexivity.
  - split; assumption.
Qed.

(** C7, counterexample to "only physical_mods and the physical key table
    may change".  A suppressed, physical left SHIFT key-down that arrives
    while next_phys_shift_down_is_not_phys is set clears that flag (and is
    taken for the driver's phantom shift, so that the physical mask is not
    even touched); a suppressed, physical right SHIFT key-down stores its
    time in g_TimeLastInputPhysical.  Neither is the physical mask or the
    physical key table. *)
Lemma C7_counterexample_flag_and_time :
  let armed := on_fix (set_next_phys_shift_down_is_not_phys true) ex_engine0 in
  let lshift := mkEvent VK_LSHIFT 0x2A 0 500 0 in
  let rshift := mkEvent VK_RSHIFT 0x36 0 500 0 in
  let s1 := exec (UpdateModifierState (ex_WinXP 500) lshift 0x2A false true) armed in
  let s2 := exec (UpdateModifierState (ex_WinXP 500) rshift 0x36 false true)
              ex_engine0 in
  (next_phys_shift_down_is_not_phys (fix_ armed) = true
   /\ next_phys_shift_down_is_not_phys (fix_ s1) = false
   /\ g_modifiersLR_physical (trk s1) = g_modifiersLR_physical (trk armed))
  /\ (g_TimeLastInputPhysical (trk ex_engine0) = 0
      /\ g_TimeLastInputPhysical (trk s2) = 500
      /\ g_modifiersLR_logical (trk s2) = g_modifiersLR_logical (trk ex_engine0)).
Proof. vm_compute. repeat split. Qed.
(* ================================================================== *)
(** ** The alt-tab heuristic, seen from outside the hook *)
(* ================================================================== *)





